(** * Dxgkrnl host-communication layer: shallow embedding and properties

    The development follows the driver sources under [drivers/hv/dxgkrnl]:
    - [misc.c]       : the wide-string helper [wcsncpy];
    - [dxgvmbus.c]   : status translation, the VM bus channel (pending
                       request list, completion path), the synchronous and
                       asynchronous senders, and the batch allocation create;
    - [dxgadapter.c] : the adapter / device / context / resource /
                       allocation object graph with its reference counts.

    C integers are integers of [Z] with the wrap-around of their width
    written out; C arrays are lists; intrusive lists are lists of records;
    calls into the host, the handle manager and the memory allocator are
    recorded in an event trace, and their results are read from an explicit
    environment. *)

From Stdlib Require Import ZArith Lia Bool String.
From stdpp Require Import base list gmap strings.

Open Scope Z_scope.

(** ** Machine integers *)

Definition wrap_int (x : Z) : Z := (x + 2 ^ 31) mod 2 ^ 32 - 2 ^ 31.
Definition to_u32 (x : Z) : Z := x mod 2 ^ 32.
Definition to_u64 (x : Z) : Z := x mod 2 ^ 64.
Definition wrap_s64 (x : Z) : Z := (x + 2 ^ 63) mod 2 ^ 64 - 2 ^ 63.
(** [size_t] is 64 bits wide on the targets of this driver. *)
Definition to_size_t (x : Z) : Z := to_u64 x.

(** Linux error numbers used by the driver (uapi/asm-generic/errno*.h). *)
Definition EPERM : Z := 1.
Definition ENOENT : Z := 2.
Definition EBADF : Z := 9.
Definition EAGAIN : Z := 11.
Definition ENOMEM : Z := 12.
Definition EACCES : Z := 13.
Definition EEXIST : Z := 17.
Definition ENODEV : Z := 19.
Definition EINVAL : Z := 22.
Definition EOVERFLOW : Z := 75.
Definition EPROTOTYPE : Z := 91.
Definition EOPNOTSUPP : Z := 95.
Definition EINPROGRESS : Z := 115.

(** Result of running a piece of C code whose memory accesses can leave
    their object: [Fault] is an access outside the array, [OutOfFuel] is the
    loop model running out of iterations (shown unreachable below). *)
Inductive outcome (A : Type) : Type :=
| Done (a : A)
| Fault
| OutOfFuel.
Arguments Done {A} a.
Arguments Fault {A}.
Arguments OutOfFuel {A}.

(** ** misc.c *)
Module Misc.

(** [a[i]] as an rvalue, [a[i] = v] as a store; both fault outside [a]. *)
Definition arr_get (a : list Z) (i : Z) : option Z :=
  if i <? 0 then None else a !! Z.to_nat i.

Definition arr_set (a : list Z) (i : Z) (v : Z) : option (list Z) :=
  if (0 <=? i) && (i <? Z.of_nat (length a))
  then Some (<[Z.to_nat i := v]> a)
  else None.

(** The [for] loop of [wcsncpy]: [i] is an [int], [n] a [size_t], so the
    test [i < n] converts [i] to [size_t]. The loop returns the value of [i]
    on exit together with the destination. *)
Fixpoint wcsncpy_loop (fuel : nat) (src : list Z) (n : Z) (i : Z)
    (dest : list Z) : outcome (Z * list Z) :=
  match fuel with
  | O => OutOfFuel
  | S fuel' =>
    if to_size_t i <? n then
      match arr_get src i with
      | None => Fault
      | Some c =>
        match arr_set dest i c with
        | None => Fault
        | Some dest' =>
          if c =? 0 then Done (wrap_int (i + 1), dest')
          else wcsncpy_loop fuel' src n (wrap_int (i + 1)) dest'
        end
      end
    else Done (i, dest)
  end.

Definition wcsncpy (dest src : list Z) (n : Z) : outcome (list Z) :=
  match wcsncpy_loop (S (S (length src))) src n 0 dest with
  | Done (i, dest') =>
    match arr_set dest' (wrap_int (i - 1)) 0 with
    | Some d => Done d
    | None => Fault
    end
  | Fault => Fault
  | OutOfFuel => OutOfFuel
  end.

(** Index of the first null of a wide string, if it has one. *)
Fixpoint find_null (s : list Z) : option nat :=
  match s with
  | [] => None
  | c :: s' => if c =? 0 then Some O else S <$> find_null s'
  end.

(** The destination after the first [i] elements were copied. *)
Definition copied (dest src : list Z) (i : nat) : list Z :=
  take i src ++ drop i dest.


End Misc.

(** ** dxgvmbus.c: status translation *)
Module Status.

(** The NTSTATUS constants named by the [switch] of [ntstatus2int]. They
    are defined in the driver's uapi header, which is not among the sources
    at hand, so the translation takes them as a parameter. *)
Record ntstatus_codes : Type := {
  STATUS_OBJECT_NAME_COLLISION : Z;
  STATUS_NO_MEMORY : Z;
  STATUS_INVALID_PARAMETER : Z;
  STATUS_OBJECT_NAME_INVALID : Z;
  STATUS_OBJECT_NAME_NOT_FOUND : Z;
  STATUS_TIMEOUT : Z;
  STATUS_BUFFER_TOO_SMALL : Z;
  STATUS_DEVICE_REMOVED : Z;
  STATUS_ACCESS_DENIED : Z;
  STATUS_NOT_SUPPORTED : Z;
  STATUS_ILLEGAL_INSTRUCTION : Z;
  STATUS_INVALID_HANDLE : Z;
  STATUS_GRAPHICS_ALLOCATION_BUSY : Z;
  STATUS_OBJECT_TYPE_MISMATCH : Z;
  STATUS_NOT_IMPLEMENTED : Z
}.

(** Modelled from the spec: the macro [NT_SUCCESS] of the absent header.
    The spec calls a host status a failure when it is negative and has the
    translation return non-negative statuses unchanged. *)
Definition NT_SUCCESS (v : Z) : bool := 0 <=? v.

(** A C [switch] whose cases all return: the first label equal to the
    scrutinee selects the result, [default] otherwise. *)
Fixpoint switch (cases : list (Z * Z)) (default : Z) (v : Z) : Z :=
  match cases with
  | [] => default
  | (label, result) :: cases' =>
      if v =? label then result else switch cases' default v
  end.

(** The case labels of [ntstatus2int] in source order, each with the value
    its case returns. *)
Definition ntstatus_cases (c : ntstatus_codes) : list (Z * Z) :=
  [ (STATUS_OBJECT_NAME_COLLISION c, - EEXIST);
    (STATUS_NO_MEMORY c, - ENOMEM);
    (STATUS_INVALID_PARAMETER c, - EINVAL);
    (STATUS_OBJECT_NAME_INVALID c, - ENOENT);
    (STATUS_OBJECT_NAME_NOT_FOUND c, - ENOENT);
    (STATUS_TIMEOUT c, - EAGAIN);
    (STATUS_BUFFER_TOO_SMALL c, - EOVERFLOW);
    (STATUS_DEVICE_REMOVED c, - ENODEV);
    (STATUS_ACCESS_DENIED c, - EACCES);
    (STATUS_NOT_SUPPORTED c, - EPERM);
    (STATUS_ILLEGAL_INSTRUCTION c, - EOPNOTSUPP);
    (STATUS_INVALID_HANDLE c, - EBADF);
    (STATUS_GRAPHICS_ALLOCATION_BUSY c, - EINPROGRESS);
    (STATUS_OBJECT_TYPE_MISMATCH c, - EPROTOTYPE);
    (STATUS_NOT_IMPLEMENTED c, - EPERM) ].

(** [int ntstatus2int(struct ntstatus status)], on [status.v]. *)
Definition ntstatus2int (c : ntstatus_codes) (v : Z) : Z :=
  if NT_SUCCESS v then v
  else switch (ntstatus_cases c) (- EINVAL) v.

(** A parameter is well formed when no two labels coincide: C rejects
    duplicate case labels. *)
Definition codes_wf (c : ntstatus_codes) : Prop :=
  NoDup (ntstatus_cases c).*1.

(** The translation table as the specification words it: the host statuses
    it names and the local error kinds it maps them to. *)
Inductive host_status : Type :=
| name_collision | no_memory | invalid_parameter | name_invalid
| name_not_found | timeout | buffer_too_small | device_removed
| access_denied | not_supported | not_implemented | illegal_instruction
| invalid_handle | allocation_busy | type_mismatch.

Inductive error_kind : Type :=
| AlreadyExists | OutOfMemory | InvalidArgument | NotFound | WouldBlock
| Overflow | NoSuchDevice | PermissionDenied | Unsupported | NotSupported
| BadHandle | InProgress | TypeMismatch.

Definition spec_table (s : host_status) : error_kind :=
  match s with
  | name_collision => AlreadyExists
  | no_memory => OutOfMemory
  | invalid_parameter => InvalidArgument
  | name_invalid | name_not_found => NotFound
  | timeout => WouldBlock
  | buffer_too_small => Overflow
  | device_removed => NoSuchDevice
  | access_denied => PermissionDenied
  | not_supported | not_implemented => Unsupported
  | illegal_instruction => NotSupported
  | invalid_handle => BadHandle
  | allocation_busy => InProgress
  | type_mismatch => TypeMismatch
  end.

(** The NTSTATUS constant that stands for a host status. *)
Definition status_code (c : ntstatus_codes) (s : host_status) : Z :=
  match s with
  | name_collision => STATUS_OBJECT_NAME_COLLISION c
  | no_memory => STATUS_NO_MEMORY c
  | invalid_parameter => STATUS_INVALID_PARAMETER c
  | name_invalid => STATUS_OBJECT_NAME_INVALID c
  | name_not_found => STATUS_OBJECT_NAME_NOT_FOUND c
  | timeout => STATUS_TIMEOUT c
  | buffer_too_small => STATUS_BUFFER_TOO_SMALL c
  | device_removed => STATUS_DEVICE_REMOVED c
  | access_denied => STATUS_ACCESS_DENIED c
  | not_supported => STATUS_NOT_SUPPORTED c
  | not_implemented => STATUS_NOT_IMPLEMENTED c
  | illegal_instruction => STATUS_ILLEGAL_INSTRUCTION c
  | invalid_handle => STATUS_INVALID_HANDLE c
  | allocation_busy => STATUS_GRAPHICS_ALLOCATION_BUSY c
  | type_mismatch => STATUS_OBJECT_TYPE_MISMATCH c
  end.

(** The error number by which the driver reports a local error kind. *)
Definition errno_of_kind (k : error_kind) : Z :=
  match k with
  | AlreadyExists => EEXIST
  | OutOfMemory => ENOMEM
  | InvalidArgument => EINVAL
  | NotFound => ENOENT
  | WouldBlock => EAGAIN
  | Overflow => EOVERFLOW
  | NoSuchDevice => ENODEV
  | PermissionDenied => EACCES
  | Unsupported => EPERM
  | NotSupported => EOPNOTSUPP
  | BadHandle => EBADF
  | InProgress => EINPROGRESS
  | TypeMismatch => EPROTOTYPE
  end.

(** The values the constants have in the NTSTATUS definition of Windows,
    as 32-bit signed integers. All are error statuses, with the two high
    bits set, but [STATUS_TIMEOUT], which is [0x00000102]. *)
Definition nt (hex : Z) : Z := hex - 2 ^ 32.
Definition windows_codes : ntstatus_codes := {|
  STATUS_OBJECT_NAME_COLLISION := nt 0xC0000035;
  STATUS_NO_MEMORY := nt 0xC0000017;
  STATUS_INVALID_PARAMETER := nt 0xC000000D;
  STATUS_OBJECT_NAME_INVALID := nt 0xC0000033;
  STATUS_OBJECT_NAME_NOT_FOUND := nt 0xC0000034;
  STATUS_TIMEOUT := 0x00000102;
  STATUS_BUFFER_TOO_SMALL := nt 0xC0000023;
  STATUS_DEVICE_REMOVED := nt 0xC00002B6;
  STATUS_ACCESS_DENIED := nt 0xC0000022;
  STATUS_NOT_SUPPORTED := nt 0xC00000BB;
  STATUS_ILLEGAL_INSTRUCTION := nt 0xC000001D;
  STATUS_INVALID_HANDLE := nt 0xC0000008;
  STATUS_GRAPHICS_ALLOCATION_BUSY := nt 0xC01E0102;
  STATUS_OBJECT_TYPE_MISMATCH := nt 0xC0000024;
  STATUS_NOT_IMPLEMENTED := nt 0xC0000002
|}.

End Status.

(** ** dxgvmbus.c: the VM bus channel *)
Module Vmbus.

(** What the channel code does to the outside: packets handed to
    [vmbus_sendpacket], sleeps, completions signalled to a waiting sender,
    and [pr_err] messages. *)
Inductive vmbus_event : Type :=
| EvSendPacket (size : Z) (requestid : Z) (completion_requested : bool)
| EvSleep (min_us max_us : Z)
| EvComplete (requestid : Z)
| EvErr (msg : string).

Inductive vmbus_packet_type : Type :=
| VM_PKT_DATA_INBAND
| VM_PKT_COMP
| VM_PKT_OTHER.

(** An incoming packet: [pkt_data] is the payload [hv_pkt_data] points to
    and [hv_pkt_datalen] is its length. *)
Record vmpacket_descriptor : Type := {
  pkt_type : vmbus_packet_type;
  trans_id : Z;
  pkt_data : list Z
}.

Definition hv_pkt_datalen (desc : vmpacket_descriptor) : Z :=
  Z.of_nat (length (pkt_data desc)).

(** [struct dxgvmbuspacket]. [buffer] is the memory at the caller's result
    pointer: its first [buffer_length] bytes are the result buffer, whatever
    follows is memory next to it. [completed] is the state of [wait]. *)
Record dxgvmbuspacket : Type := {
  request_id : Z;
  buffer : list Z;
  buffer_length : Z;
  status : Z;
  completed : bool
}.

(** [struct dxgvmbuschannel]: the pending list in list order, the request
    id counter, whether [adapter] is set, and the events so far. *)
Record dxgvmbuschannel : Type := {
  packet_list : list dxgvmbuspacket;
  packet_request_id : Z;
  adapter : bool;
  events : list vmbus_event
}.

Definition set_packet_list (ch : dxgvmbuschannel) (l : list dxgvmbuspacket) :=
  {| packet_list := l; packet_request_id := packet_request_id ch;
     adapter := adapter ch; events := events ch |}.

Definition add_event (ch : dxgvmbuschannel) (e : vmbus_event) :=
  {| packet_list := packet_list ch; packet_request_id := packet_request_id ch;
     adapter := adapter ch; events := events ch ++ [e] |}.

Definition set_status (p : dxgvmbuspacket) (st : Z) :=
  {| request_id := request_id p; buffer := buffer p;
     buffer_length := buffer_length p; status := st; completed := completed p |}.

Definition set_buffer (p : dxgvmbuspacket) (b : list Z) :=
  {| request_id := request_id p; buffer := b;
     buffer_length := buffer_length p; status := status p;
     completed := completed p |}.

(** [complete(&packet->wait)] *)
Definition complete (p : dxgvmbuspacket) :=
  {| request_id := request_id p; buffer := buffer p;
     buffer_length := buffer_length p; status := status p; completed := true |}.

(** [dxgvmbuschannel_init], on the fields modelled here. *)
Definition dxgvmbuschannel_init (has_adapter : bool) : dxgvmbuschannel :=
  {| packet_list := []; packet_request_id := 0; adapter := has_adapter;
     events := [] |}.

(** [memcpy(dst, src, n)]: the first [n] bytes of [dst] are replaced. *)
Definition memcpy (dst src : list Z) (n : Z) : list Z :=
  take (Z.to_nat n) src ++ drop (Z.to_nat n) dst.

(** The search loop of [process_completion_packet]: the first entry whose
    [request_id] equals the transaction id is unlinked and returned. *)
Fixpoint take_request (trans : Z) (l : list dxgvmbuspacket)
    : option dxgvmbuspacket * list dxgvmbuspacket :=
  match l with
  | [] => (None, [])
  | entry :: rest =>
      if trans =? request_id entry then (Some entry, rest)
      else
        let '(found, rest') := take_request trans rest in
        (found, entry :: rest')
  end.

(** [process_completion_packet]. Returns the channel and, when a pending
    request matched, that request as its waiter sees it afterwards. *)
Definition process_completion_packet (channel : dxgvmbuschannel)
    (desc : vmpacket_descriptor) : dxgvmbuschannel * option dxgvmbuspacket :=
  let packet_length := hv_pkt_datalen desc in
  let '(found, rest) := take_request (trans_id desc) (packet_list channel) in
  match found with
  | Some packet =>
      let packet :=
        if buffer_length packet =? 0 then packet
        else if packet_length <? buffer_length packet
             then set_status packet (- EOVERFLOW)
             else set_buffer packet
                    (memcpy (buffer packet) (pkt_data desc)
                            (buffer_length packet)) in
      (add_event (set_packet_list channel rest)
                 (EvComplete (request_id packet)),
       Some (complete packet))
  | None =>
      (add_event channel (EvErr "did not find packet to complete"), None)
  end.

Section Sized.

(** [DXG_MAX_VM_BUS_PACKET_SIZE] and [sizeof(struct
    dxgkvmb_command_host_to_vm)] come from the absent [dxgvmbus.h]. *)
Variable DXG_MAX_VM_BUS_PACKET_SIZE : Z.
Variable sizeof_command_host_to_vm : Z.

Definition process_inband_packet (channel : dxgvmbuschannel)
    (desc : vmpacket_descriptor) : dxgvmbuschannel :=
  let packet_length := hv_pkt_datalen desc in
  if negb (adapter channel) then
    if packet_length <? sizeof_command_host_to_vm
    then add_event channel (EvErr "Invalid global packet")
    else channel
  else add_event channel (EvErr "Unexpected packet for adapter channel").

(** [dxgvmbuschannel_receive] over the packets the ring holds; the second
    component lists the requests completed, in order. *)
Fixpoint dxgvmbuschannel_receive (channel : dxgvmbuschannel)
    (ring : list vmpacket_descriptor)
    : dxgvmbuschannel * list dxgvmbuspacket :=
  match ring with
  | [] => (channel, [])
  | desc :: ring' =>
      let '(channel, done1) :=
        match pkt_type desc with
        | VM_PKT_COMP =>
            let '(channel, found) := process_completion_packet channel desc in
            (channel, option_list found)
        | VM_PKT_DATA_INBAND => (process_inband_packet channel desc, [])
        | VM_PKT_OTHER =>
            (add_event channel (EvErr "unexpected packet type"), [])
        end in
      let '(channel, done2) := dxgvmbuschannel_receive channel ring' in
      (channel, done1 ++ done2)
  end.

(** What the environment answers during one [dxgvmb_send_sync_msg]. *)
Record sync_env : Type := {
  kmem_cache_alloc_ok : bool;
  vmbus_sendpacket_ret : Z
}.

Inductive sync_sent : Type :=
| SyncFailed (ret : Z)
| SyncWaiting (requestid : Z).

(** [dxgvmb_send_sync_msg] up to [wait_for_completion]: either the call
    has failed with [ret], or the caller now waits on the request. *)
Definition dxgvmb_send_sync_msg_begin (env : sync_env)
    (channel : dxgvmbuschannel) (cmd_size : Z) (result : list Z)
    (result_size : Z) : dxgvmbuschannel * sync_sent :=
  if (cmd_size >? DXG_MAX_VM_BUS_PACKET_SIZE)
     || (result_size >? DXG_MAX_VM_BUS_PACKET_SIZE)
  then (add_event channel (EvErr "invalid data size"), SyncFailed (- EINVAL))
  else if negb (kmem_cache_alloc_ok env)
  then (add_event channel (EvErr "kmem_cache_alloc failed"),
        SyncFailed (- ENOMEM))
  else
    let counter := wrap_s64 (packet_request_id channel + 1) in
    let packet :=
      {| request_id := to_u64 counter; buffer := result;
         buffer_length := result_size; status := 0; completed := false |} in
    let pending := packet_list channel in
    let channel :=
      {| packet_list := pending ++ [packet]; packet_request_id := counter;
         adapter := adapter channel;
         events := events channel
                   ++ [EvSendPacket cmd_size (request_id packet) true] |} in
    let ret := vmbus_sendpacket_ret env in
    if ret =? 0 then (channel, SyncWaiting (request_id packet))
    else
      (add_event (set_packet_list channel pending)
                 (EvErr "vmbus_sendpacket failed"),
       SyncFailed ret).

(** The rest of [dxgvmb_send_sync_msg], once the wait has returned. *)
Definition dxgvmb_send_sync_msg_end (packet : dxgvmbuspacket) : Z :=
  status packet.

(** The [do ... while] loop of [dxgvmb_send_async_msg]. [vmbus_sendpacket]
    gives the result of each call by its position in the sequence of calls;
    [try_count] is an [int]. *)
Fixpoint send_async_loop (fuel : nat) (vmbus_sendpacket : nat -> Z)
    (cmd_size : Z) (calls : nat) (try_count : Z) (evs : list vmbus_event)
    : outcome (Z * list vmbus_event) :=
  match fuel with
  | O => OutOfFuel
  | S fuel' =>
      let ret := vmbus_sendpacket calls in
      let evs := evs ++ [EvSendPacket cmd_size 0 false] in
      let '(try_count, evs) :=
        if ret =? - EAGAIN
        then (wrap_int (try_count + 1), evs ++ [EvSleep 1000 2000])
        else (try_count, evs) in
      if (ret =? - EAGAIN) && (try_count <? 5000)
      then send_async_loop fuel' vmbus_sendpacket cmd_size (S calls)
             try_count evs
      else Done (ret, evs)
  end.

Definition dxgvmb_send_async_msg (vmbus_sendpacket : nat -> Z)
    (channel : dxgvmbuschannel) (cmd_size : Z)
    : outcome (Z * dxgvmbuschannel) :=
  if cmd_size >? DXG_MAX_VM_BUS_PACKET_SIZE
  then Done (- EINVAL, add_event channel (EvErr "invalid data size"))
  else if adapter channel
  then Done (- EINVAL,
             add_event channel
               (EvErr "Async messages should be sent to the global channel"))
  else
    match send_async_loop 5000 vmbus_sendpacket cmd_size 0 0
            (events channel) with
    | Done (ret, evs) =>
        let evs :=
          if ret <? 0 then evs ++ [EvErr "vmbus_sendpacket failed"] else evs in
        Done (ret,
              {| packet_list := packet_list channel;
                 packet_request_id := packet_request_id channel;
                 adapter := adapter channel; events := evs |})
    | Fault => Fault
    | OutOfFuel => OutOfFuel
    end.

(** One more call of the channel's users or of its receive path. *)
Inductive channel_op : Type :=
| OpSendSync (env : sync_env) (cmd_size : Z) (result : list Z)
    (result_size : Z)
| OpReceive (ring : list vmpacket_descriptor).

Definition channel_step (channel : dxgvmbuschannel) (op : channel_op)
    : dxgvmbuschannel :=
  match op with
  | OpSendSync env cmd_size result result_size =>
      (dxgvmb_send_sync_msg_begin env channel cmd_size result result_size).1
  | OpReceive ring => (dxgvmbuschannel_receive channel ring).1
  end.

Definition channel_run (ops : list channel_op) (channel : dxgvmbuschannel)
    : dxgvmbuschannel :=
  foldl channel_step channel ops.

End Sized.

(** The events of [k] rejected attempts of the asynchronous sender. *)
Fixpoint retry_events (cmd_size : Z) (k : nat) : list vmbus_event :=
  match k with
  | O => []
  | S k' =>
      EvSendPacket cmd_size 0 false :: EvSleep 1000 2000
        :: retry_events cmd_size k'
  end.

Definition is_send (e : vmbus_event) : bool :=
  match e with EvSendPacket _ _ _ => true | _ => false end.

Definition is_sleep (e : vmbus_event) : bool :=
  match e with EvSleep _ _ => true | _ => false end.

(** The request ids of the pending requests, in list order. *)
Definition pending_ids (ch : dxgvmbuschannel) : list Z :=
  request_id <$> packet_list ch.

(** State of a channel on which [k] request ids were handed out: the
    counter stands at [k], the pending ids are distinct and among the ids
    handed out. *)
Definition channel_inv (ch : dxgvmbuschannel) (k : Z) : Prop :=
  0 <= k < 2 ^ 64 /\
  to_u64 (packet_request_id ch) = k /\
  NoDup (pending_ids ch) /\
  Forall (fun id => 1 <= id <= k) (pending_ids ch).

(** A pending request with a two-byte result buffer followed by two bytes
    of neighbouring memory, a channel holding only it, and three replies
    to it: one longer than the buffer, one shorter, one of its size. *)
Definition small_request : dxgvmbuspacket :=
  {| request_id := 1; buffer := [0; 0; 9; 9]; buffer_length := 2;
     status := 0; completed := false |}.
Definition one_pending : dxgvmbuschannel :=
  {| packet_list := [small_request]; packet_request_id := 1;
     adapter := true; events := [] |}.
Definition long_reply : vmpacket_descriptor :=
  {| pkt_type := VM_PKT_COMP; trans_id := 1; pkt_data := [1; 2; 3; 4] |}.
Definition short_reply : vmpacket_descriptor :=
  {| pkt_type := VM_PKT_COMP; trans_id := 1; pkt_data := [1] |}.

(** Three senders and the replies to the third and the first of them. *)
Definition send_ok : sync_env :=
  {| kmem_cache_alloc_ok := true; vmbus_sendpacket_ret := 0 |}.
Definition reply_to (id : Z) (data : list Z) : vmpacket_descriptor :=
  {| pkt_type := VM_PKT_COMP; trans_id := id; pkt_data := data |}.
Definition three_sends : list channel_op :=
  [ OpSendSync send_ok 16 [0; 0] 2; OpSendSync send_ok 16 [0; 0] 2;
    OpSendSync send_ok 16 [0; 0] 2 ].

(** A transport whose ring never drains, and one that drains after two
    rejected attempts. *)
Definition ring_full : nat -> Z := fun _ => - EAGAIN.
Definition ring_drains : nat -> Z :=
  fun k => if (k <? 2)%nat then - EAGAIN else 0.

(** The packets that [dxgvmbuschannel_receive] hands to
    [process_completion_packet]. *)
Definition is_completion (desc : vmpacket_descriptor) : bool :=
  match pkt_type desc with
  | VM_PKT_COMP => true
  | _ => false
  end.

End Vmbus.

(** ** dxgadapter.c: the object graph *)
Module Graph.

(** Objects live in heaps indexed by their address; a pointer is an index
    (an [option] where the C pointer may be null). A freed object stays in
    its heap with [freed] set, so that a later use can be told apart. *)
Inductive object : Type :=
| ObjAdapter (a : nat)
| ObjDevice (d : nat)
| ObjContext (c : nat)
| ObjAllocation (al : nat)
| ObjResource (r : nat)
| ObjSharedResource (s : nat)
| ObjSyncObject (s : nat)
| ObjPagingQueue (q : nat)
| ObjHwQueue (q : nat).

Inductive lock : Type :=
| core_lock (a : nat)
| shared_resource_list_lock (a : nat)
| device_lock (d : nat)
| context_list_lock (d : nat)
| alloc_list_lock (d : nat)
| device_list_mutex (pa : nat)
| process_adapter_mutex
| handle_table_lock (p : nat).

Inductive lock_op : Type :=
| down_write | up_write | down_read | up_read | mutex_lock | mutex_unlock.

Inductive hmgrentry_type : Type :=
| HMGRENTRY_TYPE_DXGDEVICE
| HMGRENTRY_TYPE_DXGCONTEXT
| HMGRENTRY_TYPE_DXGALLOCATION
| HMGRENTRY_TYPE_DXGRESOURCE.

(** The commands the modelled code sends to the host, with the fields it
    fills in. A call of a [dxgvmb_send_*] function is recorded as the one
    command it sends. *)
Inductive host_command : Type :=
| DXGK_VMBCOMMAND_CLOSEADAPTER (adapter : nat)
| DXGK_VMBCOMMAND_DESTROYDEVICE (device : Z)
| DXGK_VMBCOMMAND_DESTROYALLOCATION (device resource : Z) (alloc_count : Z)
    (allocations : list Z) (assume_not_in_use : bool)
| DXGK_VMBCOMMAND_SETEXISTINGSYSMEMSTORE (device allocation gpadl : Z)
| DXGK_VMBCOMMAND_CREATEALLOCATION (device resource : Z) (alloc_count : Z)
    (cmd_size result_size : Z).

Inductive event : Type :=
| EvLock (op : lock_op) (l : lock)
| EvHmgrFree (p : nat) (t : hmgrentry_type) (h : Z)
| EvRpc (cmd : host_command)
| EvKrefGet (o : object)
| EvKrefPut (o : object)
| EvFree (o : object)
| EvReleasePages (al : nat)
| EvUnmapIospace (al : nat)
| EvTeardownGpadl (gpadl : Z)
| EvCacheDestroy (a : nat)
| EvVmbusClose (a : nat)
| EvPlaceholder (o : object)
| EvErr (msg : string)
| EvFault.

(** Modelled from the spec: the lifecycle enumerations of the absent
    header. The spec gives adapters the states CREATED, ACTIVE, STOPPED and
    devices, resources and contexts the states CREATED, ACTIVE, DESTROYED;
    the sources name the last two of each. *)
Inductive dxgadapter_state : Type :=
| DXGADAPTER_STATE_CREATED
| DXGADAPTER_STATE_ACTIVE
| DXGADAPTER_STATE_STOPPED.

Inductive dxgobjectstate : Type :=
| DXGOBJECTSTATE_CREATED
| DXGOBJECTSTATE_ACTIVE
| DXGOBJECTSTATE_DESTROYED.

Definition adapter_state_is_active (s : dxgadapter_state) : bool :=
  match s with DXGADAPTER_STATE_ACTIVE => true | _ => false end.

Definition object_state_is_active (s : dxgobjectstate) : bool :=
  match s with DXGOBJECTSTATE_ACTIVE => true | _ => false end.

Global Instance object_eq_dec : EqDecision object.
Proof. solve_decision. Defined.
Global Instance lock_eq_dec : EqDecision lock.
Proof. solve_decision. Defined.
Global Instance lock_op_eq_dec : EqDecision lock_op.
Proof. solve_decision. Defined.
Global Instance hmgrentry_type_eq_dec : EqDecision hmgrentry_type.
Proof. solve_decision. Defined.
Global Instance host_command_eq_dec : EqDecision host_command.
Proof. solve_decision. Defined.
Global Instance event_eq_dec : EqDecision event.
Proof. solve_decision. Defined.

(** [struct dxgadapter]; [channel_open] and [packet_cache] stand for
    [channel.channel] and [channel.packet_cache] being non-null. *)
Record dxgadapter : Type := {
  adapter_state : dxgadapter_state;
  stopping_adapter : bool;
  adapter_kref : Z;
  adapter_freed : bool;
  adapter_process_list : list nat;
  channel_open : bool;
  packet_cache : bool
}.

Record dxgprocess_adapter : Type := {
  pa_adapter : nat;
  pa_process : nat;
  pa_refcount : Z;
  device_list : list nat
}.

(** [struct dxgprocess], with its handle table as a finite map from
    handles to the type and address of the object registered. *)
Record dxgprocess : Type := {
  handle_table : gmap Z (hmgrentry_type * nat);
  process_adapter_list : list nat;
  process_host_handle : Z
}.

(** [struct dxgdevice]; [dev_linked] stands for [device_list_entry.next]
    being non-null. *)
Record dxgdevice : Type := {
  device_kref : Z;
  device_freed : bool;
  dev_adapter : option nat;
  dev_process : nat;
  dev_adapter_info : option nat;
  dev_object_state : dxgobjectstate;
  dev_handle : Z;
  dev_handle_valid : bool;
  dev_linked : bool;
  context_list : list nat;
  alloc_list : list nat;
  resource_list : list nat;
  pqueue_list : list nat;
  syncobj_list : list nat
}.

Record dxgcontext : Type := {
  context_kref : Z;
  context_freed : bool;
  ctx_device : option nat;
  ctx_process : nat;
  ctx_device_handle : Z;
  ctx_handle : Z;
  ctx_object_state : dxgobjectstate;
  ctx_linked : bool;
  hwqueue_list : list nat
}.

(** [struct dxgallocation]; [owner] is the union of the owning device and
    the owning resource, told apart by [resource_owner]. *)
Record dxgallocation : Type := {
  alloc_freed : bool;
  alloc_process : nat;
  alloc_handle : Z;
  alloc_handle_valid : bool;
  resource_owner : bool;
  owner : option nat;
  alloc_linked : bool;
  pages : bool;
  num_pages : Z;
  cached : bool;
  cpu_address_mapped : bool;
  cpu_address_refcount : Z;
  gpadl_handle : Z;
  priv_drv_data : bool
}.

Record dxgresource : Type := {
  resource_kref : Z;
  resource_freed : bool;
  res_device : nat;
  res_process : nat;
  res_object_state : dxgobjectstate;
  res_handle : Z;
  res_handle_valid : bool;
  res_destroyed : bool;
  res_linked : bool;
  res_alloc_list : list nat;
  shared_owner : option nat;
  res_shared_linked : bool
}.

Record dxgsharedresource : Type := {
  sresource_kref : Z;
  sresource_freed : bool;
  sres_adapter : nat;
  sres_resource_list : list nat
}.

Record world : Type := {
  adapters : gmap nat dxgadapter;
  pinfos : gmap nat dxgprocess_adapter;
  processes : gmap nat dxgprocess;
  devices : gmap nat dxgdevice;
  contexts : gmap nat dxgcontext;
  allocations : gmap nat dxgallocation;
  resources : gmap nat dxgresource;
  sresources : gmap nat dxgsharedresource;
  trace : list event
}.

(** *** Updating the world *)

Definition add_event (e : event) (w : world) : world :=
  {| adapters := adapters w; pinfos := pinfos w; processes := processes w;
     devices := devices w; contexts := contexts w;
     allocations := allocations w; resources := resources w;
     sresources := sresources w; trace := trace w ++ [e] |}.

Definition add_events (es : list event) (w : world) : world :=
  foldl (fun w e => add_event e w) w es.

(** A null or dangling pointer was dereferenced. *)
Definition fault (w : world) : world := add_event EvFault w.

Definition upd_adapter (a : nat) (f : dxgadapter -> dxgadapter) (w : world) :=
  {| adapters := alter f a (adapters w); pinfos := pinfos w;
     processes := processes w; devices := devices w; contexts := contexts w;
     allocations := allocations w; resources := resources w;
     sresources := sresources w; trace := trace w |}.

Definition upd_pinfo (pa : nat)
    (f : dxgprocess_adapter -> dxgprocess_adapter) (w : world) :=
  {| adapters := adapters w; pinfos := alter f pa (pinfos w);
     processes := processes w; devices := devices w; contexts := contexts w;
     allocations := allocations w; resources := resources w;
     sresources := sresources w; trace := trace w |}.

Definition upd_process (p : nat) (f : dxgprocess -> dxgprocess) (w : world) :=
  {| adapters := adapters w; pinfos := pinfos w;
     processes := alter f p (processes w); devices := devices w;
     contexts := contexts w; allocations := allocations w;
     resources := resources w; sresources := sresources w;
     trace := trace w |}.

Definition upd_device (d : nat) (f : dxgdevice -> dxgdevice) (w : world) :=
  {| adapters := adapters w; pinfos := pinfos w; processes := processes w;
     devices := alter f d (devices w); contexts := contexts w;
     allocations := allocations w; resources := resources w;
     sresources := sresources w; trace := trace w |}.

Definition upd_context (c : nat) (f : dxgcontext -> dxgcontext) (w : world) :=
  {| adapters := adapters w; pinfos := pinfos w; processes := processes w;
     devices := devices w; contexts := alter f c (contexts w);
     allocations := allocations w; resources := resources w;
     sresources := sresources w; trace := trace w |}.

Definition upd_allocation (al : nat) (f : dxgallocation -> dxgallocation)
    (w : world) :=
  {| adapters := adapters w; pinfos := pinfos w; processes := processes w;
     devices := devices w; contexts := contexts w;
     allocations := alter f al (allocations w); resources := resources w;
     sresources := sresources w; trace := trace w |}.

Definition upd_resource (r : nat) (f : dxgresource -> dxgresource)
    (w : world) :=
  {| adapters := adapters w; pinfos := pinfos w; processes := processes w;
     devices := devices w; contexts := contexts w;
     allocations := allocations w; resources := alter f r (resources w);
     sresources := sresources w; trace := trace w |}.

Definition upd_sresource (s : nat)
    (f : dxgsharedresource -> dxgsharedresource) (w : world) :=
  {| adapters := adapters w; pinfos := pinfos w; processes := processes w;
     devices := devices w; contexts := contexts w;
     allocations := allocations w; resources := resources w;
     sresources := alter f s (sresources w); trace := trace w |}.

(** *** Field updates *)



Definition set_adapter_kref (v : Z) (x : dxgadapter) : dxgadapter :=
  {| adapter_state := adapter_state x;
     stopping_adapter := stopping_adapter x; adapter_kref := v;
     adapter_freed := adapter_freed x;
     adapter_process_list := adapter_process_list x;
     channel_open := channel_open x; packet_cache := packet_cache x |}.

Definition set_adapter_freed (v : bool) (x : dxgadapter) : dxgadapter :=
  {| adapter_state := adapter_state x;
     stopping_adapter := stopping_adapter x; adapter_kref := adapter_kref x;
     adapter_freed := v; adapter_process_list := adapter_process_list x;
     channel_open := channel_open x; packet_cache := packet_cache x |}.



Definition set_device_list (v : list nat) (x : dxgprocess_adapter) : dxgprocess_adapter :=
  {| pa_adapter := pa_adapter x; pa_process := pa_process x;
     pa_refcount := pa_refcount x; device_list := v |}.

Definition set_handle_table (v : gmap Z (hmgrentry_type * nat)) (x : dxgprocess) : dxgprocess :=
  {| handle_table := v; process_adapter_list := process_adapter_list x;
     process_host_handle := process_host_handle x |}.

Definition set_device_kref (v : Z) (x : dxgdevice) : dxgdevice :=
  {| device_kref := v; device_freed := device_freed x;
     dev_adapter := dev_adapter x; dev_process := dev_process x;
     dev_adapter_info := dev_adapter_info x;
     dev_object_state := dev_object_state x; dev_handle := dev_handle x;
     dev_handle_valid := dev_handle_valid x; dev_linked := dev_linked x;
     context_list := context_list x; alloc_list := alloc_list x;
     resource_list := resource_list x; pqueue_list := pqueue_list x;
     syncobj_list := syncobj_list x |}.

Definition set_device_freed (v : bool) (x : dxgdevice) : dxgdevice :=
  {| device_kref := device_kref x; device_freed := v;
     dev_adapter := dev_adapter x; dev_process := dev_process x;
     dev_adapter_info := dev_adapter_info x;
     dev_object_state := dev_object_state x; dev_handle := dev_handle x;
     dev_handle_valid := dev_handle_valid x; dev_linked := dev_linked x;
     context_list := context_list x; alloc_list := alloc_list x;
     resource_list := resource_list x; pqueue_list := pqueue_list x;
     syncobj_list := syncobj_list x |}.

Definition set_dev_adapter_info (v : option nat) (x : dxgdevice) : dxgdevice :=
  {| device_kref := device_kref x; device_freed := device_freed x;
     dev_adapter := dev_adapter x; dev_process := dev_process x;
     dev_adapter_info := v; dev_object_state := dev_object_state x;
     dev_handle := dev_handle x; dev_handle_valid := dev_handle_valid x;
     dev_linked := dev_linked x; context_list := context_list x;
     alloc_list := alloc_list x; resource_list := resource_list x;
     pqueue_list := pqueue_list x; syncobj_list := syncobj_list x |}.

Definition set_dev_object_state (v : dxgobjectstate) (x : dxgdevice) : dxgdevice :=
  {| device_kref := device_kref x; device_freed := device_freed x;
     dev_adapter := dev_adapter x; dev_process := dev_process x;
     dev_adapter_info := dev_adapter_info x; dev_object_state := v;
     dev_handle := dev_handle x; dev_handle_valid := dev_handle_valid x;
     dev_linked := dev_linked x; context_list := context_list x;
     alloc_list := alloc_list x; resource_list := resource_list x;
     pqueue_list := pqueue_list x; syncobj_list := syncobj_list x |}.

Definition set_dev_handle_valid (v : bool) (x : dxgdevice) : dxgdevice :=
  {| device_kref := device_kref x; device_freed := device_freed x;
     dev_adapter := dev_adapter x; dev_process := dev_process x;
     dev_adapter_info := dev_adapter_info x;
     dev_object_state := dev_object_state x; dev_handle := dev_handle x;
     dev_handle_valid := v; dev_linked := dev_linked x;
     context_list := context_list x; alloc_list := alloc_list x;
     resource_list := resource_list x; pqueue_list := pqueue_list x;
     syncobj_list := syncobj_list x |}.

Definition set_dev_linked (v : bool) (x : dxgdevice) : dxgdevice :=
  {| device_kref := device_kref x; device_freed := device_freed x;
     dev_adapter := dev_adapter x; dev_process := dev_process x;
     dev_adapter_info := dev_adapter_info x;
     dev_object_state := dev_object_state x; dev_handle := dev_handle x;
     dev_handle_valid := dev_handle_valid x; dev_linked := v;
     context_list := context_list x; alloc_list := alloc_list x;
     resource_list := resource_list x; pqueue_list := pqueue_list x;
     syncobj_list := syncobj_list x |}.

Definition set_context_list (v : list nat) (x : dxgdevice) : dxgdevice :=
  {| device_kref := device_kref x; device_freed := device_freed x;
     dev_adapter := dev_adapter x; dev_process := dev_process x;
     dev_adapter_info := dev_adapter_info x;
     dev_object_state := dev_object_state x; dev_handle := dev_handle x;
     dev_handle_valid := dev_handle_valid x; dev_linked := dev_linked x;
     context_list := v; alloc_list := alloc_list x;
     resource_list := resource_list x; pqueue_list := pqueue_list x;
     syncobj_list := syncobj_list x |}.

Definition set_alloc_list (v : list nat) (x : dxgdevice) : dxgdevice :=
  {| device_kref := device_kref x; device_freed := device_freed x;
     dev_adapter := dev_adapter x; dev_process := dev_process x;
     dev_adapter_info := dev_adapter_info x;
     dev_object_state := dev_object_state x; dev_handle := dev_handle x;
     dev_handle_valid := dev_handle_valid x; dev_linked := dev_linked x;
     context_list := context_list x; alloc_list := v;
     resource_list := resource_list x; pqueue_list := pqueue_list x;
     syncobj_list := syncobj_list x |}.

Definition set_resource_list (v : list nat) (x : dxgdevice) : dxgdevice :=
  {| device_kref := device_kref x; device_freed := device_freed x;
     dev_adapter := dev_adapter x; dev_process := dev_process x;
     dev_adapter_info := dev_adapter_info x;
     dev_object_state := dev_object_state x; dev_handle := dev_handle x;
     dev_handle_valid := dev_handle_valid x; dev_linked := dev_linked x;
     context_list := context_list x; alloc_list := alloc_list x;
     resource_list := v; pqueue_list := pqueue_list x;
     syncobj_list := syncobj_list x |}.

Definition set_syncobj_list (v : list nat) (x : dxgdevice) : dxgdevice :=
  {| device_kref := device_kref x; device_freed := device_freed x;
     dev_adapter := dev_adapter x; dev_process := dev_process x;
     dev_adapter_info := dev_adapter_info x;
     dev_object_state := dev_object_state x; dev_handle := dev_handle x;
     dev_handle_valid := dev_handle_valid x; dev_linked := dev_linked x;
     context_list := context_list x; alloc_list := alloc_list x;
     resource_list := resource_list x; pqueue_list := pqueue_list x;
     syncobj_list := v |}.

Definition set_context_kref (v : Z) (x : dxgcontext) : dxgcontext :=
  {| context_kref := v; context_freed := context_freed x;
     ctx_device := ctx_device x; ctx_process := ctx_process x;
     ctx_device_handle := ctx_device_handle x; ctx_handle := ctx_handle x;
     ctx_object_state := ctx_object_state x; ctx_linked := ctx_linked x;
     hwqueue_list := hwqueue_list x |}.

Definition set_context_freed (v : bool) (x : dxgcontext) : dxgcontext :=
  {| context_kref := context_kref x; context_freed := v;
     ctx_device := ctx_device x; ctx_process := ctx_process x;
     ctx_device_handle := ctx_device_handle x; ctx_handle := ctx_handle x;
     ctx_object_state := ctx_object_state x; ctx_linked := ctx_linked x;
     hwqueue_list := hwqueue_list x |}.

Definition set_ctx_object_state (v : dxgobjectstate) (x : dxgcontext) : dxgcontext :=
  {| context_kref := context_kref x; context_freed := context_freed x;
     ctx_device := ctx_device x; ctx_process := ctx_process x;
     ctx_device_handle := ctx_device_handle x; ctx_handle := ctx_handle x;
     ctx_object_state := v; ctx_linked := ctx_linked x;
     hwqueue_list := hwqueue_list x |}.

Definition set_ctx_linked (v : bool) (x : dxgcontext) : dxgcontext :=
  {| context_kref := context_kref x; context_freed := context_freed x;
     ctx_device := ctx_device x; ctx_process := ctx_process x;
     ctx_device_handle := ctx_device_handle x; ctx_handle := ctx_handle x;
     ctx_object_state := ctx_object_state x; ctx_linked := v;
     hwqueue_list := hwqueue_list x |}.

Definition set_alloc_freed (v : bool) (x : dxgallocation) : dxgallocation :=
  {| alloc_freed := v; alloc_process := alloc_process x;
     alloc_handle := alloc_handle x;
     alloc_handle_valid := alloc_handle_valid x;
     resource_owner := resource_owner x; owner := owner x;
     alloc_linked := alloc_linked x; pages := pages x;
     num_pages := num_pages x; cached := cached x;
     cpu_address_mapped := cpu_address_mapped x;
     cpu_address_refcount := cpu_address_refcount x;
     gpadl_handle := gpadl_handle x; priv_drv_data := priv_drv_data x |}.

Definition set_alloc_handle (v : Z) (x : dxgallocation) : dxgallocation :=
  {| alloc_freed := alloc_freed x; alloc_process := alloc_process x;
     alloc_handle := v; alloc_handle_valid := alloc_handle_valid x;
     resource_owner := resource_owner x; owner := owner x; alloc_linked :=
     alloc_linked x; pages := pages x; num_pages := num_pages x; cached :=
     cached x; cpu_address_mapped := cpu_address_mapped x;
     cpu_address_refcount := cpu_address_refcount x; gpadl_handle :=
     gpadl_handle x; priv_drv_data := priv_drv_data x |}.

Definition set_num_pages (v : Z) (x : dxgallocation) : dxgallocation :=
  {| alloc_freed := alloc_freed x; alloc_process := alloc_process x;
     alloc_handle := alloc_handle x; alloc_handle_valid :=
     alloc_handle_valid x; resource_owner := resource_owner x; owner :=
     owner x; alloc_linked := alloc_linked x; pages := pages x; num_pages
     := v; cached := cached x; cpu_address_mapped := cpu_address_mapped x;
     cpu_address_refcount := cpu_address_refcount x; gpadl_handle :=
     gpadl_handle x; priv_drv_data := priv_drv_data x |}.

Definition set_cached (v : bool) (x : dxgallocation) : dxgallocation :=
  {| alloc_freed := alloc_freed x; alloc_process := alloc_process x;
     alloc_handle := alloc_handle x; alloc_handle_valid :=
     alloc_handle_valid x; resource_owner := resource_owner x; owner :=
     owner x; alloc_linked := alloc_linked x; pages := pages x; num_pages
     := num_pages x; cached := v; cpu_address_mapped := cpu_address_mapped
     x; cpu_address_refcount := cpu_address_refcount x; gpadl_handle :=
     gpadl_handle x; priv_drv_data := priv_drv_data x |}.

Definition set_alloc_handle_valid (v : bool) (x : dxgallocation) : dxgallocation :=
  {| alloc_freed := alloc_freed x; alloc_process := alloc_process x;
     alloc_handle := alloc_handle x; alloc_handle_valid := v;
     resource_owner := resource_owner x; owner := owner x;
     alloc_linked := alloc_linked x; pages := pages x;
     num_pages := num_pages x; cached := cached x;
     cpu_address_mapped := cpu_address_mapped x;
     cpu_address_refcount := cpu_address_refcount x;
     gpadl_handle := gpadl_handle x; priv_drv_data := priv_drv_data x |}.

Definition set_alloc_linked (v : bool) (x : dxgallocation) : dxgallocation :=
  {| alloc_freed := alloc_freed x; alloc_process := alloc_process x;
     alloc_handle := alloc_handle x;
     alloc_handle_valid := alloc_handle_valid x;
     resource_owner := resource_owner x; owner := owner x; alloc_linked := v;
     pages := pages x; num_pages := num_pages x; cached := cached x;
     cpu_address_mapped := cpu_address_mapped x;
     cpu_address_refcount := cpu_address_refcount x;
     gpadl_handle := gpadl_handle x; priv_drv_data := priv_drv_data x |}.

Definition set_pages (v : bool) (x : dxgallocation) : dxgallocation :=
  {| alloc_freed := alloc_freed x; alloc_process := alloc_process x;
     alloc_handle := alloc_handle x;
     alloc_handle_valid := alloc_handle_valid x;
     resource_owner := resource_owner x; owner := owner x;
     alloc_linked := alloc_linked x; pages := v; num_pages := num_pages x;
     cached := cached x; cpu_address_mapped := cpu_address_mapped x;
     cpu_address_refcount := cpu_address_refcount x;
     gpadl_handle := gpadl_handle x; priv_drv_data := priv_drv_data x |}.

Definition set_cpu_address_mapped (v : bool) (x : dxgallocation) : dxgallocation :=
  {| alloc_freed := alloc_freed x; alloc_process := alloc_process x;
     alloc_handle := alloc_handle x;
     alloc_handle_valid := alloc_handle_valid x;
     resource_owner := resource_owner x; owner := owner x;
     alloc_linked := alloc_linked x; pages := pages x;
     num_pages := num_pages x; cached := cached x; cpu_address_mapped := v;
     cpu_address_refcount := cpu_address_refcount x;
     gpadl_handle := gpadl_handle x; priv_drv_data := priv_drv_data x |}.

Definition set_cpu_address_refcount (v : Z) (x : dxgallocation) : dxgallocation :=
  {| alloc_freed := alloc_freed x; alloc_process := alloc_process x;
     alloc_handle := alloc_handle x;
     alloc_handle_valid := alloc_handle_valid x;
     resource_owner := resource_owner x; owner := owner x;
     alloc_linked := alloc_linked x; pages := pages x;
     num_pages := num_pages x; cached := cached x;
     cpu_address_mapped := cpu_address_mapped x; cpu_address_refcount := v;
     gpadl_handle := gpadl_handle x; priv_drv_data := priv_drv_data x |}.

Definition set_gpadl_handle (v : Z) (x : dxgallocation) : dxgallocation :=
  {| alloc_freed := alloc_freed x; alloc_process := alloc_process x;
     alloc_handle := alloc_handle x;
     alloc_handle_valid := alloc_handle_valid x;
     resource_owner := resource_owner x; owner := owner x;
     alloc_linked := alloc_linked x; pages := pages x;
     num_pages := num_pages x; cached := cached x;
     cpu_address_mapped := cpu_address_mapped x;
     cpu_address_refcount := cpu_address_refcount x; gpadl_handle := v;
     priv_drv_data := priv_drv_data x |}.

Definition set_resource_kref (v : Z) (x : dxgresource) : dxgresource :=
  {| resource_kref := v; resource_freed := resource_freed x;
     res_device := res_device x; res_process := res_process x;
     res_object_state := res_object_state x; res_handle := res_handle x;
     res_handle_valid := res_handle_valid x;
     res_destroyed := res_destroyed x; res_linked := res_linked x;
     res_alloc_list := res_alloc_list x; shared_owner := shared_owner x;
     res_shared_linked := res_shared_linked x |}.

Definition set_resource_freed (v : bool) (x : dxgresource) : dxgresource :=
  {| resource_kref := resource_kref x; resource_freed := v;
     res_device := res_device x; res_process := res_process x;
     res_object_state := res_object_state x; res_handle := res_handle x;
     res_handle_valid := res_handle_valid x;
     res_destroyed := res_destroyed x; res_linked := res_linked x;
     res_alloc_list := res_alloc_list x; shared_owner := shared_owner x;
     res_shared_linked := res_shared_linked x |}.

Definition set_res_handle (v : Z) (x : dxgresource) : dxgresource :=
  {| resource_kref := resource_kref x; resource_freed := resource_freed x;
     res_device := res_device x; res_process := res_process x;
     res_object_state := res_object_state x; res_handle := v;
     res_handle_valid := res_handle_valid x;
     res_destroyed := res_destroyed x; res_linked := res_linked x;
     res_alloc_list := res_alloc_list x; shared_owner := shared_owner x;
     res_shared_linked := res_shared_linked x |}.

Definition set_res_handle_valid (v : bool) (x : dxgresource) : dxgresource :=
  {| resource_kref := resource_kref x; resource_freed := resource_freed x;
     res_device := res_device x; res_process := res_process x;
     res_object_state := res_object_state x; res_handle := res_handle x;
     res_handle_valid := v; res_destroyed := res_destroyed x;
     res_linked := res_linked x; res_alloc_list := res_alloc_list x;
     shared_owner := shared_owner x;
     res_shared_linked := res_shared_linked x |}.

Definition set_res_destroyed (v : bool) (x : dxgresource) : dxgresource :=
  {| resource_kref := resource_kref x; resource_freed := resource_freed x;
     res_device := res_device x; res_process := res_process x;
     res_object_state := res_object_state x; res_handle := res_handle x;
     res_handle_valid := res_handle_valid x; res_destroyed := v;
     res_linked := res_linked x; res_alloc_list := res_alloc_list x;
     shared_owner := shared_owner x;
     res_shared_linked := res_shared_linked x |}.

Definition set_res_linked (v : bool) (x : dxgresource) : dxgresource :=
  {| resource_kref := resource_kref x; resource_freed := resource_freed x;
     res_device := res_device x; res_process := res_process x;
     res_object_state := res_object_state x; res_handle := res_handle x;
     res_handle_valid := res_handle_valid x;
     res_destroyed := res_destroyed x; res_linked := v;
     res_alloc_list := res_alloc_list x; shared_owner := shared_owner x;
     res_shared_linked := res_shared_linked x |}.

Definition set_res_alloc_list (v : list nat) (x : dxgresource) : dxgresource :=
  {| resource_kref := resource_kref x; resource_freed := resource_freed x;
     res_device := res_device x; res_process := res_process x;
     res_object_state := res_object_state x; res_handle := res_handle x;
     res_handle_valid := res_handle_valid x;
     res_destroyed := res_destroyed x; res_linked := res_linked x;
     res_alloc_list := v; shared_owner := shared_owner x;
     res_shared_linked := res_shared_linked x |}.

Definition set_shared_owner (v : option nat) (x : dxgresource) : dxgresource :=
  {| resource_kref := resource_kref x; resource_freed := resource_freed x;
     res_device := res_device x; res_process := res_process x;
     res_object_state := res_object_state x; res_handle := res_handle x;
     res_handle_valid := res_handle_valid x;
     res_destroyed := res_destroyed x; res_linked := res_linked x;
     res_alloc_list := res_alloc_list x; shared_owner := v;
     res_shared_linked := res_shared_linked x |}.

Definition set_res_shared_linked (v : bool) (x : dxgresource) : dxgresource :=
  {| resource_kref := resource_kref x; resource_freed := resource_freed x;
     res_device := res_device x; res_process := res_process x;
     res_object_state := res_object_state x; res_handle := res_handle x;
     res_handle_valid := res_handle_valid x;
     res_destroyed := res_destroyed x; res_linked := res_linked x;
     res_alloc_list := res_alloc_list x; shared_owner := shared_owner x;
     res_shared_linked := v |}.

Definition set_sresource_kref (v : Z) (x : dxgsharedresource) : dxgsharedresource :=
  {| sresource_kref := v; sresource_freed := sresource_freed x;
     sres_adapter := sres_adapter x;
     sres_resource_list := sres_resource_list x |}.

Definition set_sresource_freed (v : bool) (x : dxgsharedresource) : dxgsharedresource :=
  {| sresource_kref := sresource_kref x; sresource_freed := v;
     sres_adapter := sres_adapter x;
     sres_resource_list := sres_resource_list x |}.

Definition set_sres_resource_list (v : list nat) (x : dxgsharedresource) : dxgsharedresource :=
  {| sresource_kref := sresource_kref x;
     sresource_freed := sresource_freed x; sres_adapter := sres_adapter x;
     sres_resource_list := v |}.

(** *** Reference counts *)

(** [kref_get] and [kref_put] on each kind of object. A count that drops
    to zero runs the release function, which frees the object. *)
Definition dxgadapter_release (a : nat) (w : world) : world :=
  add_event (EvFree (ObjAdapter a)) (upd_adapter a (set_adapter_freed true) w).

Definition dxgdevice_release (d : nat) (w : world) : world :=
  add_event (EvFree (ObjDevice d)) (upd_device d (set_device_freed true) w).

Definition dxgcontext_release (c : nat) (w : world) : world :=
  add_event (EvFree (ObjContext c)) (upd_context c (set_context_freed true) w).

Definition dxgresource_release (r : nat) (w : world) : world :=
  add_event (EvFree (ObjResource r))
    (upd_resource r (set_resource_freed true) w).

Definition dxgsharedresource_destroy (s : nat) (w : world) : world :=
  add_event (EvFree (ObjSharedResource s))
    (upd_sresource s (set_sresource_freed true) w).

Definition kref_get_adapter (a : nat) (w : world) : world :=
  match adapters w !! a with
  | None => fault w
  | Some adapter =>
      add_event (EvKrefGet (ObjAdapter a))
        (upd_adapter a (set_adapter_kref (adapter_kref adapter + 1)) w)
  end.

Definition kref_put_adapter (a : nat) (w : world) : world :=
  match adapters w !! a with
  | None => fault w
  | Some adapter =>
      let n := adapter_kref adapter - 1 in
      let w := add_event (EvKrefPut (ObjAdapter a))
                 (upd_adapter a (set_adapter_kref n) w) in
      if n =? 0 then dxgadapter_release a w else w
  end.

Definition kref_get_device (d : nat) (w : world) : world :=
  match devices w !! d with
  | None => fault w
  | Some device =>
      add_event (EvKrefGet (ObjDevice d))
        (upd_device d (set_device_kref (device_kref device + 1)) w)
  end.

Definition kref_put_device (d : nat) (w : world) : world :=
  match devices w !! d with
  | None => fault w
  | Some device =>
      let n := device_kref device - 1 in
      let w := add_event (EvKrefPut (ObjDevice d))
                 (upd_device d (set_device_kref n) w) in
      if n =? 0 then dxgdevice_release d w else w
  end.

Definition kref_put_context (c : nat) (w : world) : world :=
  match contexts w !! c with
  | None => fault w
  | Some context =>
      let n := context_kref context - 1 in
      let w := add_event (EvKrefPut (ObjContext c))
                 (upd_context c (set_context_kref n) w) in
      if n =? 0 then dxgcontext_release c w else w
  end.

Definition kref_get_resource (r : nat) (w : world) : world :=
  match resources w !! r with
  | None => fault w
  | Some resource =>
      add_event (EvKrefGet (ObjResource r))
        (upd_resource r (set_resource_kref (resource_kref resource + 1)) w)
  end.

Definition kref_put_resource (r : nat) (w : world) : world :=
  match resources w !! r with
  | None => fault w
  | Some resource =>
      let n := resource_kref resource - 1 in
      let w := add_event (EvKrefPut (ObjResource r))
                 (upd_resource r (set_resource_kref n) w) in
      if n =? 0 then dxgresource_release r w else w
  end.

Definition kref_put_sresource (s : nat) (w : world) : world :=
  match sresources w !! s with
  | None => fault w
  | Some shared =>
      let n := sresource_kref shared - 1 in
      let w := add_event (EvKrefPut (ObjSharedResource s))
                 (upd_sresource s (set_sresource_kref n) w) in
      if n =? 0 then dxgsharedresource_destroy s w else w
  end.

(** *** The handle table *)

(** Modelled from the spec: [hmgrtable_free_handle] of the absent handle
    manager. The spec gives the table as an association from handles to
    objects with an operation [free(table, type_tag, handle)]: the
    association of [h] is removed when it is registered with that type. *)
Definition hmgrtable_free_handle (p : nat) (t : hmgrentry_type) (h : Z)
    (w : world) : world :=
  add_event (EvHmgrFree p t h)
    (upd_process p
       (fun process =>
          match handle_table process !! h with
          | Some (t', _) =>
              if decide (t' = t)
              then set_handle_table (delete h (handle_table process)) process
              else process
          | None => process
          end) w).

(** Modelled from the spec: [hmgrtable_lock], [hmgrtable_unlock] and the
    [dxgprocess_ht_lock_exclusive_*] helpers take and drop the lock of the
    process handle table; [hmgrtable_free_handle_safe] frees under it. *)
Definition hmgrtable_lock (p : nat) (w : world) : world :=
  add_event (EvLock down_write (handle_table_lock p)) w.

Definition hmgrtable_unlock (p : nat) (w : world) : world :=
  add_event (EvLock up_write (handle_table_lock p)) w.

Definition hmgrtable_free_handle_safe (p : nat) (t : hmgrentry_type) (h : Z)
    (w : world) : world :=
  hmgrtable_unlock p (hmgrtable_free_handle p t h (hmgrtable_lock p w)).

(** [list_del] on an intrusive list: the entry leaves the list. *)
Definition list_del (x : nat) (l : list nat) : list nat :=
  filter (fun y => y <> x) l.

(** *** Allocations *)

Definition dxgallocation_stop (al : nat) (w : world) : world :=
  match allocations w !! al with
  | None => fault w
  | Some alloc =>
      let w :=
        if pages alloc
        then upd_allocation al (set_pages false)
               (add_event (EvReleasePages al) w)
        else w in
      let w := hmgrtable_lock (alloc_process alloc) w in
      let w :=
        if cpu_address_mapped alloc
        then upd_allocation al
               (fun x => set_cpu_address_refcount 0
                           (set_cpu_address_mapped false x))
               (add_event (EvUnmapIospace al) w)
        else w in
      hmgrtable_unlock (alloc_process alloc) w
  end.

Definition dxgallocation_free_handle (al : nat) (w : world) : world :=
  match allocations w !! al with
  | None => fault w
  | Some alloc =>
      let w := hmgrtable_lock (alloc_process alloc) w in
      let w :=
        if alloc_handle_valid alloc
        then upd_allocation al (set_alloc_handle_valid false)
               (hmgrtable_free_handle (alloc_process alloc)
                  HMGRENTRY_TYPE_DXGALLOCATION (alloc_handle alloc) w)
        else w in
      hmgrtable_unlock (alloc_process alloc) w
  end.

Definition dxgdevice_remove_alloc (d : nat) (al : nat) (w : world) : world :=
  match allocations w !! al with
  | None => fault w
  | Some alloc =>
      if alloc_linked alloc then
        let w := upd_device d
                   (fun dev => set_alloc_list (list_del al (alloc_list dev)) dev)
                   w in
        let w := upd_allocation al (set_alloc_linked false) w in
        kref_put_device d w
      else w
  end.

(** [list_del] unlinks the entry from the list it is on, the list of the
    owning resource. *)
Definition dxgresource_remove_alloc (r : option nat) (al : nat) (w : world)
    : world :=
  match allocations w !! al with
  | None => fault w
  | Some alloc =>
      if alloc_linked alloc then
        let w :=
          match r with
          | Some r =>
              upd_resource r
                (fun res =>
                   set_res_alloc_list (list_del al (res_alloc_list res)) res) w
          | None => w
          end in
        upd_allocation al (set_alloc_linked false) w
      else w
  end.

(** [dxgvmb_send_destroy_allocation] with the arguments its callers in
    this file pass. *)
Definition dxgvmb_send_destroy_allocation (device resource : Z)
    (alloc_handles : list Z) (w : world) : world :=
  add_event
    (EvRpc (DXGK_VMBCOMMAND_DESTROYALLOCATION device resource
              (Z.of_nat (length alloc_handles)) alloc_handles false)) w.

Definition dxgallocation_destroy (al : nat) (w : world) : world :=
  let w := dxgallocation_stop al w in
  match allocations w !! al with
  | None => fault w
  | Some alloc =>
      let w :=
        if resource_owner alloc then dxgresource_remove_alloc (owner alloc) al w
        else match owner alloc with
             | Some d => dxgdevice_remove_alloc d al w
             | None => w
             end in
      let w := dxgallocation_free_handle al w in
      let w :=
        if negb (alloc_handle alloc =? 0) && negb (resource_owner alloc) then
          match owner alloc with
          | Some d =>
              match devices w !! d with
              | Some dev =>
                  dxgvmb_send_destroy_allocation (dev_handle dev) 0
                    [alloc_handle alloc] w
              | None => fault w
              end
          | None => fault w
          end
        else w in
      let w :=
        if negb (gpadl_handle alloc =? 0)
        then upd_allocation al (set_gpadl_handle 0)
               (add_event (EvTeardownGpadl (gpadl_handle alloc)) w)
        else w in
      let w :=
        match allocations w !! al with
        | Some alloc' =>
            if cpu_address_mapped alloc'
            then add_event (EvErr "Alloc IO space is mapped") w
            else w
        | None => w
        end in
      add_event (EvFree (ObjAllocation al))
        (upd_allocation al (set_alloc_freed true) w)
  end.

(** *** Resources *)

Definition dxgdevice_remove_resource (d : nat) (r : nat) (w : world) : world :=
  match resources w !! r with
  | None => fault w
  | Some res =>
      if res_linked res then
        let w := upd_device d
                   (fun dev =>
                      set_resource_list (list_del r (resource_list dev)) dev) w in
        let w := upd_resource r (set_res_linked false) w in
        kref_put_device d w
      else w
  end.

Definition dxgsharedresource_remove_resource (s : nat) (r : nat) (w : world)
    : world :=
  match sresources w !! s, resources w !! r with
  | Some shared, Some res =>
      let a := sres_adapter shared in
      let w := add_event (EvLock down_write (shared_resource_list_lock a)) w in
      let w :=
        if res_shared_linked res then
          let w := upd_sresource s
                     (fun sh =>
                        set_sres_resource_list
                          (list_del r (sres_resource_list sh)) sh) w in
          let w := upd_resource r (set_res_shared_linked false) w in
          let w := kref_put_sresource s w in
          let w := upd_resource r (set_shared_owner None) w in
          kref_put_resource r w
        else w in
      add_event (EvLock up_write (shared_resource_list_lock a)) w
  | _, _ => fault w
  end.

Definition dxgresource_free_handle (r : nat) (w : world) : world :=
  match resources w !! r with
  | None => fault w
  | Some res =>
      let w :=
        if res_handle_valid res then
          match devices w !! res_device res with
          | Some dev =>
              upd_resource r (set_res_handle_valid false)
                (hmgrtable_free_handle_safe (dev_process dev)
                   HMGRENTRY_TYPE_DXGRESOURCE (res_handle res) w)
          | None => fault w
          end
        else w in
      foldl (fun w al => dxgallocation_free_handle al w) w (res_alloc_list res)
  end.

Definition dxgresource_destroy (r : nat) (w : world) : world :=
  match resources w !! r with
  | None => fault w
  | Some res =>
      let destroyed := res_destroyed res in
      let w := upd_resource r (set_res_destroyed true) w in
      let d := res_device res in
      let w :=
        if negb destroyed then
          let w := dxgresource_free_handle r w in
          let w :=
            if negb (res_handle res =? 0) then
              match devices w !! d with
              | Some dev =>
                  upd_resource r (set_res_handle 0)
                    (dxgvmb_send_destroy_allocation (dev_handle dev)
                       (res_handle res) [] w)
              | None => fault w
              end
            else w in
          let w := foldl (fun w al => dxgallocation_destroy al w) w
                     (res_alloc_list res) in
          let w := dxgdevice_remove_resource d r w in
          match shared_owner res with
          | Some s =>
              upd_resource r (set_shared_owner None)
                (dxgsharedresource_remove_resource s r w)
          | None => w
          end
        else w in
      kref_put_resource r w
  end.

(** *** Contexts *)

Definition dxgdevice_add_context (d : nat) (c : nat) (w : world) : world :=
  let w := add_event (EvLock down_write (context_list_lock d)) w in
  let w := upd_context c (set_ctx_linked true)
             (upd_device d
                (fun dev => set_context_list (context_list dev ++ [c]) dev) w) in
  add_event (EvLock up_write (context_list_lock d)) w.

Definition dxgdevice_remove_context (d : nat) (c : nat) (w : world) : world :=
  match contexts w !! c with
  | None => fault w
  | Some context =>
      if ctx_linked context then
        upd_context c (set_ctx_linked false)
          (upd_device d
             (fun dev => set_context_list (list_del c (context_list dev)) dev)
             w)
      else w
  end.

(** [dxgcontext_create]: [vzalloc_ok] tells whether the allocation of the
    context succeeds, [c] is the address it returns. *)
Definition dxgcontext_create (vzalloc_ok : bool) (c : nat) (d : nat)
    (w : world) : world * option nat :=
  if vzalloc_ok then
    match devices w !! d with
    | None => (fault w, None)
    | Some device =>
        let context :=
          {| context_kref := 1; context_freed := false; ctx_device := Some d;
             ctx_process := dev_process device;
             ctx_device_handle := dev_handle device; ctx_handle := 0;
             ctx_object_state := DXGOBJECTSTATE_CREATED; ctx_linked := false;
             hwqueue_list := [] |} in
        let w :=
          {| adapters := adapters w; pinfos := pinfos w;
             processes := processes w; devices := devices w;
             contexts := <[c := context]> (contexts w);
             allocations := allocations w; resources := resources w;
             sresources := sresources w; trace := trace w |} in
        let w := kref_get_device d w in
        let w := dxgdevice_add_context d c w in
        let w := upd_context c
                   (set_ctx_object_state DXGOBJECTSTATE_ACTIVE) w in
        (w, Some c)
    end
  else (w, None).

(** A placeholder in the source: the body is empty. *)
Definition dxghwqueue_destroy (q : nat) (w : world) : world := w.

Definition dxgcontext_destroy (p : nat) (c : nat) (w : world) : world :=
  match contexts w !! c with
  | None => fault w
  | Some context =>
      let w := upd_context c
                 (set_ctx_object_state DXGOBJECTSTATE_DESTROYED) w in
      let w :=
        match ctx_device context with
        | Some d =>
            let w :=
              if negb (ctx_handle context =? 0)
              then hmgrtable_free_handle_safe p HMGRENTRY_TYPE_DXGCONTEXT
                     (ctx_handle context) w
              else w in
            let w := dxgdevice_remove_context d c w in
            kref_put_device d w
        | None => w
        end in
      let w := foldl (fun w q => dxghwqueue_destroy q w) w
                 (hwqueue_list context) in
      kref_put_context c w
  end.

(** *** Devices *)

(** Placeholders in the source: the bodies are empty. *)
Definition dxgpagingqueue_stop (q : nat) (w : world) : world := w.
Definition dxgpagingqueue_destroy (q : nat) (w : world) : world := w.
Definition dxgsyncobject_stop (s : nat) (w : world) : world := w.
Definition dxgsyncobject_destroy (p : nat) (s : nat) (w : world) : world := w.

Definition dxgdevice_acquire_alloc_list_lock (d : nat) (w : world) : world :=
  add_event (EvLock down_write (alloc_list_lock d)) w.

Definition dxgdevice_release_alloc_list_lock (d : nat) (w : world) : world :=
  add_event (EvLock up_write (alloc_list_lock d)) w.

Definition dxgdevice_stop (d : nat) (w : world) : world :=
  match devices w !! d with
  | None => fault w
  | Some device =>
      let w := dxgdevice_acquire_alloc_list_lock d w in
      let w := foldl (fun w al => dxgallocation_stop al w) w
                 (alloc_list device) in
      let w := dxgdevice_release_alloc_list_lock d w in
      let w := hmgrtable_lock (dev_process device) w in
      let w := foldl (fun w q => dxgpagingqueue_stop q w) w
                 (pqueue_list device) in
      let w := foldl (fun w s => dxgsyncobject_stop s w) w
                 (syncobj_list device) in
      hmgrtable_unlock (dev_process device) w
  end.

(** The search loop of [dxgprocess_adapter_add_device]: the first entry
    of the process whose adapter is [a]. *)
Fixpoint find_process_adapter (infos : gmap nat dxgprocess_adapter) (a : nat)
    (l : list nat) : option nat :=
  match l with
  | [] => None
  | entry :: l' =>
      match infos !! entry with
      | Some info =>
          if (pa_adapter info =? a)%nat then Some entry
          else find_process_adapter infos a l'
      | None => find_process_adapter infos a l'
      end
  end.

Definition dxgprocess_adapter_add_device (p : nat) (a : nat) (d : nat)
    (w : world) : world * Z :=
  let w := add_event (EvLock mutex_lock process_adapter_mutex) w in
  match processes w !! p with
  | None => (fault w, - EINVAL)
  | Some process =>
      let '(w, ret) :=
        match find_process_adapter (pinfos w) a
                (process_adapter_list process) with
        | None =>
            (add_event (EvErr "failed to find process adapter info") w,
             - EINVAL)
        | Some pa =>
            let w := add_event (EvLock mutex_lock (device_list_mutex pa)) w in
            let w := upd_pinfo pa
                       (fun info =>
                          set_device_list (device_list info ++ [d]) info) w in
            let w := upd_device d
                       (fun dev =>
                          set_dev_adapter_info (Some pa)
                            (set_dev_linked true dev)) w in
            (add_event (EvLock mutex_unlock (device_list_mutex pa)) w, 0)
        end in
      (add_event (EvLock mutex_unlock process_adapter_mutex) w, ret)
  end.

Definition dxgprocess_adapter_remove_device (d : nat) (w : world) : world :=
  match devices w !! d with
  | None => fault w
  | Some device =>
      match dev_adapter_info device with
      | None => fault w
      | Some pa =>
          let w := add_event (EvLock mutex_lock (device_list_mutex pa)) w in
          let w :=
            if dev_linked device then
              upd_device d (set_dev_linked false)
                (upd_pinfo pa
                   (fun info =>
                      set_device_list (list_del d (device_list info)) info) w)
            else w in
          add_event (EvLock mutex_unlock (device_list_mutex pa)) w
      end
  end.

(** [dxgdevice_create]: [vzalloc_ok] tells whether the allocation of the
    device succeeds, [d] is the address it returns. *)
Definition dxgdevice_create (vzalloc_ok : bool) (d : nat) (a : nat) (p : nat)
    (w : world) : world * option nat :=
  if vzalloc_ok then
    let device :=
      {| device_kref := 1; device_freed := false; dev_adapter := Some a;
         dev_process := p; dev_adapter_info := None;
         dev_object_state := DXGOBJECTSTATE_CREATED; dev_handle := 0;
         dev_handle_valid := false; dev_linked := false; context_list := [];
         alloc_list := []; resource_list := []; pqueue_list := [];
         syncobj_list := [] |} in
    let w :=
      {| adapters := adapters w; pinfos := pinfos w;
         processes := processes w; devices := <[d := device]> (devices w);
         contexts := contexts w; allocations := allocations w;
         resources := resources w; sresources := sresources w;
         trace := trace w |} in
    let w := kref_get_adapter a w in
    let '(w, ret) := dxgprocess_adapter_add_device p a d w in
    if ret <? 0 then (kref_put_device d w, None) else (w, Some d)
  else (w, None).

Definition dxgadapter_acquire_lock_shared (a : nat) (w : world) : world * Z :=
  let w := add_event (EvLock down_read (core_lock a)) w in
  match adapters w !! a with
  | None => (fault w, - ENODEV)
  | Some adapter =>
      if adapter_state_is_active (adapter_state adapter) then (w, 0)
      else (add_event (EvLock up_read (core_lock a)) w, - ENODEV)
  end.

Definition dxgadapter_release_lock_shared (a : nat) (w : world) : world :=
  add_event (EvLock up_read (core_lock a)) w.

Definition dxgvmb_send_destroy_device (h : Z) (w : world) : world :=
  add_event (EvRpc (DXGK_VMBCOMMAND_DESTROYDEVICE h)) w.

(** The [while (!list_empty(&device->syncobj_list_head))] loop of
    [dxgdevice_destroy]: each round unlinks the first sync object and
    destroys it with the allocation list lock dropped. *)
Fixpoint destroy_syncobjects (d p : nat) (l : list nat) (w : world) : world :=
  match l with
  | [] => w
  | s :: l' =>
      let w := upd_device d (set_syncobj_list l') w in
      let w := dxgdevice_release_alloc_list_lock d w in
      let w := dxgsyncobject_destroy p s w in
      let w := dxgdevice_acquire_alloc_list_lock d w in
      destroy_syncobjects d p l' w
  end.

(** The teardown of [dxgdevice_destroy] between the state test and the
    release of the guest handle. *)
Definition dxgdevice_destroy_children (d : nat) (w : world) : world :=
  match devices w !! d with
  | None => fault w
  | Some device =>
      let p := dev_process device in
      let w := dxgdevice_stop d w in
      let w := dxgdevice_acquire_alloc_list_lock d w in
      let w := destroy_syncobjects d p (syncobj_list device) w in
      let w := foldl (fun w al => dxgallocation_destroy al w) w
                 (alloc_list device) in
      let w := foldl (fun w r => dxgresource_destroy r w) w
                 (resource_list device) in
      let w := dxgdevice_release_alloc_list_lock d w in
      let w := add_event (EvLock down_write (context_list_lock d)) w in
      let w := foldl (fun w c => dxgcontext_destroy p c w) w
                 (context_list device) in
      let w := add_event (EvLock up_write (context_list_lock d)) w in
      foldl (fun w q => dxgpagingqueue_destroy q w) w (pqueue_list device)
  end.

(** The block of [dxgdevice_destroy] that releases the guest handle under
    the handle table lock; it yields the local [device_handle]. *)
Definition dxgdevice_free_guest_handle (d p : nat) (w : world) : world * Z :=
  (* Guest handles need to be released before the host handles *)
  let w := hmgrtable_lock p w in
  let '(w, device_handle) :=
    match devices w !! d with
    | Some dev =>
        if dev_handle_valid dev then
          (upd_device d (set_dev_handle_valid false)
             (hmgrtable_free_handle p HMGRENTRY_TYPE_DXGDEVICE
                (dev_handle dev) w),
           dev_handle dev)
        else (w, 0)
    | None => (fault w, 0)
    end in
  (hmgrtable_unlock p w, device_handle).

(** The block [if (device_handle.v) { ... }] of [dxgdevice_destroy]. *)
Definition dxgdevice_destroy_in_host (d : nat) (adapter : option nat)
    (device_handle : Z) (w : world) : world :=
  if negb (device_handle =? 0) then
    let w := add_event (EvLock up_write (device_lock d)) w in
    let w :=
      match adapter with
      | Some a =>
          let '(w, ret) := dxgadapter_acquire_lock_shared a w in
          if ret =? 0 then
            dxgadapter_release_lock_shared a
              (dxgvmb_send_destroy_device device_handle w)
          else w
      | None => fault w
      end in
    add_event (EvLock down_write (device_lock d)) w
  else w.

(** The code of [dxgdevice_destroy] from the label [cleanup] on. *)
Definition dxgdevice_destroy_cleanup (d : nat) (w : world) : world :=
  let w :=
    match devices w !! d with
    | Some dev =>
        match dev_adapter dev with
        | Some a => kref_put_adapter a (dxgprocess_adapter_remove_device d w)
        | None => w
        end
    | None => fault w
    end in
  let w := add_event (EvLock up_write (device_lock d)) w in
  kref_put_device d w.

Definition dxgdevice_destroy (d : nat) (w : world) : world :=
  match devices w !! d with
  | None => fault w
  | Some device =>
      let p := dev_process device in
      let adapter := dev_adapter device in
      let w := add_event (EvLock down_write (device_lock d)) w in
      let w :=
        if object_state_is_active (dev_object_state device) then
          let w := upd_device d
                     (set_dev_object_state DXGOBJECTSTATE_DESTROYED) w in
          let w := dxgdevice_destroy_children d w in
          let '(w, device_handle) := dxgdevice_free_guest_handle d p w in
          dxgdevice_destroy_in_host d adapter device_handle w
        else w in
      dxgdevice_destroy_cleanup d w
  end.

(** *** Adapters *)

Definition dxgprocess_adapter_stop (pa : nat) (w : world) : world :=
  match pinfos w !! pa with
  | None => fault w
  | Some info =>
      let w := add_event (EvLock mutex_lock (device_list_mutex pa)) w in
      let w := foldl (fun w d => dxgdevice_stop d w) w (device_list info) in
      add_event (EvLock mutex_unlock (device_list_mutex pa)) w
  end.






(** *** Vocabulary for the properties *)

(** How often an event occurs in a stretch of the trace. *)
Definition count_event (e : event) (evs : list event) : nat :=
  length (filter (fun e' => e' = e) evs).

(** The fields of a device that only [dxgdevice_create] and
    [dxgdevice_destroy] themselves write. *)
Definition device_core (dev : dxgdevice) :=
  (dev_adapter dev, dev_process dev, dev_adapter_info dev,
   dev_object_state dev, dev_handle dev, dev_handle_valid dev, dev_linked dev).

(** Events that the teardown of the children of a device never produces:
    commands to destroy a device or close an adapter, operations on a device
    lock or an adapter core lock, reference counting or freeing of an
    adapter, and the release of a device handle. *)
Definition quiet (e : event) : bool :=
  match e with
  | EvRpc (DXGK_VMBCOMMAND_DESTROYDEVICE _) => false
  | EvRpc (DXGK_VMBCOMMAND_CLOSEADAPTER _) => false
  | EvLock _ (device_lock _) => false
  | EvLock _ (core_lock _) => false
  | EvKrefGet (ObjAdapter _) => false
  | EvKrefPut (ObjAdapter _) => false
  | EvFree (ObjAdapter _) => false
  | EvHmgrFree _ HMGRENTRY_TYPE_DXGDEVICE _ => false
  | EvCacheDestroy _ => false
  | EvVmbusClose _ => false
  | _ => true
  end.

(** [calm w w']: from [w] to [w'] the adapters, the process-adapter
    bindings, the core fields of every device and the device of every
    context are unchanged, and the trace grew by quiet events only. *)
Definition calm (w w' : world) : Prop :=
  adapters w' = adapters w /\
  pinfos w' = pinfos w /\
  (forall d, device_core <$> devices w' !! d = device_core <$> devices w !! d) /\
  (forall c, ctx_device <$> contexts w' !! c = ctx_device <$> contexts w !! c) /\
  exists evs, trace w' = trace w ++ evs /\ forallb quiet evs = true.

(** Events of a teardown step proper: a command to the host, a handle
    leaving the handle table, pages, mappings or shared-memory descriptors
    let go, the transport channel closed. *)
Definition is_teardown (e : event) : bool :=
  match e with
  | EvRpc _ | EvHmgrFree _ _ _ | EvReleasePages _ | EvUnmapIospace _
  | EvTeardownGpadl _ | EvCacheDestroy _ | EvVmbusClose _ => true
  | _ => false
  end.



(** *** Sample worlds *)

(** One adapter with two references held elsewhere, one process bound to
    it, nothing created yet. *)
Definition base_world : world :=
  {| adapters :=
       {[ 0%nat := {| adapter_state := DXGADAPTER_STATE_ACTIVE;
                      stopping_adapter := false; adapter_kref := 2;
                      adapter_freed := false; adapter_process_list := [0%nat];
                      channel_open := true; packet_cache := true |} ]};
     pinfos :=
       {[ 0%nat := {| pa_adapter := 0; pa_process := 0; pa_refcount := 1;
                      device_list := [] |} ]};
     processes :=
       {[ 0%nat := {| handle_table := ∅; process_adapter_list := [0%nat];
                      process_host_handle := 7 |} ]};
     devices := ∅; contexts := ∅; allocations := ∅; resources := ∅;
     sresources := ∅; trace := [] |}.

(** The device at address 0 as [dxgdevice_create] leaves it. *)
Definition created_world : world :=
  (dxgdevice_create true 0 0 0 base_world).1.

(** What the caller of [dxgdevice_create] does once the host has made the
    device: the host handle is registered and the device becomes active. *)
Definition activate_device (d : nat) (h : Z) (w : world) : world :=
  match devices w !! d with
  | None => w
  | Some dev =>
      upd_process (dev_process dev)
        (fun p =>
           set_handle_table
             (<[h := (HMGRENTRY_TYPE_DXGDEVICE, d)]> (handle_table p)) p)
        (upd_device d
           (fun dev =>
              {| device_kref := device_kref dev;
                 device_freed := device_freed dev;
                 dev_adapter := dev_adapter dev;
                 dev_process := dev_process dev;
                 dev_adapter_info := dev_adapter_info dev;
                 dev_object_state := DXGOBJECTSTATE_ACTIVE;
                 dev_handle := h; dev_handle_valid := true;
                 dev_linked := dev_linked dev;
                 context_list := context_list dev;
                 alloc_list := alloc_list dev;
                 resource_list := resource_list dev;
                 pqueue_list := pqueue_list dev;
                 syncobj_list := syncobj_list dev |}) w)
  end.

(** An active device with handle 100 and two contexts. *)
Definition active_world : world :=
  (dxgcontext_create true 1 0
     (dxgcontext_create true 0 0 (activate_device 0 100 created_world)).1).1.

(** The adapter and the device of the sample worlds, as found in them. *)
Definition base_adapter : dxgadapter :=
  {| adapter_state := DXGADAPTER_STATE_ACTIVE; stopping_adapter := false;
     adapter_kref := 2; adapter_freed := false;
     adapter_process_list := [0%nat]; channel_open := true;
     packet_cache := true |}.



Definition active_device : dxgdevice :=
  {| device_kref := 3; device_freed := false; dev_adapter := Some 0%nat;
     dev_process := 0; dev_adapter_info := Some 0%nat;
     dev_object_state := DXGOBJECTSTATE_ACTIVE; dev_handle := 100;
     dev_handle_valid := true; dev_linked := true;
     context_list := [0%nat; 1%nat]; alloc_list := []; resource_list := [];
     pqueue_list := []; syncobj_list := [] |}.


End Graph.

(** ** dxgvmbus.c: batch allocation create *)
Module Alloc.
Import Graph.

(** Sizes of the wire structures and the constants of the absent headers
    [dxgvmbus.h] and [dxgkrnl.h]; [use_ext_header] is the outcome of the
    protocol version test. *)
Record layout : Type := {
  DXG_MAX_VM_BUS_PACKET_SIZE : Z;
  PAGE_SHIFT : Z;
  use_ext_header : bool;
  sizeof_ext_header : Z;
  sizeof_d3dkmthandle : Z;
  sizeof_destroyallocation : Z;
  sizeof_createallocation : Z;
  sizeof_createallocation_allocinfo : Z;
  sizeof_createallocation_return : Z;
  sizeof_allocinfo_return : Z
}.

Definition VMBUSMESSAGEONSTACK : Z := 64.

(** The fields of [struct d3dkmt_createallocation] and of
    [struct d3dddi_allocationinfo2] that the code reads. *)
Record d3dkmt_createallocation : Type := {
  arg_device : Z;
  arg_resource : Z;
  private_runtime_data_size : Z;
  priv_drv_data_size : Z;
  alloc_count : Z;
  create_resource : bool;
  standard_allocation : bool;
  read_only : bool
}.

Record d3dddi_allocationinfo2 : Type := {
  sysmem : bool;
  info_priv_drv_data_size : Z
}.

(** [struct dxgkvmb_command_allocinfo_return] and
    [struct dxgkvmb_command_createallocation_return]. *)
Record allocinfo_return : Type := {
  ret_allocation : Z;
  ret_priv_drv_data_size : Z;
  ret_allocation_size : Z;
  ret_cached : bool
}.

Record createallocation_return : Type := {
  ret_resource : Z;
  allocation_info : list allocinfo_return
}.

(** The points at which [create_local_allocations] copies to user
    memory. *)
Inductive user_copy : Type :=
| CopyResourceHandle
| CopyAllocPrivData (i : nat)
| CopyAllocHandle (i : nat)
| CopyGlobalShare.

(** How far [create_existing_sysmem] gets. *)
Inductive sysmem_outcome : Type :=
| SysmemMessageFails
| SysmemPagesAllocFails
| SysmemPinFails
| SysmemVmapFails
| SysmemGpadlFails
| SysmemSetStore (gpadl : Z) (ret : Z).

(** What the environment answers during one batch create: whether each
    buffer can be allocated, whether each copy from or to user memory goes
    through, what the handle manager and the host return. *)
Record alloc_env : Type := {
  vzalloc_result_ok : bool;
  vzalloc_message_ok : bool;
  copy_from_user_ok : nat -> bool;
  host_create_ret : Z;
  host_result : createallocation_return;
  vzalloc_destroy_message_ok : bool;
  copy_to_user_ok : user_copy -> bool;
  existing_sysmem : nat -> sysmem_outcome;
  hmgrtable_assign_ret : hmgrentry_type -> Z -> Z;
  host_destroy_ret : Z
}.

Section WithLayout.
Variable L : layout.

(** [init_message]: the return value and [msg->size], which is set before
    the buffer is allocated. *)
Definition init_message (vzalloc_ok : bool) (size : Z) : Z * Z :=
  let size :=
    if use_ext_header L then to_u32 (size + sizeof_ext_header L) else size in
  if size <=? VMBUSMESSAGEONSTACK then (0, size)
  else if vzalloc_ok then (0, size) else (- ENOMEM, size).

(** Modelled from the spec: [hmgrtable_assign_handle] of the absent handle
    manager. The spec gives [assign(table, object_ref, type_tag)] as
    yielding a handle or an error: on an error code from the manager the
    table is unchanged, otherwise the handle is associated with the
    object. *)
Definition hmgrtable_assign_handle (env : alloc_env) (p : nat)
    (obj : nat) (t : hmgrentry_type) (h : Z) (w : world) : world * Z :=
  let ret := hmgrtable_assign_ret env t h in
  if ret <? 0 then (w, ret)
  else
    (upd_process p
       (fun process =>
          set_handle_table (<[h := (t, obj)]> (handle_table process)) process)
       w, ret).

(** The [for] loop of [process_allocation_handles] from index [i], with
    [count] iterations to go; it yields the last return value of
    [hmgrtable_assign_handle], or [ret] when the body never runs. A null
    [dxgalloc[i]] is dereferenced once its handle has been assigned. *)
Fixpoint assign_allocation_handles (env : alloc_env) (p : nat)
    (dxgalloc : list (option nat)) (infos : list allocinfo_return)
    (i count : nat) (ret : Z) (w : world) : world * outcome Z :=
  match count with
  | O => (w, Done ret)
  | S count' =>
      match infos !! i, dxgalloc !! i with
      | Some host_alloc, Some ptr =>
          let '(w, ret) :=
            match ptr with
            | Some al =>
                hmgrtable_assign_handle env p al HMGRENTRY_TYPE_DXGALLOCATION
                  (ret_allocation host_alloc) w
            | None =>
                (w, hmgrtable_assign_ret env HMGRENTRY_TYPE_DXGALLOCATION
                      (ret_allocation host_alloc))
            end in
          if ret <? 0
          then (add_event (EvErr "failed to assign alloc handle") w, Done ret)
          else
            match ptr with
            | None => (fault w, Fault)
            | Some al =>
                let w := upd_allocation al
                           (fun x =>
                              set_alloc_handle_valid true
                                (set_alloc_handle (ret_allocation host_alloc)
                                   x)) w in
                assign_allocation_handles env p dxgalloc infos (S i) count'
                  ret w
            end
      | _, _ => (fault w, Fault)
      end
  end.

Definition process_allocation_handles (env : alloc_env) (p : nat)
    (args : d3dkmt_createallocation) (res : createallocation_return)
    (dxgalloc : list (option nat)) (resource : option nat) (w : world)
    : world * outcome Z :=
  let ret := 0 in
  let w := hmgrtable_lock p w in
  let '(w, ret) :=
    if create_resource args then
      let '(w, ret) :=
        match resource with
        | Some r =>
            hmgrtable_assign_handle env p r HMGRENTRY_TYPE_DXGRESOURCE
              (ret_resource res) w
        | None =>
            (w, hmgrtable_assign_ret env HMGRENTRY_TYPE_DXGRESOURCE
                  (ret_resource res))
        end in
      if ret <? 0
      then (add_event (EvErr "failed to assign resource handle") w, Done ret)
      else
        match resource with
        | None => (fault w, Fault)
        | Some r =>
            (upd_resource r
               (fun x =>
                  set_res_handle_valid true
                    (set_res_handle (ret_resource res) x)) w, Done ret)
        end
    else (w, Done ret) in
  match ret with
  | Done ret =>
      let '(w, ret) :=
        assign_allocation_handles env p dxgalloc (allocation_info res) 0
          (Z.to_nat (alloc_count args)) ret w in
      match ret with
      | Done ret => (hmgrtable_unlock p w, Done ret)
      | _ => (w, ret)
      end
  | _ => (w, ret)
  end.

(** [create_existing_sysmem] for the allocation [al] of device [d]. *)
Definition create_existing_sysmem (outcome : sysmem_outcome) (d al : nat)
    (host_alloc : allocinfo_return) (w : world) : world * Z :=
  match outcome with
  | SysmemMessageFails => (w, - ENOMEM)
  | SysmemPagesAllocFails =>
      (add_event (EvErr "failed to allocate pages") w, - ENOMEM)
  | SysmemPinFails =>
      (add_event (EvErr "get_user_pages_fast failed") w, - ENOMEM)
  | SysmemVmapFails =>
      (add_event (EvErr "vmap failed")
         (upd_allocation al (set_pages true) w), - ENOMEM)
  | SysmemGpadlFails =>
      (add_event (EvErr "establish_gpadl failed")
         (upd_allocation al (set_pages true) w), - ENOMEM)
  | SysmemSetStore gpadl ret =>
      let w := upd_allocation al
                 (fun x => set_gpadl_handle gpadl (set_pages true x)) w in
      let device_handle :=
        match devices w !! d with Some dev => dev_handle dev | None => 0 end in
      let w := add_event
                 (EvRpc (DXGK_VMBCOMMAND_SETEXISTINGSYSMEMSTORE device_handle
                           (ret_allocation host_alloc) gpadl)) w in
      (if ret <? 0
       then add_event (EvErr "failed to set existing store") w else w, ret)
  end.

(** The second [for] loop of [create_local_allocations] from index [i],
    with [count] iterations to go; a negative value leaves the loop for
    [cleanup]. *)
Fixpoint fill_local_allocations (env : alloc_env) (d : nat)
    (dxgalloc : list (option nat)) (infos : list allocinfo_return)
    (alloc_info : list d3dddi_allocationinfo2) (i count : nat) (ret : Z)
    (w : world) : world * outcome Z :=
  match count with
  | O => (w, Done ret)
  | S count' =>
      match infos !! i, alloc_info !! i, dxgalloc !! i with
      | Some host_alloc, Some user_alloc, Some (Some al) =>
          let w := upd_allocation al
                     (set_num_pages
                        (Z.shiftr (ret_allocation_size host_alloc)
                           (PAGE_SHIFT L))) w in
          let '(w, ret) :=
            if sysmem user_alloc
            then create_existing_sysmem (existing_sysmem env i) d al
                   host_alloc w
            else (w, ret) in
          if ret <? 0 then (w, Done ret)
          else
            let w := upd_allocation al (set_cached (ret_cached host_alloc)) w in
            if negb (ret_priv_drv_data_size host_alloc =? 0)
               && negb (copy_to_user_ok env (CopyAllocPrivData i))
            then (add_event (EvErr "failed to copy private data") w,
                  Done (- EINVAL))
            else if negb (copy_to_user_ok env (CopyAllocHandle i))
            then (add_event (EvErr "failed to copy alloc handle") w,
                  Done (- EINVAL))
            else fill_local_allocations env d dxgalloc infos alloc_info (S i)
                   count' 0 w
      | _, _, _ => (fault w, Fault)
      end
  end.

(** The block under the label [cleanup] of [create_local_allocations] that
    runs when [ret < 0]. [channel] tells whether [init_message] got as far
    as setting [msg.channel]: the send tests the size of the message and
    then dereferences the channel. *)
Definition rollback_local_allocations (env : alloc_env) (d : nat)
    (args : d3dkmt_createallocation) (result : createallocation_return)
    (resource : option nat) (dxgalloc : list (option nat)) (channel : bool)
    (msg_size : Z) (ret : Z) (w : world)
    : world * outcome Z * list (option nat) :=
  let alloc_count := wrap_int (alloc_count args) in
  let n := Z.to_nat alloc_count in
  (* Free local handles before freeing the handles in the host *)
  let w := dxgdevice_acquire_alloc_list_lock d w in
  let w := foldl
             (fun w ptr =>
                match ptr with
                | Some al => dxgallocation_free_handle al w
                | None => w
                end) w (take n dxgalloc) in
  let w :=
    match resource with
    | Some r => if create_resource args then dxgresource_free_handle r w else w
    | None => w
    end in
  let w := dxgdevice_release_alloc_list_lock d w in
  (* Destroy allocations in the host to unmap gpadls *)
  let '(w, ret1) :=
    if msg_size >? DXG_MAX_VM_BUS_PACKET_SIZE L
    then (add_event (EvErr "invalid data size") w, Done (- EINVAL))
    else if negb channel then (fault w, Fault)
    else
      (add_event
         (EvRpc (DXGK_VMBCOMMAND_DESTROYALLOCATION (arg_device args)
                   (arg_resource args) (to_u32 alloc_count)
                   (ret_allocation <$> take n (allocation_info result))
                   true)) w, Done (host_destroy_ret env)) in
  match ret1 with
  | Done ret1 =>
      let w :=
        if ret1 <? 0
        then add_event (EvErr "failed to destroy allocations") w else w in
      let w := dxgdevice_acquire_alloc_list_lock d w in
      let w := foldl
                 (fun w ptr =>
                    match ptr with
                    | Some al =>
                        dxgallocation_destroy al
                          (upd_allocation al (set_alloc_handle 0) w)
                    | None => w
                    end) w (take n dxgalloc) in
      let w :=
        match resource with
        | Some r =>
            if create_resource args
            then
              (* Prevent the resource memory from freeing. It will be freed
                 in the top level function. *)
              dxgresource_destroy r (kref_get_resource r w)
            else w
        | None => w
        end in
      (dxgdevice_release_alloc_list_lock d w, Done ret,
       ((fun _ => None) <$> take n dxgalloc) ++ drop n dxgalloc)
  | _ => (w, ret1, dxgalloc)
  end.

(** [create_local_allocations]; the arrays [dxgalloc], [alloc_info] and
    [result->allocation_info] are the lists given, and an access past the
    end of one is a fault. *)
Definition create_local_allocations (env : alloc_env) (p d : nat)
    (args : d3dkmt_createallocation)
    (alloc_info : list d3dddi_allocationinfo2)
    (result : createallocation_return) (resource : option nat)
    (dxgalloc : list (option nat)) (destroy_buffer_size : Z) (w : world)
    : world * outcome Z * list (option nat) :=
  let alloc_count := wrap_int (alloc_count args) in
  let n := Z.to_nat alloc_count in
  let '(ret, msg_size) :=
    init_message (vzalloc_destroy_message_ok env) destroy_buffer_size in
  let channel := ret =? 0 in
  let '(w, ret) :=
    if negb (ret =? 0) then (w, Done ret)
    else if (length (allocation_info result) <? n)%nat then (fault w, Fault)
    else if create_resource args && negb (copy_to_user_ok env CopyResourceHandle)
    then (add_event (EvErr "failed to copy resource handle") w,
          Done (- EINVAL))
    else
      let '(w, ret) :=
        fill_local_allocations env d dxgalloc (allocation_info result)
          alloc_info 0 n 0 w in
      match ret with
      | Done ret =>
          if ret <? 0 then (w, Done ret)
          else
            let '(w, ret) :=
              process_allocation_handles env p args result dxgalloc
                resource w in
            match ret with
            | Done ret =>
                if ret <? 0 then (w, Done ret)
                else if negb (copy_to_user_ok env CopyGlobalShare)
                then (add_event (EvErr "failed to copy global share") w,
                      Done (- EINVAL))
                else (w, Done 0)
            | _ => (w, ret)
            end
      | _ => (w, ret)
      end in
  (* cleanup: *)
  match ret with
  | Done ret =>
      if ret <? 0
      then rollback_local_allocations env d args result resource dxgalloc
             channel msg_size ret w
      else (w, Done ret, dxgalloc)
  | _ => (w, ret, dxgalloc)
  end.

(** The first [for] loop of [dxgvmb_send_create_allocation] from index
    [i], with [count] iterations to go: the total of the per-allocation
    private driver data sizes in [u32] arithmetic, or [-EOVERFLOW] when a
    test against the packet size fails. *)
Fixpoint total_priv_drv_data_size (alloc_info : list d3dddi_allocationinfo2)
    (i count : nat) (priv_drv_data_size : Z) : outcome (Z + Z) :=
  match count with
  | O => Done (inr priv_drv_data_size)
  | S count' =>
      match alloc_info !! i with
      | None => Fault
      | Some info =>
          if info_priv_drv_data_size info >=? DXG_MAX_VM_BUS_PACKET_SIZE L
          then Done (inl (- EOVERFLOW))
          else
            let priv_drv_data_size :=
              to_u32 (priv_drv_data_size + info_priv_drv_data_size info) in
            if priv_drv_data_size >=? DXG_MAX_VM_BUS_PACKET_SIZE L
            then Done (inl (- EOVERFLOW))
            else total_priv_drv_data_size alloc_info (S i) count'
                   priv_drv_data_size
      end
  end.

(** [copy_private_data], on its return value: the copies from user memory
    are numbered in the order in which the code makes them, [k] being the
    number of the next one. *)
Fixpoint copy_alloc_private_data (env : alloc_env)
    (alloc_info : list d3dddi_allocationinfo2) (i count : nat) (k : nat)
    : outcome Z :=
  match count with
  | O => Done 0
  | S count' =>
      match alloc_info !! i with
      | None => Fault
      | Some input_alloc =>
          if negb (info_priv_drv_data_size input_alloc =? 0) then
            if copy_from_user_ok env k
            then copy_alloc_private_data env alloc_info (S i) count' (S k)
            else Done (- EINVAL)
          else copy_alloc_private_data env alloc_info (S i) count' k
      end
  end.

Definition copy_private_data (env : alloc_env)
    (args : d3dkmt_createallocation)
    (alloc_info : list d3dddi_allocationinfo2) : outcome Z :=
  if negb (private_runtime_data_size args =? 0)
     && negb (copy_from_user_ok env 0)
  then Done (- EINVAL)
  else
    let k := if private_runtime_data_size args =? 0 then 0%nat else 1%nat in
    if negb (standard_allocation args)
       && negb (priv_drv_data_size args =? 0)
       && negb (copy_from_user_ok env k)
    then Done (- EINVAL)
    else
      let k :=
        if negb (standard_allocation args)
           && negb (priv_drv_data_size args =? 0)
        then S k else k in
      match alloc_info !! 0%nat with
      | None => Fault
      | Some _ =>
          copy_alloc_private_data env alloc_info 0
            (Z.to_nat (alloc_count args)) k
      end.

Definition dxgvmb_send_create_allocation (env : alloc_env) (p d : nat)
    (args : d3dkmt_createallocation) (resource : option nat)
    (dxgalloc : list (option nat))
    (alloc_info : list d3dddi_allocationinfo2) (w : world)
    : world * outcome Z * list (option nat) :=
  if (private_runtime_data_size args >=? DXG_MAX_VM_BUS_PACKET_SIZE L)
     || (priv_drv_data_size args >=? DXG_MAX_VM_BUS_PACKET_SIZE L)
  then (w, Done (- EOVERFLOW), dxgalloc)
  else
    (* Preallocate the buffer, which will be used for destruction in case
       of a failure *)
    let destroy_buffer_size :=
      to_u32 (sizeof_destroyallocation L
              + alloc_count args * sizeof_d3dkmthandle L) in
    (* Compute the total private driver size *)
    match total_priv_drv_data_size alloc_info 0
            (Z.to_nat (alloc_count args)) 0 with
    | Done (inl ret) => (w, Done ret, dxgalloc)
    | Done (inr priv_drv_data_size) =>
        (* Private driver data for the result includes only per allocation
           private data *)
        let result_size :=
          to_u32 (sizeof_createallocation_return L
                  + to_u32 (alloc_count args - 1) * sizeof_allocinfo_return L
                  + priv_drv_data_size) in
        if negb (vzalloc_result_ok env) then (w, Done (- ENOMEM), dxgalloc)
        else
          (* Private drv data for the command includes the global private
             data *)
          let priv_drv_data_size :=
            to_u32 (priv_drv_data_size + Alloc.priv_drv_data_size args) in
          let cmd_size :=
            to_u32 (sizeof_createallocation L
                    + alloc_count args * sizeof_createallocation_allocinfo L
                    + private_runtime_data_size args + priv_drv_data_size) in
          if cmd_size >? DXG_MAX_VM_BUS_PACKET_SIZE L
          then (w, Done (- EOVERFLOW), dxgalloc)
          else
            let '(ret, msg_size) :=
              init_message (vzalloc_message_ok env) cmd_size in
            if negb (ret =? 0) then (w, Done ret, dxgalloc)
            else
              match copy_private_data env args alloc_info with
              | Done ret =>
                  if ret <? 0 then (w, Done ret, dxgalloc)
                  else if (msg_size >? DXG_MAX_VM_BUS_PACKET_SIZE L)
                          || (result_size >? DXG_MAX_VM_BUS_PACKET_SIZE L)
                  then
                    (add_event (EvErr "send_create_allocation failed")
                       (add_event (EvErr "invalid data size") w),
                     Done (- EINVAL), dxgalloc)
                  else
                    let w := add_event
                               (EvRpc (DXGK_VMBCOMMAND_CREATEALLOCATION
                                         (arg_device args) (arg_resource args)
                                         (alloc_count args) msg_size
                                         result_size)) w in
                    let ret := host_create_ret env in
                    if ret <? 0
                    then
                      (add_event (EvErr "send_create_allocation failed") w,
                       Done ret, dxgalloc)
                    else
                      create_local_allocations env p d args alloc_info
                        (host_result env) resource dxgalloc
                        destroy_buffer_size w
              | ret => (fault w, ret, dxgalloc)
              end
    | _ => (fault w, Fault, dxgalloc)
    end.

(** The combined size of a batch as the specification words it: the
    command header, the per-allocation array, and the global and
    per-allocation private driver data. *)
Definition aggregate_size (args : d3dkmt_createallocation)
    (alloc_info : list d3dddi_allocationinfo2) : Z :=
  sizeof_createallocation L
  + alloc_count args * sizeof_createallocation_allocinfo L
  + private_runtime_data_size args + priv_drv_data_size args
  + foldr (fun info acc => info_priv_drv_data_size info + acc) 0 alloc_info.

End WithLayout.

(** *** Sample inputs *)

(** A 128 KiB packet ceiling and 4 KiB pages, with structure sizes picked
    for the examples. *)
Definition sample_layout : layout :=
  {| DXG_MAX_VM_BUS_PACKET_SIZE := 131072; PAGE_SHIFT := 12;
     use_ext_header := true; sizeof_ext_header := 16;
     sizeof_d3dkmthandle := 4; sizeof_destroyallocation := 40;
     sizeof_createallocation := 48; sizeof_createallocation_allocinfo := 12;
     sizeof_createallocation_return := 40; sizeof_allocinfo_return := 24 |}.

Definition new_allocation (resource_owner : bool) : dxgallocation :=
  {| alloc_freed := false; alloc_process := 0; alloc_handle := 0;
     alloc_handle_valid := false; resource_owner := resource_owner;
     owner := Some 0%nat; alloc_linked := true; pages := false;
     num_pages := 0; cached := false; cpu_address_mapped := false;
     cpu_address_refcount := 0; gpadl_handle := 0; priv_drv_data := false |}.

Definition new_resource : dxgresource :=
  {| resource_kref := 1; resource_freed := false; res_device := 0;
     res_process := 0; res_object_state := DXGOBJECTSTATE_ACTIVE;
     res_handle := 0; res_handle_valid := false; res_destroyed := false;
     res_linked := true; res_alloc_list := [0; 1; 2]%nat;
     shared_owner := None; res_shared_linked := false |}.

(** The active device of [active_world] with three new allocations on its
    own allocation list. *)
Definition device_batch_world : world :=
  {| adapters := adapters active_world; pinfos := pinfos active_world;
     processes := processes active_world;
     devices :=
       alter (fun dev =>
                set_device_kref 6 (set_alloc_list [0; 1; 2]%nat dev))
         0%nat (devices active_world);
     contexts := contexts active_world;
     allocations :=
       {[ 0%nat := new_allocation false; 1%nat := new_allocation false;
          2%nat := new_allocation false ]};
     resources := ∅; sresources := ∅; trace := [] |}.

(** The same device with one new resource that owns the three
    allocations. *)
Definition resource_batch_world : world :=
  {| adapters := adapters active_world; pinfos := pinfos active_world;
     processes := processes active_world;
     devices :=
       alter (fun dev =>
                set_device_kref 4 (set_resource_list [0%nat] dev))
         0%nat (devices active_world);
     contexts := contexts active_world;
     allocations :=
       {[ 0%nat := new_allocation true; 1%nat := new_allocation true;
          2%nat := new_allocation true ]};
     resources := {[ 0%nat := new_resource ]}; sresources := ∅;
     trace := [] |}.

Definition three_allocations (create_resource : bool)
    : d3dkmt_createallocation :=
  {| arg_device := 100; arg_resource := 0; private_runtime_data_size := 0;
     priv_drv_data_size := 16; alloc_count := 3;
     create_resource := create_resource; standard_allocation := false;
     read_only := false |}.

Definition three_infos : list d3dddi_allocationinfo2 :=
  [ {| sysmem := false; info_priv_drv_data_size := 8 |};
    {| sysmem := false; info_priv_drv_data_size := 0 |};
    {| sysmem := false; info_priv_drv_data_size := 8 |} ].

Definition host_allocation (h : Z) : allocinfo_return :=
  {| ret_allocation := h; ret_priv_drv_data_size := 0;
     ret_allocation_size := 8192; ret_cached := false |}.

(** The host has created the resource 200 and the allocations 201, 202
    and 203; every local step goes through, except that the handle manager
    turns down the handles for which [refuse] holds. *)
Definition host_created (refuse : hmgrentry_type -> Z -> bool) : alloc_env :=
  {| vzalloc_result_ok := true; vzalloc_message_ok := true;
     copy_from_user_ok := fun _ => true; host_create_ret := 0;
     host_result :=
       {| ret_resource := 200;
          allocation_info :=
            [host_allocation 201; host_allocation 202; host_allocation 203] |};
     vzalloc_destroy_message_ok := true; copy_to_user_ok := fun _ => true;
     existing_sysmem := fun _ => SysmemMessageFails;
     hmgrtable_assign_ret := fun t h => if refuse t h then - ENOMEM else 0;
     host_destroy_ret := 0 |}.

(** The same, except that the message for the compensating destroy
    command cannot be allocated. *)
Definition host_created_no_memory : alloc_env :=
  {| vzalloc_result_ok := true; vzalloc_message_ok := true;
     copy_from_user_ok := fun _ => true; host_create_ret := 0;
     host_result := host_result (host_created (fun _ _ => false));
     vzalloc_destroy_message_ok := false; copy_to_user_ok := fun _ => true;
     existing_sysmem := fun _ => SysmemMessageFails;
     hmgrtable_assign_ret := fun _ _ => 0; host_destroy_ret := 0 |}.

Definition refuse_resource (t : hmgrentry_type) (h : Z) : bool :=
  bool_decide (t = HMGRENTRY_TYPE_DXGRESOURCE).

Definition refuse_second_allocation (t : hmgrentry_type) (h : Z) : bool :=
  h =? 202.

(** A batch whose parts each fit the packet ceiling but not together. *)
Definition large_batch : d3dkmt_createallocation :=
  {| arg_device := 100; arg_resource := 0; private_runtime_data_size := 0;
     priv_drv_data_size := 70000; alloc_count := 2;
     create_resource := false; standard_allocation := false;
     read_only := false |}.

Definition large_infos : list d3dddi_allocationinfo2 :=
  [ {| sysmem := false; info_priv_drv_data_size := 30000 |};
    {| sysmem := false; info_priv_drv_data_size := 40000 |} ].

(** What a batch create leaves behind: the handles of type [t] in the
    table of process [p], and the commands to the host among the events. *)
Definition registered (t : hmgrentry_type) (p : nat) (w : world) : list Z :=
  match processes w !! p with
  | Some process =>
      (List.filter (fun e => bool_decide (e.2.1 = t))
         (map_to_list (handle_table process))).*1
  | None => []
  end.

Definition is_rpc (e : event) : bool :=
  match e with
  | EvRpc _ => true
  | _ => false
  end.

Definition host_commands (w : world) : list event :=
  List.filter is_rpc (trace w).

End Alloc.

(** ** Vocabulary for what a function leaves behind *)
Module Footprint.
Import Graph.

(** Events that stay inside the guest: anything but a command to the
    host. *)
Definition local_event (e : event) : bool := negb (Alloc.is_rpc e).

(** The compensating command of a failed batch create: the command to
    destroy allocations that tells the host to take them as not in use. *)
Definition compensating (e : event) : bool :=
  match e with
  | EvRpc (DXGK_VMBCOMMAND_DESTROYALLOCATION _ _ _ _ true) => true
  | _ => false
  end.

Definition other_event (e : event) : bool := negb (compensating e).

(** From [w0] to [w] the trace grew by events that satisfy [P]. *)
Definition emits (P : event -> bool) (w0 w : world) : Prop :=
  exists evs, trace w = trace w0 ++ evs /\ forallb P evs = true.

(** The allocation at [al] exists and satisfies [φ]. *)
Definition alloc_sat (al : nat) (φ : dxgallocation -> Prop) (w : world)
    : Prop :=
  exists x, allocations w !! al = Some x /\ φ x.

(** Properties of an allocation that no step of a teardown undoes: they
    survive every write the teardown functions make to an allocation. *)
Definition teardown_stable (φ : dxgallocation -> Prop) : Prop :=
  forall x, φ x ->
    φ (set_pages false x) /\
    φ (set_cpu_address_refcount 0 (set_cpu_address_mapped false x)) /\
    φ (set_alloc_handle_valid false x) /\
    φ (set_alloc_linked false x) /\
    φ (set_gpadl_handle 0 x) /\
    φ (set_alloc_freed true x) /\
    φ (set_alloc_handle 0 x).

(** The allocation is gone: its memory is freed and it has no handle. *)
Definition released (x : dxgallocation) : Prop :=
  alloc_freed x = true /\ alloc_handle_valid x = false.

(** The handle [h] does not name an allocation in the handle table of
    process [p]. *)
Definition unregistered (p : nat) (h : Z) (w : world) : Prop :=
  forall process obj,
    processes w !! p = Some process ->
    handle_table process !! h <> Some (HMGRENTRY_TYPE_DXGALLOCATION, obj).

End Footprint.

(** *** More sample inputs for the batch create *)
Module AllocSamples.
Import Graph Alloc.

Definition three_pointers : list (option nat) := [Some 0; Some 1; Some 2]%nat.

(** The world after the batch of three device-owned allocations was
    created and registered without a failure. *)
Definition created_batch_world : world :=
  (dxgvmb_send_create_allocation sample_layout (host_created (fun _ _ => false))
     0 0 (three_allocations false) None three_pointers three_infos
     device_batch_world).1.1.

(** An allocation of that batch, registered under the handle [h]. *)
Definition created_allocation (h : Z) : dxgallocation :=
  {| alloc_freed := false; alloc_process := 0; alloc_handle := h;
     alloc_handle_valid := true; resource_owner := false;
     owner := Some 0%nat; alloc_linked := true; pages := false;
     num_pages := 2; cached := false; cpu_address_mapped := false;
     cpu_address_refcount := 0; gpadl_handle := 0; priv_drv_data := false |}.

(** The process of the sample worlds, with its device registered. *)
Definition batch_process : dxgprocess :=
  {| handle_table := {[ 100 := (HMGRENTRY_TYPE_DXGDEVICE, 0%nat) ]};
     process_adapter_list := [0%nat]; process_host_handle := 7 |}.

(** The buffer for the result of the host cannot be allocated. *)
Definition no_result_buffer : alloc_env :=
  {| vzalloc_result_ok := false; vzalloc_message_ok := true;
     copy_from_user_ok := fun _ => true; host_create_ret := 0;
     host_result := host_result (host_created (fun _ _ => false));
     vzalloc_destroy_message_ok := true; copy_to_user_ok := fun _ => true;
     existing_sysmem := fun _ => SysmemMessageFails;
     hmgrtable_assign_ret := fun _ _ => 0; host_destroy_ret := 0 |}.

(** The host turns the create command down; everything before it goes
    through. *)
Definition host_refuses : alloc_env :=
  {| vzalloc_result_ok := true; vzalloc_message_ok := true;
     copy_from_user_ok := fun _ => true; host_create_ret := - ENOMEM;
     host_result := host_result (host_created (fun _ _ => false));
     vzalloc_destroy_message_ok := true; copy_to_user_ok := fun _ => true;
     existing_sysmem := fun _ => SysmemMessageFails;
     hmgrtable_assign_ret := fun _ _ => 0; host_destroy_ret := 0 |}.

End AllocSamples.

(** ** dxgadapter.c: the rest of the object graph *)
Module Objects.
Import Graph.

Definition set_owner (v : option nat) (x : dxgallocation) : dxgallocation :=
  {| alloc_freed := alloc_freed x; alloc_process := alloc_process x;
     alloc_handle := alloc_handle x;
     alloc_handle_valid := alloc_handle_valid x;
     resource_owner := resource_owner x; owner := v;
     alloc_linked := alloc_linked x; pages := pages x;
     num_pages := num_pages x; cached := cached x;
     cpu_address_mapped := cpu_address_mapped x;
     cpu_address_refcount := cpu_address_refcount x;
     gpadl_handle := gpadl_handle x; priv_drv_data := priv_drv_data x |}.

Definition set_resource_owner (v : bool) (x : dxgallocation)
    : dxgallocation :=
  {| alloc_freed := alloc_freed x; alloc_process := alloc_process x;
     alloc_handle := alloc_handle x;
     alloc_handle_valid := alloc_handle_valid x; resource_owner := v;
     owner := owner x; alloc_linked := alloc_linked x; pages := pages x;
     num_pages := num_pages x; cached := cached x;
     cpu_address_mapped := cpu_address_mapped x;
     cpu_address_refcount := cpu_address_refcount x;
     gpadl_handle := gpadl_handle x; priv_drv_data := priv_drv_data x |}.

Definition set_adapter_process_list (v : list nat) (x : dxgadapter)
    : dxgadapter :=
  {| adapter_state := adapter_state x;
     stopping_adapter := stopping_adapter x; adapter_kref := adapter_kref x;
     adapter_freed := adapter_freed x; adapter_process_list := v;
     channel_open := channel_open x; packet_cache := packet_cache x |}.

Definition set_process_adapter_list (v : list nat) (x : dxgprocess)
    : dxgprocess :=
  {| handle_table := handle_table x; process_adapter_list := v;
     process_host_handle := process_host_handle x |}.

Definition set_pa_refcount (v : Z) (x : dxgprocess_adapter)
    : dxgprocess_adapter :=
  {| pa_adapter := pa_adapter x; pa_process := pa_process x;
     pa_refcount := v; device_list := device_list x |}.

(** *** Allocations and resources of a device *)

Definition dxgdevice_add_alloc (d al : nat) (w : world) : world :=
  let w := dxgdevice_acquire_alloc_list_lock d w in
  let w := upd_allocation al (set_alloc_linked true)
             (upd_device d
                (fun dev => set_alloc_list (alloc_list dev ++ [al]) dev) w) in
  let w := kref_get_device d w in
  let w := upd_allocation al (set_owner (Some d)) w in
  dxgdevice_release_alloc_list_lock d w.

Definition dxgdevice_remove_alloc_safe (d al : nat) (w : world) : world :=
  let w := dxgdevice_acquire_alloc_list_lock d w in
  let w := dxgdevice_remove_alloc d al w in
  dxgdevice_release_alloc_list_lock d w.

Definition dxgdevice_add_resource (d r : nat) (w : world) : world :=
  let w := dxgdevice_acquire_alloc_list_lock d w in
  let w := upd_resource r (set_res_linked true)
             (upd_device d
                (fun dev => set_resource_list (resource_list dev ++ [r]) dev)
                w) in
  let w := kref_get_device d w in
  dxgdevice_release_alloc_list_lock d w.

(** [dxgresource_create]: [vzalloc_ok] tells whether the allocation of
    the resource succeeds, [r] is the address it returns. *)
Definition dxgresource_create (vzalloc_ok : bool) (r : nat) (d : nat)
    (w : world) : world * option nat :=
  if vzalloc_ok then
    match devices w !! d with
    | None => (fault w, None)
    | Some device =>
        let resource :=
          {| resource_kref := 1; resource_freed := false; res_device := d;
             res_process := dev_process device;
             res_object_state := DXGOBJECTSTATE_ACTIVE; res_handle := 0;
             res_handle_valid := false; res_destroyed := false;
             res_linked := false; res_alloc_list := [];
             shared_owner := None; res_shared_linked := false |} in
        let w :=
          {| adapters := adapters w; pinfos := pinfos w;
             processes := processes w; devices := devices w;
             contexts := contexts w; allocations := allocations w;
             resources := <[r := resource]> (resources w);
             sresources := sresources w; trace := trace w |} in
        (dxgdevice_add_resource d r w, Some r)
    end
  else (w, None).

Definition dxgresource_is_active (resource : dxgresource) : bool :=
  object_state_is_active (res_object_state resource).

Definition dxgresource_add_alloc (r al : nat) (w : world) : world * Z :=
  match resources w !! r with
  | None => (fault w, - ENODEV)
  | Some resource =>
      let ret := - ENODEV in
      let device := res_device resource in
      let w := dxgdevice_acquire_alloc_list_lock device w in
      let '(w, ret) :=
        if dxgresource_is_active resource then
          (upd_allocation al
             (fun x => set_owner (Some r) (set_alloc_linked true x))
             (upd_resource r
                (fun res =>
                   set_res_alloc_list (res_alloc_list res ++ [al]) res) w),
           0)
        else (w, ret) in
      let w := upd_allocation al (set_resource_owner true) w in
      (dxgdevice_release_alloc_list_lock device w, ret)
  end.

Definition dxgresource_remove_alloc_safe (r al : nat) (w : world) : world :=
  match resources w !! r with
  | None => fault w
  | Some resource =>
      let w := dxgdevice_acquire_alloc_list_lock (res_device resource) w in
      let w := dxgresource_remove_alloc (Some r) al w in
      dxgdevice_release_alloc_list_lock (res_device resource) w
  end.

(** [dxgallocation_create]: the new allocation is zeroed but for its
    process. *)
Definition dxgallocation_create (vzalloc_ok : bool) (al : nat) (p : nat)
    (w : world) : world * option nat :=
  if vzalloc_ok then
    let alloc :=
      {| alloc_freed := false; alloc_process := p; alloc_handle := 0;
         alloc_handle_valid := false; resource_owner := false;
         owner := None; alloc_linked := false; pages := false;
         num_pages := 0; cached := false; cpu_address_mapped := false;
         cpu_address_refcount := 0; gpadl_handle := 0;
         priv_drv_data := false |} in
    ({| adapters := adapters w; pinfos := pinfos w;
        processes := processes w; devices := devices w;
        contexts := contexts w;
        allocations := <[al := alloc]> (allocations w);
        resources := resources w; sresources := sresources w;
        trace := trace w |}, Some al)
  else (w, None).

(** *** Shared resources *)

Definition dxgsharedresource_create (vzalloc_ok : bool) (s : nat) (a : nat)
    (w : world) : world * option nat :=
  if vzalloc_ok then
    let shared :=
      {| sresource_kref := 1; sresource_freed := false; sres_adapter := a;
         sres_resource_list := [] |} in
    ({| adapters := adapters w; pinfos := pinfos w;
        processes := processes w; devices := devices w;
        contexts := contexts w; allocations := allocations w;
        resources := resources w;
        sresources := <[s := shared]> (sresources w);
        trace := trace w |}, Some s)
  else (w, None).

Definition kref_get_sresource (s : nat) (w : world) : world :=
  match sresources w !! s with
  | None => fault w
  | Some shared =>
      add_event (EvKrefGet (ObjSharedResource s))
        (upd_sresource s (set_sresource_kref (sresource_kref shared + 1)) w)
  end.

Definition dxgsharedresource_add_resource (s r : nat) (w : world) : world :=
  match sresources w !! s with
  | None => fault w
  | Some shared =>
      let a := sres_adapter shared in
      let w := add_event (EvLock down_write (shared_resource_list_lock a)) w in
      let w := upd_resource r (set_res_shared_linked true)
                 (upd_sresource s
                    (fun sh =>
                       set_sres_resource_list (sres_resource_list sh ++ [r])
                         sh) w) in
      let w := kref_get_sresource s w in
      let w := kref_get_resource r w in
      let w := upd_resource r (set_shared_owner (Some s)) w in
      add_event (EvLock up_write (shared_resource_list_lock a)) w
  end.

(** *** Contexts and devices *)

Definition dxgcontext_destroy_safe (p c : nat) (w : world) : world :=
  match contexts w !! c with
  | None => fault w
  | Some context =>
      match ctx_device context with
      | None => fault w
      | Some d =>
          let w := add_event (EvLock down_write (context_list_lock d)) w in
          let w := dxgcontext_destroy p c w in
          add_event (EvLock up_write (context_list_lock d)) w
      end
  end.

Definition dxgdevice_is_active (device : dxgdevice) : bool :=
  object_state_is_active (dev_object_state device).

Definition dxgdevice_acquire_lock_shared (d : nat) (w : world) : world * Z :=
  let w := add_event (EvLock down_read (device_lock d)) w in
  match devices w !! d with
  | None => (fault w, - ENODEV)
  | Some device =>
      if negb (dxgdevice_is_active device)
      then (add_event (EvLock up_read (device_lock d)) w, - ENODEV)
      else (w, 0)
  end.

Definition dxgdevice_release_lock_shared (d : nat) (w : world) : world :=
  add_event (EvLock up_read (device_lock d)) w.

Definition dxgdevice_mark_destroyed (d : nat) (w : world) : world :=
  let w := add_event (EvLock down_write (device_lock d)) w in
  let w := upd_device d (set_dev_object_state DXGOBJECTSTATE_DESTROYED) w in
  add_event (EvLock up_write (device_lock d)) w.

(** *** The binding of a process to an adapter *)

(** Protected by dxgglobal_acquire_process_adapter_lock *)
Definition dxgadapter_add_process (a pa : nat) (w : world) : world :=
  upd_adapter a
    (fun adapter =>
       set_adapter_process_list (adapter_process_list adapter ++ [pa]) adapter)
    w.

Definition dxgadapter_remove_process (pa : nat) (w : world) : world :=
  match pinfos w !! pa with
  | None => fault w
  | Some info =>
      upd_adapter (pa_adapter info)
        (fun adapter =>
           set_adapter_process_list
             (list_del pa (adapter_process_list adapter)) adapter) w
  end.

(** [dxgprocess_adapter_create]: [vzalloc_ok] tells whether the allocation
    succeeds, [pa] is the address it returns. [kref_get_unless_zero] takes
    a reference only on an adapter that still has one. *)
Definition dxgprocess_adapter_create (vzalloc_ok : bool) (pa : nat)
    (p a : nat) (w : world) : world * option nat :=
  if vzalloc_ok then
    match adapters w !! a with
    | None => (fault w, None)
    | Some adapter =>
        if adapter_kref adapter =? 0 then
          (add_event (EvErr "failed to acquire adapter reference") w, None)
        else
          let w := add_event (EvKrefGet (ObjAdapter a))
                     (upd_adapter a
                        (set_adapter_kref (adapter_kref adapter + 1)) w) in
          let adapter_info :=
            {| pa_adapter := a; pa_process := p; pa_refcount := 1;
               device_list := [] |} in
          let w :=
            {| adapters := adapters w;
               pinfos := <[pa := adapter_info]> (pinfos w);
               processes := processes w; devices := devices w;
               contexts := contexts w; allocations := allocations w;
               resources := resources w; sresources := sresources w;
               trace := trace w |} in
          let w := upd_process p
                     (fun process =>
                        set_process_adapter_list
                          (process_adapter_list process ++ [pa]) process) w in
          (dxgadapter_add_process a pa w, Some pa)
    end
  else (w, None).

(** The [while (!list_empty(&adapter_info->device_list_head))] loop of
    [dxgprocess_adapter_destroy]: each round unlinks the first device and
    destroys it with the device list mutex dropped. [fuel] bounds the
    number of rounds. *)
Fixpoint destroy_devices (fuel : nat) (pa : nat) (w : world)
    : outcome world :=
  match pinfos w !! pa with
  | None => Done (fault w)
  | Some info =>
      match device_list info with
      | [] => Done w
      | device :: _ =>
          match fuel with
          | O => OutOfFuel
          | S fuel' =>
              let w := upd_pinfo pa
                         (fun x =>
                            set_device_list (list_del device (device_list x))
                              x) w in
              let w := upd_device device (set_dev_linked false) w in
              let w := add_event
                         (EvLock mutex_unlock (device_list_mutex pa)) w in
              let w := dxgdevice_destroy device w in
              let w := add_event
                         (EvLock mutex_lock (device_list_mutex pa)) w in
              destroy_devices fuel' pa w
          end
      end
  end.

(** [dxgprocess_adapter_destroy]; freeing [adapter_info] takes it out of
    the heap. *)
Definition dxgprocess_adapter_destroy (pa : nat) (w : world)
    : outcome world :=
  match pinfos w !! pa with
  | None => Done (fault w)
  | Some info =>
      let w := add_event (EvLock mutex_lock (device_list_mutex pa)) w in
      match destroy_devices (length (device_list info)) pa w with
      | Done w =>
          let w := add_event (EvLock mutex_unlock (device_list_mutex pa)) w in
          let w := dxgadapter_remove_process pa w in
          let w := kref_put_adapter (pa_adapter info) w in
          let w := upd_process (pa_process info)
                     (fun process =>
                        set_process_adapter_list
                          (list_del pa (process_adapter_list process))
                          process) w in
          Done
            {| adapters := adapters w; pinfos := delete pa (pinfos w);
               processes := processes w; devices := devices w;
               contexts := contexts w; allocations := allocations w;
               resources := resources w; sresources := sresources w;
               trace := trace w |}
      | stuck => stuck
      end
  end.

(** Must be called when dxgglobal::process_adapter_mutex is held *)
Definition dxgprocess_adapter_release (pa : nat) (w : world)
    : outcome world :=
  match pinfos w !! pa with
  | None => Done (fault w)
  | Some info =>
      let refcount := wrap_int (pa_refcount info - 1) in
      let w := upd_pinfo pa (set_pa_refcount refcount) w in
      if refcount =? 0 then dxgprocess_adapter_destroy pa w else Done w
  end.

End Objects.

(** *** Sample worlds for the object graph *)
Module ObjectSamples.
Import Graph Objects.

(** The allocation that [dxgallocation_create] makes for process 0. *)
Definition fresh_allocation : dxgallocation :=
  {| alloc_freed := false; alloc_process := 0; alloc_handle := 0;
     alloc_handle_valid := false; resource_owner := false; owner := None;
     alloc_linked := false; pages := false; num_pages := 0; cached := false;
     cpu_address_mapped := false; cpu_address_refcount := 0;
     gpadl_handle := 0; priv_drv_data := false |}.

(** [active_world] with one new allocation that is on no list yet. *)
Definition unlinked_allocation_world : world :=
  (dxgallocation_create true 0 0 active_world).1.

(** The resource that [dxgresource_create] makes on the device of
    [active_world], and the shared resource that
    [dxgsharedresource_create] makes on its adapter. *)
Definition fresh_resource : dxgresource :=
  {| resource_kref := 1; resource_freed := false; res_device := 0;
     res_process := 0; res_object_state := DXGOBJECTSTATE_ACTIVE;
     res_handle := 0; res_handle_valid := false; res_destroyed := false;
     res_linked := true; res_alloc_list := []; shared_owner := None;
     res_shared_linked := false |}.

Definition fresh_shared_resource : dxgsharedresource :=
  {| sresource_kref := 1; sresource_freed := false; sres_adapter := 0;
     sres_resource_list := [] |}.

Definition shared_resource_world : world :=
  (dxgsharedresource_create true 0 0
     (dxgresource_create true 0 0 active_world).1).1.

(** [base_world] with a second process that is bound to no adapter. *)
Definition unbound_process : dxgprocess :=
  {| handle_table := ∅; process_adapter_list := [];
     process_host_handle := 8 |}.

Definition unbound_world : world :=
  {| adapters := adapters base_world; pinfos := pinfos base_world;
     processes := <[1%nat := unbound_process]> (processes base_world);
     devices := ∅; contexts := ∅; allocations := ∅; resources := ∅;
     sresources := ∅; trace := [] |}.

(** The device of [Alloc.device_batch_world]. *)
Definition batch_device : dxgdevice :=
  set_device_kref 6 (set_alloc_list [0; 1; 2]%nat active_device).

(** The world after a resource with three allocations was created in the
    host and registered without a failure, with the resource and the
    device as found in it. *)
Definition created_resource_world : world :=
  (Alloc.dxgvmb_send_create_allocation Alloc.sample_layout
     (Alloc.host_created (fun _ _ => false)) 0 0
     (Alloc.three_allocations true) (Some 0%nat) AllocSamples.three_pointers
     Alloc.three_infos Alloc.resource_batch_world).1.1.

Definition created_resource : dxgresource :=
  {| resource_kref := 1; resource_freed := false; res_device := 0;
     res_process := 0; res_object_state := DXGOBJECTSTATE_ACTIVE;
     res_handle := 200; res_handle_valid := true; res_destroyed := false;
     res_linked := true; res_alloc_list := [0; 1; 2]%nat;
     shared_owner := None; res_shared_linked := false |}.

Definition resource_device : dxgdevice :=
  set_device_kref 4 (set_resource_list [0%nat] active_device).

(** The process of [base_world]. *)
Definition base_process : dxgprocess :=
  {| handle_table := ∅; process_adapter_list := [0%nat];
     process_host_handle := 7 |}.

(** [active_world] with a new resource on its device and a new
    allocation, and the same with the resource destroyed. *)
Definition resource_allocation_world : world :=
  (dxgallocation_create true 0 0
     (dxgresource_create true 0 0 active_world).1).1.

Definition retired_resource : dxgresource :=
  {| resource_kref := 1; resource_freed := false; res_device := 0;
     res_process := 0; res_object_state := DXGOBJECTSTATE_DESTROYED;
     res_handle := 0; res_handle_valid := false; res_destroyed := true;
     res_linked := false; res_alloc_list := []; shared_owner := None;
     res_shared_linked := false |}.

Definition retired_resource_world : world :=
  {| adapters := adapters resource_allocation_world;
     pinfos := pinfos resource_allocation_world;
     processes := processes resource_allocation_world;
     devices := devices resource_allocation_world;
     contexts := contexts resource_allocation_world;
     allocations := allocations resource_allocation_world;
     resources := {[0%nat := retired_resource]};
     sresources := sresources resource_allocation_world;
     trace := trace resource_allocation_world |}.

End ObjectSamples.

(** ** Vocabulary for stopping a device *)
Module Quiesce.
Import Graph.

(** What [dxgallocation_stop] leaves of an allocation: the pinned pages are
    let go and the CPU mapping is taken down; nothing else is written. *)
Definition stopped (x : dxgallocation) : dxgallocation :=
  let x := if pages x then set_pages false x else x in
  if cpu_address_mapped x
  then set_cpu_address_refcount 0 (set_cpu_address_mapped false x)
  else x.

(** The events of stopping: locks taken and dropped, pages released and
    mappings taken down. *)
Definition stop_event (e : event) : bool :=
  match e with
  | EvLock _ _ | EvReleasePages _ | EvUnmapIospace _ => true
  | _ => false
  end.

End Quiesce.

(** ** dxgvmbus.c: the other commands to the host *)
Module Rpc.
Import Alloc.

Definition ENOTRECOVERABLE : Z := 131.

(** Sizes of the command and result structures of the absent header
    [dxgvmbus.h]. *)
Record wire : Type := {
  sizeof_ntstatus : Z;
  sizeof_createprocess : Z;
  sizeof_createprocess_return : Z;
  sizeof_destroyprocess : Z;
  sizeof_openadapter : Z;
  sizeof_openadapter_return : Z;
  sizeof_createdevice : Z;
  sizeof_createdevice_return : Z;
  sizeof_destroydevice : Z;
  sizeof_createcontextvirtual : Z;
  sizeof_destroycontext : Z;
  sizeof_getstandardallocprivdata : Z;
  sizeof_getstandardallocprivdata_return : Z
}.

(** [msg.channel]: the channel of the adapter or the global one. *)
Inductive msg_channel : Type :=
| GlobalChannel
| AdapterChannel.

(** The values of [enum d3dkmdt_standardallocationtype] that the source
    names, and any other value. *)
Inductive d3dkmdt_standardallocationtype : Type :=
| D3DKMDT_STANDARDALLOCATION_SHAREDPRIMARYSURFACE
| D3DKMDT_STANDARDALLOCATION_SHADOWSURFACE
| D3DKMDT_STANDARDALLOCATION_STAGINGSURFACE
| D3DKMDT_STANDARDALLOCATION_GDISURFACE
| D3DKMDT_STANDARDALLOCATION_OTHER (v : Z).

(** The commands of the functions below, with the fields they fill in. *)
Inductive command : Type :=
| DXGK_VMBCOMMAND_CREATEPROCESS (process : nat)
| DXGK_VMBCOMMAND_DESTROYPROCESS (process : Z)
| DXGK_VMBCOMMAND_OPENADAPTER
| DXGK_VMBCOMMAND_CREATEDEVICE (process : Z)
| DXGK_VMBCOMMAND_DESTROYDEVICE (process device : Z)
| DXGK_VMBCOMMAND_CREATECONTEXTVIRTUAL (process device : Z)
    (priv_drv_data_size : Z)
| DXGK_VMBCOMMAND_DESTROYCONTEXT (process context : Z)
| DXGK_VMBCOMMAND_DDIGETSTANDARDALLOCATIONDRIVERDATA (process : Z)
    (alloc_type : d3dkmdt_standardallocationtype)
    (priv_driver_data_size priv_driver_resource_size : Z).

(** What these functions do to the outside: a command handed to
    [vmbus_sendpacket] by [dxgvmb_send_sync_msg], with the size of the
    message and of the result buffer; calls of
    [dxgglobal_acquire_channel_lock] and [dxgglobal_release_channel_lock];
    [pr_err] messages. *)
Inductive event : Type :=
| EvSyncMsg (ch : msg_channel) (cmd : command) (cmd_size result_size : Z)
| EvAcquireChannelLock
| EvReleaseChannelLock
| EvErr (msg : string).

Global Instance msg_channel_eq_dec : EqDecision msg_channel.
Proof. solve_decision. Defined.
Global Instance d3dkmdt_standardallocationtype_eq_dec :
  EqDecision d3dkmdt_standardallocationtype.
Proof. solve_decision. Defined.
Global Instance command_eq_dec : EqDecision command.
Proof. solve_decision. Defined.
Global Instance event_eq_dec : EqDecision event.
Proof. solve_decision. Defined.

(** What the environment answers during one [dxgvmb_send_sync_msg]:
    whether the tracking packet can be allocated, what [vmbus_sendpacket]
    returns, and whether the completion that ends the wait carries at least
    as many bytes as the result buffer has. *)
Record sync_answer : Type := {
  kmem_cache_alloc_ok : bool;
  vmbus_sendpacket_ret : Z;
  reply_fits : bool
}.

Section Sized.
Variable L : layout.
Variable W : wire.
Variable codes : Status.ntstatus_codes.
(** [dxgglobal->async_msg_enabled] *)
Variable async_msg_enabled : bool.

(** The channel that [init_message] picks for a message, [adapter] telling
    whether an adapter was given. *)
Definition init_message_channel (adapter : bool) : msg_channel :=
  if adapter && negb async_msg_enabled then AdapterChannel else GlobalChannel.

(** [init_message_res] on a message whose [res_size] is [res_size]: the
    return value, [msg->size] and [msg->res_size]. *)
Definition init_message_res (vzalloc_ok : bool) (res_size : Z)
    (size result_size : Z) (tr : list event)
    : list event * Z * (Z * Z) :=
  let size :=
    if use_ext_header L then to_u32 (size + sizeof_ext_header L) else size in
  let msg_size := size in
  let res_size :=
    to_u32 (res_size
            + Z.land (to_u32 (result_size + 7)) (to_u32 (Z.lnot 7))) in
  let size := to_u32 (size + res_size) in
  if vzalloc_ok then (tr, 0, (msg_size, res_size))
  else (tr ++ [EvErr "Failed to allocate VM bus message"], - ENOMEM,
        (msg_size, res_size)).

Definition init_message_res_channel : msg_channel :=
  if async_msg_enabled then GlobalChannel else AdapterChannel.

(** [dxgvmb_send_sync_msg] as its callers see it: the return value and
    whether the result buffer was written. The completion path sets the
    status of the request to [-EOVERFLOW] when the reply is shorter than a
    non-empty result buffer and copies into the buffer otherwise. *)
Definition dxgvmb_send_sync_msg (a : sync_answer) (ch : msg_channel)
    (cmd : command) (cmd_size result_size : Z) (tr : list event)
    : list event * Z * bool :=
  if (cmd_size >? DXG_MAX_VM_BUS_PACKET_SIZE L)
     || (result_size >? DXG_MAX_VM_BUS_PACKET_SIZE L)
  then (tr ++ [EvErr "invalid data size"], - EINVAL, false)
  else if negb (kmem_cache_alloc_ok a)
  then (tr ++ [EvErr "kmem_cache_alloc failed"], - ENOMEM, false)
  else
    let tr := tr ++ [EvSyncMsg ch cmd cmd_size result_size] in
    let ret := vmbus_sendpacket_ret a in
    if negb (ret =? 0)
    then (tr ++ [EvErr "vmbus_sendpacket failed"], ret, false)
    else if result_size =? 0 then (tr, 0, false)
    else if reply_fits a then (tr, 0, true)
    else (tr, - EOVERFLOW, false).

(** [dxgvmb_send_sync_msg_ntstatus]; [status] is what the host answers
    and [uninitialized] what the local [status] holds when the result
    buffer is not written. *)
Definition dxgvmb_send_sync_msg_ntstatus (a : sync_answer)
    (status uninitialized : Z) (ch : msg_channel) (cmd : command)
    (cmd_size : Z) (tr : list event) : list event * Z :=
  let '(tr, ret, written) :=
    dxgvmb_send_sync_msg a ch cmd cmd_size (sizeof_ntstatus W) tr in
  let status := if written then status else uninitialized in
  (tr, if ret >=? 0 then Status.ntstatus2int codes status else ret).

(** *** Processes *)

(** What the environment answers during [dxgvmb_send_create_process]:
    [acquire_channel_lock_ret] is the return value of
    [dxgglobal_acquire_channel_lock], which is defined outside the sources
    at hand; [hprocess] is the handle in the reply of the host. *)
Record create_process_env : Type := {
  cp_vzalloc_ok : bool;
  cp_acquire_channel_lock_ret : Z;
  cp_sync : sync_answer;
  cp_hprocess : Z
}.

(** [dxgvmb_send_create_process]; [host_handle] is [process->host_handle]
    before the call, the third component is its value afterwards. *)
Definition dxgvmb_send_create_process (env : create_process_env)
    (process : nat) (host_handle : Z) (tr : list event)
    : list event * Z * Z :=
  let '(ret, msg_size) :=
    init_message L (cp_vzalloc_ok env) (sizeof_createprocess W) in
  if negb (ret =? 0) then (tr, ret, host_handle)
  else
    let ret := cp_acquire_channel_lock_ret env in
    let tr := tr ++ [EvAcquireChannelLock] in
    if ret <? 0 then (tr, ret, host_handle)
    else
      let '(tr, ret, written) :=
        dxgvmb_send_sync_msg (cp_sync env) GlobalChannel
          (DXGK_VMBCOMMAND_CREATEPROCESS process) msg_size
          (sizeof_createprocess_return W) tr in
      let hprocess := if written then cp_hprocess env else 0 in
      let '(tr, ret, host_handle) :=
        if ret <? 0
        then (tr ++ [EvErr "create_process failed"], ret, host_handle)
        else if hprocess =? 0
        then (tr ++ [EvErr "create_process returned 0 handle"],
              - ENOTRECOVERABLE, host_handle)
        else (tr, ret, hprocess) in
      (tr ++ [EvReleaseChannelLock], ret, host_handle).

Record destroy_env : Type := {
  de_vzalloc_ok : bool;
  de_acquire_channel_lock_ret : Z;
  de_sync : sync_answer;
  de_status : Z;
  de_uninitialized : Z
}.

Definition dxgvmb_send_destroy_process (env : destroy_env) (process : Z)
    (tr : list event) : list event * Z :=
  let '(ret, msg_size) :=
    init_message L (de_vzalloc_ok env) (sizeof_destroyprocess W) in
  if negb (ret =? 0) then (tr, ret)
  else
    let ret := de_acquire_channel_lock_ret env in
    let tr := tr ++ [EvAcquireChannelLock] in
    if ret <? 0 then (tr, ret)
    else
      let '(tr, ret) :=
        dxgvmb_send_sync_msg_ntstatus (de_sync env) (de_status env)
          (de_uninitialized env) GlobalChannel
          (DXGK_VMBCOMMAND_DESTROYPROCESS process) msg_size tr in
      (tr ++ [EvReleaseChannelLock], ret).

(** *** Adapters *)

Record open_adapter_env : Type := {
  oa_vzalloc_ok : bool;
  oa_sync : sync_answer;
  oa_status : Z;
  oa_host_adapter_handle : Z
}.

(** [dxgvmb_send_open_adapter]; [host_handle] is [adapter->host_handle]
    before the call, the third component is its value afterwards. *)
Definition dxgvmb_send_open_adapter (env : open_adapter_env)
    (host_handle : Z) (tr : list event) : list event * Z * Z :=
  let '(ret, msg_size) :=
    init_message L (oa_vzalloc_ok env) (sizeof_openadapter W) in
  if negb (ret =? 0) then (tr, ret, host_handle)
  else
    let '(tr, ret, written) :=
      dxgvmb_send_sync_msg (oa_sync env) (init_message_channel true)
        DXGK_VMBCOMMAND_OPENADAPTER msg_size (sizeof_openadapter_return W)
        tr in
    if ret <? 0 then (tr, ret, host_handle)
    else
      let status := if written then oa_status env else 0 in
      let host_adapter_handle :=
        if written then oa_host_adapter_handle env else 0 in
      (tr, Status.ntstatus2int codes status, host_adapter_handle).

(** *** Devices *)

Record create_device_env : Type := {
  cd_vzalloc_ok : bool;
  cd_sync : sync_answer;
  cd_device : Z
}.

(** [dxgvmb_send_create_device], which returns the handle of the device;
    [host_handle] is [process->host_handle]. *)
Definition dxgvmb_send_create_device (env : create_device_env)
    (host_handle : Z) (tr : list event) : list event * Z :=
  let '(ret, msg_size) :=
    init_message L (cd_vzalloc_ok env) (sizeof_createdevice W) in
  if negb (ret =? 0) then (tr, 0)
  else
    let '(tr, ret, written) :=
      dxgvmb_send_sync_msg (cd_sync env) (init_message_channel true)
        (DXGK_VMBCOMMAND_CREATEDEVICE host_handle) msg_size
        (sizeof_createdevice_return W) tr in
    let device := if written then cd_device env else 0 in
    (tr, if ret <? 0 then 0 else device).

Definition dxgvmb_send_destroy_device (env : destroy_env) (host_handle : Z)
    (h : Z) (tr : list event) : list event * Z :=
  let '(ret, msg_size) :=
    init_message L (de_vzalloc_ok env) (sizeof_destroydevice W) in
  if negb (ret =? 0) then (tr, ret)
  else
    dxgvmb_send_sync_msg_ntstatus (de_sync env) (de_status env)
      (de_uninitialized env) (init_message_channel true)
      (DXGK_VMBCOMMAND_DESTROYDEVICE host_handle h) msg_size tr.

(** *** Contexts *)

Definition dxgvmb_send_destroy_context (env : destroy_env) (host_handle : Z)
    (h : Z) (tr : list event) : list event * Z :=
  let '(ret, msg_size) :=
    init_message L (de_vzalloc_ok env) (sizeof_destroycontext W) in
  if negb (ret =? 0) then (tr, ret)
  else
    dxgvmb_send_sync_msg_ntstatus (de_sync env) (de_status env)
      (de_uninitialized env) (init_message_channel true)
      (DXGK_VMBCOMMAND_DESTROYCONTEXT host_handle h) msg_size tr.

(** The fields of [struct d3dkmt_createcontextvirtual] that the code
    reads. *)
Record d3dkmt_createcontextvirtual : Type := {
  ctx_arg_device : Z;
  ctx_priv_drv_data_size : Z
}.

(** What the environment answers during [dxgvmb_send_create_context]:
    [cc_context] is the handle the host puts into the command buffer that
    comes back as the result, [cc_destroy] answers the compensating
    [dxgvmb_send_destroy_context]. *)
Record create_context_env : Type := {
  cc_vzalloc_ok : bool;
  cc_copy_from_user_ok : bool;
  cc_sync : sync_answer;
  cc_context : Z;
  cc_copy_to_user_ok : bool;
  cc_destroy : destroy_env
}.

(** [dxgvmb_send_create_context], which returns the handle of the
    context. *)
Definition dxgvmb_send_create_context (env : create_context_env)
    (host_handle : Z) (args : d3dkmt_createcontextvirtual)
    (tr : list event) : list event * Z :=
  if ctx_priv_drv_data_size args >? DXG_MAX_VM_BUS_PACKET_SIZE L
  then (tr ++ [EvErr "PrivateDriverDataSize is invalid"], 0)
  else
    let cmd_size :=
      to_u32 (sizeof_createcontextvirtual W + ctx_priv_drv_data_size args
              - 1) in
    let '(ret, msg_size) := init_message L (cc_vzalloc_ok env) cmd_size in
    if negb (ret =? 0) then (tr, 0)
    else if negb (ctx_priv_drv_data_size args =? 0)
            && negb (cc_copy_from_user_ok env)
    then (tr ++ [EvErr "Faled to copy private data"], 0)
    else
      (* Input command is returned back as output *)
      let '(tr, ret, written) :=
        dxgvmb_send_sync_msg (cc_sync env) (init_message_channel true)
          (DXGK_VMBCOMMAND_CREATECONTEXTVIRTUAL host_handle
             (ctx_arg_device args) (ctx_priv_drv_data_size args))
          msg_size cmd_size tr in
      if ret <? 0 then (tr, 0)
      else
        let context := if written then cc_context env else 0 in
        if negb (ctx_priv_drv_data_size args =? 0)
           && negb (cc_copy_to_user_ok env)
        then
          let tr := tr ++ [EvErr "Faled to copy private data to user"] in
          let '(tr, _) :=
            dxgvmb_send_destroy_context (cc_destroy env) host_handle context
              tr in
          (tr, 0)
        else (tr, context).

(** *** Standard allocations *)

(** [struct dxgkvmb_command_getstandardallocprivdata_return] with the
    bytes that follow it in the result region. *)
Record getstandardallocprivdata_return : Type := {
  std_status : Z;
  std_priv_driver_data_size : Z;
  std_priv_driver_resource_size : Z;
  std_data : list Z
}.

(** The in-out arguments of [dxgvmb_send_get_stdalloc_data]: the two
    sizes behind their pointers and the two buffers, [None] for a null
    pointer. *)
Record stdalloc_data : Type := {
  alloc_priv_driver_size : Z;
  priv_alloc_data : option (list Z);
  res_priv_data_size : Z;
  priv_res_data : option (list Z)
}.

Record stdalloc_env : Type := {
  sa_vzalloc_ok : bool;
  sa_sync : sync_answer;
  sa_result : getstandardallocprivdata_return
}.

Definition dxgvmb_send_get_stdalloc_data (env : stdalloc_env)
    (host_handle : Z) (alloctype : d3dkmdt_standardallocationtype)
    (data : stdalloc_data) (tr : list event)
    : list event * Z * stdalloc_data :=
  let result_size := sizeof_getstandardallocprivdata_return W in
  let result_size :=
    match priv_alloc_data data with
    | Some _ => to_u32 (result_size + alloc_priv_driver_size data)
    | None => result_size
    end in
  let result_size :=
    match priv_res_data data with
    | Some _ => to_u32 (result_size + res_priv_data_size data)
    | None => result_size
    end in
  let '(tr, ret, (msg_size, res_size)) :=
    init_message_res (sa_vzalloc_ok env) 0
      (sizeof_getstandardallocprivdata W) result_size tr in
  if negb (ret =? 0) then (tr, ret, data)
  else
    match alloctype with
    | D3DKMDT_STANDARDALLOCATION_GDISURFACE =>
        let '(tr, ret, written) :=
          dxgvmb_send_sync_msg (sa_sync env) init_message_res_channel
            (DXGK_VMBCOMMAND_DDIGETSTANDARDALLOCATIONDRIVERDATA host_handle
               alloctype (alloc_priv_driver_size data)
               (res_priv_data_size data))
            msg_size res_size tr in
        if ret <? 0 then (tr, ret, data)
        else
          let result :=
            if written then sa_result env
            else {| std_status := 0; std_priv_driver_data_size := 0;
                    std_priv_driver_resource_size := 0; std_data := [] |} in
          let ret := Status.ntstatus2int codes (std_status result) in
          if ret <? 0 then (tr, ret, data)
          else if negb (alloc_priv_driver_size data =? 0)
                  && negb (std_priv_driver_data_size result
                           =? alloc_priv_driver_size data)
          then (tr ++ [EvErr "Priv data size mismatch"], ret, data)
          else if negb (res_priv_data_size data =? 0)
                  && negb (std_priv_driver_resource_size result
                           =? res_priv_data_size data)
          then (tr ++ [EvErr "Resource priv data size mismatch"], ret, data)
          else
            (tr, ret,
             {| alloc_priv_driver_size := std_priv_driver_data_size result;
                priv_alloc_data :=
                  (fun dst =>
                     Vmbus.memcpy dst (std_data result)
                       (std_priv_driver_data_size result))
                  <$> priv_alloc_data data;
                res_priv_data_size := std_priv_driver_resource_size result;
                priv_res_data :=
                  (fun dst =>
                     Vmbus.memcpy dst
                       (drop (Z.to_nat (std_priv_driver_data_size result))
                          (std_data result))
                       (std_priv_driver_resource_size result))
                  <$> priv_res_data data |})
    | _ => (tr ++ [EvErr "Invalid standard alloc type"], ret, data)
    end.

End Sized.

(** How often an event occurs in a stretch of the trace. *)
Definition count (e : event) (evs : list event) : nat :=
  length (filter (fun e' => e' = e) evs).

(** The command reaches [vmbus_sendpacket]: both sizes pass the test of
    [dxgvmb_send_sync_msg] against the packet ceiling and the tracking
    packet can be allocated. *)
Definition handed_over (L : layout) (a : sync_answer)
    (cmd_size result_size : Z) : Prop :=
  cmd_size <= DXG_MAX_VM_BUS_PACKET_SIZE L /\
  result_size <= DXG_MAX_VM_BUS_PACKET_SIZE L /\
  kmem_cache_alloc_ok a = true.

(** The exchange goes through: the command is handed over, the transport
    takes it, and the reply fills the result buffer, which is not empty. *)
Definition answered (L : layout) (a : sync_answer)
    (cmd_size result_size : Z) : Prop :=
  handed_over L a cmd_size result_size /\
  vmbus_sendpacket_ret a = 0 /\ reply_fits a = true /\ result_size <> 0.

(** Events that hand a command to the transport. *)
Definition is_sync_msg (e : event) : bool :=
  match e with
  | EvSyncMsg _ _ _ _ => true
  | _ => false
  end.

(** *** Sample inputs *)

Definition sample_wire : wire :=
  {| sizeof_ntstatus := 4; sizeof_createprocess := 560;
     sizeof_createprocess_return := 4; sizeof_destroyprocess := 24;
     sizeof_openadapter := 32; sizeof_openadapter_return := 8;
     sizeof_createdevice := 40; sizeof_createdevice_return := 4;
     sizeof_destroydevice := 28; sizeof_createcontextvirtual := 56;
     sizeof_destroycontext := 28; sizeof_getstandardallocprivdata := 64;
     sizeof_getstandardallocprivdata_return := 12 |}.

Definition answer_ok : sync_answer :=
  {| kmem_cache_alloc_ok := true; vmbus_sendpacket_ret := 0;
     reply_fits := true |}.

Definition destroy_ok : destroy_env :=
  {| de_vzalloc_ok := true; de_acquire_channel_lock_ret := 0;
     de_sync := answer_ok; de_status := 0; de_uninitialized := 0 |}.

(** The host makes the context 300, but the private driver data cannot be
    copied back to the user. *)
Definition context_copy_fails : create_context_env :=
  {| cc_vzalloc_ok := true; cc_copy_from_user_ok := true;
     cc_sync := answer_ok; cc_context := 300; cc_copy_to_user_ok := false;
     cc_destroy := destroy_ok |}.

Definition context_args : d3dkmt_createcontextvirtual :=
  {| ctx_arg_device := 100; ctx_priv_drv_data_size := 32 |}.

(** A caller that asks for eight bytes of private driver data, and a
    host that has them. *)
Definition stdalloc_request : stdalloc_data :=
  {| alloc_priv_driver_size := 8;
     priv_alloc_data := Some [0; 0; 0; 0; 0; 0; 0; 0];
     res_priv_data_size := 0; priv_res_data := None |}.

Definition stdalloc_host : stdalloc_env :=
  {| sa_vzalloc_ok := true; sa_sync := answer_ok;
     sa_result := {| std_status := 0; std_priv_driver_data_size := 8;
                     std_priv_driver_resource_size := 0;
                     std_data := [1; 2; 3; 4; 5; 6; 7; 8] |} |}.

(** A caller that asks for sixteen bytes where the host has eight. *)
Definition stdalloc_request_sixteen : stdalloc_data :=
  {| alloc_priv_driver_size := 16;
     priv_alloc_data := Some (replicate 16 0);
     res_priv_data_size := 0; priv_res_data := None |}.

Definition process_created : create_process_env :=
  {| cp_vzalloc_ok := true; cp_acquire_channel_lock_ret := 0;
     cp_sync := answer_ok; cp_hprocess := 7 |}.

End Rpc.

(** ** misc.c: the debug helpers *)
Module Debug.
Import Misc.

(** What the helpers do to the outside: [pr_err] messages with their
    arguments, [dump_stack], the mutex of the list of thread records, and
    [kfree] of a thread record. *)
Inductive event : Type :=
| EvErr (msg : string) (args : list Z)
| EvDumpStack
| EvMutexLock
| EvMutexUnlock
| EvKfree (info : nat).

(** How a helper ends: it returns, it reaches [DXGKRNL_ASSERT(0)], or it
    uses a null pointer, a freed record or an index outside its array. The
    macro [DXGKRNL_ASSERT] is defined in a header outside the sources at
    hand; the model carries a run up to the first such assertion. *)
Inductive run (A : Type) : Type :=
| Finished (a : A)
| Asserted
| BadAccess.
Arguments Finished {A} a.
Arguments Asserted {A}.
Arguments BadAccess {A}.

(** [struct dxgthreadinfo]; [lock_info] holds the [lock_order] of each
    entry of the array [lock_info[DXGK_MAX_LOCK_DEPTH]]. *)
Record dxgthreadinfo : Type := {
  thread : nat;
  refcount : Z;
  current_lock_index : Z;
  lock_info : list Z;
  lock_held : bool
}.

(** The counters [dxg_memory] of the driver and of each process, the
    thread records by address, and the list [thread_info_list_head]. *)
Record state : Type := {
  dxg_memory : list Z;
  process_dxg_memory : gmap nat (list Z);
  thread_infos : gmap nat dxgthreadinfo;
  thread_info_list : list nat;
  log : list event
}.

Definition add_log (e : event) (st : state) : state :=
  {| dxg_memory := dxg_memory st;
     process_dxg_memory := process_dxg_memory st;
     thread_infos := thread_infos st;
     thread_info_list := thread_info_list st; log := log st ++ [e] |}.

Definition set_thread_infos (m : gmap nat dxgthreadinfo) (st : state)
    : state :=
  {| dxg_memory := dxg_memory st;
     process_dxg_memory := process_dxg_memory st; thread_infos := m;
     thread_info_list := thread_info_list st; log := log st |}.

Definition set_thread_info_list (l : list nat) (st : state) : state :=
  {| dxg_memory := dxg_memory st;
     process_dxg_memory := process_dxg_memory st;
     thread_infos := thread_infos st; thread_info_list := l;
     log := log st |}.

Definition set_refcount (v : Z) (x : dxgthreadinfo) : dxgthreadinfo :=
  {| thread := thread x; refcount := v;
     current_lock_index := current_lock_index x; lock_info := lock_info x;
     lock_held := lock_held x |}.

Definition set_current_lock_index (v : Z) (x : dxgthreadinfo)
    : dxgthreadinfo :=
  {| thread := thread x; refcount := refcount x; current_lock_index := v;
     lock_info := lock_info x; lock_held := lock_held x |}.

Definition set_lock_info (v : list Z) (x : dxgthreadinfo) : dxgthreadinfo :=
  {| thread := thread x; refcount := refcount x;
     current_lock_index := current_lock_index x; lock_info := v;
     lock_held := lock_held x |}.

(** *** Counting allocations *)

(** The array that a call with [process] works on: that of the process
    when one is given, the one of the driver otherwise. *)
Definition counters (process : option nat) (st : state) : option (list Z) :=
  match process with
  | Some p => process_dxg_memory st !! p
  | None => Some (dxg_memory st)
  end.

Definition set_counters (process : option nat) (mem : list Z) (st : state)
    : state :=
  match process with
  | Some p =>
      {| dxg_memory := dxg_memory st;
         process_dxg_memory := <[p := mem]> (process_dxg_memory st);
         thread_infos := thread_infos st;
         thread_info_list := thread_info_list st; log := log st |}
  | None =>
      {| dxg_memory := mem; process_dxg_memory := process_dxg_memory st;
         thread_infos := thread_infos st;
         thread_info_list := thread_info_list st; log := log st |}
  end.

(** [atomic_inc] and [atomic_dec] on the [int] of an [atomic_t] wrap
    around. *)
Definition dxgmem_addalloc (process : option nat) (tag : Z) (st : state)
    : run state :=
  match counters process st with
  | None => BadAccess
  | Some mem =>
      match arr_get mem tag with
      | None => BadAccess
      | Some v =>
          match arr_set mem tag (wrap_int (v + 1)) with
          | None => BadAccess
          | Some mem' => Finished (set_counters process mem' st)
          end
      end
  end.

Definition dxgmem_remalloc (process : option nat) (tag : Z) (st : state)
    : run state :=
  match counters process st with
  | None => BadAccess
  | Some mem =>
      match arr_get mem tag with
      | None => BadAccess
      | Some v =>
          if v =? 0 then
            Finished
              (add_log EvDumpStack
                 (add_log
                    (EvErr (match process with
                            | Some _ => "dxgmem_remalloc process error"
                            | None => "dxgmem_remalloc error"
                            end) [tag]) st))
          else
            match arr_set mem tag (wrap_int (v - 1)) with
            | None => BadAccess
            | Some mem' => Finished (set_counters process mem' st)
            end
      end
  end.

(** The [for] loop of [dxgmem_check] from index [i], with [count] rounds
    to go. *)
Fixpoint dxgmem_check_loop (mem : list Z) (ignore_tag : Z) (i : Z)
    (count : nat) (log : list event) : run (list event) :=
  match count with
  | O => Finished log
  | S count' =>
      match arr_get mem i with
      | None => BadAccess
      | Some v =>
          let log :=
            if negb (i =? ignore_tag) && negb (v =? 0)
            then log ++ [EvErr "memory leak" [i; v]] else log in
          dxgmem_check_loop mem ignore_tag (i + 1) count' log
      end
  end.

Section Sized.
(** The constants of the absent header [dxgkrnl.h]: the number of memory
    tags, the tag of the thread records, and the depth of the lock
    stack. *)
Variable DXGMEM_LAST : Z.
Variable DXGMEM_THREADINFO : Z.
Variable DXGK_MAX_LOCK_DEPTH : Z.

Definition dxgmem_check (process : option nat) (ignore_tag : Z) (st : state)
    : run state :=
  match counters process st with
  | None => BadAccess
  | Some mem =>
      match dxgmem_check_loop mem ignore_tag 0 (Z.to_nat DXGMEM_LAST)
              (log st) with
      | Finished l =>
          Finished
            {| dxg_memory := dxg_memory st;
               process_dxg_memory := process_dxg_memory st;
               thread_infos := thread_infos st;
               thread_info_list := thread_info_list st; log := l |}
      | Asserted => Asserted
      | BadAccess => BadAccess
      end
  end.

(** *** Lock order tracking *)

(** The search loop of [dxglockorder_get_thread]: the first record on the
    list whose thread is [current]; a record that is on the list but no
    longer in memory cannot be read. *)
Fixpoint find_thread (infos : gmap nat dxgthreadinfo) (current : nat)
    (l : list nat) : run (option nat) :=
  match l with
  | [] => Finished None
  | entry :: l' =>
      match infos !! entry with
      | None => BadAccess
      | Some x =>
          if (thread x =? current)%nat then Finished (Some entry)
          else find_thread infos current l'
      end
  end.

(** [dxglockorder_get_thread] for the thread [current]; [kzalloc] is the
    address that [kzalloc] returns, [None] when it fails. The new record
    is zeroed and holds [DXGK_MAX_LOCK_DEPTH] lock entries. *)
Definition dxglockorder_get_thread (current : nat) (kzalloc : option nat)
    (st : state) : run (state * option nat) :=
  let st := add_log EvMutexLock st in
  match find_thread (thread_infos st) current (thread_info_list st) with
  | Finished found =>
      let made :=
        match found with
        | Some info => Finished (st, Some info)
        | None =>
            match kzalloc with
            | None => Finished (st, None)
            | Some info =>
                match dxgmem_addalloc None DXGMEM_THREADINFO st with
                | Finished st =>
                    let x :=
                      {| thread := current; refcount := 0;
                         current_lock_index := 0;
                         lock_info :=
                           replicate (Z.to_nat DXGK_MAX_LOCK_DEPTH) 0;
                         lock_held := false |} in
                    Finished
                      (set_thread_info_list (info :: thread_info_list st)
                         (set_thread_infos (<[info := x]> (thread_infos st))
                            st),
                       Some info)
                | Asserted => Asserted
                | BadAccess => BadAccess
                end
            end
        end in
      match made with
      | Finished (st, Some info) =>
          match thread_infos st !! info with
          | None => BadAccess
          | Some x =>
              Finished
                (add_log EvMutexUnlock
                   (set_thread_infos
                      (<[info := set_refcount (wrap_int (refcount x + 1)) x]>
                         (thread_infos st)) st),
                 Some info)
          end
      | Finished (st, None) => Finished (add_log EvMutexUnlock st, None)
      | Asserted => Asserted
      | BadAccess => BadAccess
      end
  | Asserted => Asserted
  | BadAccess => BadAccess
  end.

(** [list_del] on the list of thread records. *)
Definition list_del (x : nat) (l : list nat) : list nat :=
  filter (fun y => y <> x) l.

Definition dxglockorder_put_thread (info : option nat) (st : state)
    : run state :=
  match info with
  | None => Finished st
  | Some info =>
      match thread_infos st !! info with
      | None => BadAccess
      | Some x =>
          if refcount x <=? 0 then Asserted
          else
            let x := set_refcount (wrap_int (refcount x - 1)) x in
            let st := set_thread_infos (<[info := x]> (thread_infos st)) st in
            if refcount x =? 0 then
              if negb (current_lock_index x =? 0) then
                match arr_get (lock_info x) (current_lock_index x) with
                | None => BadAccess
                | Some _ => Asserted
                end
              else
                let st :=
                  if negb (lock_held x)
                  then add_log EvMutexUnlock
                         (set_thread_info_list
                            (list_del info (thread_info_list st))
                            (add_log EvMutexLock st))
                  else st in
                let st := add_log (EvKfree info)
                            (set_thread_infos (delete info (thread_infos st))
                               st) in
                dxgmem_remalloc None DXGMEM_THREADINFO st
            else Finished st
      end
  end.

Definition dxglockorder_acquire (current : nat) (kzalloc : option nat)
    (order : Z) (st : state) : run state :=
  match dxglockorder_get_thread current kzalloc st with
  | Finished (st, Some info) =>
      match thread_infos st !! info with
      | None => BadAccess
      | Some x =>
          let index := current_lock_index x in
          if index =? DXGK_MAX_LOCK_DEPTH then Asserted
          else
            let checked :=
              if negb (index =? 0) then
                match arr_get (lock_info x) (index - 1) with
                | None => BadAccess
                | Some lock_order =>
                    if lock_order <=? order then Asserted else Finished tt
                end
              else Finished tt in
            match checked with
            | Finished _ =>
                match arr_set (lock_info x) index order with
                | None => BadAccess
                | Some l =>
                    let x := set_current_lock_index (wrap_int (index + 1))
                               (set_lock_info l x) in
                    dxglockorder_put_thread (Some info)
                      (set_thread_infos (<[info := x]> (thread_infos st)) st)
                end
            | Asserted => Asserted
            | BadAccess => BadAccess
            end
      end
  | Finished (_, None) => BadAccess
  | Asserted => Asserted
  | BadAccess => BadAccess
  end.

(** The [for] loop of [dxglockorder_release] from index [i] downwards,
    with [count] rounds to go: the index at which the loop leaves, -1 when
    no entry has the order. *)
Fixpoint find_lock_order (l : list Z) (order : Z) (i : Z) (count : nat)
    : run Z :=
  if i <? 0 then Finished i
  else
    match count with
    | O => Finished i
    | S count' =>
        match arr_get l i with
        | None => BadAccess
        | Some lock_order =>
            if lock_order =? order then Finished i
            else find_lock_order l order (i - 1) count'
        end
    end.

(** [memmove(&a[dst], &a[src], n * sizeof(a[0]))] *)
Definition memmove (a : list Z) (dst src n : Z) : option (list Z) :=
  if n =? 0 then Some a
  else if (0 <=? dst) && (0 <=? src) && (0 <=? n)
          && (src + n <=? Z.of_nat (length a))
          && (dst + n <=? Z.of_nat (length a))
  then Some (take (Z.to_nat dst) a
             ++ take (Z.to_nat n) (drop (Z.to_nat src) a)
             ++ drop (Z.to_nat (dst + n)) a)
  else None.

Definition dxglockorder_release (current : nat) (kzalloc : option nat)
    (order : Z) (st : state) : run state :=
  match dxglockorder_get_thread current kzalloc st with
  | Finished (st, Some info) =>
      match thread_infos st !! info with
      | None => BadAccess
      | Some x =>
          let index := wrap_int (current_lock_index x - 1) in
          if index <? 0 then Asserted
          else
            match find_lock_order (lock_info x) order index
                    (S (Z.to_nat index)) with
            | Finished i =>
                if i <? 0 then Asserted
                else
                  match memmove (lock_info x) i index (index - i) with
                  | None => BadAccess
                  | Some l =>
                      match arr_set l index 0 with
                      | None => BadAccess
                      | Some l =>
                          let x := set_lock_info l
                                     (set_current_lock_index index x) in
                          dxglockorder_put_thread (Some info)
                            (set_thread_infos
                               (<[info := x]> (thread_infos st)) st)
                      end
                  end
            | Asserted => Asserted
            | BadAccess => BadAccess
            end
      end
  | Finished (_, None) => BadAccess
  | Asserted => Asserted
  | BadAccess => BadAccess
  end.

End Sized.

(** One call of [dxgmem_addalloc] or [dxgmem_remalloc]. *)
Inductive mem_op : Type :=
| MemAdd (tag : Z)
| MemRem (tag : Z).

Definition mem_step (process : option nat) (r : run state) (op : mem_op)
    : run state :=
  match r with
  | Finished st =>
      match op with
      | MemAdd tag => dxgmem_addalloc process tag st
      | MemRem tag => dxgmem_remalloc process tag st
      end
  | stopped => stopped
  end.

Definition mem_run (process : option nat) (ops : list mem_op) (st : state)
    : run state :=
  foldl (mem_step process) (Finished st) ops.

(** The number of allocations with [tag] that a sequence of calls leaves
    alive, and whether no prefix of it frees more than was allocated. *)
Fixpoint live (tag : Z) (ops : list mem_op) : Z :=
  match ops with
  | [] => 0
  | MemAdd t :: ops' => (if t =? tag then 1 else 0) + live tag ops'
  | MemRem t :: ops' => live tag ops' - (if t =? tag then 1 else 0)
  end.

Definition balanced (ops : list mem_op) : Prop :=
  forall k tag, 0 <= live tag (take k ops).

(** The messages of [dxgmem_check] for the counters [mem], whose first
    element has index [i]. *)
Fixpoint leaks (ignore_tag : Z) (i : Z) (mem : list Z) : list event :=
  match mem with
  | [] => []
  | v :: mem' =>
      (if negb (i =? ignore_tag) && negb (v =? 0)
       then [EvErr "memory leak" [i; v]] else [])
      ++ leaks ignore_tag (i + 1) mem'
  end.

(** A driver with three memory tags and no allocation, no process and no
    thread record; a run of three calls on the tag 1. *)
Definition idle : state :=
  {| dxg_memory := [0; 0; 0]; process_dxg_memory := ∅; thread_infos := ∅;
     thread_info_list := []; log := [] |}.

Definition two_in_one_out : list mem_op := [MemAdd 1; MemAdd 1; MemRem 1].

(** The thread 7 with its record at the address 3: one reference and, in
    a stack of four entries, the lock of order 5. *)
Definition worker : dxgthreadinfo :=
  {| thread := 7; refcount := 1; current_lock_index := 1;
     lock_info := [5; 0; 0; 0]; lock_held := false |}.

Definition tracking : state :=
  {| dxg_memory := [0; 1; 0]; process_dxg_memory := ∅;
     thread_infos := {[3%nat := worker]}; thread_info_list := [3%nat];
     log := [] |}.

(** The same thread with the locks of the orders 5, 4 and 3, in a stack of
    six entries. *)
Definition nested_worker : dxgthreadinfo :=
  {| thread := 7; refcount := 1; current_lock_index := 3;
     lock_info := [5; 4; 3; 0; 0; 0]; lock_held := false |}.

Definition nested_tracking : state :=
  {| dxg_memory := [0; 1; 0]; process_dxg_memory := ∅;
     thread_infos := {[3%nat := nested_worker]}; thread_info_list := [3%nat];
     log := [] |}.

(** The part of the lock stack of a thread record that is in use, and the
    part above it. *)
Definition held (x : dxgthreadinfo) : list Z :=
  take (Z.to_nat (current_lock_index x)) (lock_info x).

Definition spare (x : dxgthreadinfo) : list Z :=
  drop (Z.to_nat (current_lock_index x)) (lock_info x).

End Debug.

(** * Properties *)

(** ** Machine integer facts *)

Lemma wrap_int_small x : - 2 ^ 31 <= x < 2 ^ 31 -> wrap_int x = x.
Proof. unfold wrap_int. intros H. rewrite Z.mod_small; lia. Qed.

Lemma wrap_int_max : wrap_int (2 ^ 31) = - 2 ^ 31.
Proof. reflexivity. Qed.

Lemma wrap_int_pred_min : wrap_int (- 2 ^ 31 - 1) = 2 ^ 31 - 1.
Proof. reflexivity. Qed.

Lemma to_size_t_small x : 0 <= x < 2 ^ 64 -> to_size_t x = x.
Proof. unfold to_size_t, to_u64. intros H. rewrite Z.mod_small; lia. Qed.

Lemma to_size_t_int_min : to_size_t (- 2 ^ 31) = 2 ^ 64 - 2 ^ 31.
Proof. reflexivity. Qed.

(** ** misc.c: [wcsncpy] *)
Module MiscSpec.
Import Misc.

Lemma arr_get_nat (a : list Z) (i : nat) : arr_get a (Z.of_nat i) = a !! i.
Proof.
  unfold arr_get. destruct (Z.ltb_spec (Z.of_nat i) 0); [lia|].
  by rewrite Nat2Z.id.
Qed.

Lemma arr_set_nat (a : list Z) (i : nat) v :
  (i < length a)%nat -> arr_set a (Z.of_nat i) v = Some (<[i := v]> a).
Proof.
  intros H. unfold arr_set.
  destruct (Z.leb_spec 0 (Z.of_nat i)); [|lia].
  destruct (Z.ltb_spec (Z.of_nat i) (Z.of_nat (length a))); [|lia].
  by rewrite Nat2Z.id.
Qed.

Lemma copied_length dest src i :
  (i <= length src)%nat -> (i <= length dest)%nat ->
  length (copied dest src i) = length dest.
Proof.
  intros Hs Hd. unfold copied.
  rewrite length_app, length_take, length_drop. lia.
Qed.

(** Storing [src[i]] at index [i] extends the copied prefix by one. *)
Lemma copied_step dest src i c :
  src !! i = Some c -> (i < length dest)%nat ->
  <[i := c]> (copied dest src i) = copied dest src (S i).
Proof.
  intros Hc Hd. unfold copied.
  assert (Hi : (i < length src)%nat) by (eapply lookup_lt_Some; eauto).
  assert (Hl : length (take i src) = i) by (rewrite length_take; lia).
  rewrite insert_app_r_alt by lia. rewrite Hl, Nat.sub_diag.
  destruct (drop i dest) as [|d rest] eqn:Hdrop.
  { apply (f_equal length) in Hdrop. rewrite length_drop in Hdrop.
    simpl in Hdrop. lia. }
  simpl. rewrite (take_S_r _ _ c) by done.
  rewrite <- app_assoc. simpl. do 2 f_equal.
  assert (Hr : drop (S i) dest = drop 1 (drop i dest))
    by (rewrite drop_drop; f_equal; lia).
  rewrite Hr, Hdrop. reflexivity.
Qed.

(** Overwriting the last copied element with the null it already holds. *)
Lemma copied_insert_same dest src k :
  src !! k = Some 0 -> (k < length dest)%nat ->
  <[k := 0]> (copied dest src (S k)) = copied dest src (S k).
Proof.
  intros Hk Hd. apply list_insert_id. unfold copied.
  assert (Hi : (k < length src)%nat) by (eapply lookup_lt_Some; eauto).
  rewrite lookup_app_l by (rewrite length_take; lia).
  rewrite lookup_take_lt by lia. done.
Qed.

(** Overwriting the last copied element with a null. *)
Lemma copied_terminate dest src n :
  (n <= length src)%nat -> (n <= length dest)%nat -> (0 < n)%nat ->
  <[(n - 1)%nat := 0]> (copied dest src n) =
  take (n - 1) src ++ 0 :: drop n dest.
Proof.
  intros Hs Hd Hn. unfold copied.
  destruct n as [|m]; [lia|]. replace (S m - 1)%nat with m by lia.
  destruct (lookup_lt_is_Some_2 src m) as [c Hc]; [lia|].
  rewrite (take_S_r _ _ c) by done.
  rewrite <- app_assoc. simpl.
  rewrite insert_app_r_alt by (rewrite length_take; lia).
  rewrite length_take. replace (m - m `min` length src)%nat with O by lia.
  reflexivity.
Qed.

Lemma find_null_Some s k :
  find_null s = Some k ->
  s !! k = Some 0 /\ forall j c, (j < k)%nat -> s !! j = Some c -> c <> 0.
Proof.
  revert k. induction s as [|c s IH]; intros k H; simpl in H; [done|].
  destruct (Z.eqb_spec c 0) as [->|Hc].
  - injection H as <-. split; [done|]. intros j c' Hj. lia.
  - destruct (find_null s) as [k'|] eqn:Hf; simpl in H; [|done].
    injection H as <-. destruct (IH k' eq_refl) as [H0 Hlt].
    split; [done|]. intros [|j] c' Hj Hl; simpl in Hl.
    + congruence.
    + eapply Hlt; [|done]. lia.
Qed.

Lemma find_null_None s :
  find_null s = None -> forall j c, s !! j = Some c -> c <> 0.
Proof.
  induction s as [|c s IH]; intros H j c' Hl; simpl in H; [done|].
  destruct (Z.eqb_spec c 0) as [->|Hc]; [done|].
  destruct (find_null s) eqn:Hf; simpl in H; [done|].
  destruct j as [|j]; simpl in Hl; [congruence|]. by eapply IH.
Qed.

(** The loop, started at [i <= k] on a source whose first null is at [k],
    finishes at [k + 1] having copied [src[0..k]]. *)
Lemma wcsncpy_loop_null dest src n k :
  src !! k = Some 0 ->
  (forall j c, (j < k)%nat -> src !! j = Some c -> c <> 0) ->
  Z.of_nat k < n -> n <= 2 ^ 31 -> (k < length dest)%nat ->
  forall d i fuel, (i + d = k)%nat -> (d < fuel)%nat ->
  wcsncpy_loop fuel src n (Z.of_nat i) (copied dest src i) =
  Done (wrap_int (Z.of_nat k + 1), copied dest src (S k)).
Proof.
  intros Hk Hnz Hkn Hn Hd. induction d as [|d IH]; intros i fuel Hi Hf.
  - assert (i = k) by lia. subst i.
    destruct fuel as [|fuel]; [lia|]. simpl.
    rewrite to_size_t_small by lia.
    destruct (Z.ltb_spec (Z.of_nat k) n); [|lia].
    rewrite arr_get_nat, Hk.
    rewrite arr_set_nat by (rewrite copied_length; [lia| |lia];
      apply Nat.lt_le_incl; eapply lookup_lt_Some; eauto).
    rewrite copied_step by done. reflexivity.
  - destruct fuel as [|fuel]; [lia|]. simpl.
    rewrite to_size_t_small by lia.
    destruct (Z.ltb_spec (Z.of_nat i) n); [|lia].
    rewrite arr_get_nat.
    assert (Hik : (i < k)%nat) by lia.
    assert (Hlen : (k < length src)%nat) by (eapply lookup_lt_Some; eauto).
    destruct (lookup_lt_is_Some_2 src i) as [c Hc]; [lia|].
    rewrite Hc.
    rewrite arr_set_nat by (rewrite copied_length; lia).
    rewrite (copied_step _ _ _ _ Hc) by lia.
    destruct (Z.eqb_spec c 0) as [->|Hc0].
    { exfalso. by eapply (Hnz i 0). }
    rewrite wrap_int_small by lia.
    replace (Z.of_nat i + 1) with (Z.of_nat (S i)) by lia.
    apply IH; lia.
Qed.

(** The loop on a source with no null among its first [n] elements runs to
    [i = n] (as an [int]) having copied [n] elements. *)
Lemma wcsncpy_loop_full dest src (n : nat) :
  (forall j c, (j < n)%nat -> src !! j = Some c -> c <> 0) ->
  (n <= length src)%nat -> (n <= length dest)%nat ->
  Z.of_nat n <= 2 ^ 31 ->
  forall d i fuel, (i + d = n)%nat -> (d < fuel)%nat ->
  wcsncpy_loop fuel src (Z.of_nat n) (wrap_int (Z.of_nat i))
    (copied dest src i) =
  Done (wrap_int (Z.of_nat n), copied dest src n).
Proof.
  intros Hnz Hs Hd Hn. induction d as [|d IH]; intros i fuel Hi Hf.
  - assert (i = n) by lia. subst i.
    destruct fuel as [|fuel]; [lia|]. simpl.
    destruct (Z.eq_dec (Z.of_nat n) (2 ^ 31)) as [He|He].
    + rewrite He, wrap_int_max, to_size_t_int_min. reflexivity.
    + rewrite wrap_int_small by lia. rewrite to_size_t_small by lia.
      rewrite Z.ltb_irrefl. reflexivity.
  - destruct fuel as [|fuel]; [lia|]. simpl.
    rewrite wrap_int_small by lia.
    rewrite to_size_t_small by lia.
    destruct (Z.ltb_spec (Z.of_nat i) (Z.of_nat n)); [|lia].
    rewrite arr_get_nat.
    destruct (lookup_lt_is_Some_2 src i) as [c Hc]; [lia|].
    rewrite Hc.
    rewrite arr_set_nat by (rewrite copied_length; lia).
    rewrite (copied_step _ _ _ _ Hc) by lia.
    destruct (Z.eqb_spec c 0) as [->|Hc0].
    { exfalso. eapply (Hnz i 0); [lia|done|done]. }
    replace (Z.of_nat i + 1) with (Z.of_nat (S i)) by lia.
    apply IH; lia.
Qed.

(** The loop model never runs out of iterations: every iteration that
    continues has read [src[i]] at a fresh index [i] inside [src]. *)
Lemma wcsncpy_loop_fuel src n :
  forall fuel i dest,
  - 2 ^ 31 <= i < 2 ^ 31 ->
  (i < 0 \/ Z.of_nat (length src) - i < Z.of_nat fuel) ->
  (0 < fuel)%nat ->
  wcsncpy_loop fuel src n i dest <> OutOfFuel.
Proof.
  induction fuel as [|fuel IH]; intros i dest Hr Hi Hf; [lia|]. simpl.
  destruct (to_size_t i <? n); [|done].
  unfold arr_get. destruct (Z.ltb_spec i 0) as [Hneg|Hpos]; [done|].
  destruct (src !! Z.to_nat i) as [c|] eqn:Hc; [|done].
  destruct (arr_set dest i c) as [dest'|]; [|done].
  destruct (c =? 0); [done|].
  assert (Hlt : (Z.to_nat i < length src)%nat) by (eapply lookup_lt_Some; eauto).
  destruct (Z.eq_dec (i + 1) (2 ^ 31)) as [He|He].
  - rewrite He, wrap_int_max. apply IH; lia.
  - rewrite wrap_int_small by lia. apply IH; lia.
Qed.

Lemma wcsncpy_total dest src n : wcsncpy dest src n <> OutOfFuel.
Proof.
  unfold wcsncpy.
  pose proof (wcsncpy_loop_fuel src n (S (S (length src))) 0 dest
                ltac:(lia) ltac:(lia) ltac:(lia)) as H.
  destruct (wcsncpy_loop _ src n 0 dest) as [[i d]| |]; [|done|done].
  destruct (arr_set d _ 0); done.
Qed.

(** Within the range of the [int] loop counter the copy is as a caller
    expects it. For every destination [dest] with room for [n >= 1]
    elements and
    every source readable up to its first null or up to [n] elements,
    [wcsncpy dest src n] returns a destination that holds a null among its
    first [n] elements: when the source has a null among its first [n]
    elements, at index [k], the destination equals the source up to and
    including index [k]; otherwise it holds the first [n - 1] source
    elements followed by a null at index [n - 1]. The elements behind are
    left as they were. *)
Lemma wcsncpy_null_terminated (dest src : list Z) (n : Z) :
  1 <= n <= 2 ^ 31 ->
  n <= Z.of_nat (length dest) ->
  is_Some (find_null (take (Z.to_nat n) src)) \/ n <= Z.of_nat (length src) ->
  exists d,
    wcsncpy dest src n = Done d /\
    length d = length dest /\
    (exists j, (j < Z.to_nat n)%nat /\ d !! j = Some 0) /\
    match find_null (take (Z.to_nat n) src) with
    | Some k =>
        take (S k) d = take (S k) src /\ d !! k = Some 0 /\
        drop (S k) d = drop (S k) dest
    | None =>
        take (Z.to_nat n - 1) d = take (Z.to_nat n - 1) src /\
        d !! (Z.to_nat n - 1)%nat = Some 0 /\
        drop (Z.to_nat n) d = drop (Z.to_nat n) dest
    end.
Proof.
  intros Hn Hd Hsrc.
  set (m := Z.to_nat n) in *. assert (Hm : n = Z.of_nat m) by lia.
  assert (Hmd : (m <= length dest)%nat) by lia.
  destruct (find_null (take m src)) as [k|] eqn:Hf.
  - destruct (find_null_Some _ _ Hf) as [Hk Hnz].
    assert (Hkm : (k < m)%nat).
    { apply lookup_lt_Some in Hk. rewrite length_take in Hk. lia. }
    assert (Hks : src !! k = Some 0) by (by rewrite lookup_take_lt in Hk).
    assert (Hkl : (k < length src)%nat) by (eapply lookup_lt_Some; eauto).
    assert (Hnz' : forall j c, (j < k)%nat -> src !! j = Some c -> c <> 0).
    { intros j c Hj Hc. apply (Hnz j c Hj). rewrite lookup_take_lt by lia. done. }
    exists (copied dest src (S k)).
    assert (Hrun : wcsncpy dest src n = Done (copied dest src (S k))).
    { unfold wcsncpy.
      change 0 with (Z.of_nat 0) at 1.
      replace dest with (copied dest src 0) at 1 by reflexivity.
      rewrite (wcsncpy_loop_null dest src n k Hks Hnz' ltac:(lia) ltac:(lia)
                 ltac:(lia) k 0%nat) by lia.
      replace (wrap_int (wrap_int (Z.of_nat k + 1) - 1)) with (Z.of_nat k).
      2:{ destruct (Z.eq_dec (Z.of_nat k + 1) (2 ^ 31)) as [He|He].
          - rewrite He, wrap_int_max, wrap_int_pred_min. lia.
          - rewrite (wrap_int_small (Z.of_nat k + 1)) by lia.
            rewrite wrap_int_small by lia. lia. }
      rewrite arr_set_nat by (rewrite copied_length; lia).
      rewrite copied_insert_same by (done || lia). reflexivity. }
    split; [done|]. split; [apply copied_length; lia|].
    assert (Hdk : copied dest src (S k) !! k = Some 0).
    { unfold copied. rewrite lookup_app_l by (rewrite length_take; lia).
      rewrite lookup_take_lt by lia. done. }
    split; [exists k; split; [lia|done]|].
    split; [|split; [done|]].
    + unfold copied. rewrite take_app_length'; [done|]. rewrite length_take. lia.
    + unfold copied. rewrite drop_app_length'; [done|]. rewrite length_take. lia.
  - destruct Hsrc as [[? ?]|Hls]; [done|].
    assert (Hms : (m <= length src)%nat) by lia.
    assert (Hnz : forall j c, (j < m)%nat -> src !! j = Some c -> c <> 0).
    { intros j c Hj Hc. apply (find_null_None _ Hf j c).
      rewrite lookup_take_lt by lia. done. }
    exists (take (m - 1) src ++ 0 :: drop m dest).
    assert (Hrun : wcsncpy dest src n =
                   Done (take (m - 1) src ++ 0 :: drop m dest)).
    { unfold wcsncpy. rewrite Hm.
      replace 0 with (wrap_int (Z.of_nat 0)) at 1 by reflexivity.
      replace dest with (copied dest src 0) at 1 by reflexivity.
      rewrite (wcsncpy_loop_full dest src m Hnz Hms Hmd ltac:(lia) m 0%nat) by lia.
      replace (wrap_int (wrap_int (Z.of_nat m) - 1)) with (Z.of_nat (m - 1)).
      2:{ destruct (Z.eq_dec (Z.of_nat m) (2 ^ 31)) as [He|He].
          - rewrite He, wrap_int_max, wrap_int_pred_min. lia.
          - rewrite (wrap_int_small (Z.of_nat m)) by lia.
            rewrite wrap_int_small by lia. lia. }
      rewrite arr_set_nat by (rewrite copied_length; lia).
      rewrite copied_terminate by lia. reflexivity. }
    assert (Hlt : length (take (m - 1) src) = (m - 1)%nat)
      by (rewrite length_take; lia).
    split; [done|]. split.
    { rewrite length_app, Hlt. simpl. rewrite length_drop. lia. }
    assert (Hz : (take (m - 1) src ++ 0 :: drop m dest) !! (m - 1)%nat = Some 0).
    { rewrite lookup_app_r by lia. rewrite Hlt, Nat.sub_diag. done. }
    split; [exists (m - 1)%nat; split; [lia|done]|].
    split; [|split; [done|]].
    + rewrite take_app_length'; done.
    + rewrite drop_app_ge by lia. rewrite Hlt.
      replace (m - (m - 1))%nat with 1%nat by lia. reflexivity.
Qed.

(** One run on a four-element buffer, with the null inside the count. *)
Lemma wcsncpy_null_terminated_witness :
  1 <= 3 <= 2 ^ 31 /\
  exists d, wcsncpy [7; 7; 7; 7] [65; 0; 66; 67] 3 = Done d /\
    length d = 4%nat /\
    (exists j, (j < 3)%nat /\ d !! j = Some 0) /\
    take 2 d = [65; 0] /\ d !! 1%nat = Some 0 /\ drop 2 d = [7; 7].
Proof.
  split; [lia|].
  apply (wcsncpy_null_terminated [7; 7; 7; 7] [65; 0; 66; 67] 3).
  - lia.
  - simpl. lia.
  - left. simpl. eauto.
Defined.






End MiscSpec.

(** ** dxgvmbus.c: [ntstatus2int] *)
Module StatusSpec.
Import Status.

Lemma switch_hit cases default label result :
  NoDup cases.*1 -> (label, result) ∈ cases ->
  switch cases default label = result.
Proof.
  induction cases as [|[l r] cases IH]; intros Hnd Hin; simpl.
  - by apply elem_of_nil in Hin.
  - simpl in Hnd. apply NoDup_cons in Hnd as [Hl Hnd].
    apply elem_of_cons in Hin as [Heq|Hin].
    + injection Heq as -> ->. by rewrite Z.eqb_refl.
    + destruct (Z.eqb_spec label l) as [->|Hne]; [|by apply IH].
      exfalso. apply Hl. apply list_elem_of_fmap. by exists (l, result).
Qed.

Lemma switch_miss cases default v :
  v ∉ cases.*1 -> switch cases default v = default.
Proof.
  induction cases as [|[l r] cases IH]; intros Hv; simpl; [done|].
  simpl in Hv. apply not_elem_of_cons in Hv as [Hne Hv].
  destruct (Z.eqb_spec v l); [done|]. by apply IH.
Qed.

Lemma status_code_case c s :
  (status_code c s, - errno_of_kind (spec_table s)) ∈ ntstatus_cases c.
Proof.
  unfold ntstatus_cases. destruct s; simpl;
    repeat first [apply list_elem_of_here | apply list_elem_of_further].
Qed.

(** The table of [ntstatus2int], for any values of the status constants:
    every non-negative (success) status is returned unchanged, so a row
    whose constant is not negative is never reached; every host status
    named by the table whose constant is negative is mapped to the negated
    error number of the kind the table gives for it (name-collision to
    AlreadyExists, ..., type-mismatch to TypeMismatch); every other failure
    status is mapped to InvalidArgument; distinct kinds are reported by
    distinct error numbers. *)
Lemma ntstatus2int_table (c : ntstatus_codes) :
  codes_wf c ->
  (forall v, 0 <= v -> ntstatus2int c v = v) /\
  (forall s, status_code c s < 0 ->
     ntstatus2int c (status_code c s) = - errno_of_kind (spec_table s)) /\
  (forall v, v < 0 -> (forall s, v <> status_code c s) ->
     ntstatus2int c v = - errno_of_kind InvalidArgument) /\
  (forall k1 k2, errno_of_kind k1 = errno_of_kind k2 -> k1 = k2).
Proof.
  intros Hwf. repeat split.
  - intros v Hv. unfold ntstatus2int, NT_SUCCESS.
    by destruct (Z.leb_spec 0 v); [|lia].
  - intros s Hneg. unfold ntstatus2int, NT_SUCCESS.
    destruct (Z.leb_spec 0 (status_code c s)); [lia|].
    apply switch_hit; [apply Hwf | apply status_code_case].
  - intros v Hv Hother. unfold ntstatus2int, NT_SUCCESS.
    destruct (Z.leb_spec 0 v); [lia|].
    apply switch_miss. intros Hin.
    apply list_elem_of_fmap in Hin as [[l r] [-> Hin]]. simpl in Hother.
    unfold ntstatus_cases in Hin.
    repeat (apply elem_of_cons in Hin as [Heq|Hin];
            [injection Heq as -> _|]).
    + by apply (Hother name_collision).
    + by apply (Hother no_memory).
    + by apply (Hother invalid_parameter).
    + by apply (Hother name_invalid).
    + by apply (Hother name_not_found).
    + by apply (Hother timeout).
    + by apply (Hother buffer_too_small).
    + by apply (Hother device_removed).
    + by apply (Hother access_denied).
    + by apply (Hother not_supported).
    + by apply (Hother illegal_instruction).
    + by apply (Hother invalid_handle).
    + by apply (Hother allocation_busy).
    + by apply (Hother type_mismatch).
    + by apply (Hother not_implemented).
    + by apply elem_of_nil in Hin.
  - intros k1 k2. destruct k1, k2; simpl; first [done | discriminate].
Qed.

Lemma windows_codes_wf : codes_wf windows_codes.
Proof.
  refine (bool_decide_unpack (NoDup (ntstatus_cases windows_codes).*1) _).
  vm_compute. exact I.
Qed.

(** The rows of the table on the Windows values of the constants: every
    named status but the timeout is an error status and is translated as
    the table says. *)
Lemma ntstatus2int_table_windows (s : host_status) :
  s <> timeout ->
  ntstatus2int windows_codes (status_code windows_codes s)
  = - errno_of_kind (spec_table s).
Proof.
  intros Hs.
  apply (proj1 (proj2 (ntstatus2int_table windows_codes windows_codes_wf))).
  destruct s; try done.
Qed.

(** C7. The translation on the Windows values of the constants, at the
    timeout status. The table gives timeout as WouldBlock, and the
    [switch] of [ntstatus2int] has the case for it. But [STATUS_TIMEOUT]
    is [0x00000102], which is not negative: the test [NT_SUCCESS] at the
    head of the function takes it for a success and returns it unchanged,
    as 258, so that the case that returns [-EAGAIN] is never reached. *)
Theorem timeout_returned_as_success :
  status_code windows_codes timeout = 0x00000102 /\
  spec_table timeout = WouldBlock /\
  (STATUS_TIMEOUT windows_codes, - EAGAIN) ∈ ntstatus_cases windows_codes /\
  NT_SUCCESS (status_code windows_codes timeout) = true /\
  ntstatus2int windows_codes (status_code windows_codes timeout) = 258 /\
  ntstatus2int windows_codes (status_code windows_codes timeout)
  <> - errno_of_kind (spec_table timeout).
Proof.
  split; [reflexivity|]. split; [reflexivity|].
  split; [apply (status_code_case windows_codes timeout)|].
  split; [reflexivity|]. split; [reflexivity|]. discriminate.
Qed.

End StatusSpec.

(** ** dxgvmbus.c: the asynchronous sender *)
Module AsyncSpec.
Import Vmbus.

Section Retry.
Variable vmbus_sendpacket : nat -> Z.
Variable cmd_size : Z.

(** While the ring stays full the loop keeps sending until [try_count]
    reaches 5000. *)
Lemma send_async_loop_full :
  (forall k, vmbus_sendpacket k = - EAGAIN) ->
  forall d fuel calls try_count evs,
  try_count + Z.of_nat (S d) = 5000 -> 0 <= try_count -> (d < fuel)%nat ->
  send_async_loop fuel vmbus_sendpacket cmd_size calls try_count evs =
  Done (- EAGAIN, evs ++ retry_events cmd_size (S d)).
Proof.
  intros Hfull. induction d as [|d IH]; intros fuel calls t evs Ht H0 Hf;
    (destruct fuel as [|fuel]; [lia|]); cbn [send_async_loop];
    rewrite Hfull, Z.eqb_refl, wrap_int_small by lia; cbn [andb].
  - destruct (Z.ltb_spec (t + 1) 5000); [lia|].
    cbn [retry_events]. by rewrite <- app_assoc.
  - destruct (Z.ltb_spec (t + 1) 5000); [|lia].
    rewrite IH by lia. cbn [retry_events].
    rewrite <- !app_assoc. reflexivity.
Qed.

(** The first result other than [-EAGAIN] ends the loop at once. *)
Lemma send_async_loop_stop r :
  r <> - EAGAIN ->
  forall k fuel calls try_count evs,
  (forall j, (j < k)%nat -> vmbus_sendpacket (calls + j)%nat = - EAGAIN) ->
  vmbus_sendpacket (calls + k)%nat = r ->
  0 <= try_count -> try_count + Z.of_nat k < 5000 -> (k < fuel)%nat ->
  send_async_loop fuel vmbus_sendpacket cmd_size calls try_count evs =
  Done (r, evs ++ retry_events cmd_size k ++ [EvSendPacket cmd_size 0 false]).
Proof.
  intros Hr. induction k as [|k IH]; intros fuel calls t evs Hpre Hk H0 Ht Hf;
    (destruct fuel as [|fuel]; [lia|]); cbn [send_async_loop].
  - rewrite Nat.add_0_r in Hk. rewrite Hk.
    destruct (Z.eqb_spec r (- EAGAIN)); [done|]. reflexivity.
  - pose proof (Hpre O ltac:(lia)) as H1. rewrite Nat.add_0_r in H1.
    rewrite H1, Z.eqb_refl, wrap_int_small by lia. cbn [andb].
    destruct (Z.ltb_spec (t + 1) 5000); [|lia].
    rewrite IH; try lia.
    + cbn [retry_events]. rewrite <- !app_assoc. reflexivity.
    + intros j Hj. replace (S calls + j)%nat with (calls + S j)%nat by lia.
      apply Hpre. lia.
    + by replace (S calls + k)%nat with (calls + S k)%nat by lia.
Qed.

(** The loop model has iterations to spare: 5000 are enough whatever the
    transport answers. *)
Lemma send_async_loop_fuel :
  forall fuel calls try_count evs,
  0 <= try_count -> 5000 - try_count <= Z.of_nat fuel -> try_count < 5000 ->
  send_async_loop fuel vmbus_sendpacket cmd_size calls try_count evs
  <> OutOfFuel.
Proof.
  induction fuel as [|fuel IH]; intros calls t evs H0 Hf Ht; [lia|].
  cbn [send_async_loop].
  destruct (vmbus_sendpacket calls =? - EAGAIN); cbn [andb]; [|done].
  rewrite wrap_int_small by lia.
  destruct (Z.ltb_spec (t + 1) 5000); [|done].
  apply IH; lia.
Qed.

End Retry.

Lemma retry_events_sends cmd_size k :
  length (filter is_send (retry_events cmd_size k)) = k /\
  length (filter is_sleep (retry_events cmd_size k)) = k.
Proof.
  induction k as [|k [IH1 IH2]]; [done|]. cbn [retry_events].
  rewrite !filter_cons. simpl. rewrite IH1, IH2. done.
Qed.

(** C8. On the global channel, with a command within the packet size: if the
    transport answers ring-full ([-EAGAIN]) to every attempt, the sender
    makes 5000 attempts, sleeping 1000 to 2000 microseconds after each, and
    returns [-EAGAIN]; if the first answer other than ring-full comes at
    attempt [k < 5000], the sender stops there and returns that answer,
    having slept [k] times. Either way the call returns. *)
Theorem send_async_retry_bounded (max_packet : Z)
    (vmbus_sendpacket : nat -> Z) (channel : dxgvmbuschannel) (cmd_size : Z) :
  cmd_size <= max_packet -> adapter channel = false ->
  let run := dxgvmb_send_async_msg max_packet vmbus_sendpacket channel cmd_size in
  run <> OutOfFuel /\ run <> Fault /\
  ((forall k, vmbus_sendpacket k = - EAGAIN) ->
   exists channel',
     run = Done (- EAGAIN, channel') /\
     events channel' =
       events channel ++ retry_events cmd_size 5000
         ++ [EvErr "vmbus_sendpacket failed"] /\
     length (filter is_send (retry_events cmd_size 5000)) = 5000%nat /\
     packet_list channel' = packet_list channel) /\
  (forall k r, (k < 5000)%nat ->
     (forall j, (j < k)%nat -> vmbus_sendpacket j = - EAGAIN) ->
     vmbus_sendpacket k = r -> r <> - EAGAIN ->
     exists channel',
       run = Done (r, channel') /\
       events channel' =
         events channel ++ retry_events cmd_size k
           ++ [EvSendPacket cmd_size 0 false]
           ++ (if r <? 0 then [EvErr "vmbus_sendpacket failed"] else []) /\
       packet_list channel' = packet_list channel).
Proof.
  intros Hsize Hglobal run. subst run. unfold dxgvmb_send_async_msg.
  destruct (Z.gtb_spec cmd_size max_packet); [lia|]. rewrite Hglobal.
  repeat split.
  - pose proof (send_async_loop_fuel vmbus_sendpacket cmd_size 5000 0 0
                  (events channel) ltac:(lia) ltac:(lia) ltac:(lia)) as Hf.
    destruct (send_async_loop _ _ _ _ _ _) as [[ret evs]| |]; done.
  - assert (Hnf : forall fuel calls t evs,
              send_async_loop fuel vmbus_sendpacket cmd_size calls t evs
              <> Fault).
    { induction fuel as [|fuel IH]; intros calls t evs; cbn [send_async_loop];
        [done|].
      destruct (vmbus_sendpacket calls =? - EAGAIN); cbn [andb]; [|done].
      destruct (wrap_int (t + 1) <? 5000); [apply IH|done]. }
    specialize (Hnf 5000%nat 0%nat 0 (events channel)).
    destruct (send_async_loop _ _ _ _ _ _) as [[ret evs]| |]; done.
  - intros Hfull.
    rewrite (send_async_loop_full vmbus_sendpacket cmd_size Hfull 4999) by lia.
    eexists. split; [reflexivity|]. cbn [events packet_list].
    split; [|split; [apply retry_events_sends|done]].
    change (- EAGAIN <? 0) with true. cbv iota. by rewrite <- app_assoc.
  - intros k r Hk Hpre Hr Hne.
    rewrite (send_async_loop_stop vmbus_sendpacket cmd_size r Hne k); try lia;
      try done.
    eexists. split; [reflexivity|]. cbn [events packet_list]. split; [|done].
    destruct (r <? 0); rewrite <- ?app_assoc; [done|].
    by rewrite app_nil_r.
Qed.

(** A transport that never drains, then one that drains at the third
    attempt, on a fresh global channel with a 128 KiB packet ceiling. *)
Lemma send_async_retry_bounded_witness :
  (16 <= 131072 /\ adapter (dxgvmbuschannel_init false) = false) /\
  (exists channel',
     dxgvmb_send_async_msg 131072 ring_full (dxgvmbuschannel_init false) 16
       = Done (- EAGAIN, channel') /\
     events channel' =
       retry_events 16 5000 ++ [EvErr "vmbus_sendpacket failed"]) /\
  (exists channel',
     dxgvmb_send_async_msg 131072 ring_drains (dxgvmbuschannel_init false) 16
       = Done (0, channel') /\
     events channel' = retry_events 16 2 ++ [EvSendPacket 16 0 false]).
Proof.
  destruct (send_async_retry_bounded 131072 ring_full
              (dxgvmbuschannel_init false) 16 ltac:(lia) eq_refl)
    as (_ & _ & Hfull & _).
  destruct (send_async_retry_bounded 131072 ring_drains
              (dxgvmbuschannel_init false) 16 ltac:(lia) eq_refl)
    as (_ & _ & _ & Hstop).
  split; [split; [lia|reflexivity]|]. split.
  - destruct (Hfull (fun _ => eq_refl)) as (ch & Hrun & Hev & _).
    exists ch. split; [exact Hrun|exact Hev].
  - destruct (Hstop 2%nat 0 ltac:(lia)) as (ch & Hrun & Hev & _).
    + intros [|[|j]] Hj; [reflexivity|reflexivity|lia].
    + reflexivity.
    + discriminate.
    + exists ch. split; [exact Hrun|]. rewrite Hev. reflexivity.
Defined.

End AsyncSpec.

(** ** dxgvmbus.c: pending requests and the completion path *)
Module ChannelSpec.
Import Vmbus.

Lemma to_u64_wrap_s64 x : to_u64 (wrap_s64 x) = to_u64 x.
Proof.
  unfold to_u64, wrap_s64. rewrite Zminus_mod_idemp_l. f_equal. lia.
Qed.

Lemma to_u64_succ c k :
  to_u64 c = k -> k + 1 < 2 ^ 64 -> 0 <= k -> to_u64 (wrap_s64 (c + 1)) = k + 1.
Proof.
  intros Hc Hk H0. rewrite to_u64_wrap_s64. unfold to_u64 in *.
  rewrite <- Zplus_mod_idemp_l, Hc. apply Z.mod_small. lia.
Qed.

(** *** The search loop *)

Lemma take_request_sublist t l : (take_request t l).2 `sublist_of` l.
Proof.
  induction l as [|e l IH]; simpl; [done|].
  destruct (t =? request_id e); simpl; [by apply sublist_cons|].
  destruct (take_request t l) as [f r]. simpl in *. by apply sublist_skip.
Qed.

Lemma take_request_miss t l :
  (forall p, p ∈ l -> request_id p <> t) -> take_request t l = (None, l).
Proof.
  induction l as [|e l IH]; intros Hl; simpl; [done|].
  destruct (Z.eqb_spec t (request_id e)) as [->|Hne].
  - exfalso. by apply (Hl e); [left|].
  - rewrite IH; [done|]. intros p Hp. apply Hl. by right.
Qed.

Lemma filter_all {A} (P : A -> Prop) `{!forall x, Decision (P x)} (l : list A) :
  (forall x, x ∈ l -> P x) -> filter P l = l.
Proof.
  induction l as [|x l IH]; intros Hl; [done|].
  rewrite filter_cons_True by (apply Hl; left).
  f_equal. apply IH. intros y Hy. apply Hl. by right.
Qed.

(** With distinct ids the search unlinks exactly the request that carries
    the transaction id and leaves every other request in place. *)
Lemma take_request_hit t l p :
  NoDup (request_id <$> l) -> p ∈ l -> request_id p = t ->
  take_request t l = (Some p, filter (fun q => request_id q <> t) l).
Proof.
  induction l as [|e l IH]; intros Hnd Hp Ht; simpl.
  - by apply elem_of_nil in Hp.
  - rewrite fmap_cons in Hnd. apply NoDup_cons in Hnd as [Hne Hnd].
    apply elem_of_cons in Hp as [->|Hp].
    + rewrite Ht, Z.eqb_refl. rewrite filter_cons_False by (intros H; by apply H).
      f_equal. symmetry. apply filter_all. intros q Hq Hqt. apply Hne.
      rewrite Ht, <- Hqt. apply list_elem_of_fmap. by exists q.
    + destruct (Z.eqb_spec t (request_id e)) as [Hte|Hte].
      * exfalso. apply Hne. rewrite <- Hte, <- Ht.
        apply list_elem_of_fmap. by exists p.
      * rewrite (IH Hnd Hp Ht). by rewrite filter_cons_True by congruence.
Qed.

(** *** The request id counter *)

Lemma pending_ids_sublist_inv ch l k :
  channel_inv ch k -> l `sublist_of` packet_list ch ->
  channel_inv (set_packet_list ch l) k.
Proof.
  intros (Hk & Hc & Hnd & Hall) Hsub. unfold channel_inv, pending_ids in *.
  simpl. assert (Hs : (request_id <$> l) `sublist_of`
                       (request_id <$> packet_list ch))
    by (by apply fmap_sublist).
  repeat split; try done; try lia.
  - by eapply sublist_NoDup.
  - apply Forall_forall. intros id Hid.
    rewrite Forall_forall in Hall. apply Hall. by eapply elem_of_sublist.
Qed.

Lemma add_event_inv ch e k : channel_inv ch k -> channel_inv (add_event ch e) k.
Proof. by intros H. Qed.

Lemma process_completion_packet_inv ch desc k :
  channel_inv ch k -> channel_inv (process_completion_packet ch desc).1 k.
Proof.
  intros Hinv. unfold process_completion_packet.
  pose proof (take_request_sublist (trans_id desc) (packet_list ch)) as Hsub.
  destruct (take_request _ _) as [[p|] rest]; simpl in *.
  - apply add_event_inv. by apply pending_ids_sublist_inv.
  - by apply add_event_inv.
Qed.

Section Sized.
Variable max_packet sizeof_h2v : Z.

Lemma dxgvmbuschannel_receive_inv ring : forall ch k,
  channel_inv ch k ->
  channel_inv (dxgvmbuschannel_receive sizeof_h2v ch ring).1 k.
Proof.
  induction ring as [|desc ring IH]; intros ch k Hinv; simpl; [done|].
  destruct (pkt_type desc).
  - specialize (IH (process_inband_packet sizeof_h2v ch desc) k).
    destruct (dxgvmbuschannel_receive _ _ ring) as [ch' d]. simpl in *.
    apply IH. unfold process_inband_packet.
    destruct (negb _); [destruct (_ <? _)|]; try done; by apply add_event_inv.
  - pose proof (process_completion_packet_inv ch desc k Hinv) as Hp.
    destruct (process_completion_packet ch desc) as [ch1 f]. simpl in Hp.
    specialize (IH ch1 k Hp).
    destruct (dxgvmbuschannel_receive _ ch1 ring) as [ch' d]. by simpl in *.
  - specialize (IH (add_event ch (EvErr "unexpected packet type")) k
                  (add_event_inv _ _ _ Hinv)).
    destruct (dxgvmbuschannel_receive _ _ ring) as [ch' d]. by simpl in *.
Qed.

(** A synchronous send hands out at most one id, the successor of the
    last one, and leaves the pending ids distinct. *)
Lemma dxgvmb_send_sync_msg_begin_inv env ch cmd_size result result_size k :
  channel_inv ch k -> k + 1 < 2 ^ 64 ->
  exists k', k <= k' <= k + 1 /\
    channel_inv
      (dxgvmb_send_sync_msg_begin max_packet env ch cmd_size result
         result_size).1 k'.
Proof.
  intros Hinv Hk. unfold dxgvmb_send_sync_msg_begin.
  destruct (_ || _); [exists k; split; [lia|by apply add_event_inv]|].
  destruct (negb _); [exists k; split; [lia|by apply add_event_inv]|].
  destruct Hinv as (Hk0 & Hc & Hnd & Hall).
  pose proof (to_u64_succ _ _ Hc Hk ltac:(lia)) as Hid.
  exists (k + 1). split; [lia|].
  assert (Hall' : Forall (fun id => 1 <= id <= k + 1) (pending_ids ch)).
  { eapply Forall_impl; [exact Hall|]. simpl. intros. lia. }
  destruct (vmbus_sendpacket_ret env =? 0); simpl;
    unfold channel_inv, pending_ids in *; simpl.
  - rewrite fmap_app. simpl. rewrite Hid. repeat split; try lia; try done.
    + apply NoDup_app. split; [done|]. split; [|apply NoDup_singleton].
      intros id Hin Hin'. apply list_elem_of_singleton in Hin'. subst id.
      rewrite Forall_forall in Hall. specialize (Hall _ Hin). lia.
    + apply Forall_app. split; [done|]. apply Forall_singleton. lia.
  - repeat split; try lia; done.
Qed.

Lemma channel_run_inv ops : forall ch k,
  channel_inv ch k -> k + Z.of_nat (length ops) < 2 ^ 64 ->
  exists k', k <= k' <= k + Z.of_nat (length ops) /\
    channel_inv (channel_run max_packet sizeof_h2v ops ch) k'.
Proof.
  induction ops as [|op ops IH]; intros ch k Hinv Hlen; simpl in *.
  - exists k. split; [lia|done].
  - destruct op as [env cmd_size result result_size|ring]; simpl.
    + destruct (dxgvmb_send_sync_msg_begin_inv env ch cmd_size result
                  result_size k Hinv ltac:(lia)) as (k1 & Hk1 & Hinv1).
      destruct (IH _ k1 Hinv1 ltac:(lia)) as (k' & Hk' & Hinv').
      exists k'. split; [lia|done].
    + destruct (IH _ k (dxgvmbuschannel_receive_inv ring ch k Hinv)
                  ltac:(lia)) as (k' & Hk' & Hinv').
      exists k'. split; [lia|done].
Qed.

End Sized.

Lemma dxgvmbuschannel_init_inv a : channel_inv (dxgvmbuschannel_init a) 0.
Proof.
  unfold channel_inv, pending_ids. simpl.
  repeat split; try lia; try done; constructor.
Qed.

(** *** Delivery *)

Lemma NoDup_fmap_elem_eq {A B} (f : A -> B) (l : list A) x y :
  NoDup (f <$> l) -> x ∈ l -> y ∈ l -> f x = f y -> x = y.
Proof.
  induction l as [|a l IH]; intros Hnd Hx Hy Hf.
  - by apply elem_of_nil in Hx.
  - rewrite fmap_cons in Hnd. apply NoDup_cons in Hnd as [Ha Hnd].
    apply elem_of_cons in Hx as [->|Hx]; apply elem_of_cons in Hy as [->|Hy];
      try done.
    + exfalso. apply Ha. rewrite Hf. apply list_elem_of_fmap. by exists y.
    + exfalso. apply Ha. rewrite <- Hf. apply list_elem_of_fmap. by exists x.
    + by apply IH.
Qed.

(** Unlinking the requests of two different transaction ids commutes. *)
Lemma take_request_comm t1 t2 l :
  t1 <> t2 ->
  (take_request t2 (take_request t1 l).2).1 = (take_request t2 l).1 /\
  (take_request t2 (take_request t1 l).2).2 =
  (take_request t1 (take_request t2 l).2).2.
Proof.
  intros Hne. induction l as [|e l [IH1 IH2]]; simpl; [done|].
  destruct (Z.eqb_spec t1 (request_id e)) as [H1|H1];
    destruct (Z.eqb_spec t2 (request_id e)) as [H2|H2]; simpl.
  - congruence.
  - destruct (take_request t2 l) as [f2 r2]. simpl.
    destruct (Z.eqb_spec t1 (request_id e)); [done|congruence].
  - destruct (take_request t1 l) as [f1 r1]. simpl.
    destruct (Z.eqb_spec t2 (request_id e)); [done|congruence].
  - destruct (take_request t1 l) as [f1 r1], (take_request t2 l) as [f2 r2].
    simpl in *.
    destruct (Z.eqb_spec t2 (request_id e)); [congruence|].
    destruct (Z.eqb_spec t1 (request_id e)); [congruence|].
    destruct (take_request t2 r1) as [f21 r21],
             (take_request t1 r2) as [f12 r12]. simpl in *.
    split; congruence.
Qed.

Lemma process_completion_packet_found ch desc :
  (process_completion_packet ch desc).2 =
  match (take_request (trans_id desc) (packet_list ch)).1 with
  | Some packet =>
      Some (complete
        (if buffer_length packet =? 0 then packet
         else if hv_pkt_datalen desc <? buffer_length packet
              then set_status packet (- EOVERFLOW)
              else set_buffer packet
                     (memcpy (buffer packet) (pkt_data desc)
                        (buffer_length packet))))
  | None => None
  end.
Proof.
  unfold process_completion_packet.
  by destruct (take_request _ _) as [[p|] rest].
Qed.

Lemma process_completion_packet_rest ch desc :
  packet_list (process_completion_packet ch desc).1 =
  (take_request (trans_id desc) (packet_list ch)).2.
Proof.
  unfold process_completion_packet.
  pose proof (take_request_miss (trans_id desc) (packet_list ch)) as Hmiss.
  destruct (take_request _ _) as [[p|] rest] eqn:Ht; simpl; [done|].
  clear Hmiss. revert rest Ht.
  induction (packet_list ch) as [|e l IH]; intros rest Ht; simpl in Ht.
  - by injection Ht as <-.
  - destruct (trans_id desc =? request_id e); [done|].
    destruct (take_request (trans_id desc) l) as [f r].
    injection Ht as -> <-. f_equal. by apply IH.
Qed.

(** A synchronous send that gets as far as the transport, on a channel
    whose counter stands at [k]. *)
Lemma dxgvmb_send_sync_msg_begin_queues (max_packet : Z) (env : sync_env)
    (ch : dxgvmbuschannel) (cmd_size : Z) (result : list Z) (result_size k : Z) :
  to_u64 (packet_request_id ch) = k -> 0 <= k -> k + 1 < 2 ^ 64 ->
  cmd_size <= max_packet -> result_size <= max_packet ->
  kmem_cache_alloc_ok env = true ->
  let sent := dxgvmb_send_sync_msg_begin max_packet env ch cmd_size result
                result_size in
  to_u64 (packet_request_id sent.1) = k + 1 /\
  (vmbus_sendpacket_ret env = 0 ->
   sent.2 = SyncWaiting (k + 1) /\
   packet_list sent.1
   = packet_list ch
     ++ [{| request_id := k + 1; buffer := result;
            buffer_length := result_size; status := 0;
            completed := false |}] /\
   events sent.1 = events ch ++ [EvSendPacket cmd_size (k + 1) true]) /\
  (vmbus_sendpacket_ret env <> 0 ->
   sent.2 = SyncFailed (vmbus_sendpacket_ret env) /\
   packet_list sent.1 = packet_list ch /\
   events sent.1
   = events ch ++ [EvSendPacket cmd_size (k + 1) true;
                   EvErr "vmbus_sendpacket failed"]).
Proof.
  intros Hc Hk0 Hk Hcmd Hres Halloc sent. subst sent.
  unfold dxgvmb_send_sync_msg_begin.
  destruct (Z.gtb_spec cmd_size max_packet); [lia|].
  destruct (Z.gtb_spec result_size max_packet); [lia|].
  rewrite Halloc. cbn [orb negb].
  rewrite (to_u64_succ _ _ Hc Hk Hk0).
  destruct (Z.eqb_spec (vmbus_sendpacket_ret env) 0) as [Hret|Hret];
    cbn [fst snd packet_list packet_request_id events add_event
         set_packet_list request_id].
  - split; [by apply to_u64_succ|]. split; [done|]. by intros ?.
  - split; [by apply to_u64_succ|]. split; [by intros ?|].
    intros _. split; [done|]. split; [done|]. by rewrite <- app_assoc.
Qed.

(** C2. On a channel that has run any sequence of synchronous sends and
    receive passes (few enough for the 64-bit request id counter not to
    wrap, also at the next send), the counter stands at the number [k] of
    ids handed out and every pending id lies in 1..k. A synchronous send
    that gets as far as the transport takes the next value [k + 1] of the
    counter as its request id, whatever becomes of it: when the transport
    accepts the packet, the request with that id, the caller's result
    buffer and its length is queued behind the pending ones and the packet
    is sent under that id; when the transport refuses, the request is
    unlinked again and the id is not used a second time. So the pending
    requests carry pairwise distinct request ids. A completion packet whose
    transaction id is the id of a pending request unlinks exactly that
    request, completes exactly it and leaves all other pending requests in
    place; a completion whose transaction id matches no pending request
    changes nothing but the error log; and two completions for different
    ids give each request the same result in either order of arrival. *)
Theorem completion_matched_by_request_id (max_packet sizeof_h2v : Z)
    (has_adapter : bool) (ops : list channel_op) :
  Z.of_nat (length ops) + 1 < 2 ^ 64 ->
  let ch := channel_run max_packet sizeof_h2v ops
              (dxgvmbuschannel_init has_adapter) in
  (exists k,
     0 <= k <= Z.of_nat (length ops) /\
     to_u64 (packet_request_id ch) = k /\
     Forall (fun id => 1 <= id <= k) (pending_ids ch) /\
     forall env cmd_size result result_size,
       cmd_size <= max_packet -> result_size <= max_packet ->
       kmem_cache_alloc_ok env = true ->
       let sent := dxgvmb_send_sync_msg_begin max_packet env ch cmd_size
                     result result_size in
       to_u64 (packet_request_id sent.1) = k + 1 /\
       (vmbus_sendpacket_ret env = 0 ->
        sent.2 = SyncWaiting (k + 1) /\
        packet_list sent.1
        = packet_list ch
          ++ [{| request_id := k + 1; buffer := result;
                 buffer_length := result_size; status := 0;
                 completed := false |}] /\
        events sent.1 = events ch ++ [EvSendPacket cmd_size (k + 1) true]) /\
       (vmbus_sendpacket_ret env <> 0 ->
        sent.2 = SyncFailed (vmbus_sendpacket_ret env) /\
        packet_list sent.1 = packet_list ch /\
        events sent.1
        = events ch ++ [EvSendPacket cmd_size (k + 1) true;
                        EvErr "vmbus_sendpacket failed"])) /\
  NoDup (pending_ids ch) /\
  (forall desc p, p ∈ packet_list ch -> request_id p = trans_id desc ->
     exists p',
       process_completion_packet ch desc =
         (add_event
            (set_packet_list ch
               (filter (fun q => request_id q <> trans_id desc)
                  (packet_list ch)))
            (EvComplete (trans_id desc)),
          Some p') /\
       request_id p' = request_id p /\ buffer_length p' = buffer_length p /\
       completed p' = true /\
       (forall q, q ∈ packet_list ch -> q <> p ->
          q ∈ packet_list (process_completion_packet ch desc).1)) /\
  (forall desc, (forall p, p ∈ packet_list ch -> request_id p <> trans_id desc) ->
     process_completion_packet ch desc =
       (add_event ch (EvErr "did not find packet to complete"), None)) /\
  (forall d1 d2, trans_id d1 <> trans_id d2 ->
     let first1 := process_completion_packet ch d1 in
     let first2 := process_completion_packet ch d2 in
     (process_completion_packet first1.1 d2).2 = first2.2 /\
     (process_completion_packet first2.1 d1).2 = first1.2 /\
     packet_list (process_completion_packet first1.1 d2).1 =
     packet_list (process_completion_packet first2.1 d1).1).
Proof.
  intros Hlen ch.
  destruct (channel_run_inv max_packet sizeof_h2v ops
              (dxgvmbuschannel_init has_adapter) 0
              (dxgvmbuschannel_init_inv has_adapter) ltac:(lia))
    as (k & Hk & Hinv).
  fold ch in Hinv. destruct Hinv as (Hk0 & Hc & Hnd & Hall).
  split; [|split; [done|split; [|split]]].
  - exists k. split; [lia|]. split; [done|]. split; [done|].
    intros env cmd_size result result_size Hcmd Hres Halloc.
    apply dxgvmb_send_sync_msg_begin_queues; (done || lia).
  - intros desc p Hp Hid. unfold process_completion_packet.
    unfold pending_ids in Hnd.
    rewrite (take_request_hit _ _ p Hnd Hp Hid).
    assert (Hq : forall q, q ∈ packet_list ch -> q <> p ->
              q ∈ filter (fun q => request_id q <> trans_id desc)
                    (packet_list ch)).
    { intros q Hq Hqp. apply list_elem_of_filter. split; [|done].
      intros Heq. apply Hqp.
      apply (NoDup_fmap_elem_eq request_id (packet_list ch)); try done.
      congruence. }
    destruct (buffer_length p =? 0); [|destruct (_ <? _)]; simpl;
      (eexists; split; [rewrite Hid; reflexivity|]; simpl; repeat split; done).
  - intros desc Hmiss. unfold process_completion_packet.
    by rewrite take_request_miss.
  - intros d1 d2 Hne first1 first2. subst first1 first2.
    rewrite !process_completion_packet_found, !process_completion_packet_rest.
    destruct (take_request_comm (trans_id d1) (trans_id d2) (packet_list ch)
                Hne) as [H21 Hrest].
    destruct (take_request_comm (trans_id d2) (trans_id d1) (packet_list ch)
                ltac:(congruence)) as [H12 _].
    rewrite H21, H12. done.
Qed.

Lemma three_sends_short : Z.of_nat (length three_sends) + 1 < 2 ^ 64.
Proof. vm_compute. reflexivity. Qed.

Lemma three_sends_counter :
  to_u64
    (packet_request_id
       (channel_run 131072 16 three_sends (dxgvmbuschannel_init true))) = 3.
Proof. vm_compute. reflexivity. Qed.

Lemma reply_ids_differ :
  trans_id (reply_to 3 [7; 8]) <> trans_id (reply_to 1 [5; 6]).
Proof. discriminate. Qed.

Lemma small_sizes : 16 <= 131072 /\ 2 <= 131072.
Proof. split; lia. Qed.

(** Three requests pending, with the ids 1, 2 and 3; a fourth sender gets
    the id 4 and is queued behind them; the replies to the third and then
    to the first request reach their own senders. *)
Lemma completion_matched_by_request_id_witness :
  Z.of_nat (length three_sends) + 1 < 2 ^ 64 /\
  let ch := channel_run 131072 16 three_sends (dxgvmbuschannel_init true) in
  let sent := dxgvmb_send_sync_msg_begin 131072 send_ok ch 16 [0; 0] 2 in
  sent.2 = SyncWaiting (3 + 1) /\
  packet_list sent.1
  = packet_list ch
    ++ [{| request_id := 3 + 1; buffer := [0; 0]; buffer_length := 2;
           status := 0; completed := false |}] /\
  NoDup (pending_ids ch) /\
  (process_completion_packet
     (process_completion_packet ch (reply_to 3 [7; 8])).1
     (reply_to 1 [5; 6])).2 =
  (process_completion_packet ch (reply_to 1 [5; 6])).2.
Proof.
  split; [exact three_sends_short|].
  destruct (completion_matched_by_request_id 131072 16 true three_sends
              three_sends_short) as ((k & _ & Hk & _ & Hsend) & Hnd & _ & _ & Hcomm).
  intros ch sent.
  assert (k = 3) as -> by (rewrite <- Hk; exact three_sends_counter).
  destruct (Hsend send_ok 16 [0; 0] 2 (proj1 small_sizes) (proj2 small_sizes)
              eq_refl) as (_ & Hok & _).
  destruct (Hok eq_refl) as (Hid & Hlist & _).
  split; [exact Hid|]. split; [exact Hlist|]. split; [exact Hnd|].
  exact (proj1 (Hcomm (reply_to 3 [7; 8]) (reply_to 1 [5; 6])
                  reply_ids_differ)).
Defined.

(** C3, as the code has it. When the receive path completes a pending
    request that expects a non-empty result: a payload shorter than the
    expected size makes it record [-EOVERFLOW] and copy nothing; a payload
    of the expected size or longer makes it copy exactly the expected
    number of bytes, dropping the excess, with the status left as it was.
    In every case the bytes behind the declared buffer length keep their
    values. *)
Theorem completion_copy_bounded (ch : dxgvmbuschannel)
    (desc : vmpacket_descriptor) (p : dxgvmbuspacket) :
  (take_request (trans_id desc) (packet_list ch)).1 = Some p ->
  0 < buffer_length p ->
  exists p',
    (process_completion_packet ch desc).2 = Some p' /\
    drop (Z.to_nat (buffer_length p)) (buffer p') =
      drop (Z.to_nat (buffer_length p)) (buffer p) /\
    (hv_pkt_datalen desc < buffer_length p ->
       status p' = - EOVERFLOW /\ buffer p' = buffer p) /\
    (buffer_length p <= hv_pkt_datalen desc ->
       status p' = status p /\
       take (Z.to_nat (buffer_length p)) (buffer p') =
         take (Z.to_nat (buffer_length p)) (pkt_data desc) /\
       length (take (Z.to_nat (buffer_length p)) (pkt_data desc)) =
         Z.to_nat (buffer_length p)).
Proof.
  intros Hfound Hlen. rewrite process_completion_packet_found, Hfound.
  destruct (Z.eqb_spec (buffer_length p) 0); [lia|].
  assert (Htl : buffer_length p <= hv_pkt_datalen desc ->
            length (take (Z.to_nat (buffer_length p)) (pkt_data desc)) =
            Z.to_nat (buffer_length p)).
  { unfold hv_pkt_datalen. intros H. rewrite length_take. lia. }
  destruct (Z.ltb_spec (hv_pkt_datalen desc) (buffer_length p)) as [Hs|Hl];
    eexists; (split; [reflexivity|]); simpl.
  - split; [done|]. split; [done|]. intros; lia.
  - unfold memcpy. split; [|split; [intros; lia|]].
    + rewrite drop_app_length'; [done|]. symmetry. by apply Htl.
    + intros _. split; [done|]. split; [|by apply Htl].
      rewrite take_app_length'; [done|]. symmetry. by apply Htl.
Qed.

Lemma completion_copy_bounded_witness :
  (take_request (trans_id short_reply) (packet_list one_pending)).1
    = Some small_request /\
  0 < buffer_length small_request /\
  exists p',
    (process_completion_packet one_pending short_reply).2 = Some p' /\
    drop 2 (buffer p') = [9; 9] /\
    (hv_pkt_datalen short_reply < 2 ->
       status p' = - EOVERFLOW /\ buffer p' = [0; 0; 9; 9]).
Proof.
  split; [reflexivity|]. split; [reflexivity|].
  destruct (completion_copy_bounded one_pending short_reply small_request
              eq_refl eq_refl) as (p' & Hp & Hd & Hs & _).
  exists p'. split; [exact Hp|]. split; [exact Hd|exact Hs].
Defined.

(** The claim as stated fails when the payload is longer than the result
    buffer: a four-byte reply to a request with a two-byte buffer is
    completed with status 0 and its first two bytes copied, not with
    [-EOVERFLOW]. *)
Lemma completion_longer_payload_not_overflow :
  hv_pkt_datalen long_reply <> buffer_length small_request /\
  buffer_length small_request < hv_pkt_datalen long_reply /\
  exists p',
    (process_completion_packet one_pending long_reply).2 = Some p' /\
    status p' = 0 /\ status p' <> - EOVERFLOW /\
    buffer p' = [1; 2; 9; 9] /\ buffer p' <> buffer small_request.
Proof.
  split; [discriminate|]. split; [reflexivity|].
  eexists. split; [reflexivity|]. simpl.
  split; [reflexivity|]. split; [discriminate|]. split; [reflexivity|].
  discriminate.
Qed.

End ChannelSpec.

(** ** dxgadapter.c: teardown is calm *)
Module GraphFrame.
Import Graph.

Lemma calm_refl w : calm w w.
Proof.
  split; [done|]. split; [done|]. split; [done|]. split; [done|].
  exists []. by rewrite app_nil_r.
Qed.

Lemma calm_trans w1 w2 w3 : calm w1 w2 -> calm w2 w3 -> calm w1 w3.
Proof.
  intros (Ha & Hp & Hd & Hc & e1 & Ht1 & Hq1)
         (Ha' & Hp' & Hd' & Hc' & e2 & Ht2 & Hq2).
  split; [congruence|]. split; [congruence|]. split; [|split].
  - intros d. by rewrite Hd', Hd.
  - intros c. by rewrite Hc', Hc.
  - exists (e1 ++ e2). rewrite Ht2, Ht1, <- app_assoc. split; [done|].
    rewrite forallb_app, Hq1, Hq2. done.
Qed.

Lemma calm_add_event w0 w e :
  quiet e = true -> calm w0 w -> calm w0 (add_event e w).
Proof.
  intros He H. eapply calm_trans; [exact H|].
  split; [done|]. split; [done|]. split; [done|]. split; [done|].
  exists [e]. simpl. by rewrite He.
Qed.

Lemma calm_fault w0 w : calm w0 w -> calm w0 (fault w).
Proof. by apply calm_add_event. Qed.

Lemma calm_same w0 w w' :
  adapters w' = adapters w -> pinfos w' = pinfos w ->
  devices w' = devices w -> contexts w' = contexts w ->
  trace w' = trace w ->
  calm w0 w -> calm w0 w'.
Proof.
  intros Ha Hp Hd Hc Ht H. eapply calm_trans; [exact H|].
  split; [done|]. split; [done|]. split; [|split].
  - intros d. by rewrite Hd.
  - intros c. by rewrite Hc.
  - exists []. by rewrite app_nil_r.
Qed.

Lemma calm_upd_process w0 w p f : calm w0 w -> calm w0 (upd_process p f w).
Proof. by apply calm_same. Qed.
Lemma calm_upd_allocation w0 w al f :
  calm w0 w -> calm w0 (upd_allocation al f w).
Proof. by apply calm_same. Qed.
Lemma calm_upd_resource w0 w r f : calm w0 w -> calm w0 (upd_resource r f w).
Proof. by apply calm_same. Qed.
Lemma calm_upd_sresource w0 w s f :
  calm w0 w -> calm w0 (upd_sresource s f w).
Proof. by apply calm_same. Qed.

Lemma calm_upd_context w0 w c f :
  (forall ctx, ctx_device (f ctx) = ctx_device ctx) ->
  calm w0 w -> calm w0 (upd_context c f w).
Proof.
  intros Hf H. eapply calm_trans; [exact H|].
  split; [done|]. split; [done|]. split; [done|]. split.
  - intros c'. simpl. destruct (decide (c = c')) as [->|Hne].
    + rewrite lookup_alter_eq. destruct (contexts w !! c'); simpl; [|done].
      by rewrite Hf.
    + by rewrite lookup_alter_ne.
  - exists []. by rewrite app_nil_r.
Qed.

Lemma calm_upd_device w0 w d f :
  (forall dev, device_core (f dev) = device_core dev) ->
  calm w0 w -> calm w0 (upd_device d f w).
Proof.
  intros Hf H. eapply calm_trans; [exact H|].
  split; [done|]. split; [done|]. split; [|split; [done|]].
  - intros d'. simpl. destruct (decide (d = d')) as [->|Hne].
    + rewrite lookup_alter_eq. destruct (devices w !! d'); simpl; [|done].
      by rewrite Hf.
    + by rewrite lookup_alter_ne.
  - exists []. by rewrite app_nil_r.
Qed.

Lemma calm_foldl {A} (f : world -> A -> world) (l : list A) :
  (forall w0 w x, calm w0 w -> calm w0 (f w x)) ->
  forall w0 w, calm w0 w -> calm w0 (foldl f w l).
Proof.
  intros Hf. induction l as [|x l IH]; intros w0 w H; simpl; [done|].
  apply IH. by apply Hf.
Qed.

(** Functions that keep the world calm. *)
Class CalmFun (f : world -> world) : Prop :=
  calm_fun : forall w0 w, calm w0 w -> calm w0 (f w).

(** One step of the proof that a function is calm. *)
Ltac calm_step :=
  match goal with
  | H : calm ?w0 ?w |- calm ?w0 ?w => exact H
  | |- calm ?w ?w => apply calm_refl
  | |- CalmFun _ => intros ? ? ?
  | |- calm _ (add_event _ _) => apply calm_add_event; [reflexivity|]
  | |- calm _ (fault _) => apply calm_fault
  | |- calm _ (upd_process _ _ _) => apply calm_upd_process
  | |- calm _ (upd_context _ _ _) =>
      apply calm_upd_context; [intros; reflexivity|]
  | |- calm _ (upd_allocation _ _ _) => apply calm_upd_allocation
  | |- calm _ (upd_resource _ _ _) => apply calm_upd_resource
  | |- calm _ (upd_sresource _ _ _) => apply calm_upd_sresource
  | |- calm _ (upd_device _ _ _) =>
      apply calm_upd_device; [intros; reflexivity|]
  | |- calm _ (foldl _ _ _) => apply calm_foldl; [intros|]
  | |- calm _ (match ?x with _ => _ end) => destruct x eqn:?
  | |- calm _ (if ?b then _ else _) => destruct b eqn:?
  | |- calm _ (?f ?w) => apply (calm_fun (f := f))
  end.

Ltac calm := repeat calm_step.

#[export] Instance kref_put_device_calm d : CalmFun (kref_put_device d).
Proof. unfold kref_put_device, dxgdevice_release. calm. Qed.
#[export] Instance kref_put_context_calm c : CalmFun (kref_put_context c).
Proof. unfold kref_put_context, dxgcontext_release. calm. Qed.
#[export] Instance kref_put_resource_calm r : CalmFun (kref_put_resource r).
Proof. unfold kref_put_resource, dxgresource_release. calm. Qed.
#[export] Instance kref_put_sresource_calm s : CalmFun (kref_put_sresource s).
Proof. unfold kref_put_sresource, dxgsharedresource_destroy. calm. Qed.

#[export] Instance hmgrtable_lock_calm p : CalmFun (hmgrtable_lock p).
Proof. unfold hmgrtable_lock. calm. Qed.
#[export] Instance hmgrtable_unlock_calm p : CalmFun (hmgrtable_unlock p).
Proof. unfold hmgrtable_unlock. calm. Qed.

Lemma hmgrtable_free_handle_calm p t h :
  t <> HMGRENTRY_TYPE_DXGDEVICE -> CalmFun (hmgrtable_free_handle p t h).
Proof.
  intros Ht w0 w H. unfold hmgrtable_free_handle.
  apply calm_add_event; [by destruct t|]. calm.
Qed.
#[export] Instance hmgrtable_free_allocation_calm p h :
  CalmFun (hmgrtable_free_handle p HMGRENTRY_TYPE_DXGALLOCATION h).
Proof. by apply hmgrtable_free_handle_calm. Qed.
#[export] Instance hmgrtable_free_resource_calm p h :
  CalmFun (hmgrtable_free_handle p HMGRENTRY_TYPE_DXGRESOURCE h).
Proof. by apply hmgrtable_free_handle_calm. Qed.
#[export] Instance hmgrtable_free_context_calm p h :
  CalmFun (hmgrtable_free_handle p HMGRENTRY_TYPE_DXGCONTEXT h).
Proof. by apply hmgrtable_free_handle_calm. Qed.

#[export] Instance hmgrtable_free_resource_safe_calm p h :
  CalmFun (hmgrtable_free_handle_safe p HMGRENTRY_TYPE_DXGRESOURCE h).
Proof. unfold hmgrtable_free_handle_safe. calm. Qed.
#[export] Instance hmgrtable_free_context_safe_calm p h :
  CalmFun (hmgrtable_free_handle_safe p HMGRENTRY_TYPE_DXGCONTEXT h).
Proof. unfold hmgrtable_free_handle_safe. calm. Qed.

#[export] Instance dxgallocation_stop_calm al : CalmFun (dxgallocation_stop al).
Proof. unfold dxgallocation_stop. calm. Qed.
#[export] Instance dxgallocation_free_handle_calm al :
  CalmFun (dxgallocation_free_handle al).
Proof. unfold dxgallocation_free_handle. calm. Qed.
#[export] Instance dxgdevice_remove_alloc_calm d al :
  CalmFun (dxgdevice_remove_alloc d al).
Proof. unfold dxgdevice_remove_alloc. calm. Qed.
#[export] Instance dxgresource_remove_alloc_calm r al :
  CalmFun (dxgresource_remove_alloc r al).
Proof. unfold dxgresource_remove_alloc. calm. Qed.
#[export] Instance dxgvmb_send_destroy_allocation_calm dh rh hs :
  CalmFun (dxgvmb_send_destroy_allocation dh rh hs).
Proof. unfold dxgvmb_send_destroy_allocation. calm. Qed.
#[export] Instance dxgallocation_destroy_calm al :
  CalmFun (dxgallocation_destroy al).
Proof. unfold dxgallocation_destroy. calm. Qed.

#[export] Instance dxgdevice_remove_resource_calm d r :
  CalmFun (dxgdevice_remove_resource d r).
Proof. unfold dxgdevice_remove_resource. calm. Qed.
#[export] Instance dxgsharedresource_remove_resource_calm s r :
  CalmFun (dxgsharedresource_remove_resource s r).
Proof. unfold dxgsharedresource_remove_resource. calm. Qed.
#[export] Instance dxgresource_free_handle_calm r :
  CalmFun (dxgresource_free_handle r).
Proof. unfold dxgresource_free_handle. calm. Qed.
#[export] Instance dxgresource_destroy_calm r : CalmFun (dxgresource_destroy r).
Proof. unfold dxgresource_destroy. calm. Qed.

#[export] Instance dxgdevice_remove_context_calm d c :
  CalmFun (dxgdevice_remove_context d c).
Proof. unfold dxgdevice_remove_context. calm. Qed.
#[export] Instance dxgcontext_destroy_calm p c :
  CalmFun (dxgcontext_destroy p c).
Proof. unfold dxgcontext_destroy, dxghwqueue_destroy. calm. Qed.

#[export] Instance dxgdevice_acquire_alloc_list_lock_calm d :
  CalmFun (dxgdevice_acquire_alloc_list_lock d).
Proof. unfold dxgdevice_acquire_alloc_list_lock. calm. Qed.
#[export] Instance dxgdevice_release_alloc_list_lock_calm d :
  CalmFun (dxgdevice_release_alloc_list_lock d).
Proof. unfold dxgdevice_release_alloc_list_lock. calm. Qed.

#[export] Instance dxgdevice_stop_calm d : CalmFun (dxgdevice_stop d).
Proof.
  unfold dxgdevice_stop, dxgpagingqueue_stop, dxgsyncobject_stop. calm.
Qed.

#[export] Instance destroy_syncobjects_calm d p l :
  CalmFun (destroy_syncobjects d p l).
Proof.
  induction l as [|s l IH]; intros w0 w H; simpl; [done|].
  apply IH. unfold dxgsyncobject_destroy. calm.
Qed.

#[export] Instance dxgdevice_destroy_children_calm d :
  CalmFun (dxgdevice_destroy_children d).
Proof. unfold dxgdevice_destroy_children, dxgpagingqueue_destroy. calm. Qed.

#[export] Instance dxgprocess_adapter_stop_calm pa :
  CalmFun (dxgprocess_adapter_stop pa).
Proof. unfold dxgprocess_adapter_stop. calm. Qed.

End GraphFrame.

(** ** dxgadapter.c: stopping an adapter, destroying a device *)
Module GraphSpec.
Import Graph GraphFrame.


Lemma calm_device_core w w' d dev :
  calm w w' -> devices w !! d = Some dev ->
  exists dev', devices w' !! d = Some dev' /\ device_core dev' = device_core dev.
Proof.
  intros (_ & _ & Hd & _) Hl. specialize (Hd d). rewrite Hl in Hd.
  destruct (devices w' !! d) as [dev'|]; simpl in Hd; [|done].
  exists dev'. split; [done|]. congruence.
Qed.



Lemma trace_add_events es w : trace (add_events es w) = trace w ++ es.
Proof.
  revert w. induction es as [|e es IH]; intros w.
  - simpl. by rewrite app_nil_r.
  - change (add_events (e :: es) w) with (add_events es (add_event e w)).
    rewrite IH. simpl. by rewrite <- app_assoc.
Qed.

(** *** [dxgadapter_stop] *)







(** *** The blocks of [dxgdevice_destroy] *)



Lemma dxgdevice_destroy_cleanup_spec d w dev a adapter pa :
  devices w !! d = Some dev -> dev_adapter dev = Some a ->
  dev_adapter_info dev = Some pa -> adapters w !! a = Some adapter ->
  let w' := dxgdevice_destroy_cleanup d w in
  trace w' =
    trace w ++
    [EvLock mutex_lock (device_list_mutex pa);
     EvLock mutex_unlock (device_list_mutex pa); EvKrefPut (ObjAdapter a)]
    ++ (if adapter_kref adapter - 1 =? 0 then [EvFree (ObjAdapter a)] else [])
    ++ [EvLock up_write (device_lock d); EvKrefPut (ObjDevice d)]
    ++ (if device_kref dev - 1 =? 0 then [EvFree (ObjDevice d)] else []) /\
  (contexts w' = contexts w /\ allocations w' = allocations w /\
   resources w' = resources w /\ sresources w' = sresources w /\
   processes w' = processes w) /\
  (exists adapter', adapters w' !! a = Some adapter' /\
     adapter_kref adapter' = adapter_kref adapter - 1) /\
  (exists dev', devices w' !! d = Some dev' /\
     device_kref dev' = device_kref dev - 1 /\
     dev_object_state dev' = dev_object_state dev /\
     dev_handle_valid dev' = dev_handle_valid dev).
Proof.
  intros Hd Had Hpa Ha w'. subst w'.
  unfold dxgdevice_destroy_cleanup. rewrite Hd, Had.
  unfold dxgprocess_adapter_remove_device. rewrite Hd, Hpa.
  unfold kref_put_adapter, kref_put_device, dxgadapter_release,
    dxgdevice_release.
  destruct (adapter_kref adapter - 1 =? 0) eqn:Hka,
           (device_kref dev - 1 =? 0) eqn:Hkd, (dev_linked dev);
    repeat (progress
      (cbn [adapters devices contexts allocations resources sresources
            processes trace add_event upd_device upd_pinfo upd_adapter
            fmap option_fmap option_map set_dev_linked set_device_kref
            set_device_freed set_adapter_kref set_adapter_freed device_kref
            adapter_kref dev_object_state dev_handle_valid];
       rewrite ?lookup_alter_eq, ?Hd, ?Ha, ?Hka, ?Hkd));
    (split; [rewrite <- ?app_assoc; reflexivity|]);
    (split; [done|]);
    (split; eexists; (split; [reflexivity|done])).
Qed.

(** *** [dxgdevice_destroy] on a device that is not active *)

Lemma dxgdevice_destroy_inactive d w device a adapter pa :
  devices w !! d = Some device ->
  object_state_is_active (dev_object_state device) = false ->
  dev_adapter device = Some a -> adapters w !! a = Some adapter ->
  dev_adapter_info device = Some pa ->
  let w' := dxgdevice_destroy d w in
  (contexts w' = contexts w /\ allocations w' = allocations w /\
   resources w' = resources w /\ sresources w' = sresources w /\
   processes w' = processes w) /\
  (exists evs, trace w' = trace w ++ evs /\
     forallb (fun e => negb (is_teardown e)) evs = true) /\
  (exists dev', devices w' !! d = Some dev' /\
     dev_object_state dev' = dev_object_state device /\
     dev_handle_valid dev' = dev_handle_valid device /\
     device_kref dev' = device_kref device - 1) /\
  (exists adapter', adapters w' !! a = Some adapter' /\
     adapter_kref adapter' = adapter_kref adapter - 1).
Proof.
  intros Hd Hst Had Ha Hpa w'. subst w'.
  unfold dxgdevice_destroy. rewrite Hd, Hst.
  destruct (dxgdevice_destroy_cleanup_spec d
              (add_event (EvLock down_write (device_lock d)) w)
              device a adapter pa Hd Had Hpa Ha)
    as (Htr & Hframe & Hadp & (dev' & Hd' & Hk & Hs & Hv)).
  split; [exact Hframe|]. split; [|split; [|exact Hadp]].
  - rewrite Htr. cbn [trace add_event]. rewrite <- app_assoc.
    eexists. split; [reflexivity|].
    by destruct (adapter_kref adapter - 1 =? 0),
                (device_kref device - 1 =? 0).
  - exists dev'. done.
Qed.

(** *** [dxgdevice_destroy] on an active device *)



(** *** Counting events *)

Lemma count_event_nil e : count_event e [] = 0%nat.
Proof. done. Qed.

Lemma count_event_cons_eq e l : count_event e (e :: l) = S (count_event e l).
Proof. unfold count_event. by rewrite filter_cons_True. Qed.

Lemma count_event_cons_ne e e' l :
  e' <> e -> count_event e (e' :: l) = count_event e l.
Proof. intros H. unfold count_event. by rewrite filter_cons_False. Qed.

Lemma count_event_app e l1 l2 :
  count_event e (l1 ++ l2) = (count_event e l1 + count_event e l2)%nat.
Proof. unfold count_event. by rewrite filter_app, length_app. Qed.

Ltac count_events :=
  repeat first
    [ rewrite count_event_app
    | rewrite count_event_cons_eq
    | rewrite count_event_cons_ne by discriminate
    | rewrite count_event_nil ].


(** *** The context loop of [dxgdevice_destroy] *)





(** *** Creation *)



(** *** The sample worlds *)

Lemma base_world_adapter : adapters base_world !! 0%nat = Some base_adapter.
Proof. vm_compute. reflexivity. Qed.





Lemma active_world_device : devices active_world !! 0%nat = Some active_device.
Proof. vm_compute. reflexivity. Qed.


(** *** The claims *)










End GraphSpec.


(** ** Batch allocation create: size budget and rollback *)
Module AllocSpec.
Import Graph Alloc.

Section Budget.
Variable L : layout.
Variable alloc_info : list d3dddi_allocationinfo2.
Hypothesis ceiling_int : DXG_MAX_VM_BUS_PACKET_SIZE L <= 2 ^ 31.
Hypothesis sizes_unsigned :
  Forall (fun info => 0 <= info_priv_drv_data_size info) alloc_info.

(** The sum of the per-allocation private driver data sizes from the
    allocation [i] on. *)
Local Abbreviation rest i :=
  (foldr (fun info acc => info_priv_drv_data_size info + acc) 0
     (drop i alloc_info)).

(** The sizing loop either reports the overflow or returns the exact sum,
    which then is below the packet ceiling. *)
Lemma total_priv_drv_data_size_spec count :
  forall i acc,
    length alloc_info = (i + count)%nat ->
    0 <= acc < 2 ^ 31 ->
    total_priv_drv_data_size L alloc_info i count acc
      = Done (inl (- EOVERFLOW)) \/
    (total_priv_drv_data_size L alloc_info i count acc
       = Done (inr (acc + rest i)) /\
     0 <= acc + rest i < 2 ^ 31).
Proof.
  induction count as [|count IH]; intros i acc Hlen Hacc.
  - right. rewrite drop_ge by lia. cbn. split; [f_equal; f_equal|]; lia.
  - destruct (lookup_lt_is_Some_2 alloc_info i) as [info Hi]; [lia|].
    cbn [total_priv_drv_data_size]. rewrite Hi.
    assert (0 <= info_priv_drv_data_size info) as Hpos.
    { rewrite Forall_forall in sizes_unsigned. apply sizes_unsigned.
      by eapply list_elem_of_lookup_2. }
    rewrite (drop_S _ _ _ Hi). cbn [foldr].
    destruct (Z.geb_spec (info_priv_drv_data_size info)
                (DXG_MAX_VM_BUS_PACKET_SIZE L)) as [|Hsmall]; [by left|].
    assert (to_u32 (acc + info_priv_drv_data_size info)
            = acc + info_priv_drv_data_size info) as ->.
    { unfold to_u32. apply Z.mod_small. lia. }
    destruct (Z.geb_spec (acc + info_priv_drv_data_size info)
                (DXG_MAX_VM_BUS_PACKET_SIZE L)) as [|Hsum]; [by left|].
    destruct (IH (S i) (acc + info_priv_drv_data_size info)) as [->|[-> Hr]];
      [lia|lia|by left|].
    right. split; [f_equal; f_equal|]; lia.
Qed.

End Budget.

(** An oversized batch is turned down before anything else happens: the
    world, trace included, and the array of allocations are as they
    were. *)
Lemma dxgvmb_send_create_allocation_budget L env p d args resource dxgalloc
    alloc_info w :
  DXG_MAX_VM_BUS_PACKET_SIZE L <= 2 ^ 31 ->
  length alloc_info = Z.to_nat (alloc_count args) ->
  Forall (fun info => 0 <= info_priv_drv_data_size info) alloc_info ->
  0 <= priv_drv_data_size args ->
  0 <= aggregate_size L args alloc_info < 2 ^ 32 ->
  DXG_MAX_VM_BUS_PACKET_SIZE L < aggregate_size L args alloc_info ->
  exists ret,
    dxgvmb_send_create_allocation L env p d args resource dxgalloc
      alloc_info w = (w, Done ret, dxgalloc) /\
    (ret = - EOVERFLOW \/ vzalloc_result_ok env = false /\ ret = - ENOMEM).
Proof.
  intros Hmax Hlen Hsizes Hpriv Hfit Hover.
  unfold dxgvmb_send_create_allocation.
  destruct (Z.geb_spec (private_runtime_data_size args)
              (DXG_MAX_VM_BUS_PACKET_SIZE L)) as [|Hrt];
    [eexists; split; [reflexivity|by left]|].
  destruct (Z.geb_spec (priv_drv_data_size args)
              (DXG_MAX_VM_BUS_PACKET_SIZE L)) as [|Hpd];
    [eexists; split; [reflexivity|by left]|].
  cbn [orb].
  destruct (total_priv_drv_data_size_spec L alloc_info Hmax Hsizes
              (Z.to_nat (alloc_count args)) 0%nat 0) as [->|[-> Hsum]];
    [lia|lia|eexists; split; [reflexivity|by left]|].
  destruct (vzalloc_result_ok env);
    [|eexists; split; [reflexivity|by right]].
  cbn [negb]. rewrite drop_0 in *.
  unfold aggregate_size in *.
  set (total := foldr _ 0 alloc_info) in *.
  assert (to_u32 (0 + total + priv_drv_data_size args)
          = total + priv_drv_data_size args) as ->.
  { unfold to_u32. rewrite Z.add_0_l. apply Z.mod_small. lia. }
  match goal with
  | |- context [to_u32 ?x >? _] =>
      replace (to_u32 x) with x by (unfold to_u32; rewrite Z.mod_small; lia)
  end.
  match goal with
  | |- context [?x >? ?y] => destruct (Z.gtb_spec x y); [|lia]
  end.
  eexists. split; [reflexivity|by left].
Qed.

(** The resource handle being turned down is lost as soon as one
    allocation handle is assigned: [process_allocation_handles] returns the
    value of the last assignment. *)
Lemma assign_allocation_handles_last env p dxgalloc infos count :
  forall i ret w,
    (forall h, 0 <= hmgrtable_assign_ret env HMGRENTRY_TYPE_DXGALLOCATION h) ->
    (i + count <= length infos)%nat ->
    (forall j, (j < i + count)%nat -> exists al, dxgalloc !! j = Some (Some al)) ->
    exists w' ret',
      assign_allocation_handles env p dxgalloc infos i count ret w
        = (w', Done ret') /\
      (ret' = ret /\ count = 0%nat \/ 0 <= ret').
Proof.
  induction count as [|count IH]; intros i ret w Hok Hinfos Hptr.
  - exists w, ret. split; [reflexivity|by left].
  - destruct (lookup_lt_is_Some_2 infos i) as [host_alloc Hi]; [lia|].
    destruct (Hptr i) as [al Hal]; [lia|].
    cbn [assign_allocation_handles]. rewrite Hi, Hal.
    unfold hmgrtable_assign_handle.
    pose proof (Hok (ret_allocation host_alloc)) as Hh.
    assert ((hmgrtable_assign_ret env HMGRENTRY_TYPE_DXGALLOCATION
               (ret_allocation host_alloc) <? 0) = false) as Hlt
      by (apply Z.ltb_ge; lia).
    repeat (rewrite Hlt; cbn beta iota zeta).
    match goal with
    | |- context [assign_allocation_handles _ _ _ _ _ _ ?r ?w1] =>
        destruct (IH (S i) r w1 Hok) as (w' & ret' & -> & Hret)
    end.
    { lia. }
    { intros j Hj. apply Hptr. lia. }
    exists w', ret'. split; [reflexivity|]. right.
    destruct Hret as [[-> _]|]; lia.
Qed.

Lemma assign_allocation_handles_resources env p dxgalloc infos count :
  forall i ret w,
    resources (assign_allocation_handles env p dxgalloc infos i count ret w).1
    = resources w.
Proof.
  induction count as [|count IH]; intros i ret w; [reflexivity|].
  cbn [assign_allocation_handles].
  destruct (infos !! i) as [host_alloc|]; [|reflexivity].
  destruct (dxgalloc !! i) as [[al|]|]; [| |reflexivity];
    unfold hmgrtable_assign_handle;
    destruct (hmgrtable_assign_ret env _ _ <? 0) eqn:Hlt;
    cbn beta iota zeta; rewrite ?Hlt; cbn beta iota zeta; try reflexivity.
  by rewrite IH.
Qed.

Lemma process_allocation_handles_forgets_resource env p args res dxgalloc r w :
  create_resource args = true ->
  hmgrtable_assign_ret env HMGRENTRY_TYPE_DXGRESOURCE (ret_resource res) < 0 ->
  (forall h, 0 <= hmgrtable_assign_ret env HMGRENTRY_TYPE_DXGALLOCATION h) ->
  1 <= alloc_count args ->
  (Z.to_nat (alloc_count args) <= length (allocation_info res))%nat ->
  (forall j, (j < Z.to_nat (alloc_count args))%nat ->
             exists al, dxgalloc !! j = Some (Some al)) ->
  exists w' ret,
    process_allocation_handles env p args res dxgalloc (Some r) w
      = (w', Done ret) /\
    0 <= ret /\
    resources w' = resources w.
Proof.
  intros Hcr Hres Hok Hcount Hinfos Hptr.
  unfold process_allocation_handles. rewrite Hcr.
  unfold hmgrtable_assign_handle.
  assert ((hmgrtable_assign_ret env HMGRENTRY_TYPE_DXGRESOURCE
             (ret_resource res) <? 0) = true) as Hlt
    by (apply Z.ltb_lt; lia).
  repeat (rewrite Hlt; cbn beta iota zeta).
  match goal with
  | |- context [assign_allocation_handles _ _ _ _ _ ?n ?r0 ?w1] =>
      destruct (assign_allocation_handles_last env p dxgalloc
                  (allocation_info res) n 0%nat r0 w1 Hok)
        as (w' & ret' & Heq & Hret); [lia|exact Hptr|];
      pose proof (assign_allocation_handles_resources env p dxgalloc
                    (allocation_info res) n 0%nat r0 w1) as Hfr
  end.
  rewrite Heq in *. cbn [fst] in Hfr.
  eexists _, ret'. split; [reflexivity|]. split.
  - destruct Hret as [[_ Hz]|]; lia.
  - unfold hmgrtable_unlock. cbn [resources add_event]. rewrite Hfr.
    reflexivity.
Qed.

(** *** The batches of the examples *)

Lemma large_batch_sizes :
  Forall (fun info => 0 <= info_priv_drv_data_size info) large_infos.
Proof. repeat constructor; cbn; lia. Qed.

Lemma large_batch_fits :
  0 <= aggregate_size sample_layout large_batch large_infos < 2 ^ 32.
Proof. vm_compute. split; [discriminate|reflexivity]. Qed.

Lemma sample_ceiling : DXG_MAX_VM_BUS_PACKET_SIZE sample_layout <= 2 ^ 31.
Proof. vm_compute. discriminate. Qed.

Lemma large_batch_priv : 0 <= priv_drv_data_size large_batch.
Proof. vm_compute. discriminate. Qed.

Lemma large_batch_over :
  DXG_MAX_VM_BUS_PACKET_SIZE sample_layout
  < aggregate_size sample_layout large_batch large_infos.
Proof. reflexivity. Qed.

(** The scenario of three allocations of which the second cannot be
    registered: the first handle is freed again, one command to destroy
    the three host allocations is sent with the not-in-use flag, the three
    local allocations are freed, and no allocation handle stays behind. *)
Example rollback_after_second_handle_fails :
  let '(w', ret, dxgalloc') :=
    dxgvmb_send_create_allocation sample_layout
      (host_created refuse_second_allocation) 0 0 (three_allocations false)
      None [Some 0; Some 1; Some 2]%nat three_infos device_batch_world in
  ret = Done (- ENOMEM) /\
  dxgalloc' = [None; None; None] /\
  host_commands w'
  = [EvRpc (DXGK_VMBCOMMAND_CREATEALLOCATION 100 0 3 132 104);
     EvRpc (DXGK_VMBCOMMAND_DESTROYALLOCATION 100 0 3 [201; 202; 203] true)] /\
  registered HMGRENTRY_TYPE_DXGALLOCATION 0 w' = [] /\
  alloc_freed <$> (map_to_list (allocations w')).*2 = [true; true; true].
Proof. vm_compute. repeat split. Qed.

(** When the batch is grouped as a resource whose handle has been
    registered, the rollback ends with the destruction of the resource,
    which sends a second command for the resource itself. *)
Example rollback_of_registered_resource :
  let '(w', ret, dxgalloc') :=
    dxgvmb_send_create_allocation sample_layout
      (host_created refuse_second_allocation) 0 0 (three_allocations true)
      (Some 0%nat) [Some 0; Some 1; Some 2]%nat three_infos
      resource_batch_world in
  ret = Done (- ENOMEM) /\
  dxgalloc' = [None; None; None] /\
  host_commands w'
  = [EvRpc (DXGK_VMBCOMMAND_CREATEALLOCATION 100 0 3 132 104);
     EvRpc (DXGK_VMBCOMMAND_DESTROYALLOCATION 100 0 3 [201; 202; 203] true);
     EvRpc (DXGK_VMBCOMMAND_DESTROYALLOCATION 100 200 0 [] false)] /\
  registered HMGRENTRY_TYPE_DXGALLOCATION 0 w' = [] /\
  registered HMGRENTRY_TYPE_DXGRESOURCE 0 w' = [].
Proof. vm_compute. repeat split. Qed.

(** When the message for the compensating destroy command cannot be
    allocated, [cleanup] is entered with [msg.channel] still null: nothing
    is registered yet, and the send dereferences the null channel. *)
Example rollback_without_destroy_message :
  let '(w', ret, dxgalloc') :=
    dxgvmb_send_create_allocation sample_layout host_created_no_memory 0 0
      (three_allocations false) None [Some 0; Some 1; Some 2]%nat three_infos
      device_batch_world in
  ret = Fault /\
  host_commands w'
  = [EvRpc (DXGK_VMBCOMMAND_CREATEALLOCATION 100 0 3 132 104)] /\
  last (trace w') = Some EvFault /\
  alloc_freed <$> (map_to_list (allocations w')).*2 = [false; false; false].
Proof. vm_compute. repeat split. Qed.

(** *** Claims *)

(** C1. Batch allocation create, rollback after a local failure: once the
    host has created the batch, every later local failure is to free the
    handles registered so far, send one command that destroys all host
    allocations of the batch with the not-in-use flag, and release the
    local objects. The code does not do so when the handle of the resource
    cannot be registered: the error is logged, the return value is then
    overwritten by the registration of the allocations, and the create
    reports success. Here the host has created resource 200 with the
    allocations 201, 202 and 203 and the handle manager turns down the
    resource handle: the call returns 0, the create command is the only
    command sent to the host, the three allocation handles stay
    registered, the three allocations stay alive, and the resource is left
    without a handle. *)
Theorem resource_handle_failure_not_rolled_back :
  let '(w', ret, dxgalloc') :=
    dxgvmb_send_create_allocation sample_layout
      (host_created refuse_resource) 0 0 (three_allocations true)
      (Some 0%nat) [Some 0; Some 1; Some 2]%nat three_infos
      resource_batch_world in
  ret = Done 0 /\
  dxgalloc' = [Some 0; Some 1; Some 2]%nat /\
  trace w'
  = [EvRpc (DXGK_VMBCOMMAND_CREATEALLOCATION 100 0 3 132 104);
     EvLock down_write (handle_table_lock 0);
     EvErr "failed to assign resource handle";
     EvLock up_write (handle_table_lock 0)] /\
  length (registered HMGRENTRY_TYPE_DXGALLOCATION 0 w') = 3%nat /\
  registered HMGRENTRY_TYPE_DXGRESOURCE 0 w' = [] /\
  alloc_freed <$> (map_to_list (allocations w')).*2 = [false; false; false] /\
  (res_handle_valid <$> resources w' !! 0%nat) = Some false.
Proof. vm_compute. repeat split. Qed.

(** C9, as the code has it. Size ceilings: a synchronous send whose
    command or result is larger than the maximum packet size fails with
    [-EINVAL], the error of the code for an oversized message, and sends
    nothing: the list of pending requests is unchanged and no send is
    added to the events. A batch allocation create whose combined size
    (command header, per-allocation array, global and per-allocation
    private driver data) is larger than the maximum packet size fails
    before any contact with the host, the world and its trace being
    unchanged: with [-EOVERFLOW], or with [-ENOMEM] when the result buffer,
    which is allocated before the combined size is tested, cannot be had.
    The sizes are those of the [u32] fields, and the combined size is taken
    below [2^32], where the [u32] command size does not wrap. *)
Theorem size_ceilings :
  (forall MAX env channel cmd_size result result_size,
      MAX < cmd_size \/ MAX < result_size ->
      let '(channel', sent) :=
        Vmbus.dxgvmb_send_sync_msg_begin MAX env channel cmd_size result
          result_size in
      sent = Vmbus.SyncFailed (- EINVAL) /\
      Vmbus.packet_list channel' = Vmbus.packet_list channel /\
      List.filter Vmbus.is_send (Vmbus.events channel')
      = List.filter Vmbus.is_send (Vmbus.events channel)) /\
  (forall L env p d args resource dxgalloc alloc_info w,
      DXG_MAX_VM_BUS_PACKET_SIZE L <= 2 ^ 31 ->
      length alloc_info = Z.to_nat (alloc_count args) ->
      Forall (fun info => 0 <= info_priv_drv_data_size info) alloc_info ->
      0 <= priv_drv_data_size args ->
      0 <= aggregate_size L args alloc_info < 2 ^ 32 ->
      DXG_MAX_VM_BUS_PACKET_SIZE L < aggregate_size L args alloc_info ->
      exists ret,
        dxgvmb_send_create_allocation L env p d args resource dxgalloc
          alloc_info w = (w, Done ret, dxgalloc) /\
        (ret = - EOVERFLOW \/
         vzalloc_result_ok env = false /\ ret = - ENOMEM)).
Proof.
  split.
  - intros MAX env channel cmd_size result result_size Hover.
    unfold Vmbus.dxgvmb_send_sync_msg_begin.
    assert ((cmd_size >? MAX) || (result_size >? MAX) = true) as ->.
    { apply orb_true_iff. rewrite !Z.gtb_gt. lia. }
    cbn [Vmbus.add_event Vmbus.packet_list Vmbus.events].
    split; [reflexivity|]. split; [reflexivity|].
    rewrite List.filter_app. cbn. apply app_nil_r.
  - intros. by apply dxgvmb_send_create_allocation_budget.
Qed.

Lemma size_ceilings_witness :
  (let '(channel', sent) :=
     Vmbus.dxgvmb_send_sync_msg_begin 131072
       {| Vmbus.kmem_cache_alloc_ok := true; Vmbus.vmbus_sendpacket_ret := 0 |}
       Vmbus.one_pending 200000 [] 4 in
   sent = Vmbus.SyncFailed (- EINVAL) /\
   Vmbus.packet_list channel' = Vmbus.packet_list Vmbus.one_pending /\
   List.filter Vmbus.is_send (Vmbus.events channel')
   = List.filter Vmbus.is_send (Vmbus.events Vmbus.one_pending)) /\
  (exists ret,
      dxgvmb_send_create_allocation sample_layout
        (host_created (fun _ _ => false)) 0 0 large_batch None
        [Some 0; Some 1]%nat large_infos device_batch_world
      = (device_batch_world, Done ret, [Some 0; Some 1]%nat) /\
      (ret = - EOVERFLOW \/
       vzalloc_result_ok (host_created (fun _ _ => false)) = false /\
       ret = - ENOMEM)).
Proof.
  split.
  - exact (proj1 size_ceilings 131072
             {| Vmbus.kmem_cache_alloc_ok := true;
                Vmbus.vmbus_sendpacket_ret := 0 |}
             Vmbus.one_pending 200000 [] 4 (or_introl eq_refl)).
  - exact (proj2 size_ceilings sample_layout
             (host_created (fun _ _ => false)) 0%nat 0%nat large_batch None
             [Some 0; Some 1]%nat large_infos device_batch_world
             sample_ceiling eq_refl large_batch_sizes large_batch_priv
             large_batch_fits large_batch_over).
Defined.

(** The claim as stated fails when the result buffer cannot be
    allocated: the batch of two allocations whose combined size of 140072
    bytes is above the ceiling of 131072 bytes, each part being below it,
    fails with [-ENOMEM], not with [-EOVERFLOW]; the allocation of the
    result buffer comes before the test of the combined size. *)
Lemma large_batch_out_of_memory_not_overflow :
  DXG_MAX_VM_BUS_PACKET_SIZE sample_layout
  < aggregate_size sample_layout large_batch large_infos /\
  dxgvmb_send_create_allocation sample_layout AllocSamples.no_result_buffer
    0 0 large_batch None [Some 0; Some 1]%nat large_infos device_batch_world
  = (device_batch_world, Done (- ENOMEM), [Some 0; Some 1]%nat) /\
  - ENOMEM <> - EOVERFLOW.
Proof. split; [reflexivity|]. split; [vm_compute; reflexivity|discriminate]. Qed.

End AllocSpec.

(** ** The channel: a request and its reply, and the receive path *)
Module ReceiveSpec.
Import Vmbus ChannelSpec.


Lemma take_request_perm t l :
  l ≡ₚ option_list (take_request t l).1 ++ (take_request t l).2.
Proof.
  induction l as [|q l IH]; cbn; [done|].
  destruct (t =? request_id q); cbn; [done|].
  destruct (take_request t l) as [found rest]. cbn in *.
  rewrite IH at 1. by rewrite Permutation_middle.
Qed.

Lemma take_request_found_id t l p :
  (take_request t l).1 = Some p -> request_id p = t.
Proof.
  induction l as [|q l IH]; cbn; [done|].
  destruct (Z.eqb_spec t (request_id q)) as [->|_]; cbn; [congruence|].
  destruct (take_request t l) as [found rest]. exact IH.
Qed.

(** One completion: the ids pending before are the id completed, if any,
    and the ids left pending. *)
Lemma process_completion_packet_perm ch desc :
  pending_ids ch ≡ₚ
  (request_id <$> option_list (process_completion_packet ch desc).2)
    ++ pending_ids (process_completion_packet ch desc).1.
Proof.
  unfold pending_ids.
  rewrite process_completion_packet_found, process_completion_packet_rest.
  rewrite (take_request_perm (trans_id desc) (packet_list ch)) at 1.
  rewrite fmap_app.
  destruct (take_request (trans_id desc) (packet_list ch)).1 as [p|]; [|done].
  cbn. by destruct (buffer_length p =? 0); [|destruct (_ <? _)].
Qed.

Lemma process_completion_packet_counter ch desc :
  packet_request_id (process_completion_packet ch desc).1
  = packet_request_id ch.
Proof.
  unfold process_completion_packet.
  destruct (take_request _ _) as [[p|] rest]; reflexivity.
Qed.

Lemma process_completion_packet_completed ch desc p :
  (process_completion_packet ch desc).2 = Some p -> completed p = true.
Proof.
  rewrite process_completion_packet_found.
  destruct (take_request _ _).1; [|done]. by intros [= <-].
Qed.

(** The receive path neither loses nor invents a request: whatever the
    ring holds, the request ids pending before are the ids of the
    requests completed together with the ids still pending; the request id
    counter is not touched; every request handed back is marked completed;
    and only completion packets complete requests. *)
Theorem receive_conserves_requests (sizeof_h2v : Z)
    (ring : list vmpacket_descriptor) :
  forall ch : dxgvmbuschannel,
    let r := dxgvmbuschannel_receive sizeof_h2v ch ring in
    packet_request_id r.1 = packet_request_id ch /\
    pending_ids ch ≡ₚ (request_id <$> r.2) ++ pending_ids r.1 /\
    Forall (fun p => completed p = true) r.2 /\
    (length r.2 <= length (List.filter is_completion ring))%nat.
Proof.
  induction ring as [|desc ring IH]; intros ch; cbn.
  - repeat split; [done|constructor|lia].
  - unfold is_completion at 1.
    destruct (pkt_type desc) eqn:Ht; cbn.
    + specialize (IH (process_inband_packet sizeof_h2v ch desc)).
      destruct (dxgvmbuschannel_receive _ _ ring) as [ch' done2].
      cbn in *. destruct IH as (Hc & Hp & Hd & Hn).
      assert (packet_list (process_inband_packet sizeof_h2v ch desc)
              = packet_list ch /\
              packet_request_id (process_inband_packet sizeof_h2v ch desc)
              = packet_request_id ch) as [Hl Hr].
      { unfold process_inband_packet.
        by destruct (adapter ch); cbn; [|destruct (_ <? _)]. }
      unfold pending_ids in *. rewrite Hl in Hp. by rewrite Hc, Hr.
    + pose proof (process_completion_packet_perm ch desc) as Hperm.
      pose proof (process_completion_packet_counter ch desc) as Hcnt.
      pose proof (process_completion_packet_completed ch desc) as Hcomp.
      destruct (process_completion_packet ch desc) as [ch1 found].
      cbn in *. specialize (IH ch1).
      destruct (dxgvmbuschannel_receive _ ch1 ring) as [ch' done2].
      cbn in *. destruct IH as (Hc & Hp & Hd & Hn).
      split; [congruence|]. split; [|split].
      * rewrite Hperm, Hp, fmap_app. by rewrite <- app_assoc.
      * apply Forall_app. split; [|done].
        destruct found as [p|]; cbn; [|constructor].
        constructor; [by apply Hcomp|constructor].
      * rewrite length_app. destruct found; cbn; lia.
    + specialize (IH (add_event ch (EvErr "unexpected packet type"))).
      destruct (dxgvmbuschannel_receive _ _ ring) as [ch' done2].
      cbn in *. exact IH.
Qed.



End ReceiveSpec.

(** ** What the teardown functions leave alone *)
Module FootprintFrame.
Import Graph Footprint.

(** Predicates on the world that every guest-local step keeps: events
    that are no command to the host, and the writes the teardown functions
    make. *)
Class LocalFrame (Q : world -> Prop) : Prop := {
  frame_local e w : local_event e = true -> Q w -> Q (add_event e w);
  frame_adapter a g w : Q w -> Q (upd_adapter a g w);
  frame_pinfo pa g w : Q w -> Q (upd_pinfo pa g w);
  frame_device d g w : Q w -> Q (upd_device d g w);
  frame_context c g w : Q w -> Q (upd_context c g w);
  frame_resource r g w : Q w -> Q (upd_resource r g w);
  frame_sresource s g w : Q w -> Q (upd_sresource s g w);
  frame_hmgr_free p t h w : Q w -> Q (hmgrtable_free_handle p t h w);
  frame_alloc_pages al w : Q w -> Q (upd_allocation al (set_pages false) w);
  frame_alloc_unmap al w :
    Q w ->
    Q (upd_allocation al
         (fun x => set_cpu_address_refcount 0 (set_cpu_address_mapped false x))
         w);
  frame_alloc_invalid al w :
    Q w -> Q (upd_allocation al (set_alloc_handle_valid false) w);
  frame_alloc_unlink al w :
    Q w -> Q (upd_allocation al (set_alloc_linked false) w);
  frame_alloc_gpadl al w :
    Q w -> Q (upd_allocation al (set_gpadl_handle 0) w);
  frame_alloc_freed al w :
    Q w -> Q (upd_allocation al (set_alloc_freed true) w);
  frame_alloc_handle al w :
    Q w -> Q (upd_allocation al (set_alloc_handle 0) w)
}.

(** Predicates that the plain command to destroy allocations keeps as
    well. *)
Class DestroyFrame (Q : world -> Prop) : Prop := {
  destroy_local :: LocalFrame Q;
  frame_destroy dh rh n hs w :
    Q w ->
    Q (add_event (EvRpc (DXGK_VMBCOMMAND_DESTROYALLOCATION dh rh n hs false)) w)
}.

(** Functions that keep a predicate. *)
Class Keeps (Q : world -> Prop) (f : world -> world) : Prop :=
  keeps_fun : forall w, Q w -> Q (f w).

Lemma keeps_foldl {A} (Q : world -> Prop) (f : world -> A -> world)
    (l : list A) :
  (forall w x, Q w -> Q (f w x)) -> forall w, Q w -> Q (foldl f w l).
Proof.
  intros Hf. induction l as [|x l IH]; intros w H; cbn; [done|].
  apply IH. by apply Hf.
Qed.

Ltac keeps_step :=
  match goal with
  | H : ?Q ?w |- ?Q ?w => exact H
  | |- Keeps _ _ => intros ? ?
  | |- _ (add_event (EvRpc (DXGK_VMBCOMMAND_DESTROYALLOCATION _ _ _ _ false)) _) =>
      apply frame_destroy
  | |- _ (add_event _ _) => apply frame_local; [reflexivity|]
  | |- _ (fault _) => apply frame_local; [reflexivity|]
  | |- _ (upd_adapter _ _ _) => apply frame_adapter
  | |- _ (upd_pinfo _ _ _) => apply frame_pinfo
  | |- _ (upd_device _ _ _) => apply frame_device
  | |- _ (upd_context _ _ _) => apply frame_context
  | |- _ (upd_resource _ _ _) => apply frame_resource
  | |- _ (upd_sresource _ _ _) => apply frame_sresource
  | |- _ (hmgrtable_free_handle _ _ _ _) => apply frame_hmgr_free
  | |- _ (upd_allocation _ _ _) =>
      first [ apply frame_alloc_pages | apply frame_alloc_unmap
            | apply frame_alloc_invalid | apply frame_alloc_unlink
            | apply frame_alloc_gpadl | apply frame_alloc_freed
            | apply frame_alloc_handle ]
  | |- _ (foldl _ _ _) => apply keeps_foldl; [intros|]
  | |- _ (match ?x with _ => _ end) => destruct x eqn:?
  | |- _ (if ?b then _ else _) => destruct b eqn:?
  | |- ?Q (?f ?w) => apply (keeps_fun (Q := Q) (f := f))
  end.

Ltac keeps := repeat keeps_step.

Section Local.
Context (Q : world -> Prop) `{!LocalFrame Q}.

#[export] Instance hmgrtable_lock_keeps p : Keeps Q (hmgrtable_lock p).
Proof. unfold hmgrtable_lock. keeps. Qed.
#[export] Instance hmgrtable_unlock_keeps p : Keeps Q (hmgrtable_unlock p).
Proof. unfold hmgrtable_unlock. keeps. Qed.
#[export] Instance hmgrtable_free_handle_safe_keeps p t h :
  Keeps Q (hmgrtable_free_handle_safe p t h).
Proof. unfold hmgrtable_free_handle_safe. keeps. Qed.
#[export] Instance kref_get_device_keeps d : Keeps Q (kref_get_device d).
Proof. unfold kref_get_device. keeps. Qed.
#[export] Instance kref_put_device_keeps d : Keeps Q (kref_put_device d).
Proof. unfold kref_put_device, dxgdevice_release. keeps. Qed.
#[export] Instance kref_put_context_keeps c : Keeps Q (kref_put_context c).
Proof. unfold kref_put_context, dxgcontext_release. keeps. Qed.
#[export] Instance kref_get_resource_keeps r : Keeps Q (kref_get_resource r).
Proof. unfold kref_get_resource. keeps. Qed.
#[export] Instance kref_put_resource_keeps r : Keeps Q (kref_put_resource r).
Proof. unfold kref_put_resource, dxgresource_release. keeps. Qed.
#[export] Instance kref_put_sresource_keeps s :
  Keeps Q (kref_put_sresource s).
Proof. unfold kref_put_sresource, dxgsharedresource_destroy. keeps. Qed.
#[export] Instance dxgallocation_stop_keeps al :
  Keeps Q (dxgallocation_stop al).
Proof. unfold dxgallocation_stop. keeps. Qed.
#[export] Instance dxgallocation_free_handle_keeps al :
  Keeps Q (dxgallocation_free_handle al).
Proof. unfold dxgallocation_free_handle. keeps. Qed.
#[export] Instance dxgdevice_remove_alloc_keeps d al :
  Keeps Q (dxgdevice_remove_alloc d al).
Proof. unfold dxgdevice_remove_alloc. keeps. Qed.
#[export] Instance dxgresource_remove_alloc_keeps r al :
  Keeps Q (dxgresource_remove_alloc r al).
Proof. unfold dxgresource_remove_alloc. keeps. Qed.
#[export] Instance dxgdevice_remove_resource_keeps d r :
  Keeps Q (dxgdevice_remove_resource d r).
Proof. unfold dxgdevice_remove_resource. keeps. Qed.
#[export] Instance dxgsharedresource_remove_resource_keeps s r :
  Keeps Q (dxgsharedresource_remove_resource s r).
Proof. unfold dxgsharedresource_remove_resource. keeps. Qed.
#[export] Instance dxgresource_free_handle_keeps r :
  Keeps Q (dxgresource_free_handle r).
Proof. unfold dxgresource_free_handle. keeps. Qed.
#[export] Instance dxgdevice_acquire_alloc_list_lock_keeps d :
  Keeps Q (dxgdevice_acquire_alloc_list_lock d).
Proof. unfold dxgdevice_acquire_alloc_list_lock. keeps. Qed.
#[export] Instance dxgdevice_release_alloc_list_lock_keeps d :
  Keeps Q (dxgdevice_release_alloc_list_lock d).
Proof. unfold dxgdevice_release_alloc_list_lock. keeps. Qed.
#[export] Instance dxgdevice_stop_keeps d : Keeps Q (dxgdevice_stop d).
Proof.
  unfold dxgdevice_stop, dxgpagingqueue_stop, dxgsyncobject_stop. keeps.
Qed.
#[export] Instance dxgdevice_remove_context_keeps d c :
  Keeps Q (dxgdevice_remove_context d c).
Proof. unfold dxgdevice_remove_context. keeps. Qed.
#[export] Instance dxgcontext_destroy_keeps p c :
  Keeps Q (dxgcontext_destroy p c).
Proof. unfold dxgcontext_destroy, dxghwqueue_destroy. keeps. Qed.

End Local.

Section Destroy.
Context (Q : world -> Prop) `{!DestroyFrame Q}.

#[export] Instance dxgvmb_send_destroy_allocation_keeps dh rh hs :
  Keeps Q (dxgvmb_send_destroy_allocation dh rh hs).
Proof. unfold dxgvmb_send_destroy_allocation. keeps. Qed.
#[export] Instance dxgallocation_destroy_keeps al :
  Keeps Q (dxgallocation_destroy al).
Proof. unfold dxgallocation_destroy. keeps. Qed.
#[export] Instance dxgresource_destroy_keeps r :
  Keeps Q (dxgresource_destroy r).
Proof. unfold dxgresource_destroy. keeps. Qed.

End Destroy.

(** *** The predicates *)

Lemma emits_refl P w : emits P w w.
Proof. exists []. by rewrite app_nil_r. Qed.

Lemma emits_add_event P w0 w e :
  P e = true -> emits P w0 w -> emits P w0 (add_event e w).
Proof.
  intros He (evs & Ht & Hp). exists (evs ++ [e]). cbn.
  rewrite Ht, <- app_assoc, forallb_app, Hp. cbn. by rewrite He.
Qed.

Lemma emits_same P w0 w w' :
  trace w' = trace w -> emits P w0 w -> emits P w0 w'.
Proof. intros Ht (evs & Hw & Hp). exists evs. by rewrite Ht. Qed.

Lemma emits_trans P w0 w1 w2 :
  emits P w0 w1 -> emits P w1 w2 -> emits P w0 w2.
Proof.
  intros (e1 & H1 & Hp1) (e2 & H2 & Hp2). exists (e1 ++ e2).
  rewrite H2, H1, <- app_assoc, forallb_app, Hp1, Hp2. done.
Qed.

Lemma local_other e : local_event e = true -> other_event e = true.
Proof. by destruct e. Qed.

#[export] Instance emits_local_frame w0 : LocalFrame (emits local_event w0).
Proof.
  split; intros; try (by eapply emits_same; [|eassumption]).
  - by apply emits_add_event.
  - unfold hmgrtable_free_handle. apply emits_add_event; [done|].
    by eapply emits_same; [|eassumption].
Qed.

#[export] Instance emits_other_frame w0 : DestroyFrame (emits other_event w0).
Proof.
  split; [split|]; intros; try (by eapply emits_same; [|eassumption]).
  - apply emits_add_event; [by apply local_other|done].
  - unfold hmgrtable_free_handle. apply emits_add_event; [done|].
    by eapply emits_same; [|eassumption].
  - by apply emits_add_event.
Qed.

Lemma alloc_sat_same al φ w w' :
  allocations w' = allocations w -> alloc_sat al φ w -> alloc_sat al φ w'.
Proof. intros He (x & Hx & Hp). exists x. by rewrite He. Qed.

Lemma alloc_sat_upd al φ al' g w :
  (forall x, φ x -> φ (g x)) ->
  alloc_sat al φ w -> alloc_sat al φ (upd_allocation al' g w).
Proof.
  intros Hg (x & Hx & Hp). unfold alloc_sat. cbn.
  destruct (decide (al' = al)) as [->|Hne].
  - exists (g x). rewrite lookup_alter_eq, Hx. split; [done|by apply Hg].
  - exists x. by rewrite lookup_alter_ne.
Qed.

Lemma alloc_sat_add_event al φ e w :
  alloc_sat al φ w -> alloc_sat al φ (add_event e w).
Proof. by apply alloc_sat_same. Qed.

Existing Class teardown_stable.

#[export] Instance alloc_sat_frame al φ :
  teardown_stable φ -> DestroyFrame (alloc_sat al φ).
Proof.
  intros Hs.
  split; [split|]; intros;
    try (by eapply alloc_sat_same; [|eassumption]);
    (apply alloc_sat_upd; [intros x Hx; by apply Hs|done]).
Qed.

Lemma unregistered_same p h w w' :
  processes w' = processes w -> unregistered p h w -> unregistered p h w'.
Proof. intros He H process obj. rewrite He. apply H. Qed.

Lemma unregistered_free p h p' t h' w :
  unregistered p h w -> unregistered p h (hmgrtable_free_handle p' t h' w).
Proof.
  intros H process obj. unfold hmgrtable_free_handle. cbn.
  destruct (decide (p' = p)) as [->|Hne];
    [|rewrite lookup_alter_ne by done; apply H].
  rewrite lookup_alter_eq.
  destruct (processes w !! p) as [pr|] eqn:Hp; [|done]. cbn. intros [= <-].
  destruct (handle_table pr !! h') as [[t' o]|] eqn:Hh; [|by eapply H].
  destruct (decide (t' = t)); [|by eapply H]. cbn.
  destruct (decide (h' = h)) as [->|Hhne].
  - by rewrite lookup_delete_eq.
  - rewrite lookup_delete_ne by done. by eapply H.
Qed.

Lemma unregistered_add_event p h e w :
  unregistered p h w -> unregistered p h (add_event e w).
Proof. by apply unregistered_same. Qed.

#[export] Instance unregistered_frame p h : DestroyFrame (unregistered p h).
Proof.
  split; [split|]; intros;
    try (by eapply unregistered_same; [|eassumption]).
  by apply unregistered_free.
Qed.

#[export] Instance released_stable : teardown_stable released.
Proof. intros x [Hf Hv]. by repeat split. Qed.

#[export] Instance present_stable : teardown_stable (fun _ => True).
Proof. by intros x _. Qed.

#[export] Instance invalid_stable :
  teardown_stable (fun x => alloc_handle_valid x = false).
Proof. intros x Hx. by repeat split. Qed.

End FootprintFrame.

(** ** The rollback of a failed batch create *)
Module RollbackSpec.
Import Graph Alloc Footprint FootprintFrame.

Lemma dxgallocation_free_handle_other al al' w :
  al <> al' ->
  allocations (dxgallocation_free_handle al' w) !! al = allocations w !! al.
Proof.
  intros Hne. unfold dxgallocation_free_handle.
  destruct (allocations w !! al') as [x'|]; [|reflexivity].
  destruct (alloc_handle_valid x'); cbn; [|reflexivity].
  by rewrite lookup_alter_ne.
Qed.

Lemma dxgallocation_free_handle_unregisters al w x :
  allocations w !! al = Some x -> alloc_handle_valid x = true ->
  unregistered (alloc_process x) (alloc_handle x)
    (dxgallocation_free_handle al w).
Proof.
  intros Hx Hv process obj. unfold dxgallocation_free_handle.
  rewrite Hx, Hv. cbn. rewrite lookup_alter_eq.
  destruct (processes w !! alloc_process x) as [pr|]; [|done].
  cbn. intros [= <-].
  destruct (handle_table pr !! alloc_handle x) as [[t o]|] eqn:Hh;
    [|by rewrite Hh].
  destruct (decide (t = HMGRENTRY_TYPE_DXGALLOCATION)) as [->|Hne]; cbn.
  - by rewrite lookup_delete_eq.
  - rewrite Hh. congruence.
Qed.

Lemma dxgallocation_free_handle_invalid al w :
  alloc_sat al (fun _ => True) w ->
  alloc_sat al (fun x => alloc_handle_valid x = false)
    (dxgallocation_free_handle al w).
Proof.
  intros (x & Hx & _). unfold dxgallocation_free_handle, alloc_sat.
  rewrite Hx. destruct (alloc_handle_valid x) eqn:Hv; cbn.
  - rewrite lookup_alter_eq, Hx. by eexists.
  - by exists x.
Qed.

(** [dxgallocation_destroy] frees the allocation it is given. *)
Lemma dxgallocation_destroy_releases al w :
  alloc_sat al (fun _ => True) w ->
  alloc_sat al released (dxgallocation_destroy al w).
Proof.
  intros Hp. unfold dxgallocation_destroy.
  assert (alloc_sat al (fun _ => True) (dxgallocation_stop al w)) as Hp1.
  { by apply keeps_fun. }
  destruct Hp1 as (alloc & Ha & _). rewrite Ha.
  match goal with
  | |- context [dxgallocation_free_handle al ?w2] =>
      assert (alloc_sat al (fun x => alloc_handle_valid x = false)
                (dxgallocation_free_handle al w2)) as Hi
  end.
  { apply dxgallocation_free_handle_invalid. keeps; by exists alloc. }
  match goal with
  | |- alloc_sat _ _ (add_event _ (upd_allocation _ _ ?w5)) =>
      assert (alloc_sat al (fun x => alloc_handle_valid x = false) w5)
        as (x5 & Hx5 & Hv5)
  end.
  { keeps. }
  eapply alloc_sat_same; [reflexivity|].
  unfold alloc_sat. cbn. rewrite lookup_alter_eq, Hx5. by eexists.
Qed.

(** The two loops of the rollback over the array of allocations. *)
Local Abbreviation free_handles :=
  (foldl (fun w (ptr : option nat) =>
            match ptr with
            | Some al => dxgallocation_free_handle al w
            | None => w
            end)).

Local Abbreviation destroy_all :=
  (foldl (fun w (ptr : option nat) =>
            match ptr with
            | Some al =>
                dxgallocation_destroy al
                  (upd_allocation al (set_alloc_handle 0) w)
            | None => w
            end)).

Lemma free_handles_unregister (l : list (option nat)) :
  forall w al x,
    Some al ∈ l -> allocations w !! al = Some x ->
    alloc_handle_valid x = true ->
    unregistered (alloc_process x) (alloc_handle x) (free_handles w l).
Proof.
  induction l as [|ptr l IH]; intros w al x Hin Hx Hv; [by inversion Hin|].
  cbn. destruct (decide (ptr = Some al)) as [->|Hne].
  - apply keeps_foldl.
    + intros w' ptr' Hu. keeps.
    + by apply dxgallocation_free_handle_unregisters.
  - apply (IH _ al); [|destruct ptr as [al'|]|done].
    + by apply elem_of_cons in Hin as [|].
    + by rewrite dxgallocation_free_handle_other by congruence.
    + done.
Qed.

Lemma destroy_all_releases (l : list (option nat)) :
  forall w al,
    Some al ∈ l -> alloc_sat al (fun _ => True) w ->
    alloc_sat al released (destroy_all w l).
Proof.
  induction l as [|ptr l IH]; intros w al Hin Hp; [by inversion Hin|].
  cbn. destruct (decide (ptr = Some al)) as [->|Hne].
  - apply keeps_foldl.
    + intros w' ptr' Hu. keeps.
    + apply dxgallocation_destroy_releases. keeps.
  - apply (IH _ al); [by apply elem_of_cons in Hin as [|]|].
    keeps.
Qed.

Section Rollback.
Variables (L : layout) (env : alloc_env) (d : nat).
Variables (args : d3dkmt_createallocation) (result : createallocation_return).
Variables (resource : option nat) (dxgalloc : list (option nat)).
Variables (msg_size ret : Z) (w : world).
Hypothesis count_int : 0 <= alloc_count args < 2 ^ 31.
Hypothesis message_fits : msg_size <= DXG_MAX_VM_BUS_PACKET_SIZE L.

Local Abbreviation n := (Z.to_nat (alloc_count args)).
Local Abbreviation rolled_back :=
  (rollback_local_allocations L env d args result resource dxgalloc true
     msg_size ret w).

(** The block under [cleanup] that undoes a batch create, run with the
    destroy message at hand: it returns the error it was entered with and
    clears the pointers of the batch; before its command to the host
    nothing but guest-local steps happen (the locks and the release of the
    handles), the command destroys all host allocations of the batch with
    the not-in-use flag, and no second such command follows. *)
Theorem rollback_sends_one_compensating_destroy :
  rolled_back.1.2 = Done ret /\
  rolled_back.2 = ((fun _ => None) <$> take n dxgalloc) ++ drop n dxgalloc /\
  exists pre post,
    trace rolled_back.1.1 =
      trace w ++ pre
        ++ EvRpc (DXGK_VMBCOMMAND_DESTROYALLOCATION (arg_device args)
                    (arg_resource args) (alloc_count args)
                    (ret_allocation <$> take n (allocation_info result)) true)
        :: post /\
    forallb local_event pre = true /\ forallb other_event post = true.
Proof.
  unfold rollback_local_allocations.
  rewrite (wrap_int_small (alloc_count args)) by lia.
  assert (to_u32 (alloc_count args) = alloc_count args) as ->.
  { unfold to_u32. apply Z.mod_small. lia. }
  destruct (Z.gtb_spec msg_size (DXG_MAX_VM_BUS_PACKET_SIZE L)) as [|_];
    [lia|].
  cbn [negb fst snd]. split; [reflexivity|]. split; [reflexivity|].
  match goal with
  | |- context [add_event (EvRpc ?c) ?w4] =>
      assert (emits local_event w w4) as (pre & Hpre & Hlocal);
      [|set (w5 := add_event (EvRpc c) w4) in *]
  end.
  { pose proof (emits_refl local_event w). keeps. }
  match goal with
  | |- context [trace ?w10] =>
      assert (emits other_event w5 w10) as (post & Hpost & Hother)
  end.
  { pose proof (emits_refl other_event w5). keeps. }
  exists pre, post. rewrite Hpost. subst w5. cbn [trace add_event].
  rewrite Hpre, <- !app_assoc. done.
Qed.

(** After the rollback every allocation of the batch is freed and has no
    valid handle, and the handle it had registered no longer names an
    allocation in the handle table of its process. *)
Theorem rollback_releases_the_batch (i al : nat) (x : dxgallocation) :
  (i < n)%nat -> dxgalloc !! i = Some (Some al) ->
  allocations w !! al = Some x ->
  alloc_sat al released rolled_back.1.1 /\
  (alloc_handle_valid x = true ->
   unregistered (alloc_process x) (alloc_handle x) rolled_back.1.1).
Proof.
  intros Hi Hal Hx.
  assert (Some al ∈ take n dxgalloc) as Hin.
  { apply list_elem_of_lookup. exists i. by rewrite lookup_take_lt. }
  unfold rollback_local_allocations.
  rewrite (wrap_int_small (alloc_count args)) by lia.
  destruct (Z.gtb_spec msg_size (DXG_MAX_VM_BUS_PACKET_SIZE L)) as [|_];
    [lia|].
  cbn [negb fst snd].
  match goal with
  | |- context [free_handles ?w1 (take n dxgalloc)] =>
      assert (alloc_handle_valid x = true ->
              unregistered (alloc_process x) (alloc_handle x)
                (free_handles w1 (take n dxgalloc))) as Hfree
  end.
  { intros Hv. by apply (free_handles_unregister _ _ al x Hin). }
  match goal with
  | |- context [destroy_all ?w7 (take n dxgalloc)] =>
      assert (alloc_sat al released (destroy_all w7 (take n dxgalloc)))
        as Hdestroy
  end.
  { apply (destroy_all_releases _ _ al Hin). keeps.
    all: apply alloc_sat_add_event; keeps; by exists x. }
  split; [keeps|].
  intros Hv. specialize (Hfree Hv). keeps.
  all: apply unregistered_add_event; keeps.
Qed.

End Rollback.

Import AllocSamples.

Lemma three_count_int : 0 <= alloc_count (three_allocations false) < 2 ^ 31.
Proof. vm_compute. split; [discriminate|reflexivity]. Qed.

Lemma destroy_message_fits : 68 <= DXG_MAX_VM_BUS_PACKET_SIZE sample_layout.
Proof. vm_compute. discriminate. Qed.

Lemma created_batch_world_first :
  allocations created_batch_world !! 0%nat = Some (created_allocation 201).
Proof. vm_compute. reflexivity. Qed.

Lemma rollback_sends_one_compensating_destroy_witness :
  let r := rollback_local_allocations sample_layout
             (host_created (fun _ _ => false)) 0 (three_allocations false)
             (host_result (host_created (fun _ _ => false))) None
             three_pointers true 68 (- EINVAL) created_batch_world in
  r.1.2 = Done (- EINVAL) /\
  r.2 = ((fun _ => None) <$> take 3 three_pointers) ++ drop 3 three_pointers /\
  exists pre post,
    trace r.1.1 =
      trace created_batch_world ++ pre
        ++ EvRpc (DXGK_VMBCOMMAND_DESTROYALLOCATION 100 0 3
                    (ret_allocation <$>
                     take 3 (allocation_info
                               (host_result
                                  (host_created (fun _ _ => false))))) true)
        :: post /\
    forallb local_event pre = true /\ forallb other_event post = true.
Proof.
  exact (rollback_sends_one_compensating_destroy sample_layout
           (host_created (fun _ _ => false)) 0%nat (three_allocations false)
           (host_result (host_created (fun _ _ => false))) None
           three_pointers 68 (- EINVAL) created_batch_world three_count_int
           destroy_message_fits).
Defined.

Lemma rollback_releases_the_batch_witness :
  let r := rollback_local_allocations sample_layout
             (host_created (fun _ _ => false)) 0 (three_allocations false)
             (host_result (host_created (fun _ _ => false))) None
             three_pointers true 68 (- EINVAL) created_batch_world in
  allocations created_batch_world !! 0%nat = Some (created_allocation 201) /\
  alloc_sat 0 released r.1.1 /\
  unregistered 0 201 r.1.1.
Proof.
  split; [exact created_batch_world_first|].
  destruct (rollback_releases_the_batch sample_layout
              (host_created (fun _ _ => false)) 0%nat (three_allocations false)
              (host_result (host_created (fun _ _ => false))) None
              three_pointers 68 (- EINVAL) created_batch_world three_count_int
              destroy_message_fits 0%nat 0%nat (created_allocation 201)
              (le_n_S _ _ (Nat.le_0_l 2)) eq_refl created_batch_world_first)
    as [Hreleased Hunregistered].
  split; [exact Hreleased|exact (Hunregistered eq_refl)].
Defined.

End RollbackSpec.

(** ** Registering the handles of a batch *)
Module RegisterSpec.
Import Graph Alloc Footprint FootprintFrame.

Section Loop.
Variables (env : alloc_env) (p : nat).
Variables (dxgalloc : list (option nat)) (infos : list allocinfo_return).
Variables (als : list nat) (n : nat).
Hypothesis pointers : take n dxgalloc = Some <$> als.
Hypothesis pointers_length : length als = n.
Hypothesis infos_length : (n <= length infos)%nat.
Hypothesis handles_distinct : NoDup (ret_allocation <$> take n infos).

Local Abbreviation assign_ret host :=
  (hmgrtable_assign_ret env HMGRENTRY_TYPE_DXGALLOCATION (ret_allocation host)).

Lemma pointer_lookup j al :
  als !! j = Some al -> dxgalloc !! j = Some (Some al).
Proof.
  intros Hj. pose proof (lookup_lt_Some _ _ _ Hj) as Hlt.
  rewrite <- (lookup_take_lt dxgalloc n j) by lia.
  by rewrite pointers, list_lookup_fmap, Hj.
Qed.

Lemma handle_distinct i j hi hj :
  (i < n)%nat -> (j < n)%nat -> i <> j ->
  infos !! i = Some hi -> infos !! j = Some hj ->
  ret_allocation hi <> ret_allocation hj.
Proof.
  intros Hi Hj Hne Hhi Hhj Heq. apply Hne.
  apply (NoDup_lookup _ i j (ret_allocation hi) handles_distinct).
  - by rewrite list_lookup_fmap, lookup_take_lt, Hhi.
  - by rewrite list_lookup_fmap, lookup_take_lt, Hhj, Heq.
Qed.

Lemma valid_kept al al' h w :
  alloc_sat al (fun x => alloc_handle_valid x = true) w ->
  alloc_sat al (fun x => alloc_handle_valid x = true)
    (upd_allocation al'
       (fun x => set_alloc_handle_valid true (set_alloc_handle h x)) w).
Proof. by apply alloc_sat_upd. Qed.

(** The loop started at index [i], when [k] is the first index from [i]
    on whose handle is turned down ([k = n] if there is none). *)
Lemma assign_allocation_handles_upto count :
  forall i k ret w pr,
    (i + count = n)%nat -> (i <= k <= n)%nat ->
    (forall j host, (i <= j < k)%nat -> infos !! j = Some host ->
                    0 <= assign_ret host) ->
    (forall host, (k < n)%nat -> infos !! k = Some host ->
                  assign_ret host < 0) ->
    processes w !! p = Some pr ->
    exists w' ret' pr',
      assign_allocation_handles env p dxgalloc infos i count ret w
        = (w', Done ret') /\
      trace w' =
        trace w ++ (if (k <? n)%nat
                    then [EvErr "failed to assign alloc handle"] else []) /\
      (forall host, (k < n)%nat -> infos !! k = Some host ->
                    ret' = assign_ret host) /\
      (k = n -> (i < n)%nat -> 0 <= ret') /\
      (i = n -> ret' = ret) /\
      processes w' !! p = Some pr' /\
      (forall j host al, (i <= j < k)%nat -> infos !! j = Some host ->
         als !! j = Some al ->
         handle_table pr' !! ret_allocation host
           = Some (HMGRENTRY_TYPE_DXGALLOCATION, al)) /\
      (forall h,
         (forall j host, (i <= j < k)%nat -> infos !! j = Some host ->
                         h <> ret_allocation host) ->
         handle_table pr' !! h = handle_table pr !! h) /\
      (forall al, alloc_sat al (fun x => alloc_handle_valid x = true) w ->
                  alloc_sat al (fun x => alloc_handle_valid x = true) w') /\
      (forall j al, (i <= j < k)%nat -> als !! j = Some al ->
         alloc_sat al (fun _ => True) w ->
         alloc_sat al (fun x => alloc_handle_valid x = true) w').
Proof.
  induction count as [|count IH]; intros i k ret w pr Hic Hk Hok Hbad Hpr.
  - assert (i = n) as -> by lia. assert (k = n) as -> by lia.
    exists w, ret, pr. rewrite Nat.ltb_irrefl, app_nil_r.
    cbn [assign_allocation_handles].
    repeat split; try done; intros; lia.
  - destruct (lookup_lt_is_Some_2 infos i) as [host Hi]; [lia|].
    destruct (lookup_lt_is_Some_2 als i) as [al Hal]; [lia|].
    cbn [assign_allocation_handles].
    rewrite Hi, (pointer_lookup _ _ Hal). unfold hmgrtable_assign_handle.
    destruct (decide (k = i)) as [->|Hne].
    + assert ((assign_ret host <? 0) = true) as Hlt
        by (apply Z.ltb_lt, Hbad; [lia|done]).
      repeat (rewrite Hlt; cbn beta iota zeta).
      exists (add_event (EvErr "failed to assign alloc handle") w),
        (assign_ret host), pr.
      assert ((i <? n)%nat = true) as -> by (apply Nat.ltb_lt; lia).
      repeat split; try done; try (intros; lia).
      intros host' _ Hh. congruence.
    + assert ((assign_ret host <? 0) = false) as Hlt
        by (apply Z.ltb_ge, (Hok i); [lia|done]).
      repeat (rewrite Hlt; cbn beta iota zeta).
      match goal with
      | |- context [assign_allocation_handles _ _ _ _ _ _ ?r ?w1] =>
          destruct (IH (S i) k r w1
                      (set_handle_table
                         (<[ret_allocation host :=
                              (HMGRENTRY_TYPE_DXGALLOCATION, al)]>
                            (handle_table pr)) pr))
            as (w' & ret' & pr' & -> & Htr & Hret & Hpos & Hsame & Hpr' & Hreg
                & Hrest & Hkeep & Hvalid)
      end.
      { lia. } { lia. }
      { intros j host' Hj. apply Hok. lia. }
      { exact Hbad. }
      { cbn. by rewrite lookup_alter_eq, Hpr. }
      exists w', ret', pr'. split; [reflexivity|]. split; [exact Htr|].
      split; [exact Hret|]. split.
      { intros -> _. destruct (decide (S i = n)) as [Hlast|Hmore].
        - rewrite (Hsame Hlast). apply (Hok i); [lia|done].
        - apply Hpos; [done|lia]. }
      split; [intros; lia|]. split; [exact Hpr'|]. split; [|split; [|split]].
      * intros j host' al' Hj Hh' Hal'.
        destruct (decide (j = i)) as [->|Hji].
        -- assert (host' = host) as -> by congruence.
           assert (al' = al) as -> by congruence.
           rewrite Hrest; [by cbn; rewrite lookup_insert_eq|].
           intros j' host'' Hj' Hh''.
           apply (handle_distinct i j'); (done || lia).
        -- apply (Hreg j); (done || lia).
      * intros h Hh. rewrite Hrest.
        -- cbn. rewrite lookup_insert_ne; [done|].
           intros Heq. by apply (Hh i host); [lia| |].
        -- intros j host' Hj. apply Hh. lia.
      * intros al' H. apply Hkeep. by apply valid_kept.
      * intros j al' Hj Hal' Hp.
        destruct (decide (j = i)) as [->|Hji].
        -- assert (al' = al) as -> by congruence.
           apply Hkeep. destruct Hp as (x & Hx & _).
           unfold alloc_sat. cbn. rewrite lookup_alter_eq, Hx. by eexists.
        -- apply (Hvalid j); [lia|done|].
           by apply alloc_sat_upd.
Qed.

(** What the loop does to the objects: the allocations at the indices
    from [i] up to [k] get their host handle, every other allocation and
    every resource and device is as it was. *)
Lemma assign_allocation_handles_objects count :
  forall i k ret w,
    (i + count = n)%nat -> (i <= k <= n)%nat ->
    (forall j host, (i <= j < k)%nat -> infos !! j = Some host ->
                    0 <= assign_ret host) ->
    (forall host, (k < n)%nat -> infos !! k = Some host ->
                  assign_ret host < 0) ->
    let w' := (assign_allocation_handles env p dxgalloc infos i count ret w).1 in
    (forall al, (forall j, (i <= j < k)%nat -> als !! j <> Some al) ->
       allocations w' !! al = allocations w !! al) /\
    (forall j host al, (i <= j < k)%nat -> infos !! j = Some host ->
       als !! j = Some al ->
       (forall j', (i <= j' < k)%nat -> j' <> j -> als !! j' <> Some al) ->
       allocations w' !! al
       = (fun x => set_alloc_handle_valid true
                     (set_alloc_handle (ret_allocation host) x))
         <$> allocations w !! al) /\
    resources w' = resources w /\ devices w' = devices w.
Proof.
  induction count as [|count IH]; intros i k ret w Hic Hk Hok Hbad.
  - cbn [assign_allocation_handles fst]. repeat split; try done.
    intros; lia.
  - destruct (lookup_lt_is_Some_2 infos i) as [host Hi]; [lia|].
    destruct (lookup_lt_is_Some_2 als i) as [al Hal]; [lia|].
    cbn [assign_allocation_handles].
    rewrite Hi, (pointer_lookup _ _ Hal). unfold hmgrtable_assign_handle.
    destruct (decide (k = i)) as [->|Hne].
    + assert ((assign_ret host <? 0) = true) as Hlt
        by (apply Z.ltb_lt, Hbad; [lia|done]).
      repeat (rewrite Hlt; cbn beta iota zeta).
      cbn [fst]. repeat split; try done. intros; lia.
    + assert ((assign_ret host <? 0) = false) as Hlt
        by (apply Z.ltb_ge, (Hok i); [lia|done]).
      repeat (rewrite Hlt; cbn beta iota zeta).
      match goal with
      | |- context [assign_allocation_handles _ _ _ _ _ _ ?r ?w1] =>
          destruct (IH (S i) k r w1) as (Hother & Hset & Hres & Hdev)
      end.
      { lia. } { lia. }
      { intros j host' Hj. apply Hok. lia. }
      { exact Hbad. }
      split; [|split; [|split]].
      * intros al' Hal'. rewrite Hother by (intros j Hj; apply Hal'; lia).
        cbn. apply lookup_alter_ne. intros ->. by apply (Hal' i); [lia|].
      * intros j host' al' Hj Hh' Hal' Hone.
        destruct (decide (j = i)) as [->|Hji].
        -- assert (host' = host) as -> by congruence.
           assert (al' = al) as -> by congruence.
           rewrite Hother by (intros j' Hj'; apply Hone; lia).
           cbn. by rewrite lookup_alter_eq.
        -- rewrite (Hset j host' al') by
             (done || lia || (intros j' Hj' ?; apply Hone; lia)).
           cbn. rewrite lookup_alter_ne; [done|].
           intros ->. by apply (Hone i); [lia| |].
      * by rewrite Hres.
      * by rewrite Hdev.
Qed.

End Loop.

(** [process_allocation_handles] on a batch without a resource, of
    distinct allocations whose host handles are distinct: the handles are
    registered in order under one hold of the handle table lock, up to the
    first one the handle manager turns down. When the handle at index [k]
    is the first to be turned down, the call logs it once and returns its
    negative value; the [k] handles before it name their allocations in
    the table, and these allocations carry their host handle, marked as
    valid, and are otherwise as before; every other entry of the table,
    every other allocation (the one at index [k] and those after it
    among them) and every resource and device is as it was. When no
    handle is turned down, the result is not negative. *)
Theorem batch_registration_stops_at_first_failure (env : alloc_env) (p : nat)
    (args : d3dkmt_createallocation) (res : createallocation_return)
    (dxgalloc : list (option nat)) (resource : option nat) (als : list nat)
    (k : nat) (w : world) (pr : dxgprocess) :
  let n := Z.to_nat (alloc_count args) in
  let infos := allocation_info res in
  let assign_ret host :=
    hmgrtable_assign_ret env HMGRENTRY_TYPE_DXGALLOCATION
      (ret_allocation host) in
  create_resource args = false ->
  take n dxgalloc = Some <$> als -> length als = n -> NoDup als ->
  (n <= length infos)%nat -> NoDup (ret_allocation <$> take n infos) ->
  (k <= n)%nat ->
  (forall j host, (j < k)%nat -> infos !! j = Some host ->
                  0 <= assign_ret host) ->
  (forall host, (k < n)%nat -> infos !! k = Some host -> assign_ret host < 0) ->
  processes w !! p = Some pr ->
  exists w' ret pr',
    process_allocation_handles env p args res dxgalloc resource w
      = (w', Done ret) /\
    trace w' =
      trace w ++ [EvLock down_write (handle_table_lock p)]
        ++ (if (k <? n)%nat
            then [EvErr "failed to assign alloc handle"] else [])
        ++ [EvLock up_write (handle_table_lock p)] /\
    (k = n -> 0 <= ret) /\
    (forall host, (k < n)%nat -> infos !! k = Some host ->
                  ret = assign_ret host /\ ret < 0) /\
    processes w' !! p = Some pr' /\
    (forall j host al, (j < k)%nat -> infos !! j = Some host ->
       als !! j = Some al ->
       handle_table pr' !! ret_allocation host
         = Some (HMGRENTRY_TYPE_DXGALLOCATION, al)) /\
    (forall h,
       (forall j host, (j < k)%nat -> infos !! j = Some host ->
                       h <> ret_allocation host) ->
       handle_table pr' !! h = handle_table pr !! h) /\
    (forall j al, (j < k)%nat -> als !! j = Some al ->
       alloc_sat al (fun _ => True) w ->
       alloc_sat al (fun x => alloc_handle_valid x = true) w') /\
    (forall j host al, (j < k)%nat -> infos !! j = Some host ->
       als !! j = Some al ->
       allocations w' !! al
       = (fun x => set_alloc_handle_valid true
                     (set_alloc_handle (ret_allocation host) x))
         <$> allocations w !! al) /\
    (forall al, al ∉ take k als ->
       allocations w' !! al = allocations w !! al) /\
    (forall j al, (k <= j)%nat -> als !! j = Some al ->
       allocations w' !! al = allocations w !! al) /\
    resources w' = resources w /\ devices w' = devices w.
Proof.
  intros n infos assign_ret Hcr Hptr Hlen Hals Hinfos Hnd Hk Hok Hbad Hpr.
  unfold process_allocation_handles. rewrite Hcr.
  destruct (assign_allocation_handles_upto env p dxgalloc infos als n Hptr
              Hlen Hinfos Hnd n 0%nat k 0 (hmgrtable_lock p w) pr)
    as (w' & ret & pr' & Heq & Htr & Hret & Hpos & Hzero & Hpr' & Hreg
        & Hrest & _ & Hvalid).
  { lia. } { lia. }
  { intros j host Hj. apply Hok. lia. }
  { exact Hbad. }
  { exact Hpr. }
  destruct (assign_allocation_handles_objects env p dxgalloc infos als n Hptr
              Hlen Hinfos n 0%nat k 0 (hmgrtable_lock p w))
    as (Hother & Hset & Hres & Hdev).
  { lia. } { lia. }
  { intros j host Hj. apply Hok. lia. }
  { exact Hbad. }
  fold n infos in Heq, Hother, Hset, Hres, Hdev |- *.
  rewrite Heq in Hother, Hset, Hres, Hdev |- *. cbn [fst] in *.
  assert (forall al, al ∉ take k als ->
            allocations w' !! al = allocations w !! al) as Houtside.
  { intros al Hal. rewrite Hother; [done|].
    intros j Hj Hj'. apply Hal. apply list_elem_of_lookup. exists j.
    rewrite lookup_take_lt by lia. done. }
  exists (hmgrtable_unlock p w'), ret, pr'.
  split; [reflexivity|]. split.
  { cbn. rewrite Htr. cbn. by rewrite <- !app_assoc. }
  split.
  { intros ->. destruct (decide (n = 0%nat)) as [Hn|Hn].
    - rewrite Hzero; [done|lia].
    - apply Hpos; [done|lia]. }
  split.
  { intros host Hkn Hh. rewrite (Hret host Hkn Hh). split; [done|].
    by apply Hbad. }
  split; [exact Hpr'|]. split.
  { intros j host al Hj. apply Hreg. lia. }
  split.
  { intros h Hh. apply Hrest. intros j host Hj. apply Hh. lia. }
  split.
  { intros j al Hj Hal Hp. apply alloc_sat_add_event.
    apply (Hvalid j); [lia|done|]. by apply alloc_sat_add_event. }
  split.
  { intros j host al Hj Hh Hal. cbn. rewrite (Hset j host al); [done|lia|done..|].
    intros j' Hj' Hne Hal'. apply Hne.
    by apply (NoDup_lookup als j' j al). }
  split; [exact Houtside|]. split.
  { intros j al Hj Hal. apply Houtside.
    intros (j' & Hal')%list_elem_of_lookup.
    apply lookup_take_Some in Hal' as [Hal' Hlt].
    assert (j' = j) by (by apply (NoDup_lookup als j' j al)). lia. }
  split; [exact Hres|exact Hdev].
Qed.

Import AllocSamples.

Lemma device_batch_world_process :
  processes device_batch_world !! 0%nat = Some batch_process.
Proof. vm_compute. reflexivity. Qed.

Lemma three_handles_distinct :
  NoDup (ret_allocation <$>
         take 3 (allocation_info
                   (host_result (host_created refuse_second_allocation)))).
Proof. refine (bool_decide_unpack (NoDup _) _). vm_compute. exact I. Qed.

Lemma three_pointers_distinct : NoDup [0; 1; 2]%nat.
Proof. refine (bool_decide_unpack (NoDup _) _). vm_compute. exact I. Qed.

Lemma device_batch_world_first :
  allocations device_batch_world !! 0%nat = Some (new_allocation false).
Proof. vm_compute. reflexivity. Qed.

(** The second of three handles is turned down: the first one is
    registered and written to its allocation, the error is returned, the
    second and the third allocation are as they were. *)
Lemma batch_registration_stops_at_first_failure_witness :
  exists w' ret pr',
    process_allocation_handles (host_created refuse_second_allocation) 0
      (three_allocations false)
      (host_result (host_created refuse_second_allocation)) three_pointers
      None device_batch_world = (w', Done ret) /\
    trace w' =
      trace device_batch_world ++ [EvLock down_write (handle_table_lock 0)]
        ++ [EvErr "failed to assign alloc handle"]
        ++ [EvLock up_write (handle_table_lock 0)] /\
    ret = - ENOMEM /\
    processes w' !! 0%nat = Some pr' /\
    handle_table pr' !! 201 = Some (HMGRENTRY_TYPE_DXGALLOCATION, 0%nat) /\
    handle_table pr' !! 202 = None /\
    allocations w' !! 0%nat
    = Some (set_alloc_handle_valid true
              (set_alloc_handle 201 (new_allocation false))) /\
    allocations w' !! 1%nat = allocations device_batch_world !! 1%nat /\
    allocations w' !! 2%nat = allocations device_batch_world !! 2%nat.
Proof.
  destruct (batch_registration_stops_at_first_failure
              (host_created refuse_second_allocation) 0%nat
              (three_allocations false)
              (host_result (host_created refuse_second_allocation))
              three_pointers None [0; 1; 2]%nat 1%nat device_batch_world
              batch_process
              eq_refl eq_refl eq_refl three_pointers_distinct (le_n 3)
              three_handles_distinct
              (le_S _ _ (le_S _ _ (le_n 1))))
    as (w' & ret & pr' & Heq & Htr & _ & Hret & Hpr' & Hreg & Hrest & _
        & Hset & _ & Hafter & _).
  - intros j host Hj Hh. destruct j as [|j]; [|lia].
    injection Hh as <-. vm_compute. discriminate.
  - intros host _ Hh. injection Hh as <-. reflexivity.
  - exact device_batch_world_process.
  - exists w', ret, pr'. split; [exact Heq|]. split; [exact Htr|].
    split; [exact (proj1 (Hret (host_allocation 202) (le_n_S _ _ (le_S _ _ (le_n 1))) eq_refl))|].
    split; [exact Hpr'|]. split.
    { exact (Hreg 0%nat (host_allocation 201) 0%nat (le_n 1) eq_refl eq_refl). }
    split.
    { rewrite Hrest; [reflexivity|].
      intros j host Hj Hh. destruct j as [|j]; [|lia].
      injection Hh as <-. discriminate. }
    split.
    { rewrite (Hset 0%nat (host_allocation 201) 0%nat (le_n 1) eq_refl eq_refl).
      by rewrite device_batch_world_first. }
    split.
    { exact (Hafter 1%nat 1%nat (le_n 1) eq_refl). }
    exact (Hafter 2%nat 2%nat (le_S _ _ (le_n 1)) eq_refl).
Defined.

End RegisterSpec.

(** ** Linking and unlinking the objects of a device *)
Module ObjectsSpec.
Import Graph Objects.

Lemma list_del_snoc (x : nat) (l : list nat) :
  x ∉ l -> list_del x (l ++ [x]) = l.
Proof.
  intros Hx. unfold list_del. rewrite filter_app.
  rewrite filter_cons_False by (intros H; by apply H).
  rewrite filter_nil, app_nil_r.
  induction l as [|y l IH]; [done|].
  rewrite filter_cons_True by set_solver. f_equal. apply IH. set_solver.
Qed.

(** Rewriting with the lookups of an updated heap. *)
Ltac heap :=
  repeat first
    [ progress cbn [adapters pinfos processes devices contexts allocations
                    resources sresources trace add_event upd_adapter
                    upd_pinfo upd_process upd_device upd_context
                    upd_allocation upd_resource upd_sresource fst snd
                    option_fmap option_map fmap]
    | rewrite lookup_alter_eq
    | rewrite lookup_insert_eq
    | rewrite lookup_delete_eq
    | rewrite lookup_alter_ne by congruence
    | rewrite lookup_insert_ne by congruence ].

(** An allocation put on the list of a device and taken off again: the
    device is as before, with the reference taken for the allocation given
    back and nothing freed; the allocation is unlinked and remembers the
    device as its owner. *)
Theorem device_alloc_round_trip (d al : nat) (w : world) (dev : dxgdevice)
    (x : dxgallocation) :
  devices w !! d = Some dev -> allocations w !! al = Some x ->
  al ∉ alloc_list dev -> device_kref dev <> 0 ->
  let w' := dxgdevice_remove_alloc_safe d al (dxgdevice_add_alloc d al w) in
  devices w' !! d = Some dev /\
  allocations w' !! al = Some (set_owner (Some d) (set_alloc_linked false x)) /\
  trace w' =
    trace w ++ [EvLock down_write (alloc_list_lock d);
                EvKrefGet (ObjDevice d);
                EvLock up_write (alloc_list_lock d);
                EvLock down_write (alloc_list_lock d);
                EvKrefPut (ObjDevice d);
                EvLock up_write (alloc_list_lock d)].
Proof.
  intros Hd Hx Hnew Hk w'. subst w'.
  unfold dxgdevice_remove_alloc_safe, dxgdevice_add_alloc,
    dxgdevice_remove_alloc, dxgdevice_acquire_alloc_list_lock,
    dxgdevice_release_alloc_list_lock, kref_get_device, kref_put_device.
  repeat (progress (heap; rewrite ?Hd, ?Hx)). cbn.
  replace (device_kref dev + 1 - 1) with (device_kref dev) by lia.
  destruct (Z.eqb_spec (device_kref dev) 0) as [|_]; [done|].
  heap. rewrite Hd, Hx. cbn. split; [|split].
  - f_equal. destruct dev. unfold set_device_kref, set_alloc_list. cbn in *.
    f_equal. exact (list_del_snoc al alloc_list0 Hnew).
  - reflexivity.
  - by rewrite <- !app_assoc.
Qed.

Import ObjectSamples.

Lemma unlinked_allocation_world_device :
  devices unlinked_allocation_world !! 0%nat = Some active_device.
Proof. vm_compute. reflexivity. Qed.

Lemma unlinked_allocation_world_allocation :
  allocations unlinked_allocation_world !! 0%nat = Some fresh_allocation.
Proof. vm_compute. reflexivity. Qed.

Lemma active_device_alive : device_kref active_device <> 0.
Proof. vm_compute. discriminate. Qed.

Lemma device_alloc_round_trip_witness :
  let w' := dxgdevice_remove_alloc_safe 0 0
              (dxgdevice_add_alloc 0 0 unlinked_allocation_world) in
  devices w' !! 0%nat = Some active_device /\
  allocations w' !! 0%nat =
    Some (set_owner (Some 0%nat) (set_alloc_linked false fresh_allocation)) /\
  trace w' =
    trace unlinked_allocation_world
      ++ [EvLock down_write (alloc_list_lock 0);
          EvKrefGet (ObjDevice 0);
          EvLock up_write (alloc_list_lock 0);
          EvLock down_write (alloc_list_lock 0);
          EvKrefPut (ObjDevice 0);
          EvLock up_write (alloc_list_lock 0)].
Proof.
  exact (device_alloc_round_trip 0 0 unlinked_allocation_world active_device
           fresh_allocation unlinked_allocation_world_device
           unlinked_allocation_world_allocation (not_elem_of_nil 0%nat)
           active_device_alive).
Defined.

(** A resource put on the list of a shared resource and taken off again:
    the shared resource is as before and the resource has its reference
    count back, so both references taken for the link are given back and
    nothing is freed; the resource is unlinked and has no shared owner. *)
Theorem shared_resource_round_trip (s r : nat) (w : world)
    (sh : dxgsharedresource) (res : dxgresource) :
  sresources w !! s = Some sh -> resources w !! r = Some res ->
  r ∉ sres_resource_list sh ->
  sresource_kref sh <> 0 -> resource_kref res <> 0 ->
  let w' := dxgsharedresource_remove_resource s r
              (dxgsharedresource_add_resource s r w) in
  sresources w' !! s = Some sh /\
  resources w' !! r =
    Some (set_shared_owner None (set_res_shared_linked false res)) /\
  trace w' =
    trace w ++ [EvLock down_write (shared_resource_list_lock (sres_adapter sh));
                EvKrefGet (ObjSharedResource s);
                EvKrefGet (ObjResource r);
                EvLock up_write (shared_resource_list_lock (sres_adapter sh));
                EvLock down_write (shared_resource_list_lock (sres_adapter sh));
                EvKrefPut (ObjSharedResource s);
                EvKrefPut (ObjResource r);
                EvLock up_write (shared_resource_list_lock (sres_adapter sh))].
Proof.
  intros Hs Hr Hnew Hks Hkr w'. subst w'.
  unfold dxgsharedresource_remove_resource, dxgsharedresource_add_resource,
    kref_get_sresource, kref_get_resource, kref_put_sresource,
    kref_put_resource.
  repeat (progress (heap; rewrite ?Hs, ?Hr)). cbn.
  replace (sresource_kref sh + 1 - 1) with (sresource_kref sh) by lia.
  destruct (Z.eqb_spec (sresource_kref sh) 0) as [|_]; [done|].
  repeat (progress (heap; rewrite ?Hs, ?Hr)). cbn.
  replace (resource_kref res + 1 - 1) with (resource_kref res) by lia.
  destruct (Z.eqb_spec (resource_kref res) 0) as [|_]; [done|].
  repeat (progress (heap; rewrite ?Hs, ?Hr)). cbn. split; [|split].
  - f_equal. destruct sh. unfold set_sresource_kref, set_sres_resource_list.
    cbn in *. f_equal. exact (list_del_snoc r sres_resource_list0 Hnew).
  - by destruct res.
  - by rewrite <- !app_assoc.
Qed.

Lemma shared_resource_world_shared :
  sresources shared_resource_world !! 0%nat = Some fresh_shared_resource.
Proof. vm_compute. reflexivity. Qed.

Lemma shared_resource_world_resource :
  resources shared_resource_world !! 0%nat = Some fresh_resource.
Proof. vm_compute. reflexivity. Qed.

Lemma fresh_shared_resource_alive : sresource_kref fresh_shared_resource <> 0.
Proof. vm_compute. discriminate. Qed.

Lemma fresh_resource_alive : resource_kref fresh_resource <> 0.
Proof. vm_compute. discriminate. Qed.

Lemma shared_resource_round_trip_witness :
  let w' := dxgsharedresource_remove_resource 0 0
              (dxgsharedresource_add_resource 0 0 shared_resource_world) in
  sresources w' !! 0%nat = Some fresh_shared_resource /\
  resources w' !! 0%nat =
    Some (set_shared_owner None (set_res_shared_linked false fresh_resource)).
Proof.
  destruct (shared_resource_round_trip 0 0 shared_resource_world
              fresh_shared_resource fresh_resource
              shared_resource_world_shared shared_resource_world_resource
              (not_elem_of_nil 0%nat) fresh_shared_resource_alive
              fresh_resource_alive) as (Hs & Hr & _).
  split; [exact Hs|exact Hr].
Defined.

(** [dxgdevice_create] for a process that has no binding to the adapter
    fails: it returns no device and frees the one it made, but the
    reference it took on the adapter is not given back, the adapter is
    left with one reference more than before. *)
Theorem device_create_failure_keeps_adapter_reference (d a p : nat)
    (w : world) (adapter : dxgadapter) (process : dxgprocess) :
  adapters w !! a = Some adapter -> processes w !! p = Some process ->
  find_process_adapter (pinfos w) a (process_adapter_list process) = None ->
  let r := dxgdevice_create true d a p w in
  r.2 = None /\
  adapters r.1 !! a =
    Some (set_adapter_kref (adapter_kref adapter + 1) adapter) /\
  device_freed <$> devices r.1 !! d = Some true /\
  pinfos r.1 = pinfos w /\
  trace r.1 =
    trace w ++ [EvKrefGet (ObjAdapter a);
                EvLock mutex_lock process_adapter_mutex;
                EvErr "failed to find process adapter info";
                EvLock mutex_unlock process_adapter_mutex;
                EvKrefPut (ObjDevice d);
                EvFree (ObjDevice d)].
Proof.
  intros Ha Hp Hfind r. subst r.
  unfold dxgdevice_create, kref_get_adapter, dxgprocess_adapter_add_device.
  cbn [adapters]. rewrite Ha. heap. rewrite Hp. heap. rewrite Hfind.
  cbn [fst snd]. change (- EINVAL <? 0) with true. cbn iota.
  unfold kref_put_device, dxgdevice_release. heap.
  cbn [device_kref]. change (1 - 1 =? 0) with true. cbn iota. heap.
  rewrite Ha. cbn. repeat split. by rewrite <- !app_assoc.
Qed.

Lemma unbound_world_adapter : adapters unbound_world !! 0%nat = Some base_adapter.
Proof. vm_compute. reflexivity. Qed.

Lemma unbound_world_process :
  processes unbound_world !! 1%nat = Some unbound_process.
Proof. vm_compute. reflexivity. Qed.

Lemma device_create_failure_keeps_adapter_reference_witness :
  let r := dxgdevice_create true 0 0 1 unbound_world in
  r.2 = None /\
  adapters r.1 !! 0%nat = Some (set_adapter_kref (2 + 1) base_adapter) /\
  device_freed <$> devices r.1 !! 0%nat = Some true.
Proof.
  destruct (device_create_failure_keeps_adapter_reference 0 0 1 unbound_world
              base_adapter unbound_process unbound_world_adapter
              unbound_world_process eq_refl) as (Hr & Ha & Hd & _).
  split; [exact Hr|]. split; [exact Ha|exact Hd].
Defined.

(** A context created on a device and destroyed again: the device is as
    before, with the context off its list and the reference taken for it
    given back; the context is freed, and the handle table is not
    touched, as the new context has no handle yet. *)
Theorem context_create_destroy_round_trip (c d p : nat) (w : world)
    (dev : dxgdevice) :
  devices w !! d = Some dev -> c ∉ context_list dev -> device_kref dev <> 0 ->
  let r := dxgcontext_create true c d w in
  let w' := dxgcontext_destroy_safe p c r.1 in
  r.2 = Some c /\
  devices w' !! d = Some dev /\
  contexts w' !! c =
    Some {| context_kref := 0; context_freed := true; ctx_device := Some d;
            ctx_process := dev_process dev;
            ctx_device_handle := dev_handle dev; ctx_handle := 0;
            ctx_object_state := DXGOBJECTSTATE_DESTROYED;
            ctx_linked := false; hwqueue_list := [] |} /\
  processes w' = processes w /\
  trace w' =
    trace w ++ [EvKrefGet (ObjDevice d);
                EvLock down_write (context_list_lock d);
                EvLock up_write (context_list_lock d);
                EvLock down_write (context_list_lock d);
                EvKrefPut (ObjDevice d);
                EvKrefPut (ObjContext c);
                EvFree (ObjContext c);
                EvLock up_write (context_list_lock d)].
Proof.
  intros Hd Hnew Hk r w'. subst r w'.
  unfold dxgcontext_create. rewrite Hd. cbn [fst snd].
  split; [reflexivity|].
  unfold dxgcontext_destroy_safe, dxgcontext_destroy, dxgdevice_add_context,
    dxgdevice_remove_context, kref_get_device, kref_put_device,
    kref_put_context, dxgcontext_release, dxghwqueue_destroy.
  repeat (progress (heap; rewrite ?Hd; cbn)).
  replace (device_kref dev + 1 - 1) with (device_kref dev) by lia.
  destruct (Z.eqb_spec (device_kref dev) 0) as [|_]; [done|].
  repeat (progress (heap; rewrite ?Hd; cbn; change (1 - 1 =? 0) with true)).
  repeat split.
  - f_equal. destruct dev. unfold set_device_kref, set_context_list.
    cbn in *. f_equal. exact (list_del_snoc c context_list0 Hnew).
  - by rewrite <- !app_assoc.
Qed.

Lemma new_context_address : 2%nat ∉ context_list active_device.
Proof. refine (bool_decide_unpack _ _). vm_compute. exact I. Qed.

Lemma context_create_destroy_round_trip_witness :
  let r := dxgcontext_create true 2 0 active_world in
  let w' := dxgcontext_destroy_safe 0 2 r.1 in
  r.2 = Some 2%nat /\ devices w' !! 0%nat = Some active_device /\
  processes w' = processes active_world.
Proof.
  destruct (context_create_destroy_round_trip 2 0 0 active_world
              active_device GraphSpec.active_world_device new_context_address
              active_device_alive) as (Hr & Hd & _ & Hp & _).
  split; [exact Hr|]. split; [exact Hd|exact Hp].
Defined.

(** A process bound to an adapter and released again: the binding is
    gone from the heap and from the lists of the adapter and of the
    process, and the adapter has its reference count back; the adapter is
    not freed. *)
Theorem process_adapter_create_release_round_trip (pa p a : nat) (w : world)
    (adapter : dxgadapter) (process : dxgprocess) :
  adapters w !! a = Some adapter -> adapter_kref adapter <> 0 ->
  processes w !! p = Some process -> pinfos w !! pa = None ->
  pa ∉ adapter_process_list adapter -> pa ∉ process_adapter_list process ->
  let r := dxgprocess_adapter_create true pa p a w in
  r.2 = Some pa /\
  exists w',
    dxgprocess_adapter_release pa r.1 = Done w' /\
    adapters w' !! a = Some adapter /\
    processes w' !! p = Some process /\
    pinfos w' = pinfos w /\
    trace w' =
      trace w ++ [EvKrefGet (ObjAdapter a);
                  EvLock mutex_lock (device_list_mutex pa);
                  EvLock mutex_unlock (device_list_mutex pa);
                  EvKrefPut (ObjAdapter a)].
Proof.
  intros Ha Hk Hp Hpa Hnew1 Hnew2 r. subst r.
  unfold dxgprocess_adapter_create. rewrite Ha.
  destruct (Z.eqb_spec (adapter_kref adapter) 0) as [|_]; [done|].
  cbn [fst snd]. split; [reflexivity|].
  unfold dxgprocess_adapter_release, dxgprocess_adapter_destroy,
    dxgadapter_add_process, dxgadapter_remove_process, kref_put_adapter.
  repeat (progress (heap; rewrite ?Ha, ?Hp; cbn;
                    change (wrap_int (1 - 1) =? 0) with true)).
  replace (adapter_kref adapter + 1 - 1) with (adapter_kref adapter) by lia.
  destruct (Z.eqb_spec (adapter_kref adapter) 0) as [|_]; [done|].
  eexists. split; [reflexivity|].
  repeat (progress (heap; rewrite ?Ha, ?Hp; cbn)). repeat split.
  - f_equal. destruct adapter.
    unfold set_adapter_kref, set_adapter_process_list. cbn in *. f_equal.
    exact (list_del_snoc pa adapter_process_list0 Hnew1).
  - f_equal. destruct process. unfold set_process_adapter_list. cbn in *.
    f_equal. exact (list_del_snoc pa process_adapter_list0 Hnew2).
  - by rewrite delete_alter_eq, delete_insert_id.
  - by rewrite <- !app_assoc.
Qed.

Lemma base_world_process : processes base_world !! 0%nat = Some base_process.
Proof. vm_compute. reflexivity. Qed.

Lemma base_adapter_alive : adapter_kref base_adapter <> 0.
Proof. vm_compute. discriminate. Qed.

Lemma new_binding_address_adapter : 1%nat ∉ adapter_process_list base_adapter.
Proof. refine (bool_decide_unpack _ _). vm_compute. exact I. Qed.

Lemma new_binding_address_process : 1%nat ∉ process_adapter_list base_process.
Proof. refine (bool_decide_unpack _ _). vm_compute. exact I. Qed.

Lemma process_adapter_create_release_round_trip_witness :
  exists w',
    dxgprocess_adapter_release 1
      (dxgprocess_adapter_create true 1 0 0 base_world).1 = Done w' /\
    adapters w' !! 0%nat = Some base_adapter /\
    pinfos w' = pinfos base_world.
Proof.
  destruct (process_adapter_create_release_round_trip 1 0 0 base_world
              base_adapter base_process GraphSpec.base_world_adapter
              base_adapter_alive base_world_process eq_refl
              new_binding_address_adapter new_binding_address_process)
    as (_ & w' & Hr & Ha & _ & Hpa & _).
  exists w'. split; [exact Hr|]. split; [exact Ha|exact Hpa].
Defined.

(** An allocation put on the list of an active resource and taken off
    again: [dxgresource_add_alloc] returns 0, and after
    [dxgresource_remove_alloc_safe] the resource is as before; unlike a
    device, a resource takes no reference for an allocation. The
    allocation is unlinked, is marked as owned by a resource and remembers
    the resource as its owner. *)
Theorem resource_alloc_round_trip (r al : nat) (w : world)
    (res : dxgresource) (x : dxgallocation) :
  resources w !! r = Some res -> allocations w !! al = Some x ->
  dxgresource_is_active res = true -> al ∉ res_alloc_list res ->
  let added := dxgresource_add_alloc r al w in
  let w' := dxgresource_remove_alloc_safe r al added.1 in
  added.2 = 0 /\
  (res_alloc_list <$> resources added.1 !! r)
  = Some (res_alloc_list res ++ [al]) /\
  resources w' !! r = Some res /\
  allocations w' !! al
  = Some (set_resource_owner true
            (set_owner (Some r) (set_alloc_linked false x))) /\
  devices w' = devices w /\
  trace w' =
    trace w ++ [EvLock down_write (alloc_list_lock (res_device res));
                EvLock up_write (alloc_list_lock (res_device res));
                EvLock down_write (alloc_list_lock (res_device res));
                EvLock up_write (alloc_list_lock (res_device res))].
Proof.
  intros Hr Hx Hactive Hnew added w'. subst added w'.
  unfold dxgresource_remove_alloc_safe, dxgresource_add_alloc,
    dxgresource_remove_alloc, dxgdevice_acquire_alloc_list_lock,
    dxgdevice_release_alloc_list_lock.
  rewrite Hr, Hactive.
  repeat (progress (heap; rewrite ?Hr, ?Hx)). cbn.
  repeat (progress (heap; rewrite ?Hr, ?Hx)). cbn.
  split; [done|]. split; [done|]. split; [|split; [|split]].
  - f_equal. destruct res. unfold set_res_alloc_list. cbn in *.
    f_equal. exact (list_del_snoc al res_alloc_list0 Hnew).
  - reflexivity.
  - reflexivity.
  - by rewrite <- !app_assoc.
Qed.

(** [dxgresource_add_alloc] on a resource that is no longer active fails
    with [-ENODEV] and links nothing: the resource is unchanged and the
    allocation has the owner and the link it had. The allocation is marked
    as owned by a resource all the same. The lock of the allocation list of
    the device is taken and given up. *)
Theorem resource_add_alloc_inactive (r al : nat) (w : world)
    (res : dxgresource) (x : dxgallocation) :
  resources w !! r = Some res -> allocations w !! al = Some x ->
  dxgresource_is_active res = false ->
  let added := dxgresource_add_alloc r al w in
  added.2 = - ENODEV /\
  resources added.1 = resources w /\
  allocations added.1 !! al = Some (set_resource_owner true x) /\
  (forall al', al' <> al -> allocations added.1 !! al' = allocations w !! al') /\
  trace added.1 =
    trace w ++ [EvLock down_write (alloc_list_lock (res_device res));
                EvLock up_write (alloc_list_lock (res_device res))].
Proof.
  intros Hr Hx Hactive added. subst added.
  unfold dxgresource_add_alloc, dxgdevice_acquire_alloc_list_lock,
    dxgdevice_release_alloc_list_lock.
  rewrite Hr, Hactive. heap. rewrite Hx. cbn.
  split; [done|]. split; [done|]. split; [done|]. split.
  - intros al' Hne. by rewrite lookup_alter_ne.
  - by rewrite <- !app_assoc.
Qed.

Lemma resource_allocation_world_resource :
  resources resource_allocation_world !! 0%nat = Some fresh_resource.
Proof. vm_compute. reflexivity. Qed.

Lemma resource_allocation_world_allocation :
  allocations resource_allocation_world !! 0%nat = Some fresh_allocation.
Proof. vm_compute. reflexivity. Qed.

Lemma fresh_resource_active : dxgresource_is_active fresh_resource = true.
Proof. reflexivity. Qed.

Lemma fresh_resource_empty : 0%nat ∉ res_alloc_list fresh_resource.
Proof. exact (not_elem_of_nil 0%nat). Qed.

Lemma resource_alloc_round_trip_witness :
  let added := dxgresource_add_alloc 0 0 resource_allocation_world in
  let w' := dxgresource_remove_alloc_safe 0 0 added.1 in
  added.2 = 0 /\
  (res_alloc_list <$> resources added.1 !! 0%nat)
  = Some (res_alloc_list fresh_resource ++ [0%nat]) /\
  resources w' !! 0%nat = Some fresh_resource /\
  allocations w' !! 0%nat
  = Some (set_resource_owner true
            (set_owner (Some 0%nat)
               (set_alloc_linked false fresh_allocation))) /\
  devices w' = devices resource_allocation_world /\
  trace w' =
    trace resource_allocation_world
      ++ [EvLock down_write (alloc_list_lock (res_device fresh_resource));
          EvLock up_write (alloc_list_lock (res_device fresh_resource));
          EvLock down_write (alloc_list_lock (res_device fresh_resource));
          EvLock up_write (alloc_list_lock (res_device fresh_resource))].
Proof.
  exact (resource_alloc_round_trip 0 0 resource_allocation_world
           fresh_resource fresh_allocation resource_allocation_world_resource
           resource_allocation_world_allocation fresh_resource_active
           fresh_resource_empty).
Defined.

Lemma retired_resource_world_resource :
  resources retired_resource_world !! 0%nat = Some retired_resource.
Proof. vm_compute. reflexivity. Qed.

Lemma retired_resource_world_allocation :
  allocations retired_resource_world !! 0%nat = Some fresh_allocation.
Proof. vm_compute. reflexivity. Qed.

Lemma retired_resource_inactive :
  dxgresource_is_active retired_resource = false.
Proof. reflexivity. Qed.

Lemma resource_add_alloc_inactive_witness :
  let added := dxgresource_add_alloc 0 0 retired_resource_world in
  added.2 = - ENODEV /\
  resources added.1 = resources retired_resource_world /\
  allocations added.1 !! 0%nat
  = Some (set_resource_owner true fresh_allocation) /\
  (forall al',
     al' <> 0%nat ->
     allocations added.1 !! al' = allocations retired_resource_world !! al') /\
  trace added.1 =
    trace retired_resource_world
      ++ [EvLock down_write (alloc_list_lock (res_device retired_resource));
          EvLock up_write (alloc_list_lock (res_device retired_resource))].
Proof.
  exact (resource_add_alloc_inactive 0 0 retired_resource_world
           retired_resource fresh_allocation retired_resource_world_resource
           retired_resource_world_allocation retired_resource_inactive).
Defined.

End ObjectsSpec.

(** ** Stopping a device *)
Module StopSpec.
Import Graph Footprint FootprintFrame Quiesce.

Lemma dxgallocation_stop_lookup (al al' : nat) (w : world) :
  allocations (dxgallocation_stop al w) !! al' =
    if decide (al' = al) then stopped <$> allocations w !! al'
    else allocations w !! al'.
Proof.
  unfold dxgallocation_stop, stopped.
  destruct (decide (al' = al)) as [->|Hne].
  - destruct (allocations w !! al) as [x|] eqn:Hx; [|done].
    destruct (pages x) eqn:Hp, (cpu_address_mapped x) eqn:Hm; cbn;
      rewrite ?lookup_alter_eq, ?Hx; cbn; rewrite ?Hp, ?Hm;
      unfold set_pages; cbn; rewrite ?Hm; done.
  - destruct (allocations w !! al) as [x|] eqn:Hx; [|done].
    destruct (pages x), (cpu_address_mapped x); cbn;
      by rewrite ?lookup_alter_ne by done.
Qed.

Lemma dxgallocation_stop_rest (al : nat) (w : world) :
  let w' := dxgallocation_stop al w in
  adapters w' = adapters w /\ pinfos w' = pinfos w /\
  processes w' = processes w /\ devices w' = devices w /\
  contexts w' = contexts w /\ resources w' = resources w /\
  sresources w' = sresources w.
Proof.
  unfold dxgallocation_stop.
  destruct (allocations w !! al) as [x|]; [|done].
  by destruct (pages x), (cpu_address_mapped x).
Qed.

Lemma dxgallocation_stop_events (al : nat) (w0 w : world) :
  is_Some (allocations w !! al) ->
  emits stop_event w0 w -> emits stop_event w0 (dxgallocation_stop al w).
Proof.
  intros [x Hx] He. unfold dxgallocation_stop, hmgrtable_lock,
    hmgrtable_unlock. rewrite Hx.
  destruct (pages x), (cpu_address_mapped x);
    repeat first [ apply emits_add_event; [reflexivity|]
                 | eapply emits_same; [reflexivity|] ]; done.
Qed.

Lemma stopped_idemp (x : dxgallocation) : stopped (stopped x) = stopped x.
Proof.
  unfold stopped. by destruct x as [? ? ? ? ? ? ? [] ? ? [] ? ? ?].
Qed.

(** The loop of [dxgdevice_stop] over the allocations of the device. *)
Lemma stop_all_lookup (l : list nat) (al : nat) :
  forall w,
    allocations (foldl (fun w al => dxgallocation_stop al w) w l) !! al =
      if decide (al ∈ l) then stopped <$> allocations w !! al
      else allocations w !! al.
Proof.
  induction l as [|a l IH]; intros w; cbn.
  - by destruct (decide (al ∈ [])) as [H|_]; [apply elem_of_nil in H|].
  - rewrite IH, dxgallocation_stop_lookup.
    destruct (decide (al ∈ a :: l)) as [Hin|Hout].
    + apply elem_of_cons in Hin.
      destruct (decide (al ∈ l)) as [Hl|Hl], (decide (al = a)) as [->|Hne];
        try done.
      * rewrite <- option_fmap_compose. apply option_fmap_ext. intros x.
        apply stopped_idemp.
      * by destruct Hin.
    + apply not_elem_of_cons in Hout as [Hne Hl].
      by rewrite (decide_False (P := al ∈ l)), (decide_False (P := al = a)).
Qed.

Lemma stop_all_rest (l : list nat) :
  forall w,
    let w' := foldl (fun w al => dxgallocation_stop al w) w l in
    adapters w' = adapters w /\ pinfos w' = pinfos w /\
    processes w' = processes w /\ devices w' = devices w /\
    contexts w' = contexts w /\ resources w' = resources w /\
    sresources w' = sresources w.
Proof.
  induction l as [|a l IH]; intros w; cbn; [done|].
  destruct (IH (dxgallocation_stop a w)) as (-> & -> & -> & -> & -> & -> & ->).
  apply dxgallocation_stop_rest.
Qed.

Lemma stop_all_events (l : list nat) (w0 : world) :
  forall w,
    Forall (fun al => is_Some (allocations w !! al)) l ->
    emits stop_event w0 w ->
    emits stop_event w0 (foldl (fun w al => dxgallocation_stop al w) w l).
Proof.
  induction l as [|a l IH]; intros w Hall He; cbn; [done|].
  apply Forall_cons in Hall as [Ha Hall]. apply IH.
  - eapply Forall_impl; [exact Hall|]. intros al' [x Hx]. cbn.
    rewrite dxgallocation_stop_lookup. destruct (decide (al' = a)); rewrite Hx;
      by eexists.
  - by apply dxgallocation_stop_events.
Qed.

Lemma foldl_skip {A} (l : list A) (w : world) : foldl (fun w _ => w) w l = w.
Proof. by induction l. Qed.

(** [dxgdevice_stop] lets go of the pinned pages and the CPU mappings of
    the allocations on the list of the device and of nothing else: every
    other allocation and every other field is as before, as are the
    devices, the handle tables and all other objects. On a device whose
    allocations all exist, the only events are locks taken and dropped,
    pages released and mappings taken down: no command goes to the host,
    no handle is released and nothing is freed. *)
Theorem device_stop_quiesces_allocations (d : nat) (w : world)
    (dev : dxgdevice) :
  devices w !! d = Some dev ->
  Forall (fun al => is_Some (allocations w !! al)) (alloc_list dev) ->
  let w' := dxgdevice_stop d w in
  (forall al,
     allocations w' !! al =
       if decide (al ∈ alloc_list dev) then stopped <$> allocations w !! al
       else allocations w !! al) /\
  adapters w' = adapters w /\ pinfos w' = pinfos w /\
  processes w' = processes w /\ devices w' = devices w /\
  contexts w' = contexts w /\ resources w' = resources w /\
  sresources w' = sresources w /\
  emits stop_event w w'.
Proof.
  intros Hd Hall w'. subst w'. unfold dxgdevice_stop. rewrite Hd.
  unfold dxgpagingqueue_stop, dxgsyncobject_stop. rewrite !foldl_skip.
  unfold hmgrtable_unlock, hmgrtable_lock, dxgdevice_release_alloc_list_lock,
    dxgdevice_acquire_alloc_list_lock.
  cbn [allocations adapters pinfos processes devices contexts resources
       sresources add_event].
  split; [intros al; by rewrite stop_all_lookup|].
  destruct (stop_all_rest (alloc_list dev)
              (add_event (EvLock down_write (alloc_list_lock d)) w))
    as (-> & -> & -> & -> & -> & -> & ->).
  repeat (split; [reflexivity|]).
  repeat (apply emits_add_event; [reflexivity|]).
  apply stop_all_events; [exact Hall|].
  apply emits_add_event; [reflexivity|]. apply emits_refl.
Qed.

Import Alloc ObjectSamples.

Lemma device_batch_world_device :
  devices device_batch_world !! 0%nat = Some batch_device.
Proof. vm_compute. reflexivity. Qed.

Lemma device_batch_world_allocations :
  Forall (fun al => is_Some (allocations device_batch_world !! al))
    (alloc_list batch_device).
Proof. repeat constructor; by eexists. Qed.

Lemma device_stop_quiesces_allocations_witness :
  devices (dxgdevice_stop 0 device_batch_world) = devices device_batch_world /\
  processes (dxgdevice_stop 0 device_batch_world) =
    processes device_batch_world /\
  emits stop_event device_batch_world (dxgdevice_stop 0 device_batch_world).
Proof.
  destruct (device_stop_quiesces_allocations 0 device_batch_world batch_device
              device_batch_world_device device_batch_world_allocations)
    as (_ & _ & _ & Hp & Hd & _ & _ & _ & He).
  split; [exact Hd|]. split; [exact Hp|exact He].
Defined.

End StopSpec.

(** ** Destroying a resource and a device *)
Module DestroySpec.
Import Graph GraphFrame Footprint FootprintFrame.

#[export] Instance resource_owned_stable :
  teardown_stable (fun x => resource_owner x = true).
Proof. intros x Hx. by repeat split. Qed.

#[export] Instance device_owned_stable d :
  teardown_stable (fun x => resource_owner x = false /\ owner x = Some d).
Proof. intros x [Hr Ho]. by repeat split. Qed.

Local Abbreviation destroy_list :=
  (foldl (fun w (al : nat) => dxgallocation_destroy al w)).

Lemma destroy_list_releases (l : list nat) :
  forall w al,
    al ∈ l -> alloc_sat al (fun _ => True) w ->
    alloc_sat al released (destroy_list w l).
Proof.
  induction l as [|a l IH]; intros w al Hin Hp; [by inversion Hin|].
  cbn. destruct (decide (a = al)) as [->|Hne].
  - apply keeps_foldl.
    + intros w' a' Hu. keeps.
    + by apply RollbackSpec.dxgallocation_destroy_releases.
  - apply (IH _ al); [|keeps].
    apply elem_of_cons in Hin as [|]; [congruence|done].
Qed.

(** An allocation owned by a resource is destroyed without a command to
    the host. *)
Lemma dxgallocation_destroy_owned_local (al : nat) (w0 w : world) :
  alloc_sat al (fun x => resource_owner x = true) w ->
  emits local_event w0 w -> emits local_event w0 (dxgallocation_destroy al w).
Proof.
  intros Ho He. unfold dxgallocation_destroy.
  assert (alloc_sat al (fun x => resource_owner x = true)
            (dxgallocation_stop al w)) as (x & Hx & Hown) by keeps.
  rewrite Hx, Hown, andb_false_r. keeps.
Qed.

Lemma destroy_list_owned_local (l : list nat) (w0 : world) :
  forall w,
    (forall al, al ∈ l -> alloc_sat al (fun x => resource_owner x = true) w) ->
    emits local_event w0 w -> emits local_event w0 (destroy_list w l).
Proof.
  induction l as [|a l IH]; intros w Hown He; cbn; [done|].
  apply IH.
  - intros al Hin. assert (al ∈ a :: l) as Hin' by (by apply elem_of_cons; right).
    specialize (Hown al Hin'). keeps.
  - apply dxgallocation_destroy_owned_local; [|done].
    apply Hown. by apply elem_of_cons; left.
Qed.

(** [dxgresource_destroy] on a resource that was not destroyed before:
    every allocation on its list ends up freed and without a valid
    handle, and the host gets at most one command, which names the
    resource and no allocation; it is sent when the resource has a host
    handle, and the allocations of the resource get no command of their
    own. *)
Theorem resource_destroy_sends_one_command (r : nat) (w : world)
    (res : dxgresource) (dev : dxgdevice) :
  resources w !! r = Some res -> res_destroyed res = false ->
  devices w !! res_device res = Some dev ->
  (forall al, al ∈ res_alloc_list res ->
     alloc_sat al (fun x => resource_owner x = true) w) ->
  let w' := dxgresource_destroy r w in
  (forall al, al ∈ res_alloc_list res -> alloc_sat al released w') /\
  exists pre post,
    trace w' =
      trace w ++ pre
        ++ (if res_handle res =? 0 then []
            else [EvRpc (DXGK_VMBCOMMAND_DESTROYALLOCATION (dev_handle dev)
                           (res_handle res) 0 [] false)])
        ++ post /\
    forallb local_event pre = true /\ forallb local_event post = true.
Proof.
  intros Hr Hnd Hd Hown w'. subst w'.
  unfold dxgresource_destroy. rewrite Hr, Hnd. cbn [negb].
  set (w1 := upd_resource r (set_res_destroyed true) w).
  set (w2 := dxgresource_free_handle r w1).
  assert (calm w w2) as Hcalm by (subst w1 w2; calm).
  destruct (GraphSpec.calm_device_core _ _ _ _ Hcalm Hd)
    as (dev2 & Hd2 & Hcore).
  assert (dev_handle dev2 = dev_handle dev) as Hh.
  { unfold device_core in Hcore. congruence. }
  rewrite Hd2, Hh.
  assert (emits local_event w w2) as (pre & Hpre & Hlocal).
  { pose proof (emits_refl local_event w). subst w1 w2. keeps. }
  assert (forall al, al ∈ res_alloc_list res ->
            alloc_sat al (fun x => resource_owner x = true) w2) as Hown2.
  { intros al Hin. specialize (Hown al Hin). subst w1 w2. keeps. }
  match goal with
  | |- context [destroy_list ?wmid _] => set (w3 := wmid) in *
  end.
  assert (forall al, al ∈ res_alloc_list res ->
            alloc_sat al (fun x => resource_owner x = true) w3) as Hown3.
  { intros al Hin. specialize (Hown2 al Hin). subst w3. keeps. }
  assert (trace w3 =
          trace w2 ++
            (if res_handle res =? 0 then []
             else [EvRpc (DXGK_VMBCOMMAND_DESTROYALLOCATION (dev_handle dev)
                            (res_handle res) 0 [] false)])) as Hmid.
  { subst w3. destruct (res_handle res =? 0); cbn; by rewrite ?app_nil_r. }
  split.
  - intros al Hin.
    assert (alloc_sat al released (destroy_list w3 (res_alloc_list res)))
      as Hrel.
    { apply destroy_list_releases; [done|].
      destruct (Hown3 al Hin) as (x & Hx & _). by exists x. }
    keeps.
  - match goal with
    | |- context [trace ?w9] =>
        assert (emits local_event w3 w9) as (post & Hpost & Hlocal')
    end.
    { assert (emits local_event w3 (destroy_list w3 (res_alloc_list res)))
        as He.
      { apply destroy_list_owned_local; [done|apply emits_refl]. }
      keeps. }
    exists pre, post. rewrite Hpost, Hmid, Hpre, <- !app_assoc. done.
Qed.

Import ObjectSamples.

Lemma created_resource_world_resource :
  resources created_resource_world !! 0%nat = Some created_resource.
Proof. vm_compute. reflexivity. Qed.

Lemma created_resource_world_device :
  devices created_resource_world !! res_device created_resource =
    Some resource_device.
Proof. vm_compute. reflexivity. Qed.

Lemma created_resource_world_owned (al : nat) :
  al ∈ res_alloc_list created_resource ->
  alloc_sat al (fun x => resource_owner x = true) created_resource_world.
Proof.
  intros Hin. cbn in Hin.
  repeat (apply elem_of_cons in Hin as [->|Hin]);
    [..|by apply elem_of_nil in Hin];
    (eexists; split; [vm_compute; reflexivity|reflexivity]).
Qed.

Lemma third_allocation : 2%nat ∈ res_alloc_list created_resource.
Proof. refine (bool_decide_unpack _ _). vm_compute. exact I. Qed.

Lemma resource_destroy_sends_one_command_witness :
  let w' := dxgresource_destroy 0 created_resource_world in
  alloc_sat 2 released w' /\
  exists pre post,
    trace w' =
      trace created_resource_world ++ pre
        ++ [EvRpc (DXGK_VMBCOMMAND_DESTROYALLOCATION 100 200 0 [] false)]
        ++ post /\
    forallb local_event pre = true /\ forallb local_event post = true.
Proof.
  destruct (resource_destroy_sends_one_command 0 created_resource_world
              created_resource resource_device created_resource_world_resource
              eq_refl created_resource_world_device
              created_resource_world_owned) as [Hrel Htrace].
  split; [exact (Hrel 2%nat third_allocation)|exact Htrace].
Defined.

#[export] Instance destroy_syncobjects_keeps Q `{!LocalFrame Q} d p l :
  Keeps Q (destroy_syncobjects d p l).
Proof.
  induction l as [|s l IH]; intros w H; cbn; [done|].
  apply IH. unfold dxgsyncobject_destroy. keeps.
Qed.

(** The steps of [dxgdevice_destroy] after the teardown of the children
    write to no allocation. *)
Lemma dxgdevice_free_guest_handle_allocations (d p : nat) (w : world) :
  allocations (dxgdevice_free_guest_handle d p w).1 = allocations w.
Proof.
  unfold dxgdevice_free_guest_handle, hmgrtable_lock. cbn [devices add_event].
  destruct (devices w !! d) as [dev|]; [|done].
  by destruct (dev_handle_valid dev).
Qed.

Lemma dxgdevice_destroy_in_host_allocations (d : nat) (a : option nat)
    (h : Z) (w : world) :
  allocations (dxgdevice_destroy_in_host d a h w) = allocations w.
Proof.
  unfold dxgdevice_destroy_in_host, dxgadapter_acquire_lock_shared.
  destruct (negb (h =? 0)); [|done]. destruct a as [a|]; [|done].
  cbn [adapters add_event]. destruct (adapters w !! a) as [adapter|]; [|done].
  by destruct (adapter_state_is_active (adapter_state adapter)).
Qed.

Lemma dxgdevice_destroy_cleanup_allocations (d : nat) (w : world) :
  allocations (dxgdevice_destroy_cleanup d w) = allocations w.
Proof.
  unfold dxgdevice_destroy_cleanup, dxgprocess_adapter_remove_device,
    kref_put_adapter, kref_put_device, dxgadapter_release, dxgdevice_release.
  repeat match goal with
         | |- context [match ?x with _ => _ end] => destruct x eqn:?; cbn
         end; done.
Qed.

(** [dxgdevice_destroy] on an active device frees every allocation on the
    list of the device: each one ends up freed and without a valid
    handle. *)
Theorem device_destroy_releases_allocations (d : nat) (w : world)
    (dev : dxgdevice) (al : nat) :
  devices w !! d = Some dev ->
  object_state_is_active (dev_object_state dev) = true ->
  al ∈ alloc_list dev -> is_Some (allocations w !! al) ->
  alloc_sat al released (dxgdevice_destroy d w).
Proof.
  intros Hd Hact Hin [x Hx]. unfold dxgdevice_destroy. rewrite Hd, Hact.
  eapply alloc_sat_same; [apply dxgdevice_destroy_cleanup_allocations|].
  destruct (dxgdevice_free_guest_handle _ _ _) as [w5 h] eqn:Hfree.
  eapply alloc_sat_same; [apply dxgdevice_destroy_in_host_allocations|].
  eapply alloc_sat_same.
  { change w5 with (w5, h).1. rewrite <- Hfree.
    apply dxgdevice_free_guest_handle_allocations. }
  unfold dxgdevice_destroy_children. cbn [devices upd_device add_event].
  rewrite lookup_alter_eq, Hd. cbn [fmap option_fmap option_map].
  cbn [alloc_list set_dev_object_state].
  match goal with
  | |- context [foldl (fun w al => dxgallocation_destroy al w) ?wmid _] =>
      assert (alloc_sat al released
                (foldl (fun w al => dxgallocation_destroy al w) wmid
                   (alloc_list dev))) as Hrel
  end.
  { apply destroy_list_releases; [done|].
    assert (alloc_sat al (fun _ => True) w) by (by exists x). keeps.
    all: apply alloc_sat_add_event; keeps. }
  unfold dxgpagingqueue_destroy. keeps.
Qed.

Lemma second_allocation : 1%nat ∈ alloc_list batch_device.
Proof. refine (bool_decide_unpack _ _). vm_compute. exact I. Qed.

Lemma device_batch_world_second :
  is_Some (allocations Alloc.device_batch_world !! 1%nat).
Proof. eexists. vm_compute. reflexivity. Qed.

Lemma device_destroy_releases_allocations_witness :
  alloc_sat 1 released (dxgdevice_destroy 0 Alloc.device_batch_world).
Proof.
  exact (device_destroy_releases_allocations 0 Alloc.device_batch_world
           batch_device 1 StopSpec.device_batch_world_device eq_refl
           second_allocation device_batch_world_second).
Defined.

(** *** The loop of [dxgprocess_adapter_destroy] *)

Import Objects.

(** The binding [pa] exists and has at most [n] devices on its list. *)
Local Abbreviation short pa n w :=
  (exists info, pinfos w !! pa = Some info /\
                (length (device_list info) <= n)%nat).

Lemma short_same pa n w w' : pinfos w' = pinfos w -> short pa n w -> short pa n w'.
Proof. intros He (info & Hi & Hn). exists info. by rewrite He. Qed.

Lemma short_unlink pa n pa' d w :
  short pa n w ->
  short pa n
    (upd_pinfo pa'
       (fun info => set_device_list (list_del d (device_list info)) info) w).
Proof.
  intros (info & Hi & Hn). cbn. destruct (decide (pa' = pa)) as [->|Hne].
  - rewrite lookup_alter_eq, Hi. eexists. split; [reflexivity|]. cbn.
    unfold list_del. pose proof (length_filter (fun y => y <> d) (device_list info)).
    lia.
  - rewrite lookup_alter_ne by done. by exists info.
Qed.

Lemma dxgdevice_free_guest_handle_pinfos (d p : nat) (w : world) :
  pinfos (dxgdevice_free_guest_handle d p w).1 = pinfos w.
Proof.
  unfold dxgdevice_free_guest_handle, hmgrtable_lock. cbn [devices add_event].
  destruct (devices w !! d) as [dev|]; [|done].
  by destruct (dev_handle_valid dev).
Qed.

Lemma dxgdevice_destroy_in_host_pinfos (d : nat) (a : option nat) (h : Z)
    (w : world) :
  pinfos (dxgdevice_destroy_in_host d a h w) = pinfos w.
Proof.
  unfold dxgdevice_destroy_in_host, dxgadapter_acquire_lock_shared.
  destruct (negb (h =? 0)); [|done]. destruct a as [a|]; [|done].
  cbn [adapters add_event]. destruct (adapters w !! a) as [adapter|]; [|done].
  by destruct (adapter_state_is_active (adapter_state adapter)).
Qed.

Lemma kref_put_adapter_pinfos (a : nat) (w : world) :
  pinfos (kref_put_adapter a w) = pinfos w.
Proof.
  unfold kref_put_adapter, dxgadapter_release.
  destruct (adapters w !! a) as [adapter|]; [|done].
  by destruct (adapter_kref adapter - 1 =? 0).
Qed.

Lemma kref_put_device_pinfos (d : nat) (w : world) :
  pinfos (kref_put_device d w) = pinfos w.
Proof.
  unfold kref_put_device, dxgdevice_release.
  destruct (devices w !! d) as [dev|]; [|done].
  by destruct (device_kref dev - 1 =? 0).
Qed.

Lemma dxgprocess_adapter_remove_device_short pa n d w :
  short pa n w -> short pa n (dxgprocess_adapter_remove_device d w).
Proof.
  intros H. unfold dxgprocess_adapter_remove_device.
  destruct (devices w !! d) as [dev|]; [|by eapply short_same].
  destruct (dev_adapter_info dev) as [pa'|]; [|by eapply short_same].
  eapply short_same; [reflexivity|].
  destruct (dev_linked dev); [|by eapply short_same].
  eapply short_same; [reflexivity|]. apply short_unlink.
  by eapply short_same.
Qed.

(** [dxgdevice_destroy] puts no device on the list of a binding. *)
Lemma dxgdevice_destroy_short pa n d w :
  short pa n w -> short pa n (dxgdevice_destroy d w).
Proof.
  intros H. unfold dxgdevice_destroy.
  destruct (devices w !! d) as [dev|]; [|by eapply short_same].
  unfold dxgdevice_destroy_cleanup.
  eapply short_same; [apply kref_put_device_pinfos|].
  eapply short_same; [reflexivity|].
  match goal with
  | |- context [match devices ?wmid !! d with _ => _ end] =>
      assert (short pa n wmid) as Hmid; [|destruct (devices wmid !! d) as [dev'|]]
  end.
  - destruct (object_state_is_active (dev_object_state dev));
      [|by eapply short_same].
    destruct (dxgdevice_free_guest_handle _ _ _) as [w5 h] eqn:Hfree.
    eapply short_same; [apply dxgdevice_destroy_in_host_pinfos|].
    eapply short_same.
    { change w5 with (w5, h).1. rewrite <- Hfree.
      apply dxgdevice_free_guest_handle_pinfos. }
    match goal with
    | |- context [dxgdevice_destroy_children d ?w1] =>
        destruct (calm_fun (f := dxgdevice_destroy_children d) w1 w1
                    (calm_refl w1)) as (_ & Hp & _)
    end.
    eapply short_same; [exact Hp|].
    apply (short_same pa n w); [reflexivity|exact H].
  - destruct (dev_adapter dev') as [a|]; [|done].
    eapply short_same; [apply kref_put_adapter_pinfos|].
    by apply dxgprocess_adapter_remove_device_short.
  - by eapply short_same.
Qed.

Lemma destroy_devices_terminates (fuel : nat) :
  forall pa w, short pa fuel w -> exists w', destroy_devices fuel pa w = Done w'.
Proof.
  induction fuel as [|fuel IH]; intros pa w (info & Hi & Hn).
  - cbn. rewrite Hi. destruct (device_list info); [by eexists|cbn in Hn; lia].
  - cbn. rewrite Hi. destruct (device_list info) as [|d l] eqn:Hl;
      [by eexists|].
    apply IH. eapply short_same; [reflexivity|].
    apply dxgdevice_destroy_short. eapply short_same; [reflexivity|].
    eapply short_same; [reflexivity|]. cbn. rewrite lookup_alter_eq, Hi.
    eexists. split; [reflexivity|]. cbn. rewrite Hl. unfold list_del.
    rewrite filter_cons_False by (intros H; by apply H).
    pose proof (length_filter (fun y => y <> d) l). cbn in Hn. lia.
Qed.

(** [dxgprocess_adapter_destroy] always comes to an end: each round of its
    loop takes the first device off the list and destroying a device puts
    none on it, so the loop runs at most once for each device that was on
    the list. Afterwards the binding is gone from the heap. *)
Theorem process_adapter_destroy_terminates (pa : nat) (w : world) :
  exists w',
    dxgprocess_adapter_destroy pa w = Done w' /\
    (is_Some (pinfos w !! pa) -> pinfos w' !! pa = None).
Proof.
  unfold dxgprocess_adapter_destroy.
  destruct (pinfos w !! pa) as [info|] eqn:Hi.
  - destruct (destroy_devices_terminates (length (device_list info)) pa
                (add_event (EvLock mutex_lock (device_list_mutex pa)) w))
      as [w1 Hw1]; [by exists info|].
    rewrite Hw1. eexists. split; [reflexivity|]. intros _. cbn.
    apply lookup_delete_eq.
  - eexists. split; [reflexivity|]. by intros [? ?].
Qed.

End DestroySpec.

(** ** dxgvmbus.c: the other commands to the host *)
Module RpcSpec.
Import Alloc Rpc.

Lemma land_align8 (x : Z) :
  0 <= x < 2 ^ 32 -> Z.land x (to_u32 (Z.lnot 7)) = 8 * (x / 8).
Proof.
  intros Hx. change (to_u32 (Z.lnot 7)) with (Z.shiftl (Z.ones 29) 3).
  replace (8 * (x / 8)) with (Z.shiftl (Z.shiftr x 3) 3).
  2:{ rewrite Z.shiftl_mul_pow2, Z.shiftr_div_pow2 by lia.
      change (2 ^ 3) with 8. lia. }
  apply Z.bits_inj'. intros n Hn. rewrite Z.land_spec.
  destruct (Z.ltb_spec n 3).
  - rewrite !Z.shiftl_spec_low by lia. apply andb_false_r.
  - rewrite !Z.shiftl_spec by lia. rewrite Z.shiftr_spec by lia.
    replace (n - 3 + 3) with n by lia.
    destruct (Z.ltb_spec n 32).
    + rewrite Z.ones_spec_low by lia. apply andb_true_r.
    + rewrite Z.ones_spec_high by lia. rewrite andb_false_r. symmetry.
      destruct (Z.eq_dec x 0) as [->|Hne]; [apply Z.bits_0|].
      apply Z.bits_above_log2; [lia|].
      apply Z.log2_lt_pow2; [lia|].
      assert (2 ^ 32 <= 2 ^ n) by (apply Z.pow_le_mono_r; lia). lia.
Qed.

(** [init_message_res] on a fresh message sizes the result region as the
    requested size rounded up to the next multiple of 8. A request within
    8 bytes of the top of the [u32] range wraps around: the result region
    then has size zero. *)
Theorem init_message_res_rounds_up (L : layout) (vzalloc_ok : bool)
    (size result_size : Z) (tr : list event) :
  0 <= result_size < 2 ^ 32 ->
  let res_size := (init_message_res L vzalloc_ok 0 size result_size tr).2.2 in
  res_size mod 8 = 0 /\
  (result_size <= 2 ^ 32 - 8 -> result_size <= res_size < result_size + 8) /\
  (2 ^ 32 - 8 < result_size -> res_size = 0).
Proof.
  intros Hr res_size.
  assert (res_size
          = to_u32 (0 + Z.land (to_u32 (result_size + 7))
                          (to_u32 (Z.lnot 7)))) as ->.
  { subst res_size. unfold init_message_res. by destruct vzalloc_ok. }
  assert (0 <= to_u32 (result_size + 7) < 2 ^ 32) as Hx.
  { unfold to_u32. apply Z.mod_pos_bound. lia. }
  rewrite land_align8 by done. rewrite Z.add_0_l. unfold to_u32 in *.
  destruct (Z.le_gt_cases result_size (2 ^ 32 - 8)) as [Hle|Hgt].
  - rewrite (Z.mod_small (result_size + 7)) by lia.
    pose proof (Z.div_mod (result_size + 7) 8 ltac:(lia)) as Hdm.
    pose proof (Z.mod_pos_bound (result_size + 7) 8 ltac:(lia)) as Hm.
    rewrite (Z.mod_small (8 * _)) by lia.
    split; [|split; [lia|lia]].
    rewrite Z.mul_comm. apply Z.mod_mul. lia.
  - replace ((result_size + 7) mod 2 ^ 32) with (result_size + 7 - 2 ^ 32).
    2:{ symmetry. rewrite <- (Z.mod_add _ (-1)) by lia.
        apply Z.mod_small. lia. }
    rewrite (Z.div_small (result_size + 7 - 2 ^ 32)) by lia.
    cbn. split; [done|]. split; [lia|done].
Qed.

Lemma twelve_bytes : 0 <= 12 < 2 ^ 32.
Proof. lia. Qed.

Lemma twelve_bytes_low : 12 <= 2 ^ 32 - 8.
Proof. lia. Qed.

Lemma init_message_res_rounds_up_witness :
  (init_message_res sample_layout true 0 64 12 []).2.2 mod 8 = 0 /\
  12 <= (init_message_res sample_layout true 0 64 12 []).2.2 < 12 + 8.
Proof.
  destruct (init_message_res_rounds_up sample_layout true 64 12 []
              twelve_bytes) as (Hm & Hr & _).
  split; [exact Hm|exact (Hr twelve_bytes_low)].
Defined.

(** Counting events in a list that is given by its elements. *)
Ltac count_events :=
  cbn [app]; unfold count;
  repeat first [ rewrite filter_cons_True by done
               | rewrite filter_cons_False by discriminate
               | rewrite filter_nil ];
  cbn [length].

(** A branch taken against the value of a test on constants. *)
Ltac absurd_branch :=
  exfalso;
  match goal with
  | H : _ = _ |- _ => vm_compute in H; discriminate H
  end.

Lemma init_message_ret (L : layout) (vzalloc_ok : bool) (size : Z) :
  (init_message L vzalloc_ok size).1 = 0 \/
  (init_message L vzalloc_ok size).1 = - ENOMEM.
Proof.
  unfold init_message.
  destruct (_ <=? VMBUSMESSAGEONSTACK), vzalloc_ok; cbn; auto.
Qed.

(** [dxgvmb_send_create_process] returns zero or an error, never a
    positive value. It returns zero exactly when it has stored the handle
    from the reply of the host in the process, and that handle is not
    zero; on an error the handle of the process is as before. The channel
    lock is released once when taking it went through, and not at all when
    it was not taken or taking it failed. *)
Theorem create_process_stores_handle_on_success (L : layout) (W : wire)
    (env : create_process_env) (process : nat) (host_handle : Z)
    (tr : list event) :
  let r := dxgvmb_send_create_process L W env process host_handle tr in
  r.1.2 <= 0 /\
  (r.1.2 = 0 -> r.2 = cp_hprocess env /\ r.2 <> 0) /\
  (r.1.2 < 0 -> r.2 = host_handle) /\
  exists evs,
    r.1.1 = tr ++ evs /\
    (count EvAcquireChannelLock evs <= 1)%nat /\
    count EvReleaseChannelLock evs =
      if 0 <=? cp_acquire_channel_lock_ret env
      then count EvAcquireChannelLock evs else 0%nat.
Proof.
  intros r. subst r. unfold dxgvmb_send_create_process.
  destruct (init_message_ret L (cp_vzalloc_ok env) (sizeof_createprocess W))
    as [Hi|Hi];
    destruct (init_message _ _ _) as [ret msg_size]; cbn in Hi; subst ret.
  2:{ cbn. repeat split; try done. exists []. rewrite app_nil_r.
      split; [done|]. split; [cbn; lia|]. by destruct (0 <=? _). }
  cbn [negb Z.eqb].
  destruct (Z.ltb_spec (cp_acquire_channel_lock_ret env) 0) as [Hlt|Hge].
  { cbn [fst snd]. repeat split; try lia. eexists. split; [reflexivity|].
    destruct (Z.leb_spec 0 (cp_acquire_channel_lock_ret env)); [lia|].
    count_events. split; [lia|done]. }
  destruct (Z.leb_spec 0 (cp_acquire_channel_lock_ret env)) as [_|]; [|lia].
  unfold dxgvmb_send_sync_msg.
  repeat match goal with
         | |- context [if ?b then _ else _] => destruct b eqn:?
         end; cbn [fst snd]; try absurd_branch;
    (split; [try done; try (unfold ENOTRECOVERABLE, EINVAL, ENOMEM, EOVERFLOW; lia)|]);
    (split; [intros; try done; try (unfold ENOTRECOVERABLE, EINVAL, ENOMEM, EOVERFLOW in *; lia)|]);
    (split; [intros; try done; try (unfold ENOTRECOVERABLE, EINVAL, ENOMEM, EOVERFLOW in *; lia)|]);
    rewrite <- ?app_assoc; (eexists; split; [reflexivity|]);
    count_events; (split; [lia|done]).
Qed.

Section Senders.
Variables (L : layout) (W : wire) (codes : Status.ntstatus_codes).
Variable async_msg_enabled : bool.

(** The ways in which [dxgvmb_send_sync_msg] returns. *)
Lemma sync_msg_cases (a : sync_answer) ch cmd cmd_size result_size tr :
  let r := dxgvmb_send_sync_msg L a ch cmd cmd_size result_size tr in
  r = (tr ++ [EvErr "invalid data size"], - EINVAL, false) \/
  r = (tr ++ [EvErr "kmem_cache_alloc failed"], - ENOMEM, false) \/
  (exists ret,
     ret <> 0 /\
     r = (tr ++ [EvSyncMsg ch cmd cmd_size result_size;
                 EvErr "vmbus_sendpacket failed"], ret, false)) \/
  r = (tr ++ [EvSyncMsg ch cmd cmd_size result_size], 0, false) \/
  r = (tr ++ [EvSyncMsg ch cmd cmd_size result_size], 0, true) \/
  r = (tr ++ [EvSyncMsg ch cmd cmd_size result_size], - EOVERFLOW, false).
Proof.
  unfold dxgvmb_send_sync_msg.
  destruct (_ || _); [by left|].
  destruct (negb (kmem_cache_alloc_ok a)); [by right; left|].
  destruct (Z.eqb_spec (vmbus_sendpacket_ret a) 0) as [->|Hne]; cbn [negb].
  - destruct (result_size =? 0); [by do 3 right; left|].
    destruct (reply_fits a); [by do 4 right; left|by do 5 right].
  - do 2 right. left. exists (vmbus_sendpacket_ret a).
    by rewrite <- app_assoc.
Qed.

(** One branch after the other of a sender. *)
Ltac branches :=
  repeat match goal with
         | |- context [let '(_, _) := ?x in _] => destruct x eqn:?
         | |- context [if ?b then _ else _] => destruct b eqn:?
         end;
  cbn [fst snd]; try absurd_branch.

(** The commands that [dxgvmb_send_create_context] hands to the transport
    are, in this order, at most one command to create the context and at
    most one to destroy a context. A handle other than zero is returned
    only when the create command is the only one sent, and it is the
    handle from the reply of the host; whenever a destroy command is sent,
    it follows the create command, names the handle from its reply (or
    zero when no reply was copied), and the function returns zero. *)
Theorem create_context_commands (env : create_context_env) (host_handle : Z)
    (args : d3dkmt_createcontextvirtual) (tr : list event) :
  let r := dxgvmb_send_create_context L W codes async_msg_enabled env
             host_handle args tr in
  let create := DXGK_VMBCOMMAND_CREATECONTEXTVIRTUAL host_handle
                  (ctx_arg_device args) (ctx_priv_drv_data_size args) in
  exists evs,
    r.1 = tr ++ evs /\
    ((List.filter is_sync_msg evs = [] /\ r.2 = 0) \/
     (exists ch s rs,
        List.filter is_sync_msg evs = [EvSyncMsg ch create s rs] /\
        (r.2 = 0 \/ r.2 = cc_context env)) \/
     (exists ch s rs ch' s' rs' c,
        List.filter is_sync_msg evs =
          [EvSyncMsg ch create s rs;
           EvSyncMsg ch' (DXGK_VMBCOMMAND_DESTROYCONTEXT host_handle c) s' rs']
        /\ r.2 = 0 /\ (c = cc_context env \/ c = 0))).
Proof.
  intros r create. subst r create.
  unfold dxgvmb_send_create_context.
  destruct (_ >? _); [eexists; split; [reflexivity|left; done]|].
  destruct (init_message _ _ _) as [ret msg_size].
  destruct (negb (ret =? 0));
    [exists []; rewrite app_nil_r; split; [done|left; done]|].
  destruct (_ && negb (cc_copy_from_user_ok env));
    [eexists; split; [reflexivity|left; done]|].
  destruct (sync_msg_cases (cc_sync env)
              (init_message_channel async_msg_enabled true)
              (DXGK_VMBCOMMAND_CREATECONTEXTVIRTUAL host_handle
                 (ctx_arg_device args) (ctx_priv_drv_data_size args))
              msg_size
              (to_u32 (sizeof_createcontextvirtual W
                       + ctx_priv_drv_data_size args - 1)) tr)
    as [E|[E|[(sret & Hsret & E)|[E|[E|E]]]]]; rewrite E; clear E;
    try (eexists; split; [reflexivity|]; left; done);
    try (eexists; split; [reflexivity|]; right; left; do 3 eexists;
         split; [reflexivity|]; auto; fail).
  all: destruct (_ <? 0);
    [eexists; split; [reflexivity|]; right; left; do 3 eexists;
     split; [reflexivity|]; auto|].
  all: destruct (_ && negb (cc_copy_to_user_ok env));
    [|eexists; split; [reflexivity|]; right; left; do 3 eexists;
      split; [reflexivity|]; auto].
  all: unfold dxgvmb_send_destroy_context, dxgvmb_send_sync_msg_ntstatus.
  all: destruct (init_message _ _ _) as [dret dsize].
  all: destruct (negb (dret =? 0));
    [eexists; rewrite <- !app_assoc; split; [reflexivity|]; right; left;
     do 3 eexists; split; [reflexivity|]; auto|].
  all: match goal with
       | |- context [dxgvmb_send_sync_msg L ?a ?ch ?cmd ?cs ?rs ?t] =>
           destruct (sync_msg_cases a ch cmd cs rs t)
             as [E|[E|[(dsret & Hdsret & E)|[E|[E|E]]]]]; rewrite E; clear E
       end.
  all: cbn [fst snd]; eexists; rewrite <- !app_assoc;
    (split; [reflexivity|]); cbn [app List.filter is_sync_msg].
  all: first [ right; left; do 3 eexists; split; [reflexivity|]; auto; fail
             | right; right; do 7 eexists; split; [reflexivity|]; auto ].
Qed.

Lemma handed_over_sync_msg (a : sync_answer) ch cmd cmd_size result_size tr :
  handed_over L a cmd_size result_size ->
  exists post ret written,
    dxgvmb_send_sync_msg L a ch cmd cmd_size result_size tr =
      (tr ++ EvSyncMsg ch cmd cmd_size result_size :: post, ret, written) /\
    List.filter is_sync_msg post = [].
Proof.
  intros (Hc & Hr & Hk). unfold dxgvmb_send_sync_msg. rewrite Hk.
  destruct (Z.gtb_spec cmd_size (DXG_MAX_VM_BUS_PACKET_SIZE L)); [lia|].
  destruct (Z.gtb_spec result_size (DXG_MAX_VM_BUS_PACKET_SIZE L)); [lia|].
  cbn [orb negb].
  repeat match goal with
         | |- context [if ?b then _ else _] => destruct b
         end; rewrite <- ?app_assoc; cbn [app];
    do 3 eexists; (split; [reflexivity|reflexivity]).
Qed.

Lemma answered_sync_msg (a : sync_answer) ch cmd cmd_size result_size tr :
  answered L a cmd_size result_size ->
  dxgvmb_send_sync_msg L a ch cmd cmd_size result_size tr =
    (tr ++ [EvSyncMsg ch cmd cmd_size result_size], 0, true).
Proof.
  intros ((Hc & Hr & Hk) & Hs & Hf & Hn). unfold dxgvmb_send_sync_msg.
  rewrite Hk, Hs, Hf.
  destruct (Z.gtb_spec cmd_size (DXG_MAX_VM_BUS_PACKET_SIZE L)); [lia|].
  destruct (Z.gtb_spec result_size (DXG_MAX_VM_BUS_PACKET_SIZE L)); [lia|].
  destruct (Z.eqb_spec result_size 0); [done|]. reflexivity.
Qed.

(** When the host has created the context and the private driver data
    cannot be copied back to the user, [dxgvmb_send_create_context]
    returns the zero handle and, the destroy command being one that can be
    handed over, sends after the create command exactly one command to
    destroy the context of the handle that the host returned. *)
Theorem create_context_copy_failure_compensated (env : create_context_env)
    (host_handle : Z) (args : d3dkmt_createcontextvirtual) (tr : list event)
    (msg_size destroy_size : Z) :
  let cmd_size :=
    to_u32 (sizeof_createcontextvirtual W + ctx_priv_drv_data_size args - 1) in
  ctx_priv_drv_data_size args <> 0 ->
  ctx_priv_drv_data_size args <= DXG_MAX_VM_BUS_PACKET_SIZE L ->
  init_message L (cc_vzalloc_ok env) cmd_size = (0, msg_size) ->
  cc_copy_from_user_ok env = true ->
  answered L (cc_sync env) msg_size cmd_size ->
  cc_copy_to_user_ok env = false ->
  init_message L (de_vzalloc_ok (cc_destroy env)) (sizeof_destroycontext W)
    = (0, destroy_size) ->
  handed_over L (de_sync (cc_destroy env)) destroy_size (sizeof_ntstatus W) ->
  let r := dxgvmb_send_create_context L W codes async_msg_enabled env
             host_handle args tr in
  r.2 = 0 /\
  exists evs,
    r.1 = tr ++ evs /\
    List.filter is_sync_msg evs =
      [EvSyncMsg (init_message_channel async_msg_enabled true)
         (DXGK_VMBCOMMAND_CREATECONTEXTVIRTUAL host_handle
            (ctx_arg_device args) (ctx_priv_drv_data_size args))
         msg_size cmd_size;
       EvSyncMsg (init_message_channel async_msg_enabled true)
         (DXGK_VMBCOMMAND_DESTROYCONTEXT host_handle (cc_context env))
         destroy_size (sizeof_ntstatus W)].
Proof.
  intros cmd_size Hp Hmax Hinit Hfrom Hans Hto Hdinit Hdest r. subst r.
  unfold dxgvmb_send_create_context.
  destruct (Z.gtb_spec (ctx_priv_drv_data_size args)
              (DXG_MAX_VM_BUS_PACKET_SIZE L)); [lia|].
  fold cmd_size. rewrite Hinit, Hfrom, Hto.
  destruct (Z.eqb_spec (ctx_priv_drv_data_size args) 0); [done|].
  cbn [negb andb Z.eqb]. rewrite (answered_sync_msg _ _ _ _ _ _ Hans).
  cbn [Z.ltb Z.compare negb andb].
  unfold dxgvmb_send_destroy_context, dxgvmb_send_sync_msg_ntstatus.
  rewrite Hdinit. cbn [negb Z.eqb].
  destruct (handed_over_sync_msg (de_sync (cc_destroy env))
              (init_message_channel async_msg_enabled true)
              (DXGK_VMBCOMMAND_DESTROYCONTEXT host_handle (cc_context env))
              destroy_size (sizeof_ntstatus W)
              ((tr ++ [EvSyncMsg (init_message_channel async_msg_enabled true)
                         (DXGK_VMBCOMMAND_CREATECONTEXTVIRTUAL host_handle
                            (ctx_arg_device args)
                            (ctx_priv_drv_data_size args))
                         msg_size cmd_size])
               ++ [EvErr "Faled to copy private data to user"]) Hdest)
    as (post & ret & written & -> & Hpost).
  cbn [fst snd]. split; [reflexivity|].
  eexists. rewrite <- !app_assoc. split; [reflexivity|].
  cbn. by rewrite Hpost.
Qed.

(** For a standard allocation type other than the GDI surface,
    [dxgvmb_send_get_stdalloc_data] reports success although it has asked
    the host nothing: it returns zero, sends no command and leaves the
    sizes and buffers of the caller as they were. *)
Theorem stdalloc_unsupported_type_reports_success (env : stdalloc_env)
    (host_handle : Z) (alloctype : d3dkmdt_standardallocationtype)
    (data : stdalloc_data) (tr : list event) :
  alloctype <> D3DKMDT_STANDARDALLOCATION_GDISURFACE ->
  sa_vzalloc_ok env = true ->
  dxgvmb_send_get_stdalloc_data L W codes async_msg_enabled env host_handle
    alloctype data tr
  = (tr ++ [EvErr "Invalid standard alloc type"], 0, data).
Proof.
  intros Htype Hok. unfold dxgvmb_send_get_stdalloc_data, init_message_res.
  rewrite Hok. by destruct alloctype.
Qed.

(** The size of the result that [dxgvmb_send_get_stdalloc_data] asks
    [init_message_res] for. *)
Local Abbreviation stdalloc_result_size data :=
  (let result_size := sizeof_getstandardallocprivdata_return W in
   let result_size :=
     match priv_alloc_data data with
     | Some _ => to_u32 (result_size + alloc_priv_driver_size data)
     | None => result_size
     end in
   match priv_res_data data with
   | Some _ => to_u32 (result_size + res_priv_data_size data)
   | None => result_size
   end).

(** [dxgvmb_send_get_stdalloc_data] writes to the sizes and buffers of
    the caller only when it returns without an error, and then the sizes
    are those of the reply of the host, each of which equals the size the
    caller asked for unless that was zero. A mismatch of a size is not an
    error: when the host has answered the command for a GDI surface with
    a status that translates to a value that is not negative, and the
    caller asked for a size other than zero that is not the size in the
    reply, the function logs the mismatch (of the private driver data
    first, of the resource data otherwise) and returns the translated
    status of the host, with the data of the caller untouched. *)
Theorem stdalloc_writes_only_matching_sizes (env : stdalloc_env)
    (host_handle : Z) (alloctype : d3dkmdt_standardallocationtype)
    (data : stdalloc_data) (tr : list event) :
  let r := dxgvmb_send_get_stdalloc_data L W codes async_msg_enabled env
             host_handle alloctype data tr in
  let status := Status.ntstatus2int codes (std_status (sa_result env)) in
  let command :=
    DXGK_VMBCOMMAND_DDIGETSTANDARDALLOCATIONDRIVERDATA host_handle alloctype
      (alloc_priv_driver_size data) (res_priv_data_size data) in
  (r.1.2 < 0 -> r.2 = data) /\
  (r.2 <> data ->
   0 <= r.1.2 /\
   (alloc_priv_driver_size data = 0 \/
    alloc_priv_driver_size r.2 = alloc_priv_driver_size data) /\
   (res_priv_data_size data = 0 \/
    res_priv_data_size r.2 = res_priv_data_size data)) /\
  (forall msg_size res_size,
     alloctype = D3DKMDT_STANDARDALLOCATION_GDISURFACE ->
     init_message_res L (sa_vzalloc_ok env) 0
       (sizeof_getstandardallocprivdata W) (stdalloc_result_size data) tr
     = (tr, 0, (msg_size, res_size)) ->
     answered L (sa_sync env) msg_size res_size ->
     0 <= status ->
     (alloc_priv_driver_size data <> 0 /\
      std_priv_driver_data_size (sa_result env)
      <> alloc_priv_driver_size data ->
      r = (tr ++ [EvSyncMsg (init_message_res_channel async_msg_enabled)
                    command msg_size res_size;
                  EvErr "Priv data size mismatch"], status, data)) /\
     (alloc_priv_driver_size data = 0 \/
      std_priv_driver_data_size (sa_result env)
      = alloc_priv_driver_size data ->
      res_priv_data_size data <> 0 /\
      std_priv_driver_resource_size (sa_result env)
      <> res_priv_data_size data ->
      r = (tr ++ [EvSyncMsg (init_message_res_channel async_msg_enabled)
                    command msg_size res_size;
                  EvErr "Resource priv data size mismatch"], status, data))).
Proof.
  intros r status command. subst r status command. split; [|split].
  3:{ intros msg_size res_size -> Hinit Hans Hst.
      unfold dxgvmb_send_get_stdalloc_data. cbv zeta in Hinit |- *.
      rewrite Hinit.
      cbn [negb Z.eqb]. rewrite (answered_sync_msg _ _ _ _ _ _ Hans).
      cbn [Z.ltb Z.compare].
      destruct (Z.ltb_spec (Status.ntstatus2int codes
                              (std_status (sa_result env))) 0); [lia|].
      split.
      - intros [Hnz Hne].
        destruct (Z.eqb_spec (alloc_priv_driver_size data) 0); [done|].
        destruct (Z.eqb_spec (std_priv_driver_data_size (sa_result env))
                    (alloc_priv_driver_size data)); [done|].
        cbn [negb andb]. by rewrite <- app_assoc.
      - intros Hsame [Hnz Hne].
        assert (negb (alloc_priv_driver_size data =? 0)
                && negb (std_priv_driver_data_size (sa_result env)
                         =? alloc_priv_driver_size data) = false) as ->.
        { destruct Hsame as [->| ->]; [done|].
          rewrite Z.eqb_refl. cbn [negb]. apply andb_false_r. }
        destruct (Z.eqb_spec (res_priv_data_size data) 0); [done|].
        destruct (Z.eqb_spec (std_priv_driver_resource_size (sa_result env))
                    (res_priv_data_size data)); [done|].
        cbn [negb andb]. by rewrite <- app_assoc. }
  all: unfold dxgvmb_send_get_stdalloc_data, init_message_res.
  all: destruct (sa_vzalloc_ok env);
    [|change (negb (- ENOMEM =? 0)) with true];
    cbn [negb Z.eqb fst snd]; [|done].
  all: destruct alloctype; try done.
  all: match goal with
       | |- context [dxgvmb_send_sync_msg L ?a ?ch ?cmd ?cs ?rs ?t] =>
           destruct (sync_msg_cases a ch cmd cs rs t)
             as [E|[E|[(sret & Hsret & E)|[E|[E|E]]]]]; rewrite E; clear E
       end; cbn [fst snd].
  all: change (- EINVAL <? 0) with true; change (- ENOMEM <? 0) with true;
    change (- EOVERFLOW <? 0) with true; cbn iota; try done.
  all: change (0 <? 0) with false; cbn iota.
  all: try (destruct (sret <? 0) eqn:Hneg; [done|]).
  all: match goal with
       | |- context [Status.ntstatus2int codes ?x <? 0] =>
           destruct (Status.ntstatus2int codes x <? 0) eqn:Hst; [done|]
       end.
  all: apply Z.ltb_ge in Hst.
  all: destruct (negb (alloc_priv_driver_size data =? 0) && _) eqn:Hm1;
    [done|].
  all: destruct (negb (res_priv_data_size data =? 0) && _) eqn:Hm2;
    [done|].
  all: cbn [fst snd alloc_priv_driver_size res_priv_data_size].
  all: try (intros; lia).
  all: intros _; split; [done|].
  all: repeat match goal with
              | H : _ && _ = false |- _ =>
                  apply andb_false_iff in H as [H|H]
              | H : negb _ = false |- _ => apply negb_false_iff in H
              | H : (_ =? _) = true |- _ => apply Z.eqb_eq in H
              end; auto.
Qed.

End Senders.

Lemma context_args_private : ctx_priv_drv_data_size context_args <> 0.
Proof. vm_compute. discriminate. Qed.

Lemma context_args_fit :
  ctx_priv_drv_data_size context_args
  <= DXG_MAX_VM_BUS_PACKET_SIZE sample_layout.
Proof. vm_compute. discriminate. Qed.

Lemma context_message :
  init_message sample_layout (cc_vzalloc_ok context_copy_fails)
    (to_u32 (sizeof_createcontextvirtual sample_wire
             + ctx_priv_drv_data_size context_args - 1))
  = (0, 103).
Proof. vm_compute. reflexivity. Qed.

Lemma context_answered :
  answered sample_layout (cc_sync context_copy_fails) 103
    (to_u32 (sizeof_createcontextvirtual sample_wire
             + ctx_priv_drv_data_size context_args - 1)).
Proof. vm_compute. repeat split; discriminate. Qed.

Lemma destroy_context_message :
  init_message sample_layout (de_vzalloc_ok (cc_destroy context_copy_fails))
    (sizeof_destroycontext sample_wire)
  = (0, 44).
Proof. vm_compute. reflexivity. Qed.

Lemma destroy_context_handed_over :
  handed_over sample_layout (de_sync (cc_destroy context_copy_fails)) 44
    (sizeof_ntstatus sample_wire).
Proof. vm_compute. repeat split; discriminate. Qed.

Lemma create_context_copy_failure_compensated_witness :
  let r := dxgvmb_send_create_context sample_layout sample_wire
             Status.windows_codes false context_copy_fails 7 context_args
             [] in
  r.2 = 0 /\
  exists evs,
    r.1 = [] ++ evs /\
    List.filter is_sync_msg evs =
      [EvSyncMsg AdapterChannel
         (DXGK_VMBCOMMAND_CREATECONTEXTVIRTUAL 7 100 32) 103 87;
       EvSyncMsg AdapterChannel (DXGK_VMBCOMMAND_DESTROYCONTEXT 7 300) 44 4].
Proof.
  exact (create_context_copy_failure_compensated sample_layout sample_wire
           Status.windows_codes false context_copy_fails 7 context_args []
           103 44 context_args_private context_args_fit context_message
           eq_refl context_answered eq_refl destroy_context_message
           destroy_context_handed_over).
Defined.

Lemma shadow_surface_unsupported :
  D3DKMDT_STANDARDALLOCATION_SHADOWSURFACE
  <> D3DKMDT_STANDARDALLOCATION_GDISURFACE.
Proof. discriminate. Qed.

Lemma stdalloc_unsupported_type_reports_success_witness :
  dxgvmb_send_get_stdalloc_data sample_layout sample_wire
    Status.windows_codes false stdalloc_host 7
    D3DKMDT_STANDARDALLOCATION_SHADOWSURFACE stdalloc_request []
  = ([] ++ [EvErr "Invalid standard alloc type"], 0, stdalloc_request).
Proof.
  exact (stdalloc_unsupported_type_reports_success sample_layout sample_wire
           Status.windows_codes false stdalloc_host 7
           D3DKMDT_STANDARDALLOCATION_SHADOWSURFACE stdalloc_request []
           shadow_surface_unsupported eq_refl).
Defined.

Lemma sixteen_message :
  init_message_res sample_layout (sa_vzalloc_ok stdalloc_host) 0
    (sizeof_getstandardallocprivdata sample_wire)
    (to_u32 (sizeof_getstandardallocprivdata_return sample_wire
             + alloc_priv_driver_size stdalloc_request_sixteen)) []
  = ([], 0, (80, 32)).
Proof. vm_compute. reflexivity. Qed.

Lemma sixteen_answered : answered sample_layout (sa_sync stdalloc_host) 80 32.
Proof. vm_compute. repeat split; discriminate. Qed.

Lemma host_status_ok :
  0 <= Status.ntstatus2int Status.windows_codes
         (std_status (sa_result stdalloc_host)).
Proof. vm_compute. discriminate. Qed.

Lemma sixteen_is_not_eight :
  alloc_priv_driver_size stdalloc_request_sixteen <> 0 /\
  std_priv_driver_data_size (sa_result stdalloc_host)
  <> alloc_priv_driver_size stdalloc_request_sixteen.
Proof. split; discriminate. Qed.

(** The caller asks for sixteen bytes, the host answers with the status 0
    and eight bytes: the mismatch is logged, the call returns 0 and the
    caller's size and buffer are as they were. *)
Lemma stdalloc_writes_only_matching_sizes_witness :
  dxgvmb_send_get_stdalloc_data sample_layout sample_wire
    Status.windows_codes false stdalloc_host 7
    D3DKMDT_STANDARDALLOCATION_GDISURFACE stdalloc_request_sixteen []
  = ([] ++ [EvSyncMsg (init_message_res_channel false)
              (DXGK_VMBCOMMAND_DDIGETSTANDARDALLOCATIONDRIVERDATA 7
                 D3DKMDT_STANDARDALLOCATION_GDISURFACE
                 (alloc_priv_driver_size stdalloc_request_sixteen)
                 (res_priv_data_size stdalloc_request_sixteen)) 80 32;
            EvErr "Priv data size mismatch"],
     Status.ntstatus2int Status.windows_codes
       (std_status (sa_result stdalloc_host)),
     stdalloc_request_sixteen).
Proof.
  exact (proj1
           (proj2 (proj2
              (stdalloc_writes_only_matching_sizes sample_layout sample_wire
                 Status.windows_codes false stdalloc_host 7
                 D3DKMDT_STANDARDALLOCATION_GDISURFACE
                 stdalloc_request_sixteen []))
              80 32 eq_refl sixteen_message sixteen_answered host_status_ok)
           sixteen_is_not_eight).
Defined.

End RpcSpec.

(** ** misc.c: the debug helpers *)
Module DebugSpec.
Import Misc Debug.

Lemma arr_get_lookup (a : list Z) (i : Z) (v : Z) :
  arr_get a i = Some v <-> 0 <= i /\ a !! Z.to_nat i = Some v.
Proof.
  unfold arr_get. destruct (Z.ltb_spec i 0); split; try done.
  - intros [? _]. lia.
  - intros [_ ?]. done.
Qed.

Lemma arr_get_set_eq (a a' : list Z) (i v : Z) :
  arr_set a i v = Some a' -> arr_get a' i = Some v.
Proof.
  unfold arr_set, arr_get.
  destruct (Z.leb_spec 0 i), (Z.ltb_spec i (Z.of_nat (length a)));
    cbn; try done.
  intros [= <-]. destruct (Z.ltb_spec i 0); [lia|].
  apply list_lookup_insert_eq. lia.
Qed.

Lemma arr_get_set_ne (a a' : list Z) (i j v : Z) :
  arr_set a i v = Some a' -> i <> j -> arr_get a' j = arr_get a j.
Proof.
  unfold arr_set, arr_get.
  destruct (Z.leb_spec 0 i), (Z.ltb_spec i (Z.of_nat (length a)));
    cbn; try done.
  intros [= <-] Hne. destruct (Z.ltb_spec j 0); [done|].
  apply list_lookup_insert_ne. lia.
Qed.

Lemma arr_set_is_Some (a : list Z) (i v w : Z) :
  arr_get a i = Some w -> is_Some (arr_set a i v).
Proof.
  intros [Hi Hl]%arr_get_lookup. apply lookup_lt_Some in Hl.
  unfold arr_set. destruct (Z.leb_spec 0 i); [|lia].
  destruct (Z.ltb_spec i (Z.of_nat (length a))); [by eexists|lia].
Qed.

Lemma counters_set_counters process mem st :
  counters process (set_counters process mem st) = Some mem.
Proof. destruct process; cbn; [apply lookup_insert_eq|done]. Qed.

Lemma log_set_counters process mem st :
  log (set_counters process mem st) = log st.
Proof. by destruct process. Qed.

Lemma live_app tag ops ops' : live tag (ops ++ ops') = live tag ops + live tag ops'.
Proof.
  induction ops as [|[t|t] ops IH]; cbn; [done|rewrite IH; lia|rewrite IH; lia].
Qed.

(** The counters after a run that never frees what is not there. *)
Lemma mem_run_counts (process : option nat) (ops : list mem_op) :
  forall (st : state) (mem : list Z),
    counters process st = Some mem ->
    Forall (fun op =>
              match op with
              | MemAdd tag | MemRem tag => is_Some (arr_get mem tag)
              end) ops ->
    (forall k tag v,
       arr_get mem tag = Some v ->
       0 <= v + live tag (take k ops)
       /\ v + live tag (take k ops) + Z.of_nat (length ops - k) < 2 ^ 31) ->
    exists st' mem',
      mem_run process ops st = Finished st' /\
      log st' = log st /\
      counters process st' = Some mem' /\
      forall tag v,
        arr_get mem tag = Some v -> arr_get mem' tag = Some (v + live tag ops).
Proof.
  induction ops as [|op ops IH]; intros st mem Hmem Hin Hinv.
  - exists st, mem. repeat split; try done.
    intros tag v Hv. cbn. by rewrite Z.add_0_r.
  - apply Forall_cons in Hin as [Hop Hin].
    assert (exists st1 mem1,
              mem_step process (Finished st) op = Finished st1 /\
              log st1 = log st /\ counters process st1 = Some mem1 /\
              forall tag v,
                arr_get mem tag = Some v ->
                arr_get mem1 tag = Some (v + live tag [op]))
      as (st1 & mem1 & Hstep & Hlog1 & Hmem1 & Hval1).
    { destruct op as [t|t]; destruct Hop as [w Hw]; cbn [mem_step].
      - unfold dxgmem_addalloc. rewrite Hmem, Hw.
        destruct (arr_set_is_Some mem t (wrap_int (w + 1)) w Hw) as [m Hm].
        rewrite Hm. exists (set_counters process m st), m.
        split; [done|]. split; [apply log_set_counters|].
        split; [apply counters_set_counters|].
        intros tag v Hv. cbn. destruct (Z.eqb_spec t tag) as [->|Hne].
        + rewrite (arr_get_set_eq _ _ _ _ Hm). f_equal.
          assert (v = w) as -> by congruence.
          destruct (Hinv 1%nat tag w Hw) as [H0 H1]. cbn in H0, H1.
          rewrite take_0, Z.eqb_refl in H0, H1. cbn in H0, H1.
          destruct (Hinv 0%nat tag w Hw) as [H2 H3]. cbn in H2, H3.
          rewrite wrap_int_small; lia.
        + rewrite (arr_get_set_ne _ _ _ _ _ Hm Hne), Hv. f_equal. lia.
      - unfold dxgmem_remalloc. rewrite Hmem, Hw.
        destruct (Hinv 1%nat t w Hw) as [H0 H1]. cbn in H0, H1.
        rewrite take_0, Z.eqb_refl in H0, H1. cbn in H0, H1.
        destruct (Hinv 0%nat t w Hw) as [H2 H3]. cbn in H2, H3.
        destruct (Z.eqb_spec w 0) as [->|Hw0]; [lia|].
        destruct (arr_set_is_Some mem t (wrap_int (w - 1)) w Hw) as [m Hm].
        rewrite Hm. exists (set_counters process m st), m.
        split; [done|]. split; [apply log_set_counters|].
        split; [apply counters_set_counters|].
        intros tag v Hv. cbn. destruct (Z.eqb_spec t tag) as [->|Hne].
        + rewrite (arr_get_set_eq _ _ _ _ Hm). f_equal.
          assert (v = w) as -> by congruence.
          rewrite wrap_int_small; lia.
        + rewrite (arr_get_set_ne _ _ _ _ _ Hm Hne), Hv. f_equal. lia. }
    destruct (IH st1 mem1 Hmem1) as (st' & mem' & Hrun & Hlog & Hmem' & Hval).
    + eapply Forall_impl; [exact Hin|]. intros op' Hop'.
      assert (forall tag, is_Some (arr_get mem tag) ->
                          is_Some (arr_get mem1 tag)) as Hsome.
      { intros tag [v Hv]. rewrite (Hval1 tag v Hv). by eexists. }
      destruct op'; by apply Hsome.
    + intros k tag v1 Hv1.
      assert (is_Some (arr_get mem tag)) as [v Hv].
      { destruct (arr_get mem tag) as [v|] eqn:Hv; [by eexists|].
        exfalso. clear -Hstep Hmem Hmem1 Hv Hv1 Hop.
        destruct op as [t|t]; destruct Hop as [w Hw]; cbn in Hstep.
        - unfold dxgmem_addalloc in Hstep. rewrite Hmem, Hw in Hstep.
          destruct (arr_set mem t (wrap_int (w + 1))) as [m|] eqn:Hm; [|done].
          injection Hstep as <-. rewrite counters_set_counters in Hmem1.
          injection Hmem1 as <-.
          destruct (Z.eq_dec t tag) as [->|Hne]; [congruence|].
          rewrite (arr_get_set_ne _ _ _ _ _ Hm Hne) in Hv1. congruence.
        - unfold dxgmem_remalloc in Hstep. rewrite Hmem, Hw in Hstep.
          destruct (w =? 0).
          + injection Hstep as <-.
            assert (mem1 = mem) as ->; [|congruence].
            destruct process; cbn in *; congruence.
          + destruct (arr_set mem t (wrap_int (w - 1))) as [m|] eqn:Hm;
              [|done].
            injection Hstep as <-. rewrite counters_set_counters in Hmem1.
            injection Hmem1 as <-.
            destruct (Z.eq_dec t tag) as [->|Hne]; [congruence|].
            rewrite (arr_get_set_ne _ _ _ _ _ Hm Hne) in Hv1. congruence. }
      rewrite (Hval1 tag v Hv) in Hv1. injection Hv1 as <-.
      specialize (Hinv (S k) tag v Hv). cbn [take length] in Hinv.
      change (op :: take k ops) with ([op] ++ take k ops) in Hinv.
      rewrite live_app in Hinv.
      replace (S (length ops) - S k)%nat with (length ops - k)%nat in Hinv
        by lia.
      cbn [live] in Hinv |- *. lia.
    + exists st', mem'.
      split; [unfold mem_run in *; cbn [foldl]; by rewrite Hstep|].
      split; [congruence|].
      split; [done|]. intros tag v Hv.
      rewrite (Hval tag _ (Hval1 tag v Hv)). f_equal.
      change (op :: ops) with ([op] ++ ops). rewrite live_app. lia.
Qed.

Lemma live_le_length tag ops : live tag ops <= Z.of_nat (length ops).
Proof.
  induction ops as [|[t|t] ops IH]; cbn [live length]; [done| |];
    destruct (t =? tag); lia.
Qed.

(** The counters count the allocations that are alive: after a run of
    [dxgmem_addalloc] and [dxgmem_remalloc] calls that never frees more of
    a tag than was allocated before, each counter has grown by the number
    of allocations of its tag that are still alive, and nothing was
    logged. The counters are [int]s: the run must be short enough for them
    not to wrap. *)
Theorem dxgmem_counts_live_allocations (process : option nat)
    (ops : list mem_op) (st : state) (mem : list Z) :
  counters process st = Some mem ->
  Forall (fun op =>
            match op with
            | MemAdd tag | MemRem tag => is_Some (arr_get mem tag)
            end) ops ->
  Forall (fun v => 0 <= v /\ v + Z.of_nat (length ops) < 2 ^ 31) mem ->
  balanced ops ->
  exists st' mem',
    mem_run process ops st = Finished st' /\
    log st' = log st /\
    counters process st' = Some mem' /\
    forall tag v,
      arr_get mem tag = Some v -> arr_get mem' tag = Some (v + live tag ops).
Proof.
  intros Hmem Hin Hsmall Hbal.
  apply (mem_run_counts process ops st mem Hmem Hin).
  intros k tag v [Hi Hv]%arr_get_lookup.
  apply (proj1 (Forall_lookup _ _) Hsmall) in Hv as [Hv0 Hv1].
  specialize (Hbal k tag).
  pose proof (live_le_length tag (take k ops)) as Hle.
  rewrite length_take in Hle. lia.
Qed.

Lemma idle_counters : counters None idle = Some [0; 0; 0].
Proof. reflexivity. Qed.

Lemma two_in_one_out_tags :
  Forall (fun op =>
            match op with
            | MemAdd tag | MemRem tag => is_Some (arr_get [0; 0; 0] tag)
            end) two_in_one_out.
Proof. repeat constructor; by eexists. Qed.

Lemma two_in_one_out_small :
  Forall (fun v => 0 <= v /\ v + Z.of_nat (length two_in_one_out) < 2 ^ 31)
    [0; 0; 0].
Proof. repeat constructor; cbn; lia. Qed.

Lemma two_in_one_out_balanced : balanced two_in_one_out.
Proof.
  intros k tag. unfold two_in_one_out.
  destruct k as [|[|[|[|k]]]]; cbn [take live]; destruct (1 =? tag); lia.
Qed.

Lemma dxgmem_counts_live_allocations_witness :
  exists st' mem',
    mem_run None two_in_one_out idle = Finished st' /\
    log st' = log idle /\
    counters None st' = Some mem' /\
    forall tag v,
      arr_get [0; 0; 0] tag = Some v ->
      arr_get mem' tag = Some (v + live tag two_in_one_out).
Proof.
  exact (dxgmem_counts_live_allocations None two_in_one_out idle [0; 0; 0]
           idle_counters two_in_one_out_tags two_in_one_out_small
           two_in_one_out_balanced).
Defined.

Lemma dxgmem_check_loop_leaks (ignore_tag : Z) (mem : list Z) :
  forall (pre : list Z) (l : list event),
    dxgmem_check_loop (pre ++ mem) ignore_tag (Z.of_nat (length pre))
      (length mem) l
    = Finished (l ++ leaks ignore_tag (Z.of_nat (length pre)) mem).
Proof.
  induction mem as [|v mem IH]; intros pre l; cbn [dxgmem_check_loop leaks length].
  - by rewrite app_nil_r.
  - unfold arr_get. destruct (Z.ltb_spec (Z.of_nat (length pre)) 0); [lia|].
    rewrite Nat2Z.id, list_lookup_middle by done.
    specialize (IH (pre ++ [v])). rewrite <- app_assoc in IH. cbn [app] in IH.
    rewrite length_app in IH. cbn [length] in IH.
    replace (Z.of_nat (length pre + 1)) with (Z.of_nat (length pre) + 1) in IH
      by lia.
    rewrite IH. destruct (negb _ && negb _); [by rewrite <- app_assoc|done].
Qed.

(** [dxgmem_check] on counters that are as many as there are memory tags
    logs one message for each tag other than [ignore_tag] whose counter is
    not zero, in the order of the tags and with the tag and the counter
    in it, and changes nothing else; it logs nothing exactly when all
    those counters are zero. *)
Theorem dxgmem_check_reports_leaks (DXGMEM_LAST : Z) (process : option nat)
    (ignore_tag : Z) (st : state) (mem : list Z) :
  counters process st = Some mem -> Z.of_nat (length mem) = DXGMEM_LAST ->
  exists st',
    dxgmem_check DXGMEM_LAST process ignore_tag st = Finished st' /\
    log st' = log st ++ leaks ignore_tag 0 mem /\
    dxg_memory st' = dxg_memory st /\
    process_dxg_memory st' = process_dxg_memory st /\
    (log st' = log st <->
     forall tag v,
       arr_get mem tag = Some v -> tag <> ignore_tag -> v = 0).
Proof.
  intros Hmem Hlen. unfold dxgmem_check. rewrite Hmem, <- Hlen, Nat2Z.id.
  pose proof (dxgmem_check_loop_leaks ignore_tag mem [] (log st)) as Hloop.
  cbn [app length] in Hloop. change (Z.of_nat 0) with 0 in Hloop.
  rewrite Hloop.
  eexists. split; [reflexivity|]. cbn [log dxg_memory process_dxg_memory].
  split; [done|]. split; [done|]. split; [done|].
  assert (forall (m : list Z) (i : Z),
            0 <= i ->
            leaks ignore_tag i m = [] <->
            forall k v, m !! k = Some v -> i + Z.of_nat k <> ignore_tag ->
                        v = 0) as Hleaks.
  { induction m as [|v m IHm]; intros i Hi; cbn [leaks].
    - split; [by intros _ k v|done].
    - split.
      + intros [H1 H2]%app_eq_nil k w Hk Hne.
        destruct k as [|k]; cbn in Hk.
        * injection Hk as ->. rewrite Z.add_0_r in Hne.
          destruct (Z.eqb_spec i ignore_tag); [done|].
          by destruct (Z.eqb_spec w 0).
        * apply (proj1 (IHm (i + 1) ltac:(lia)) H2 k w Hk). lia.
      + intros H. rewrite (proj2 (IHm (i + 1) ltac:(lia))).
        * destruct (Z.eqb_spec i ignore_tag); [done|].
          destruct (Z.eqb_spec v 0); [done|]. exfalso.
          apply n0. apply (H 0%nat v eq_refl). lia.
        * intros k w Hk Hne. apply (H (S k) w Hk). lia. }
  split.
  - intros He. assert (leaks ignore_tag 0 mem = []) as Hnil.
    { apply (app_inv_head (log st)). by rewrite app_nil_r. }
    intros tag v [Hi Hv]%arr_get_lookup Hne.
    apply (proj1 (Hleaks mem 0 ltac:(lia)) Hnil _ _ Hv). lia.
  - intros H. rewrite (proj2 (Hleaks mem 0 ltac:(lia))); [by rewrite app_nil_r|].
    intros k v Hk Hne. apply (H (Z.of_nat k) v); [|lia].
    apply arr_get_lookup. split; [lia|]. by rewrite Nat2Z.id.
Qed.

Section LockOrder.
Variables DXGMEM_THREADINFO DXGK_MAX_LOCK_DEPTH : Z.

Lemma find_thread_insert (m : gmap nat dxgthreadinfo) (info : nat)
    (x x' : dxgthreadinfo) (current : nat) (l : list nat) :
  m !! info = Some x -> thread x' = thread x ->
  find_thread (<[info := x']> m) current l = find_thread m current l.
Proof.
  intros Hm Ht. induction l as [|e l IH]; [done|]. cbn [find_thread].
  destruct (decide (e = info)) as [->|Hne].
  - rewrite lookup_insert_eq, Hm, Ht.
    by destruct (thread x =? current)%nat.
  - rewrite lookup_insert_ne by done. destruct (m !! e); [|done].
    by destruct (thread d =? current)%nat.
Qed.

Lemma get_thread_found (current : nat) (kzalloc : option nat) (st : state)
    (info : nat) (x : dxgthreadinfo) :
  find_thread (thread_infos st) current (thread_info_list st)
  = Finished (Some info) ->
  thread_infos st !! info = Some x ->
  dxglockorder_get_thread DXGMEM_THREADINFO DXGK_MAX_LOCK_DEPTH current
    kzalloc st
  = Finished
      (add_log EvMutexUnlock
         (set_thread_infos
            (<[info := set_refcount (wrap_int (refcount x + 1)) x]>
               (thread_infos st)) (add_log EvMutexLock st)),
       Some info).
Proof.
  intros Hf Hx. unfold dxglockorder_get_thread.
  cbn [thread_infos thread_info_list add_log]. rewrite Hf.
  cbn [thread_infos add_log]. by rewrite Hx.
Qed.

Lemma put_thread_keeps (st : state) (info : nat) (x : dxgthreadinfo) :
  thread_infos st !! info = Some x -> 2 <= refcount x <= 2 ^ 31 ->
  dxglockorder_put_thread DXGMEM_THREADINFO (Some info) st
  = Finished
      (set_thread_infos
         (<[info := set_refcount (refcount x - 1) x]> (thread_infos st)) st).
Proof.
  intros Hx Hr. unfold dxglockorder_put_thread. rewrite Hx.
  destruct (Z.leb_spec (refcount x) 0); [lia|].
  rewrite (wrap_int_small (refcount x - 1)) by lia.
  cbn [refcount set_refcount].
  by destruct (Z.eqb_spec (refcount x - 1) 0); [lia|].
Qed.

Lemma find_lock_order_found (l : list Z) (order i : Z) :
  0 <= i -> arr_get l i = Some order ->
  forall (count : nat) (i0 : Z),
    i <= i0 -> (Z.to_nat (i0 - i) < count)%nat ->
    (forall j, i < j <= i0 -> exists v, arr_get l j = Some v /\ v <> order) ->
    find_lock_order l order i0 count = Finished i.
Proof.
  intros Hi Hget. induction count as [|count IH]; intros i0 Hle Hfuel Hbetween;
    [lia|].
  cbn [find_lock_order]. destruct (Z.ltb_spec i0 0); [lia|].
  destruct (Z.eq_dec i0 i) as [->|Hne].
  - by rewrite Hget, Z.eqb_refl.
  - destruct (Hbetween i0 ltac:(lia)) as (v & -> & Hv).
    destruct (Z.eqb_spec v order); [done|].
    apply IH; [lia|lia|]. intros j Hj. apply Hbetween. lia.
Qed.

Lemma memmove_down (a : list Z) (i index : Z) :
  0 <= i <= index ->
  i = index \/ 2 * index - i <= Z.of_nat (length a) ->
  memmove a i index (index - i)
  = Some (take (Z.to_nat i) a
          ++ take (Z.to_nat (index - i)) (drop (Z.to_nat index) a)
          ++ drop (Z.to_nat index) a).
Proof.
  intros Hi Hfit. unfold memmove. destruct (Z.eqb_spec (index - i) 0) as [He|He].
  - rewrite He. assert (i = index) as -> by lia.
    change (Z.to_nat 0) with 0%nat. rewrite take_0. cbn [app].
    by rewrite take_drop.
  - destruct Hfit as [?|Hfit]; [lia|].
    replace (i + (index - i)) with index by lia.
    destruct (Z.leb_spec 0 i); [|lia]. destruct (Z.leb_spec 0 index); [|lia].
    destruct (Z.leb_spec 0 (index - i)); [|lia].
    destruct (Z.leb_spec (index + (index - i)) (Z.of_nat (length a))); [|lia].
    destruct (Z.leb_spec index (Z.of_nat (length a))); [done|lia].
Qed.

(** [dxglockorder_acquire] on a thread that holds a reference to its
    record. *)
Lemma acquire_pushes (current : nat) (kzalloc : option nat) (order : Z)
    (st : state) (info : nat) (x : dxgthreadinfo) :
  find_thread (thread_infos st) current (thread_info_list st)
  = Finished (Some info) ->
  thread_infos st !! info = Some x ->
  1 <= refcount x < 2 ^ 31 - 1 ->
  DXGK_MAX_LOCK_DEPTH < 2 ^ 31 ->
  0 <= current_lock_index x < DXGK_MAX_LOCK_DEPTH ->
  current_lock_index x < Z.of_nat (length (lock_info x)) ->
  (forall top,
     arr_get (lock_info x) (current_lock_index x - 1) = Some top ->
     order < top) ->
  dxglockorder_acquire DXGMEM_THREADINFO DXGK_MAX_LOCK_DEPTH current kzalloc
    order st
  = Finished
      {| dxg_memory := dxg_memory st;
         process_dxg_memory := process_dxg_memory st;
         thread_infos :=
           <[info :=
               {| thread := thread x; refcount := refcount x;
                  current_lock_index := current_lock_index x + 1;
                  lock_info :=
                    <[Z.to_nat (current_lock_index x) := order]>
                      (lock_info x);
                  lock_held := lock_held x |}]> (thread_infos st);
         thread_info_list := thread_info_list st;
         log := log st ++ [EvMutexLock; EvMutexUnlock] |}.
Proof.
  intros Hf Hx Hr Hmax Hd Hlen Horder. unfold dxglockorder_acquire.
  rewrite (get_thread_found current kzalloc st info x Hf Hx).
  cbn [thread_infos add_log set_thread_infos]. rewrite lookup_insert_eq.
  cbn [current_lock_index set_refcount lock_info].
  destruct (Z.eqb_spec (current_lock_index x) DXGK_MAX_LOCK_DEPTH); [lia|].
  assert ((if negb (current_lock_index x =? 0)
           then match arr_get (lock_info x) (current_lock_index x - 1) with
                | Some lock_order =>
                    if lock_order <=? order then Asserted else Finished ()
                | None => BadAccess
                end
           else Finished ()) = Finished ()) as ->.
  { destruct (Z.eqb_spec (current_lock_index x) 0); [done|]. cbn [negb].
    destruct (arr_get (lock_info x) (current_lock_index x - 1)) as [top|]
      eqn:Htop.
    - specialize (Horder top eq_refl).
      by destruct (Z.leb_spec top order); [lia|].
    - unfold arr_get in Htop.
      destruct (Z.ltb_spec (current_lock_index x - 1) 0); [lia|].
      apply lookup_ge_None in Htop. lia. }
  unfold arr_set. destruct (Z.leb_spec 0 (current_lock_index x)); [|lia].
  destruct (Z.ltb_spec (current_lock_index x) (Z.of_nat (length (lock_info x))));
    [|lia].
  cbn [andb]. rewrite (wrap_int_small (current_lock_index x + 1)) by lia.
  rewrite (wrap_int_small (refcount x + 1)) by lia.
  erewrite put_thread_keeps;
    [|cbn [thread_infos]; apply lookup_insert_eq
     |cbn [refcount set_current_lock_index set_lock_info set_refcount]; lia].
  unfold set_thread_infos, add_log, set_current_lock_index, set_lock_info,
    set_refcount.
  cbn [thread_infos dxg_memory process_dxg_memory thread_info_list log thread
       refcount current_lock_index lock_info lock_held].
  rewrite !insert_insert_eq, <- app_assoc.
  by replace (refcount x + 1 - 1) with (refcount x) by lia.
Qed.

(** [dxglockorder_release] of the order at the position [i] of the lock
    stack of a thread that holds a reference to its record. *)
Lemma release_moves (current : nat) (kzalloc : option nat) (order : Z)
    (st : state) (info : nat) (x : dxgthreadinfo) (i : Z) :
  find_thread (thread_infos st) current (thread_info_list st)
  = Finished (Some info) ->
  thread_infos st !! info = Some x ->
  1 <= refcount x < 2 ^ 31 - 1 ->
  1 <= current_lock_index x <= Z.of_nat (length (lock_info x)) ->
  current_lock_index x < 2 ^ 31 ->
  0 <= i < current_lock_index x ->
  arr_get (lock_info x) i = Some order ->
  (forall j v,
     i < j < current_lock_index x -> arr_get (lock_info x) j = Some v ->
     v <> order) ->
  i = current_lock_index x - 1
  \/ 2 * (current_lock_index x - 1) - i <= Z.of_nat (length (lock_info x)) ->
  dxglockorder_release DXGMEM_THREADINFO DXGK_MAX_LOCK_DEPTH current kzalloc
    order st
  = Finished
      {| dxg_memory := dxg_memory st;
         process_dxg_memory := process_dxg_memory st;
         thread_infos :=
           <[info :=
               {| thread := thread x; refcount := refcount x;
                  current_lock_index := current_lock_index x - 1;
                  lock_info :=
                    <[Z.to_nat (current_lock_index x - 1) := 0]>
                      (take (Z.to_nat i) (lock_info x)
                       ++ take (Z.to_nat (current_lock_index x - 1 - i))
                            (drop (Z.to_nat (current_lock_index x - 1))
                               (lock_info x))
                       ++ drop (Z.to_nat (current_lock_index x - 1))
                            (lock_info x));
                  lock_held := lock_held x |}]> (thread_infos st);
         thread_info_list := thread_info_list st;
         log := log st ++ [EvMutexLock; EvMutexUnlock] |}.
Proof.
  intros Hf Hx Hr Hd Hsmall Hi Hget Hbetween Hfit. unfold dxglockorder_release.
  rewrite (get_thread_found current kzalloc st info x Hf Hx).
  cbn [thread_infos add_log set_thread_infos]. rewrite lookup_insert_eq.
  cbn [current_lock_index set_refcount lock_info].
  rewrite (wrap_int_small (current_lock_index x - 1)) by lia.
  destruct (Z.ltb_spec (current_lock_index x - 1) 0); [lia|].
  rewrite (find_lock_order_found (lock_info x) order i); [|lia|done|lia|lia|].
  2:{ intros j Hj.
      destruct (arr_get (lock_info x) j) as [v|] eqn:Hv.
      - exists v. split; [done|]. apply (Hbetween j v); [lia|done].
      - unfold arr_get in Hv. destruct (Z.ltb_spec j 0); [lia|].
        apply lookup_ge_None in Hv. lia. }
  destruct (Z.ltb_spec i 0); [lia|].
  rewrite memmove_down; [|lia|lia].
  unfold arr_set. destruct (Z.leb_spec 0 (current_lock_index x - 1)); [|lia].
  match goal with
  | |- context [?a <? Z.of_nat (length ?l)] =>
      destruct (Z.ltb_spec a (Z.of_nat (length l))) as [_|Hshort]
  end.
  2:{ exfalso. revert Hshort. rewrite !length_app, !length_take, !length_drop.
      lia. }
  cbn [andb]. rewrite (wrap_int_small (refcount x + 1)) by lia.
  erewrite put_thread_keeps;
    [|cbn [thread_infos]; apply lookup_insert_eq
     |cbn [refcount set_current_lock_index set_lock_info set_refcount]; lia].
  unfold set_thread_infos, add_log, set_current_lock_index, set_lock_info,
    set_refcount.
  cbn [thread_infos dxg_memory process_dxg_memory thread_info_list log thread
       refcount current_lock_index lock_info lock_held].
  rewrite !insert_insert_eq, <- app_assoc.
  by replace (refcount x + 1 - 1) with (refcount x) by lia.
Qed.

Lemma release_stack (below mid sp : list Z) (order top : Z) (i index : nat) :
  i = length below -> index = (length below + 1 + length mid)%nat ->
  (length mid <= length sp)%nat ->
  <[index := 0]>
    (take i (below ++ order :: mid ++ top :: sp)
     ++ take (index - i) (drop index (below ++ order :: mid ++ top :: sp))
     ++ drop index (below ++ order :: mid ++ top :: sp))
  = (below ++ top :: take (length mid) sp) ++ 0 :: sp.
Proof.
  intros -> -> Hlen. rewrite take_app_length.
  assert (drop (length below + 1 + length mid)
            (below ++ order :: mid ++ top :: sp) = top :: sp) as ->.
  { replace (below ++ order :: mid ++ top :: sp)
      with ((below ++ order :: mid) ++ top :: sp) by (by rewrite <- app_assoc).
    apply drop_app_length'. rewrite length_app. cbn [length]. lia. }
  replace (length below + 1 + length mid - length below)%nat
    with (S (length mid)) by lia.
  cbn [firstn]. rewrite app_assoc.
  replace (length below + 1 + length mid)%nat
    with (length (below ++ top :: take (length mid) sp) + 0)%nat.
  2:{ rewrite length_app. cbn [length]. rewrite length_take. lia. }
  by rewrite insert_app_r.
Qed.

(** A lock that a thread acquires and releases again leaves the lock
    tracking as it was. The thread holds a reference to its record, the
    stack of the record has room, the order is below that of the lock on
    top, and the entry above the stack is zero, as it is in a new record
    and after every release. Then [dxglockorder_acquire] returns with the
    order pushed on the stack, and [dxglockorder_release] of the same
    order returns with the records, their list and the counters as
    before the two calls; the mutex of the list was taken and given up
    twice. *)
Theorem lockorder_acquire_release_round_trip (current : nat)
    (kzalloc kzalloc' : option nat) (order : Z) (st : state) (info : nat)
    (x : dxgthreadinfo) :
  find_thread (thread_infos st) current (thread_info_list st)
  = Finished (Some info) ->
  thread_infos st !! info = Some x ->
  1 <= refcount x < 2 ^ 31 - 1 ->
  DXGK_MAX_LOCK_DEPTH < 2 ^ 31 ->
  0 <= current_lock_index x < DXGK_MAX_LOCK_DEPTH ->
  arr_get (lock_info x) (current_lock_index x) = Some 0 ->
  (forall top,
     arr_get (lock_info x) (current_lock_index x - 1) = Some top ->
     order < top) ->
  exists st1 x1 st2,
    dxglockorder_acquire DXGMEM_THREADINFO DXGK_MAX_LOCK_DEPTH current kzalloc
      order st = Finished st1 /\
    thread_infos st1 !! info = Some x1 /\
    held x1 = held x ++ [order] /\
    dxglockorder_release DXGMEM_THREADINFO DXGK_MAX_LOCK_DEPTH current
      kzalloc' order st1 = Finished st2 /\
    thread_infos st2 = thread_infos st /\
    thread_info_list st2 = thread_info_list st /\
    dxg_memory st2 = dxg_memory st /\
    process_dxg_memory st2 = process_dxg_memory st /\
    log st2
    = log st ++ [EvMutexLock; EvMutexUnlock; EvMutexLock; EvMutexUnlock].
Proof.
  intros Hf Hx Hr Hmax Hd Hspare Horder.
  pose proof Hspare as [_ Hl]%arr_get_lookup.
  pose proof (lookup_lt_Some _ _ _ Hl) as Hlen.
  rewrite (acquire_pushes current kzalloc order st info x) by (done || lia).
  eexists _, _, _. split; [reflexivity|]. cbn [thread_infos].
  split; [apply lookup_insert_eq|]. split.
  { unfold held. cbn [current_lock_index lock_info].
    replace (Z.to_nat (current_lock_index x + 1))
      with (S (Z.to_nat (current_lock_index x))) by lia.
    rewrite (take_S_r _ _ order) by (apply list_lookup_insert_eq; lia).
    by rewrite take_insert_ge by lia. }
  split.
  { eapply release_moves with (i := current_lock_index x).
    - cbn [thread_infos thread_info_list].
      by rewrite (find_thread_insert _ info x).
    - cbn [thread_infos]. apply lookup_insert_eq.
    - done.
    - cbn [current_lock_index lock_info]. rewrite length_insert. lia.
    - cbn [current_lock_index]. lia.
    - cbn [current_lock_index]. lia.
    - cbn [lock_info]. apply arr_get_lookup. split; [lia|].
      apply list_lookup_insert_eq. lia.
    - cbn [current_lock_index]. intros j v Hj. lia.
    - cbn [current_lock_index]. left. lia. }
  cbn [thread_infos thread_info_list dxg_memory process_dxg_memory log thread
       refcount current_lock_index lock_info lock_held].
  split; [|by rewrite <- app_assoc].
  rewrite insert_insert_eq. apply insert_id. rewrite Hx. f_equal.
  replace (current_lock_index x + 1 - 1) with (current_lock_index x) by lia.
  replace (current_lock_index x - current_lock_index x) with 0 by lia.
  change (Z.to_nat 0) with 0%nat. rewrite take_0. cbn [app].
  rewrite take_drop, list_insert_insert_eq, (list_insert_id _ _ 0) by done.
  by destruct x.
Qed.

(** [dxglockorder_acquire] ends at its assertion when the stack of the
    thread is full, and when the order is not strictly below the order of
    the lock on top of the stack. *)
Theorem lockorder_acquire_rejects (current : nat) (kzalloc : option nat)
    (order : Z) (st : state) (info : nat) (x : dxgthreadinfo) :
  find_thread (thread_infos st) current (thread_info_list st)
  = Finished (Some info) ->
  thread_infos st !! info = Some x ->
  current_lock_index x = DXGK_MAX_LOCK_DEPTH
  \/ (current_lock_index x <> 0
      /\ exists top,
           arr_get (lock_info x) (current_lock_index x - 1) = Some top
           /\ top <= order) ->
  dxglockorder_acquire DXGMEM_THREADINFO DXGK_MAX_LOCK_DEPTH current kzalloc
    order st = Asserted.
Proof.
  intros Hf Hx Hbad. unfold dxglockorder_acquire.
  rewrite (get_thread_found current kzalloc st info x Hf Hx).
  cbn [thread_infos add_log set_thread_infos]. rewrite lookup_insert_eq.
  cbn [current_lock_index set_refcount lock_info].
  destruct (Z.eqb_spec (current_lock_index x) DXGK_MAX_LOCK_DEPTH); [done|].
  destruct Hbad as [?|(Hne & top & -> & Hle)]; [done|].
  destruct (Z.eqb_spec (current_lock_index x) 0); [done|]. cbn [negb].
  by destruct (Z.leb_spec top order); [|lia].
Qed.

(** [dxglockorder_release] of a lock that is below the top of the stack
    copies from the top of the stack upwards, not from the entry above the
    lock: with [mid] the locks between the lock and the one on top, the
    lock on top moves to the place of the released lock and the places of
    [mid] are filled from the zero entries above the stack, which there
    must be as many of as locks in [mid]. Only when [mid] is empty is the
    new stack the old one without the released lock. The depth goes down
    by one and the entries above the new stack are zero again. *)
Theorem lockorder_release_below_top (current : nat) (kzalloc : option nat)
    (order : Z) (st : state) (info : nat) (x : dxgthreadinfo)
    (below mid : list Z) (top : Z) :
  find_thread (thread_infos st) current (thread_info_list st)
  = Finished (Some info) ->
  thread_infos st !! info = Some x ->
  1 <= refcount x < 2 ^ 31 - 1 ->
  current_lock_index x <= Z.of_nat (length (lock_info x)) ->
  Z.of_nat (length (lock_info x)) < 2 ^ 31 ->
  held x = below ++ order :: mid ++ [top] ->
  order ∉ mid -> top <> order ->
  (length mid <= length (spare x))%nat ->
  Forall (fun v => v = 0) (spare x) ->
  exists st' x',
    dxglockorder_release DXGMEM_THREADINFO DXGK_MAX_LOCK_DEPTH current kzalloc
      order st = Finished st' /\
    thread_infos st' = <[info := x']> (thread_infos st) /\
    held x' = below ++ top :: replicate (length mid) 0 /\
    Forall (fun v => v = 0) (spare x') /\
    current_lock_index x' = current_lock_index x - 1 /\
    refcount x' = refcount x /\
    thread_info_list st' = thread_info_list st /\
    dxg_memory st' = dxg_memory st.
Proof.
  intros Hf Hx Hr Hd Hsmall Hheld Hmid Htop Hroom Hzero.
  assert (lock_info x = below ++ order :: mid ++ top :: spare x) as Ha.
  { rewrite <- (take_drop (Z.to_nat (current_lock_index x)) (lock_info x))
      at 1.
    fold (held x). fold (spare x). rewrite Hheld, <- !app_assoc. cbn [app].
    by rewrite <- app_assoc. }
  assert (Z.to_nat (current_lock_index x)
          = (length below + 2 + length mid)%nat) as Hdn.
  { apply (f_equal length) in Hheld. unfold held in Hheld.
    rewrite length_take, !length_app in Hheld. cbn [length] in Hheld.
    rewrite length_app in Hheld. cbn [length] in Hheld. lia. }
  assert (forall j v,
            lock_info x !! (length below + 1 + j)%nat = Some v ->
            (j <= length mid)%nat -> v <> order) as Habove.
  { intros j v Hv Hj. rewrite Ha in Hv.
    rewrite lookup_app_r in Hv by lia.
    replace (length below + 1 + j - length below)%nat with (S j) in Hv by lia.
    change ((mid ++ top :: spare x) !! j = Some v) in Hv.
    destruct (decide (j < length mid)%nat) as [Hlt|Hge].
    - rewrite lookup_app_l in Hv by done. intros ->.
      apply Hmid. by eapply list_elem_of_lookup_2.
    - rewrite lookup_app_r in Hv by lia.
      replace (j - length mid)%nat with 0%nat in Hv by lia.
      by injection Hv as <-. }
  rewrite (release_moves current kzalloc order st info x
             (Z.of_nat (length below))); try (done || lia).
  - eexists _, _. split; [reflexivity|].
    cbn [thread_infos thread_info_list dxg_memory].
    split; [reflexivity|]. unfold held, spare.
    cbn [current_lock_index lock_info refcount].
    rewrite Nat2Z.id.
    replace (Z.to_nat (current_lock_index x - 1 - Z.of_nat (length below)))
      with (Z.to_nat (current_lock_index x - 1) - length below)%nat by lia.
    assert (take (length mid) (spare x) = replicate (length mid) 0) as Hz.
    { apply list_eq. intros k. destruct (decide (k < length mid)%nat).
      - rewrite lookup_take_lt, lookup_replicate_2 by done.
        destruct (spare x !! k) as [v|] eqn:Hv.
        + by rewrite (proj1 (Forall_lookup _ _) Hzero k v Hv).
        + apply lookup_ge_None in Hv. lia.
      - rewrite lookup_take_ge by lia. symmetry.
        apply lookup_ge_None. rewrite length_replicate. lia. }
    assert (Z.to_nat (current_lock_index x - 1)
            = length (below ++ top :: replicate (length mid) 0)) as Hn.
    { rewrite length_app. cbn [length]. rewrite length_replicate. lia. }
    match goal with
    | |- context [<[?n := 0]> ?l] =>
        assert (<[n := 0]> l
                = (below ++ top :: replicate (length mid) 0) ++ 0 :: spare x)
          as ->
    end.
    { rewrite Ha at 1 2 3.
      rewrite (release_stack below mid (spare x) order top (length below)
                 (Z.to_nat (current_lock_index x - 1))) by (done || lia).
      by rewrite Hz. }
    rewrite Hn, take_app_length, drop_app_length.
    repeat split; try done. by constructor.
  - apply arr_get_lookup. split; [lia|]. rewrite Nat2Z.id, Ha.
    by rewrite list_lookup_middle.
  - intros j v Hj [_ Hv]%arr_get_lookup.
    replace (Z.to_nat j)
      with (length below + 1 + (Z.to_nat j - length below - 1))%nat in Hv
      by lia.
    apply (Habove _ _ Hv). lia.
  - right. rewrite Ha at 1. rewrite length_app. cbn [length].
    rewrite length_app. cbn [length]. lia.
Qed.

Lemma find_thread_none_known (m : gmap nat dxgthreadinfo) (current : nat)
    (l : list nat) :
  find_thread m current l = Finished None ->
  forall e, e ∈ l -> is_Some (m !! e).
Proof.
  induction l as [|e' l IH]; intros Hf e He; [by apply elem_of_nil in He|].
  cbn [find_thread] in Hf. destruct (m !! e') as [y|] eqn:Hy; [|done].
  destruct (thread y =? current)%nat; [done|].
  apply elem_of_cons in He as [->|He]; [by eexists|by apply IH].
Qed.

Lemma list_del_fresh (info : nat) (l : list nat) :
  info ∉ l -> list_del info (info :: l) = l.
Proof.
  intros Hnew. unfold list_del. rewrite filter_cons_False by (by intros ?).
  induction l as [|e l IH]; [done|].
  apply not_elem_of_cons in Hnew as [Hne Hnew].
  rewrite filter_cons_True by done. by rewrite IH.
Qed.

Lemma arr_set_insert (a : list Z) (i v w : Z) :
  arr_get a i = Some w -> arr_set a i v = Some (<[Z.to_nat i := v]> a).
Proof.
  intros [Hi Hl]%arr_get_lookup. apply lookup_lt_Some in Hl.
  unfold arr_set. destruct (Z.leb_spec 0 i); [|lia].
  by destruct (Z.ltb_spec i (Z.of_nat (length a))); [|lia].
Qed.

(** [dxglockorder_get_thread] for a thread that has no record. *)
Lemma get_thread_new (current info : nat) (st : state) (v : Z) :
  find_thread (thread_infos st) current (thread_info_list st)
  = Finished None ->
  arr_get (dxg_memory st) DXGMEM_THREADINFO = Some v ->
  dxglockorder_get_thread DXGMEM_THREADINFO DXGK_MAX_LOCK_DEPTH current
    (Some info) st
  = Finished
      ({| dxg_memory :=
            <[Z.to_nat DXGMEM_THREADINFO := wrap_int (v + 1)]> (dxg_memory st);
          process_dxg_memory := process_dxg_memory st;
          thread_infos :=
            <[info :=
                {| thread := current; refcount := 1; current_lock_index := 0;
                   lock_info := replicate (Z.to_nat DXGK_MAX_LOCK_DEPTH) 0;
                   lock_held := false |}]> (thread_infos st);
          thread_info_list := info :: thread_info_list st;
          log := log st ++ [EvMutexLock; EvMutexUnlock] |}, Some info).
Proof.
  intros Hf Hv. unfold dxglockorder_get_thread.
  cbn [thread_infos thread_info_list add_log]. rewrite Hf.
  unfold dxgmem_addalloc. cbn [counters dxg_memory add_log].
  rewrite Hv, (arr_set_insert _ _ _ v Hv).
  unfold set_counters, set_thread_infos, set_thread_info_list, add_log,
    set_refcount.
  cbn [thread_infos thread_info_list dxg_memory process_dxg_memory log].
  rewrite lookup_insert_eq.
  cbn [thread refcount current_lock_index lock_info lock_held].
  by rewrite insert_insert_eq, <- app_assoc.
Qed.

(** [dxglockorder_put_thread] of the last reference to a record whose lock
    stack is empty. *)
Lemma put_thread_frees (info : nat) (st : state) (x : dxgthreadinfo)
    (v : Z) :
  thread_infos st !! info = Some x ->
  refcount x = 1 -> current_lock_index x = 0 -> lock_held x = false ->
  arr_get (dxg_memory st) DXGMEM_THREADINFO = Some v -> v <> 0 ->
  dxglockorder_put_thread DXGMEM_THREADINFO (Some info) st
  = Finished
      {| dxg_memory :=
           <[Z.to_nat DXGMEM_THREADINFO := wrap_int (v - 1)]> (dxg_memory st);
         process_dxg_memory := process_dxg_memory st;
         thread_infos := delete info (thread_infos st);
         thread_info_list := list_del info (thread_info_list st);
         log := log st ++ [EvMutexLock; EvMutexUnlock; EvKfree info] |}.
Proof.
  intros Hx Hr Hd Hh Hv Hv0. unfold dxglockorder_put_thread. rewrite Hx, Hr.
  cbn [refcount set_refcount current_lock_index lock_held]. rewrite Hd, Hh.
  cbn [negb]. unfold dxgmem_remalloc, set_counters, set_thread_infos,
    set_thread_info_list, add_log.
  cbn [counters thread_infos thread_info_list dxg_memory process_dxg_memory
       log].
  rewrite Hv. destruct (Z.eqb_spec v 0); [done|].
  rewrite (arr_set_insert _ _ _ v Hv).
  by rewrite delete_insert_eq, <- !app_assoc.
Qed.

(** The first [dxglockorder_get_thread] of a thread makes a record for it,
    with one reference and an empty lock stack, puts it at the head of the
    list and counts it under [DXGMEM_THREADINFO]; a
    [dxglockorder_put_thread] of that record then frees it again: the
    records, the list and the counters are as before the two calls. *)
Theorem lockorder_get_put_round_trip (current info : nat) (st : state)
    (v : Z) :
  find_thread (thread_infos st) current (thread_info_list st)
  = Finished None ->
  thread_infos st !! info = None ->
  arr_get (dxg_memory st) DXGMEM_THREADINFO = Some v ->
  0 <= v < 2 ^ 31 - 1 ->
  exists st1 x st2,
    dxglockorder_get_thread DXGMEM_THREADINFO DXGK_MAX_LOCK_DEPTH current
      (Some info) st = Finished (st1, Some info) /\
    thread_infos st1 !! info = Some x /\
    thread x = current /\ refcount x = 1 /\ held x = [] /\
    thread_info_list st1 = info :: thread_info_list st /\
    arr_get (dxg_memory st1) DXGMEM_THREADINFO = Some (v + 1) /\
    dxglockorder_put_thread DXGMEM_THREADINFO (Some info) st1
    = Finished st2 /\
    thread_infos st2 = thread_infos st /\
    thread_info_list st2 = thread_info_list st /\
    dxg_memory st2 = dxg_memory st /\
    process_dxg_memory st2 = process_dxg_memory st /\
    log st2
    = log st ++ [EvMutexLock; EvMutexUnlock; EvMutexLock; EvMutexUnlock;
                 EvKfree info].
Proof.
  intros Hf Hnew Hv Hsmall.
  assert (info ∉ thread_info_list st) as Hout.
  { intros [y Hy]%(find_thread_none_known _ _ _ Hf). by rewrite Hnew in Hy. }
  pose proof Hv as [Hi Hl]%arr_get_lookup.
  pose proof (lookup_lt_Some _ _ _ Hl) as Hlen.
  rewrite (get_thread_new current info st v Hf Hv).
  rewrite (wrap_int_small (v + 1)) by lia.
  eexists _, _, _. split; [reflexivity|]. cbn [thread_infos].
  split; [apply lookup_insert_eq|]. cbn [thread refcount thread_info_list].
  do 4 (split; [done|]). cbn [dxg_memory].
  assert (arr_get (<[Z.to_nat DXGMEM_THREADINFO := v + 1]> (dxg_memory st))
            DXGMEM_THREADINFO = Some (v + 1)) as Hv1.
  { apply arr_get_lookup. split; [done|]. by apply list_lookup_insert_eq. }
  split; [exact Hv1|].
  erewrite (put_thread_frees info _ _ (v + 1));
    [|apply lookup_insert_eq|done|done|done|exact Hv1|lia].
  split; [reflexivity|].
  cbn [thread_infos thread_info_list dxg_memory process_dxg_memory log].
  replace (v + 1 - 1) with v by lia. rewrite (wrap_int_small v) by lia.
  rewrite delete_insert_id, list_del_fresh by done.
  rewrite list_insert_insert_eq, list_insert_id by done.
  by rewrite <- app_assoc.
Qed.

(** A thread that holds no reference to a record of its own cannot take a
    lock: [dxglockorder_acquire] makes the record and pushes the order, and
    the [dxglockorder_put_thread] at its end, which gives up the only
    reference, finds the stack in use and ends at the assertion. *)
Theorem lockorder_acquire_without_reference_asserts (current info : nat)
    (order : Z) (st : state) (v : Z) :
  find_thread (thread_infos st) current (thread_info_list st)
  = Finished None ->
  arr_get (dxg_memory st) DXGMEM_THREADINFO = Some v ->
  2 <= DXGK_MAX_LOCK_DEPTH ->
  dxglockorder_acquire DXGMEM_THREADINFO DXGK_MAX_LOCK_DEPTH current
    (Some info) order st = Asserted.
Proof.
  intros Hf Hv Hmax. unfold dxglockorder_acquire.
  rewrite (get_thread_new current info st v Hf Hv).
  cbn [thread_infos]. rewrite lookup_insert_eq.
  cbn [current_lock_index lock_info].
  destruct (Z.eqb_spec 0 DXGK_MAX_LOCK_DEPTH); [lia|].
  rewrite Z.eqb_refl. cbn [negb].
  unfold arr_set. rewrite length_replicate. rewrite (Z.leb_refl 0).
  destruct (Z.ltb_spec 0 (Z.of_nat (Z.to_nat DXGK_MAX_LOCK_DEPTH))); [|lia].
  cbn [andb]. unfold dxglockorder_put_thread, set_thread_infos.
  cbn [thread_infos]. rewrite lookup_insert_eq.
  unfold set_refcount, set_current_lock_index, set_lock_info.
  cbn [refcount current_lock_index lock_info thread lock_held].
  rewrite (wrap_int_small (0 + 1)), (wrap_int_small (1 - 1)) by lia.
  destruct (Z.leb_spec 1 0); [lia|].
  destruct (Z.eqb_spec (1 - 1) 0); [|lia].
  destruct (Z.eqb_spec (0 + 1) 0); [lia|]. cbn [negb].
  destruct (arr_get _ (0 + 1)) eqn:Hone; [done|].
  unfold arr_get in Hone. destruct (Z.ltb_spec (0 + 1) 0); [lia|].
  apply lookup_ge_None in Hone. rewrite length_insert, length_replicate in Hone.
  lia.
Qed.

End LockOrder.

Lemma tracking_counters : counters None tracking = Some [0; 1; 0].
Proof. reflexivity. Qed.

Lemma dxgmem_check_reports_leaks_witness :
  exists st',
    dxgmem_check 3 None 0 tracking = Finished st' /\
    log st' = log tracking ++ leaks 0 0 [0; 1; 0] /\
    dxg_memory st' = dxg_memory tracking /\
    process_dxg_memory st' = process_dxg_memory tracking /\
    (log st' = log tracking <->
     forall tag v, arr_get [0; 1; 0] tag = Some v -> tag <> 0 -> v = 0).
Proof.
  exact (dxgmem_check_reports_leaks 3 None 0 tracking [0; 1; 0]
           tracking_counters eq_refl).
Defined.

Lemma tracking_finds_worker :
  find_thread (thread_infos tracking) 7 (thread_info_list tracking)
  = Finished (Some 3%nat).
Proof. vm_compute. reflexivity. Qed.

Lemma tracking_worker : thread_infos tracking !! 3%nat = Some worker.
Proof. vm_compute. reflexivity. Qed.

Lemma worker_refcount : 1 <= refcount worker < 2 ^ 31 - 1.
Proof. cbn. lia. Qed.

Lemma worker_depth : 0 <= current_lock_index worker < 4.
Proof. cbn. lia. Qed.

Lemma four_small : 4 < 2 ^ 31.
Proof. lia. Qed.

Lemma worker_spare_entry :
  arr_get (lock_info worker) (current_lock_index worker) = Some 0.
Proof. reflexivity. Qed.

Lemma worker_top_above_four (top : Z) :
  arr_get (lock_info worker) (current_lock_index worker - 1) = Some top ->
  4 < top.
Proof. intros [= <-]. lia. Qed.

Lemma lockorder_acquire_release_round_trip_witness :
  exists st1 x1 st2,
    dxglockorder_acquire 1 4 7 None 4 tracking = Finished st1 /\
    thread_infos st1 !! 3%nat = Some x1 /\
    held x1 = held worker ++ [4] /\
    dxglockorder_release 1 4 7 None 4 st1 = Finished st2 /\
    thread_infos st2 = thread_infos tracking /\
    thread_info_list st2 = thread_info_list tracking /\
    dxg_memory st2 = dxg_memory tracking /\
    process_dxg_memory st2 = process_dxg_memory tracking /\
    log st2
    = log tracking
      ++ [EvMutexLock; EvMutexUnlock; EvMutexLock; EvMutexUnlock].
Proof.
  exact (lockorder_acquire_release_round_trip 1 4 7 None None 4 tracking 3
           worker tracking_finds_worker tracking_worker worker_refcount
           four_small worker_depth worker_spare_entry worker_top_above_four).
Defined.

Lemma worker_top_not_above_five :
  current_lock_index worker = 4
  \/ (current_lock_index worker <> 0
      /\ exists top,
           arr_get (lock_info worker) (current_lock_index worker - 1)
           = Some top
           /\ top <= 5).
Proof. right. split; [done|]. exists 5. split; [reflexivity|lia]. Qed.

Lemma lockorder_acquire_rejects_witness :
  dxglockorder_acquire 1 4 7 None 5 tracking = Asserted.
Proof.
  exact (lockorder_acquire_rejects 1 4 7 None 5 tracking 3 worker
           tracking_finds_worker tracking_worker worker_top_not_above_five).
Defined.

Lemma nested_finds_worker :
  find_thread (thread_infos nested_tracking) 7
    (thread_info_list nested_tracking)
  = Finished (Some 3%nat).
Proof. vm_compute. reflexivity. Qed.

Lemma nested_worker_known :
  thread_infos nested_tracking !! 3%nat = Some nested_worker.
Proof. vm_compute. reflexivity. Qed.

Lemma nested_worker_refcount : 1 <= refcount nested_worker < 2 ^ 31 - 1.
Proof. cbn. lia. Qed.

Lemma nested_worker_depth :
  current_lock_index nested_worker
  <= Z.of_nat (length (lock_info nested_worker)).
Proof. cbn. lia. Qed.

Lemma nested_worker_small :
  Z.of_nat (length (lock_info nested_worker)) < 2 ^ 31.
Proof. cbn. lia. Qed.

Lemma nested_worker_held : held nested_worker = [] ++ 5 :: [4] ++ [3].
Proof. reflexivity. Qed.

Lemma five_not_between : 5 ∉ [4].
Proof. intros [=]%list_elem_of_singleton. Qed.

Lemma three_not_five : 3 <> 5.
Proof. lia. Qed.

Lemma nested_worker_room :
  (length [4] <= length (spare nested_worker))%nat.
Proof. vm_compute. lia. Qed.

Lemma nested_worker_spare : Forall (fun v => v = 0) (spare nested_worker).
Proof.
  change (spare nested_worker) with [0; 0; 0]. by repeat constructor.
Qed.

Lemma lockorder_release_below_top_witness :
  exists st' x',
    dxglockorder_release 1 6 7 None 5 nested_tracking = Finished st' /\
    thread_infos st' = <[3%nat := x']> (thread_infos nested_tracking) /\
    held x' = [] ++ 3 :: replicate (length [4]) 0 /\
    Forall (fun v => v = 0) (spare x') /\
    current_lock_index x' = current_lock_index nested_worker - 1 /\
    refcount x' = refcount nested_worker /\
    thread_info_list st' = thread_info_list nested_tracking /\
    dxg_memory st' = dxg_memory nested_tracking.
Proof.
  exact (lockorder_release_below_top 1 6 7 None 5 nested_tracking 3
           nested_worker [] [4] 3 nested_finds_worker nested_worker_known
           nested_worker_refcount nested_worker_depth nested_worker_small
           nested_worker_held five_not_between three_not_five
           nested_worker_room nested_worker_spare).
Defined.

Lemma idle_finds_nobody :
  find_thread (thread_infos idle) 7 (thread_info_list idle) = Finished None.
Proof. reflexivity. Qed.

Lemma idle_fresh : thread_infos idle !! 3%nat = None.
Proof. vm_compute. reflexivity. Qed.

Lemma idle_threadinfo_counter : arr_get (dxg_memory idle) 1 = Some 0.
Proof. reflexivity. Qed.

Lemma zero_counter_small : 0 <= 0 < 2 ^ 31 - 1.
Proof. lia. Qed.

Lemma lockorder_get_put_round_trip_witness :
  exists st1 x st2,
    dxglockorder_get_thread 1 4 7 (Some 3%nat) idle
    = Finished (st1, Some 3%nat) /\
    thread_infos st1 !! 3%nat = Some x /\
    thread x = 7%nat /\ refcount x = 1 /\ held x = [] /\
    thread_info_list st1 = 3%nat :: thread_info_list idle /\
    arr_get (dxg_memory st1) 1 = Some (0 + 1) /\
    dxglockorder_put_thread 1 (Some 3%nat) st1 = Finished st2 /\
    thread_infos st2 = thread_infos idle /\
    thread_info_list st2 = thread_info_list idle /\
    dxg_memory st2 = dxg_memory idle /\
    process_dxg_memory st2 = process_dxg_memory idle /\
    log st2
    = log idle ++ [EvMutexLock; EvMutexUnlock; EvMutexLock; EvMutexUnlock;
                   EvKfree 3].
Proof.
  exact (lockorder_get_put_round_trip 1 4 7 3 idle 0 idle_finds_nobody
           idle_fresh idle_threadinfo_counter zero_counter_small).
Defined.

Lemma two_entries : 2 <= 4.
Proof. lia. Qed.

Lemma lockorder_acquire_without_reference_asserts_witness :
  dxglockorder_acquire 1 4 7 (Some 3%nat) 5 idle = Asserted.
Proof.
  exact (lockorder_acquire_without_reference_asserts 1 4 7 3 5 idle 0
           idle_finds_nobody idle_threadinfo_counter two_entries).
Defined.

End DebugSpec.

(** ** A batch create that does not get past the host *)
Module RefusalSpec.
Import Graph Alloc Footprint AllocSamples.

Section Refused.
Variables (L : layout) (env : alloc_env) (p d : nat).
Variables (args : d3dkmt_createallocation) (resource : option nat).
Variables (dxgalloc : list (option nat)).
Variables (alloc_info : list d3dddi_allocationinfo2) (w : world).

Lemma total_priv_drv_data_size_error (count : nat) :
  forall i acc ret,
    total_priv_drv_data_size L alloc_info i count acc = Done (inl ret) ->
    ret = - EOVERFLOW.
Proof.
  induction count as [|count IH]; intros i acc ret; [done|].
  cbn [total_priv_drv_data_size]. destruct (alloc_info !! i); [|done].
  destruct (_ >=? _); [by intros [= <-]|].
  destruct (_ >=? _); [by intros [= <-]|]. apply IH.
Qed.

Lemma init_message_error (vzalloc_ok : bool) (size : Z) :
  (init_message L vzalloc_ok size).1 = 0
  \/ (init_message L vzalloc_ok size).1 = - ENOMEM.
Proof.
  unfold init_message. destruct (_ <=? VMBUSMESSAGEONSTACK); [by left|].
  destruct vzalloc_ok; [by left|by right].
Qed.

Local Abbreviation sent :=
  (dxgvmb_send_create_allocation L env p d args resource dxgalloc alloc_info
     w).

Local Abbreviation harmless r :=
  (r.2 = dxgalloc /\
   (forall ret, r.1.2 = Done ret -> ret < 0) /\
   exists evs,
     r.1.1 = foldl (fun w e => add_event e w) w evs /\
     (length (filter (fun e => is_rpc e = true) evs) <= 1)%nat /\
     forall c, EvRpc c ∈ evs ->
       exists msg_size result_size,
         c = DXGK_VMBCOMMAND_CREATEALLOCATION (arg_device args)
               (arg_resource args) (alloc_count args) msg_size result_size).

Lemma harmless_error (ret : Z) :
  ret < 0 -> harmless (w, Done ret : outcome Z, dxgalloc).
Proof.
  intros Hret. split; [done|]. split; [by intros ? [= <-]|].
  exists []. split; [done|]. split; [vm_compute; lia|]. by intros c ?%elem_of_nil.
Qed.

Lemma harmless_fault (out : outcome Z) :
  (forall ret, out <> Done ret) -> harmless (fault w, out, dxgalloc).
Proof.
  intros Hout. split; [done|]. split; [by intros ret ?%Hout|].
  exists [EvFault]. split; [done|]. split; [vm_compute; lia|].
  by intros c [=]%list_elem_of_singleton.
Qed.

(** A batch create that the host turns down, or that fails before it gets
    to the host, is an error without effect on the guest: the return value
    is negative, the pointers of the batch are as they were, no object of
    the driver is changed, and the one command that can have gone to the
    host is the create command; nothing is rolled back, as nothing was
    made. *)
Theorem create_allocation_refused_changes_nothing :
  host_create_ret env < 0 ->
  sent.2 = dxgalloc /\
  (forall ret, sent.1.2 = Done ret -> ret < 0) /\
  exists evs,
    sent.1.1 = foldl (fun w e => add_event e w) w evs /\
    (length (filter (fun e => is_rpc e = true) evs) <= 1)%nat /\
    forall c, EvRpc c ∈ evs ->
      exists msg_size result_size,
        c = DXGK_VMBCOMMAND_CREATEALLOCATION (arg_device args)
              (arg_resource args) (alloc_count args) msg_size result_size.
Proof.
  intros Hrefused. unfold dxgvmb_send_create_allocation.
  destruct (_ || _); [by apply harmless_error|].
  destruct (total_priv_drv_data_size L alloc_info 0 _ 0) as [[ret|total]| |]
    eqn:Htotal; [| |by apply harmless_fault..].
  { apply total_priv_drv_data_size_error in Htotal as ->.
    by apply harmless_error. }
  destruct (vzalloc_result_ok env); [|by apply harmless_error]. cbn [negb].
  destruct (_ >? _); [by apply harmless_error|].
  match goal with
  | |- context [init_message L ?ok ?size] =>
      pose proof (init_message_error ok size) as Hinit;
      destruct (init_message L ok size) as [ret msg_size]
  end.
  cbn [fst] in Hinit. destruct (Z.eqb_spec ret 0) as [_|Hret]; cbn [negb];
    [|apply harmless_error; destruct Hinit as [?| ->]; [done|by vm_compute]].
  destruct (copy_private_data env args alloc_info) as [r| |];
    [|by apply harmless_fault..].
  destruct (Z.ltb_spec r 0); [by apply harmless_error|].
  destruct (_ || _).
  - split; [done|]. split; [by intros ? [= <-]|].
    exists [EvErr "invalid data size"; EvErr "send_create_allocation failed"].
    split; [done|]. split; [vm_compute; lia|].
    intros c Hc. repeat (apply elem_of_cons in Hc as [[=]|Hc]).
    by apply elem_of_nil in Hc.
  - destruct (Z.ltb_spec (host_create_ret env) 0); [|lia].
    split; [done|]. split; [by intros ? [= <-]|].
    eexists [EvRpc _; EvErr "send_create_allocation failed"].
    split; [done|]. split; [vm_compute; lia|].
    intros c Hc. apply elem_of_cons in Hc as [[= ->]|Hc]; [by eexists _, _|].
    apply elem_of_cons in Hc as [[=]|Hc]. by apply elem_of_nil in Hc.
Qed.

End Refused.

Lemma host_refuses_negative : host_create_ret host_refuses < 0.
Proof. vm_compute. reflexivity. Qed.

Lemma create_allocation_refused_changes_nothing_witness :
  (dxgvmb_send_create_allocation sample_layout host_refuses 0 0
     (three_allocations false) None three_pointers three_infos
     device_batch_world).2 = three_pointers /\
  (forall ret,
     (dxgvmb_send_create_allocation sample_layout host_refuses 0 0
        (three_allocations false) None three_pointers three_infos
        device_batch_world).1.2 = Done ret -> ret < 0) /\
  exists evs,
    (dxgvmb_send_create_allocation sample_layout host_refuses 0 0
       (three_allocations false) None three_pointers three_infos
       device_batch_world).1.1
    = foldl (fun w e => add_event e w) device_batch_world evs /\
    (length (filter (fun e => is_rpc e = true) evs) <= 1)%nat /\
    forall c, EvRpc c ∈ evs ->
      exists msg_size result_size,
        c = DXGK_VMBCOMMAND_CREATEALLOCATION
              (arg_device (three_allocations false))
              (arg_resource (three_allocations false))
              (alloc_count (three_allocations false)) msg_size result_size.
Proof.
  exact (create_allocation_refused_changes_nothing sample_layout host_refuses
           0 0 (three_allocations false) None three_pointers three_infos
           device_batch_world host_refuses_negative).
Defined.

End RefusalSpec.
